(** * ScanGuard: scan orchestration and analysis engine

    A shallow embedding of the server side of the repository
    (port prober, vulnerability correlator, TLS grading, header scoring,
    cloud provider detection, the in-memory store and the scan
    orchestrator), followed by the properties of the specification that
    are stated about them.

    Conventions of the embedding
    - JavaScript numbers that the code only uses as integers (scores,
      ports, key sizes, millisecond time values) are [Z].
    - JavaScript strings are [string]; [toLowerCase] is modelled on the
      letters A-Z, which is all that a comparison against an ASCII
      literal can observe.
    - [T | undefined] and optional fields are [option T]; the JavaScript
      truthiness tests the code applies to them are written out
      ([truthy_str], [truthy_num]).
    - A [Date] is its time value in milliseconds.
    - Identifiers drawn from [randomUUID] are numbered in the order they
      are drawn, so every one of them is fresh.
    - Asynchronous code is written in a state-and-exception monad over
      the store; the URL parser, the clock and what the network answers
      form an explicit environment.  A computation of the monad runs
      without interruption; where the code starts a scan without
      awaiting it, the part that runs during the call and the part left
      to the event loop are two computations. *)

From stdpp Require Import gmap strings.
From Stdlib Require Import ZArith List String Ascii Bool Lia Permutation.
From Stdlib Require Import Numbers.DecimalString.
From Stdlib Require Numbers.DecimalZ.
Import ListNotations.

Local Open Scope string_scope.
Local Open Scope list_scope.
Local Open Scope Z_scope.

(** ** JavaScript primitives *)

Module JS.

(** [c.toLowerCase()] on one code unit. *)
Definition lower_ascii (c : ascii) : ascii :=
  let n := nat_of_ascii c in
  if ((65 <=? n)%nat && (n <=? 90)%nat)%bool then ascii_of_nat (n + 32) else c.

(** [s.toLowerCase()] *)
Fixpoint toLowerCase (s : string) : string :=
  match s with
  | EmptyString => EmptyString
  | String c r => String (lower_ascii c) (toLowerCase r)
  end.

(** [s.startsWith(p)] *)
Fixpoint startsWith (p s : string) : bool :=
  match p, s with
  | EmptyString, _ => true
  | String a p', String b s' => (Ascii.eqb a b && startsWith p' s')%bool
  | String _ _, EmptyString => false
  end.

(** [s.includes(sub)]: [sub] occurs at some position of [s]. *)
Fixpoint includes (s sub : string) : bool :=
  (startsWith sub s ||
   match s with
   | EmptyString => false
   | String _ r => includes r sub
   end)%bool.

(** Truthiness of a [string | undefined]: defined and not empty. *)
Definition truthy_str (o : option string) : bool :=
  match o with
  | Some s => negb (String.eqb s "")
  | None => false
  end.

(** Truthiness of a [number | undefined] holding an integer. *)
Definition truthy_num (o : option Z) : bool :=
  match o with
  | Some n => negb (n =? 0)
  | None => false
  end.

(** Truthiness of a [boolean | undefined]. *)
Definition truthy_bool (o : option bool) : bool :=
  match o with
  | Some b => b
  | None => false
  end.

(** [arr.includes(x)] on an array of strings. *)
Definition arr_includes (arr : list string) (x : string) : bool :=
  List.existsb (String.eqb x) arr.

(** [arr.includes(n)] on an array of integers. *)
Definition num_includes (arr : list Z) (n : Z) : bool :=
  List.existsb (Z.eqb n) arr.

(** [Math.ceil(a / b)] for integers [a] and [b > 0].  The code divides
    in floating point; for a difference of two time values and the
    number of milliseconds in a day the rounded quotient lies on the
    same side of every integer as the exact one, so the ceiling is that
    of the exact quotient. *)
Definition ceil_div (a b : Z) : Z := - ((- a) / b).

(** The double-quote character, as a one-character string. *)
Definition dquote : string := String (ascii_of_nat 34) EmptyString.

(** [s.match(re)] for a pattern without alternatives to backtrack
    into: the leftmost position at which [here] matches. *)
Fixpoint firstMatch {A : Type} (here : string -> option A) (s : string)
    : option A :=
  match here s with
  | Some m => Some m
  | None =>
      match s with
      | String _ rest => firstMatch here rest
      | EmptyString => None
      end
  end.

(** The longest prefix of [s] whose characters satisfy [p], and the rest. *)
Fixpoint span (p : ascii -> bool) (s : string) : string * string :=
  match s with
  | String c rest =>
      if p c then let '(run, tail) := span p rest in (String c run, tail)
      else (EmptyString, s)
  | EmptyString => (EmptyString, EmptyString)
  end.

Definition isDigit (c : ascii) : bool :=
  let n := nat_of_ascii c in ((48 <=? n)%nat && (n <=? 57)%nat)%bool.

Definition isLower (c : ascii) : bool :=
  let n := nat_of_ascii c in ((97 <=? n)%nat && (n <=? 122)%nat)%bool.

(** [parseInt(digits, 10)] on a run of decimal digits: the integer the
    digits denote.  [parseInt] gives that integer up to 2^53 and the
    nearest double beyond; the rounding is not modelled. *)
Definition parseDigits (digits : string) : Z :=
  List.fold_left
    (fun acc c => 10 * acc + (Z.of_nat (nat_of_ascii c) - 48))
    (list_ascii_of_string digits) 0.

(** [s.replace(pat, by)] for a string pattern: the first occurrence. *)
Fixpoint replaceFirst (pat by_ s : string) : string :=
  if startsWith pat s then
    String.append by_ (String.substring (String.length pat)
                         (String.length s - String.length pat) s)
  else
    match s with
    | EmptyString => EmptyString
    | String c rest => String c (replaceFirst pat by_ rest)
    end.

(** A thrown value: an [Error] with its message, or anything else. *)
Inductive Exn : Type :=
| JsError (message : string)
| Thrown (value : string).

(** [a || b] on strings that may be undefined. *)
Definition orElse (a b : option string) : option string :=
  if truthy_str a then a else b.

(** [s.trim()] *)
Definition isSpace (c : ascii) : bool :=
  let n := nat_of_ascii c in
  (((9 <=? n)%nat && (n <=? 13)%nat) || (n =? 32)%nat || (n =? 160)%nat)%bool.

Fixpoint trimStart (s : string) : string :=
  match s with
  | String c rest => if isSpace c then trimStart rest else s
  | EmptyString => EmptyString
  end.

Fixpoint trimEnd (s : string) : string :=
  match s with
  | String c rest =>
      match trimEnd rest with
      | EmptyString => if isSpace c then EmptyString else String c EmptyString
      | r => String c r
      end
  | EmptyString => EmptyString
  end.

Definition trim (s : string) : string := trimEnd (trimStart s).

(** [s.split(sep)] for a one-character separator. *)
Fixpoint split (sep : ascii) (s : string) : list string :=
  match s with
  | EmptyString => [EmptyString]
  | String c rest =>
      if Ascii.eqb c sep then EmptyString :: split sep rest
      else
        match split sep rest with
        | piece :: pieces => String c piece :: pieces
        | [] => [String c EmptyString]
        end
  end.

(** [s.slice(n)] *)
Fixpoint skip (n : nat) (s : string) : string :=
  match n, s with
  | O, _ => s
  | S n', String _ rest => skip n' rest
  | S _, EmptyString => EmptyString
  end.

(** [String(n)] for an integer [n]. *)
Definition num_to_string (n : Z) : string :=
  NilZero.string_of_int (Z.to_int n).

End JS.

(** ** TLS posture analyzer (ssl-analyzer) *)

Module Ssl.

(** The distinguished-name objects of a peer certificate, as far as
    [formatCertificateField] reads them. *)
Inductive CertField : Type :=
| FieldMissing
| FieldString (s : string)
| FieldObject (CN O OU C : option string) (json : string).

Record CertificateInfo : Type := {
  subject : CertField;
  issuer : CertField;
  valid_from : Z;
  valid_to : Z;          (* time value of [new Date(certInfo.valid_to)] *)
  fingerprint : string;
  serialNumber : string;
  sigalg : string;
  bits : option Z
}.

Record SslConfiguration : Type := {
  supportedProtocols : list string;
  supportedCiphers : list string
}.

Record SSLLabsGrade : Type := {
  grade : string;
  score : Z;
  vulnerabilities : list string
}.

Definition msPerDay : Z := 1000 * 60 * 60 * 24.

(** [calculateSslGrade(certInfo, sslConfig)]; [now] is the value of the
    [new Date()] the function takes. *)
Definition calculateSslGrade (now : Z) (certInfo : CertificateInfo)
    (sslConfig : SslConfiguration) : SSLLabsGrade :=
  let score := 100 in
  let vulnerabilities : list string := [] in
  let expiryDate := valid_to certInfo in
  let '(score, vulnerabilities) :=
    if expiryDate <=? now then
      (score - 50, vulnerabilities ++ ["Certificate has expired"])
    else
      let daysUntilExpiry := JS.ceil_div (expiryDate - now) msPerDay in
      if daysUntilExpiry <? 30 then
        (score - 20,
         vulnerabilities ++ ["Certificate expires soon (less than 30 days)"])
      else (score, vulnerabilities) in
  let '(score, vulnerabilities) :=
    if (JS.truthy_num (bits certInfo) &&
        match bits certInfo with Some b => b <? 2048 | None => false end)%bool
    then (score - 30, vulnerabilities ++ ["Weak key size (less than 2048 bits)"])
    else (score, vulnerabilities) in
  let '(score, vulnerabilities) :=
    if (JS.truthy_str (Some (sigalg certInfo)) &&
        JS.includes (JS.toLowerCase (sigalg certInfo)) "sha1")%bool
    then (score - 20, vulnerabilities ++ ["Weak signature algorithm (SHA-1)"])
    else (score, vulnerabilities) in
  let '(score, vulnerabilities) :=
    if (JS.arr_includes (supportedProtocols sslConfig) "TLSv1" ||
        JS.arr_includes (supportedProtocols sslConfig) "TLSv1.1")%bool
    then (score - 15, vulnerabilities ++ ["Supports deprecated TLS versions"])
    else (score, vulnerabilities) in
  let '(score, vulnerabilities) :=
    if negb (JS.arr_includes (supportedProtocols sslConfig) "TLSv1.3")
    then (score - 10, vulnerabilities ++ ["TLS 1.3 not supported"])
    else (score, vulnerabilities) in
  let grade :=
    if 95 <=? score then "A+"
    else if 90 <=? score then "A"
    else if 80 <=? score then "B"
    else if 70 <=? score then "C"
    else if 60 <=? score then "D"
    else "F" in
  {| grade := grade; score := Z.max 0 score; vulnerabilities := vulnerabilities |}.

(** [formatCertificateField(field)] *)
Definition formatCertificateField (field : CertField) : string :=
  match field with
  | FieldMissing => "Unknown"
  | FieldString s => if String.eqb s "" then "Unknown" else s
  | FieldObject cn o ou c json =>
      let part (label : string) (v : option string) : list string :=
        match v with
        | Some x => if JS.truthy_str v then [String.append label x] else []
        | None => []
        end in
      let parts := part "CN=" cn ++ part "O=" o ++ part "OU=" ou ++ part "C=" c in
      match parts with
      | [] => json
      | _ => String.concat ", " parts
      end
  end.

End Ssl.

(** ** Header policy analyzer (security-headers-analyzer), pure part *)

Module Headers.

Record Hsts : Type := {
  hsts_present : bool;
  hsts_maxAge : option Z;
  hsts_includeSubDomains : option bool;
  hsts_preload : option bool;
  hsts_value : option string
}.

Record Csp : Type := {
  csp_present : bool;
  csp_directives : list string;
  csp_value : option string;
  csp_hasUnsafeInline : option bool;
  csp_hasUnsafeEval : option bool
}.

Record ExpectCT : Type := {
  ect_present : bool;
  ect_maxAge : option Z;
  ect_enforce : option bool;
  ect_reportUri : option string;
  ect_value : option string
}.

Record SecurityHeadersAnalysis : Type := {
  hsts : option Hsts;
  csp : option Csp;
  xFrameOptions : option string;
  xContentTypeOptions : option string;
  xXSSProtection : option string;
  referrerPolicy : option string;
  permissionsPolicy : option string;
  expectCT : option ExpectCT;
  crossOriginEmbedderPolicy : option string;
  crossOriginOpenerPolicy : option string;
  crossOriginResourcePolicy : option string
}.

(** [analysis.hsts?.present] and [analysis.csp?.present] *)
Definition hstsPresent (analysis : SecurityHeadersAnalysis) : bool :=
  match hsts analysis with Some h => hsts_present h | None => false end.

Definition cspPresent (analysis : SecurityHeadersAnalysis) : bool :=
  match csp analysis with Some c => csp_present c | None => false end.

(** [!maxAge || maxAge < 31536000] *)
Definition shortMaxAge (maxAge : option Z) : bool :=
  (negb (JS.truthy_num maxAge) ||
   match maxAge with Some n => n <? 31536000 | None => false end)%bool.

(** [s.toLowerCase() === lit] for a string known to be defined. *)
Definition lowerIs (o : option string) (lit : string) : bool :=
  match o with
  | Some s => String.eqb (JS.toLowerCase s) lit
  | None => false
  end.

(** [s === lit] on a [string | undefined]. *)
Definition strictIs (o : option string) (lit : string) : bool :=
  match o with
  | Some s => String.eqb s lit
  | None => false
  end.

(** The blocks of [calculateSecurityScore], one per commented section of
    the function; each takes the running [score] and returns it updated. *)

(* HSTS (20 points) *)
Definition scoreHsts (analysis : SecurityHeadersAnalysis) (score : Z) : Z :=
  match hsts analysis with
  | Some h =>
      if negb (hsts_present h) then score - 20
      else
        let score := if shortMaxAge (hsts_maxAge h) then score - 5 else score in
        let score :=
          if negb (JS.truthy_bool (hsts_includeSubDomains h)) then score - 3
          else score in
        let score :=
          if negb (JS.truthy_bool (hsts_preload h)) then score - 2 else score in
        score
  | None => score - 20
  end.

(* CSP (25 points) *)
Definition scoreCsp (analysis : SecurityHeadersAnalysis) (score : Z) : Z :=
  match csp analysis with
  | Some c =>
      if negb (csp_present c) then score - 25
      else
        let score :=
          if JS.truthy_bool (csp_hasUnsafeInline c) then score - 8 else score in
        let score :=
          if JS.truthy_bool (csp_hasUnsafeEval c) then score - 7 else score in
        let score :=
          if Z.of_nat (List.length (csp_directives c)) <? 3 then score - 5
          else score in
        score
  | None => score - 25
  end.

(* X-Frame-Options (15 points) *)
Definition scoreXFrameOptions (analysis : SecurityHeadersAnalysis) (score : Z) : Z :=
  if negb (JS.truthy_str (xFrameOptions analysis)) then score - 15
  else if lowerIs (xFrameOptions analysis) "allowall" then score - 10
  else score.

(* X-Content-Type-Options (10 points) *)
Definition scoreXContentTypeOptions (analysis : SecurityHeadersAnalysis)
    (score : Z) : Z :=
  if (negb (JS.truthy_str (xContentTypeOptions analysis)) ||
      negb (lowerIs (xContentTypeOptions analysis) "nosniff"))%bool
  then score - 10 else score.

(* X-XSS-Protection (10 points) *)
Definition scoreXXSSProtection (analysis : SecurityHeadersAnalysis) (score : Z) : Z :=
  if negb (JS.truthy_str (xXSSProtection analysis)) then score - 10
  else if strictIs (xXSSProtection analysis) "0" then score - 5
  else score.

Definition weakPolicies : list string :=
  ["unsafe-url"; "no-referrer-when-downgrade"].

(* Referrer Policy (8 points) *)
Definition scoreReferrerPolicy (analysis : SecurityHeadersAnalysis) (score : Z) : Z :=
  if negb (JS.truthy_str (referrerPolicy analysis)) then score - 8
  else
    match referrerPolicy analysis with
    | Some p =>
        if JS.arr_includes weakPolicies (JS.toLowerCase p) then score - 4
        else score
    | None => score
    end.

(* Cross-Origin policies (12 points total) *)
Definition scoreCrossOrigin (analysis : SecurityHeadersAnalysis) (score : Z) : Z :=
  let score :=
    if negb (JS.truthy_str (crossOriginEmbedderPolicy analysis)) then score - 4
    else score in
  let score :=
    if negb (JS.truthy_str (crossOriginOpenerPolicy analysis)) then score - 4
    else score in
  let score :=
    if negb (JS.truthy_str (crossOriginResourcePolicy analysis)) then score - 4
    else score in
  score.

(* Calculate grade *)
Definition gradeOf (score : Z) : string :=
  if 95 <=? score then "A+"
  else if 85 <=? score then "A"
  else if 75 <=? score then "B"
  else if 65 <=? score then "C"
  else if 50 <=? score then "D"
  else "F".

(** [calculateSecurityScore(analysis)]: [(score, grade)] *)
Definition calculateSecurityScore (analysis : SecurityHeadersAnalysis)
    : Z * string :=
  let score := 100 in
  let score := scoreHsts analysis score in
  let score := scoreCsp analysis score in
  let score := scoreXFrameOptions analysis score in
  let score := scoreXContentTypeOptions analysis score in
  let score := scoreXXSSProtection analysis score in
  let score := scoreReferrerPolicy analysis score in
  let score := scoreCrossOrigin analysis score in
  let score := Z.max 0 score in
  let grade := gradeOf score in
  (score, grade).

(** [arr.push(x)] when [c] holds. *)
Definition pushIf (c : bool) (x : string) (arr : list string) : list string :=
  if c then arr ++ [x] else arr.

(** [identifyIssues(analysis)]: [(missingHeaders, weakHeaders)] *)
Definition identifyIssues (analysis : SecurityHeadersAnalysis)
    : list string * list string :=
  let missingHeaders : list string := [] in
  let weakHeaders : list string := [] in
  (* Check for missing headers *)
  let missingHeaders :=
    pushIf (negb (hstsPresent analysis)) "Strict-Transport-Security" missingHeaders in
  let missingHeaders :=
    pushIf (negb (cspPresent analysis)) "Content-Security-Policy" missingHeaders in
  let missingHeaders :=
    pushIf (negb (JS.truthy_str (xFrameOptions analysis)))
      "X-Frame-Options" missingHeaders in
  let missingHeaders :=
    pushIf (negb (JS.truthy_str (xContentTypeOptions analysis)))
      "X-Content-Type-Options" missingHeaders in
  let missingHeaders :=
    pushIf (negb (JS.truthy_str (xXSSProtection analysis)))
      "X-XSS-Protection" missingHeaders in
  let missingHeaders :=
    pushIf (negb (JS.truthy_str (referrerPolicy analysis)))
      "Referrer-Policy" missingHeaders in
  let missingHeaders :=
    pushIf (negb (JS.truthy_str (crossOriginEmbedderPolicy analysis)))
      "Cross-Origin-Embedder-Policy" missingHeaders in
  let missingHeaders :=
    pushIf (negb (JS.truthy_str (crossOriginOpenerPolicy analysis)))
      "Cross-Origin-Opener-Policy" missingHeaders in
  let missingHeaders :=
    pushIf (negb (JS.truthy_str (crossOriginResourcePolicy analysis)))
      "Cross-Origin-Resource-Policy" missingHeaders in
  (* Check for weak configurations *)
  let weakHeaders :=
    pushIf (hstsPresent analysis &&
            match hsts analysis with
            | Some h => shortMaxAge (hsts_maxAge h)
            | None => false
            end)%bool
      "HSTS max-age is less than 1 year" weakHeaders in
  let weakHeaders :=
    match csp analysis with
    | Some c =>
        if csp_present c then
          let weakHeaders :=
            pushIf (JS.truthy_bool (csp_hasUnsafeInline c))
              "CSP allows 'unsafe-inline'" weakHeaders in
          pushIf (JS.truthy_bool (csp_hasUnsafeEval c))
            "CSP allows 'unsafe-eval'" weakHeaders
        else weakHeaders
    | None => weakHeaders
    end in
  let weakHeaders :=
    pushIf (strictIs (xFrameOptions analysis) "ALLOWALL")
      "X-Frame-Options set to ALLOWALL" weakHeaders in
  let weakHeaders :=
    pushIf (strictIs (xXSSProtection analysis) "0")
      "X-XSS-Protection disabled" weakHeaders in
  (missingHeaders, weakHeaders).

End Headers.

(** ** Port prober and vulnerability correlator (routes) *)

Module Ports.

(** What [scanPort] resolves to. *)
Record PortResult : Type := {
  port : Z;
  state : string;
  service : option string;
  protocol : string
}.

(** A promise is settled at most once: the first [resolve] or [reject]
    wins and later calls are ignored. *)
Inductive Promise (A : Type) : Type :=
| Pending
| Resolved (v : A)
| Rejected (reason : JS.Exn).
Arguments Pending {A}.
Arguments Resolved {A} v.
Arguments Rejected {A} reason.

Definition resolve {A : Type} (v : A) (p : Promise A) : Promise A :=
  match p with
  | Pending => Resolved v
  | _ => p
  end.

(** The events a [net.Socket] emits that [scanPort] listens to. *)
Inductive SocketEvent : Type :=
| EvConnect
| EvTimeout
| EvError.

(** What [scanPort] asks of its socket, in order. *)
Inductive SocketCall : Type :=
| SetTimeout (ms : Z)
| Connect (port : Z) (host : string)
| Destroy.

(** [getServiceName(port)] *)
Definition services : list (Z * string) :=
  [ (21, "ftp"); (22, "ssh"); (23, "telnet"); (25, "smtp"); (53, "dns");
    (80, "http"); (110, "pop3"); (143, "imap"); (443, "https");
    (993, "imaps"); (995, "pop3s"); (3389, "rdp"); (5432, "postgresql");
    (3306, "mysql"); (6379, "redis"); (27017, "mongodb") ].

Definition getServiceName (port : Z) : string :=
  match List.find (fun e => fst e =? port) services with
  | Some (_, name) => name
  | None => "unknown"
  end.

(** [getRiskLevel(port, service)] *)
Definition getRiskLevel (port : Z) (service : string) : string :=
  if JS.num_includes [21; 23; 513; 514; 515; 79; 111] port then "high"
  else if JS.num_includes [22; 3389; 5432; 3306; 6379; 27017] port then "medium"
  else if JS.num_includes [80; 443] port then "low"
  else "medium".

(** The three listeners [scanPort] registers: the socket calls each one
    makes and the way it settles the promise. *)
Definition onEvent (port : Z) (ev : SocketEvent)
    (st : list SocketCall * Promise PortResult)
    : list SocketCall * Promise PortResult :=
  let '(calls, p) := st in
  match ev with
  | EvConnect =>
      (calls ++ [Destroy],
       resolve {| port := port; state := "open";
                  service := Some (getServiceName port);
                  protocol := "tcp" |} p)
  | EvTimeout =>
      (calls ++ [Destroy],
       resolve {| port := port; state := "filtered";
                  service := None; protocol := "tcp" |} p)
  | EvError =>
      (calls,
       resolve {| port := port; state := "closed";
                  service := None; protocol := "tcp" |} p)
  end.

(** [socket.setTimeout(timeout)] throws a range error on a negative
    duration, and [socket.connect(port, host)] on a port outside 0..65535.
    Port numbers and durations are integers here, as the ones the
    orchestrator passes are. *)
Definition validTimeout (timeout : Z) : bool := 0 <=? timeout.

Definition validPort (port : Z) : bool := (0 <=? port) && (port <=? 65535).

(** The errors Node throws there, named by their codes. *)
Definition timeoutOutOfRange : JS.Exn := JS.JsError "ERR_OUT_OF_RANGE".

Definition badPort : JS.Exn := JS.JsError "ERR_SOCKET_BAD_PORT".

(** [scanPort(host, port, timeout)] against a socket that emits
    [events]: the calls made on the socket and the promise returned.  The
    body runs inside the promise executor, so what it throws rejects the
    promise: a throw of [setTimeout] comes before any listener is
    registered, a throw of [connect] after the three of them are, with the
    promise already rejected when they run. *)
Definition scanPortOn (events : list SocketEvent) (host : string) (port : Z)
    (timeout : Z) : list SocketCall * Promise PortResult :=
  if validTimeout timeout then
    List.fold_left (fun st ev => onEvent port ev st) events
      ([SetTimeout timeout; Connect port host],
       if validPort port then Pending else Rejected badPort)
  else ([SetTimeout timeout], Rejected timeoutOutOfRange).

Definition defaultTimeout : Z := 3000.

(** A vulnerability record as [analyzeVulnerabilities] pushes it. *)
Record VulnTemplate : Type := {
  title : string;
  description : string;
  severity : string;
  recommendation : string
}.

Definition sshExposed : VulnTemplate :=
  {| title := "SSH Service Exposed";
     description := "SSH service is publicly accessible. Ensure strong authentication and consider restricting access.";
     severity := "medium";
     recommendation := "Use key-based authentication, disable root login, and consider IP whitelisting." |}.

Definition ftpDetected : VulnTemplate :=
  {| title := "FTP Service Detected";
     description := "FTP service detected. FTP transmits credentials in plain text.";
     severity := "high";
     recommendation := "Replace FTP with SFTP or FTPS for secure file transfers." |}.

Definition telnetExposed : VulnTemplate :=
  {| title := "Telnet Service Exposed";
     description := "Telnet service detected. Telnet transmits data in plain text.";
     severity := "high";
     recommendation := "Replace Telnet with SSH for secure remote access." |}.

Definition databaseExposed (port : Z) : VulnTemplate :=
  {| title := "Database Service Exposed";
     description :=
       String.append "Database service on port "
         (String.append (JS.num_to_string port) " is publicly accessible.");
     severity := "high";
     recommendation := "Restrict database access to trusted networks only and ensure strong authentication." |}.

(** The body of the loop of [analyzeVulnerabilities] for one result. *)
Definition checkResult (vulnerabilities : list VulnTemplate)
    (result : PortResult) : list VulnTemplate :=
  if String.eqb (state result) "open" then
    let vulnerabilities :=
      if port result =? 22 then vulnerabilities ++ [sshExposed]
      else vulnerabilities in
    let vulnerabilities :=
      if port result =? 21 then vulnerabilities ++ [ftpDetected]
      else vulnerabilities in
    let vulnerabilities :=
      if port result =? 23 then vulnerabilities ++ [telnetExposed]
      else vulnerabilities in
    let vulnerabilities :=
      if JS.num_includes [3306; 5432; 27017; 6379] (port result)
      then vulnerabilities ++ [databaseExposed (port result)]
      else vulnerabilities in
    vulnerabilities
  else vulnerabilities.

(** [analyzeVulnerabilities(scanResults)] *)
Definition analyzeVulnerabilities (scanResults : list PortResult)
    : list VulnTemplate :=
  List.fold_left checkResult scanResults [].

(** The ports the correlator has a rule for. *)
Definition ruleTableKeys : list Z := [21; 22; 23; 3306; 5432; 27017; 6379].

End Ports.

(** ** Cloud provider detector (cloud-security-analyzer) *)

Module Cloud.

(** *** The regular expressions of the provider table

    Every pattern of [CLOUD_PROVIDERS] has the shape [/body$/] with a
    body built from literal characters, [.] and [.*]. *)
Inductive Re : Type :=
| ReNone
| ReEps
| ReChar (c : ascii)
| ReAny
| ReStar (r : Re)
| ReCat (r1 r2 : Re)
| ReAlt (r1 r2 : Re).

Fixpoint nullable (r : Re) : bool :=
  match r with
  | ReNone => false
  | ReEps => true
  | ReChar _ => false
  | ReAny => false
  | ReStar _ => true
  | ReCat r1 r2 => (nullable r1 && nullable r2)%bool
  | ReAlt r1 r2 => (nullable r1 || nullable r2)%bool
  end.

(** [.] matches every code unit but a line terminator. *)
Definition lineTerminator (c : ascii) : bool :=
  (Ascii.eqb c "010" || Ascii.eqb c "013")%bool.

Fixpoint deriv (c : ascii) (r : Re) : Re :=
  match r with
  | ReNone => ReNone
  | ReEps => ReNone
  | ReChar a => if Ascii.eqb a c then ReEps else ReNone
  | ReAny => if lineTerminator c then ReNone else ReEps
  | ReStar r1 => ReCat (deriv c r1) (ReStar r1)
  | ReCat r1 r2 =>
      if nullable r1 then ReAlt (ReCat (deriv c r1) r2) (deriv c r2)
      else ReCat (deriv c r1) r2
  | ReAlt r1 r2 => ReAlt (deriv c r1) (deriv c r2)
  end.

(** [r] matches exactly the whole of [s]. *)
Fixpoint matchesAll (r : Re) (s : string) : bool :=
  match s with
  | EmptyString => nullable r
  | String c rest => matchesAll (deriv c r) rest
  end.

(** [/r$/.test(s)]: [r] matches from some position up to the end. *)
Fixpoint test (r : Re) (s : string) : bool :=
  (matchesAll r s ||
   match s with
   | EmptyString => false
   | String _ rest => test r rest
   end)%bool.

(** A run of literal characters. *)
Fixpoint lit (s : string) : Re :=
  match s with
  | EmptyString => ReEps
  | String c rest => ReCat (ReChar c) (lit rest)
  end.

(** [.*] followed by a literal. *)
Definition anyThen (s : string) : Re := ReCat (ReStar ReAny) (lit s).

Record CloudProvider : Type := {
  name : string;
  patterns : list Re
}.

Definition CLOUD_PROVIDERS : list CloudProvider :=
  [ {| name := "aws";
       patterns :=
         [ lit ".amazonaws.com";
           lit ".aws.com";
           anyThen ".elasticbeanstalk.com";
           anyThen ".elb.amazonaws.com";
           anyThen ".s3.amazonaws.com";
           anyThen ".cloudfront.net";
           ReCat (anyThen ".execute-api.") (anyThen ".amazonaws.com") ] |};
    {| name := "azure";
       patterns :=
         [ lit ".azure.com";
           lit ".azurewebsites.net";
           lit ".windows.net";
           lit ".cloudapp.net";
           lit ".azureedge.net";
           lit ".azurecontainer.io";
           lit ".database.windows.net" ] |};
    {| name := "gcp";
       patterns :=
         [ lit ".googleapis.com";
           lit ".googleusercontent.com";
           lit ".appspot.com";
           lit ".cloudfunctions.net";
           lit ".run.app";
           lit ".storage.googleapis.com";
           anyThen ".googlehosted.com" ] |};
    {| name := "digitalocean";
       patterns :=
         [ lit ".digitaloceanspaces.com";
           anyThen ".ondigitalocean.app";
           anyThen ".do.dev" ] |};
    {| name := "cloudflare";
       patterns :=
         [ lit ".cloudflare.com";
           anyThen ".workers.dev";
           anyThen ".pages.dev" ] |};
    {| name := "vercel";
       patterns := [ anyThen ".vercel.app"; anyThen ".now.sh" ] |};
    {| name := "netlify";
       patterns := [ anyThen ".netlify.app"; anyThen ".netlify.com" ] |} ].

Inductive Severity : Type :=
| low
| medium
| high
| critical.

Definition severity_eqb (a b : Severity) : bool :=
  match a, b with
  | low, low | medium, medium | high, high | critical, critical => true
  | _, _ => false
  end.

Record CloudSecurityFinding : Type := {
  id : string;
  severity : Severity;
  title : string;
  description : string;
  recommendation : string;
  complianceFramework : option (list string)
}.

Record CloudResourceAnalysis : Type := {
  provider : string;
  resourceType : string;
  resourceId : string;
  region : option string;
  findings : list CloudSecurityFinding;
  score : Z;
  riskLevel : Severity
}.

(** [inferResourceType(hostname, provider)] *)
Definition inferResourceType (hostname provider : string) : string :=
  if String.eqb provider "aws" then
    if JS.includes hostname "s3" then "storage"
    else if (JS.includes hostname "elb" || JS.includes hostname "loadbalancer")%bool
         then "loadbalancer"
    else if JS.includes hostname "rds" then "database"
    else if JS.includes hostname "cloudfront" then "cdn"
    else if JS.includes hostname "execute-api" then "api-gateway"
    else if JS.includes hostname "elasticbeanstalk" then "application"
    else "compute"
  else if String.eqb provider "azure" then
    if JS.includes hostname "azurewebsites" then "webapp"
    else if JS.includes hostname "database" then "database"
    else if JS.includes hostname "storage" then "storage"
    else if JS.includes hostname "cloudapp" then "compute"
    else if JS.includes hostname "azureedge" then "cdn"
    else "application"
  else if String.eqb provider "gcp" then
    if JS.includes hostname "storage" then "storage"
    else if JS.includes hostname "appspot" then "appengine"
    else if JS.includes hostname "cloudfunctions" then "functions"
    else if JS.includes hostname "run.app" then "cloudrun"
    else "compute"
  else "application".

(** The two nested loops of [detectCloudProvider] over the table: the
    first provider, in table order, one of whose patterns matches. *)
Definition matchProviders (hostname : string)
    : option (string * string) :=
  match List.find (fun p => List.existsb (fun pat => test pat hostname) (patterns p))
          CLOUD_PROVIDERS with
  | Some p => Some (name p, inferResourceType hostname (name p))
  | None => None
  end.

(** The loop over the reverse hostnames in the DNS fallback. *)
Fixpoint matchReverse (reverseHostnames : list string)
    : option (string * string) :=
  match reverseHostnames with
  | [] => None
  | h :: rest =>
      match matchProviders h with
      | Some r => Some r
      | None => matchReverse rest
      end
  end.

(** What the resolver answers: [dnsLookup] gives an address or rejects,
    [dnsReverse] gives host names or rejects. *)
Record Dns : Type := {
  dnsLookup : string -> option string;
  dnsReverse : string -> option (list string)
}.

(** [detectCloudProvider(hostname)]: [(provider, resourceType)] or null. *)
Definition detectCloudProvider (dns : Dns) (hostname : string)
    : option (string * string) :=
  match matchProviders hostname with
  | Some r => Some r
  | None =>
      (* try { ... } catch { } around the DNS-based detection *)
      match dnsLookup dns hostname with
      | Some address =>
          match dnsReverse dns address with
          | Some reverseHostnames => matchReverse reverseHostnames
          | None => None
          end
      | None => None
      end
  end.

(** [analyzeAWSResource(resourceType, hostname, url)] *)
Definition analyzeAWSResource (resourceType hostname url : string)
    : list CloudSecurityFinding :=
  let findings : list CloudSecurityFinding := [] in
  let findings :=
    if (String.eqb resourceType "storage" && JS.includes hostname "s3")%bool then
      findings ++
      [ {| id := "aws-s3-public-access";
           severity := high;
           title := "S3 Bucket Public Access";
           description := "S3 bucket appears to be publicly accessible via direct URL";
           recommendation := "Review bucket policy and ACLs. Implement least privilege access and consider using CloudFront for public content.";
           complianceFramework := Some ["CIS"; "AWS-Foundational"] |} ]
    else findings in
  let findings :=
    if (String.eqb resourceType "cdn" && JS.includes hostname "cloudfront")%bool then
      findings ++
      [ {| id := "aws-cloudfront-security-headers";
           severity := medium;
           title := "CloudFront Security Headers";
           description := "Verify that CloudFront distribution includes security headers";
           recommendation := "Configure CloudFront to add security headers like HSTS, CSP, X-Content-Type-Options";
           complianceFramework := Some ["OWASP"; "CIS"] |} ]
    else findings in
  let findings :=
    if String.eqb resourceType "loadbalancer" then
      findings ++
      [ {| id := "aws-elb-ssl-policy";
           severity := medium;
           title := "Load Balancer SSL Policy";
           description := "Ensure load balancer uses strong SSL/TLS policy";
           recommendation := "Configure ELB to use predefined security policy ELBSecurityPolicy-TLS-1-2-2017-01 or newer";
           complianceFramework := Some ["CIS"; "PCI-DSS"] |} ]
    else findings in
  findings.

(** [analyzeAzureResource(resourceType, hostname, url)] *)
Definition analyzeAzureResource (resourceType hostname url : string)
    : list CloudSecurityFinding :=
  let findings : list CloudSecurityFinding := [] in
  let findings :=
    if String.eqb resourceType "webapp" then
      findings ++
      [ {| id := "azure-webapp-https";
           severity := high;
           title := "Azure Web App HTTPS Enforcement";
           description := "Verify HTTPS-only access is enforced for Azure Web App";
           recommendation :=
             String.concat JS.dquote
               ["Enable "; "HTTPS Only";
                " setting in Azure portal and redirect HTTP to HTTPS"];
           complianceFramework := Some ["CIS"; "Azure-Security-Benchmark"] |};
        {| id := "azure-webapp-managed-identity";
           severity := medium;
           title := "Managed Identity Configuration";
           description := "Consider using Azure Managed Identity for secure resource access";
           recommendation := "Enable system-assigned managed identity to eliminate stored credentials";
           complianceFramework := Some ["Azure-Security-Benchmark"] |} ]
    else findings in
  let findings :=
    if String.eqb resourceType "storage" then
      findings ++
      [ {| id := "azure-storage-access";
           severity := high;
           title := "Azure Storage Account Security";
           description := "Review storage account access configuration";
           recommendation := "Disable public blob access and use private endpoints where possible";
           complianceFramework := Some ["CIS"; "Azure-Security-Benchmark"] |} ]
    else findings in
  findings.

(** [analyzeGCPResource(resourceType, hostname, url)] *)
Definition analyzeGCPResource (resourceType hostname url : string)
    : list CloudSecurityFinding :=
  let findings : list CloudSecurityFinding := [] in
  let findings :=
    if String.eqb resourceType "appengine" then
      findings ++
      [ {| id := "gcp-appengine-security";
           severity := medium;
           title := "App Engine Security Configuration";
           description := "Review App Engine security settings and IAM policies";
           recommendation := "Implement least privilege IAM roles and enable audit logging";
           complianceFramework := Some ["CIS"; "GCP-Security-Benchmark"] |} ]
    else findings in
  let findings :=
    if String.eqb resourceType "storage" then
      findings ++
      [ {| id := "gcp-storage-bucket-policy";
           severity := high;
           title := "Cloud Storage Bucket Policy";
           description := "Verify bucket access controls and public access prevention";
           recommendation := "Enable uniform bucket-level access and review bucket IAM policies";
           complianceFramework := Some ["CIS"; "GCP-Security-Benchmark"] |} ]
    else findings in
  let findings :=
    if String.eqb resourceType "cloudrun" then
      findings ++
      [ {| id := "gcp-cloudrun-auth";
           severity := medium;
           title := "Cloud Run Authentication";
           description := "Ensure proper authentication is configured for Cloud Run services";
           recommendation := "Configure IAM authentication and avoid allowing unauthenticated access";
           complianceFramework := Some ["GCP-Security-Benchmark"] |} ]
    else findings in
  findings.

(** [analyzeGenericCloudResource(resourceType, hostname, url)] *)
Definition analyzeGenericCloudResource (resourceType hostname url : string)
    : list CloudSecurityFinding :=
  [ {| id := "cloud-https-enforcement";
       severity := medium;
       title := "HTTPS Enforcement";
       description := "Verify that HTTPS is properly enforced for cloud resources";
       recommendation := "Configure automatic HTTPS redirect and use strong TLS configuration";
       complianceFramework := Some ["OWASP"; "General"] |};
    {| id := "cloud-access-logging";
       severity := low;
       title := "Access Logging";
       description := "Ensure comprehensive access logging is enabled";
       recommendation := "Enable access logs and integrate with SIEM for monitoring";
       complianceFramework := Some ["General"] |} ].

(** The [findings.forEach] of [performCloudSecurityAnalysis] followed by
    [score = Math.max(0, score)]. *)
Definition scoreFindings (findings : list CloudSecurityFinding) : Z :=
  let score := 100 in
  let score :=
    List.fold_left
      (fun score finding =>
         match severity finding with
         | critical => score - 25
         | high => score - 15
         | medium => score - 10
         | low => score - 5
         end)
      findings score in
  Z.max 0 score.

(** [findings.filter(f => f.severity === s).length] *)
Definition countSeverity (s : Severity) (findings : list CloudSecurityFinding) : Z :=
  Z.of_nat (List.length (List.filter (fun f => severity_eqb (severity f) s) findings)).

(** "Determine overall risk level" of [performCloudSecurityAnalysis]. *)
Definition overallRiskLevel (findings : list CloudSecurityFinding) : Severity :=
  let criticalCount := countSeverity critical findings in
  let highCount := countSeverity high findings in
  if 0 <? criticalCount then critical
  else if 2 <? highCount then high
  else if ((0 <? highCount) || (3 <? countSeverity medium findings))%bool then medium
  else low.

(** *** [extractRegion] *)

(** A match of [[a-z]{2}-[a-z]+-\d] at the head of [s].  The greedy
    [[a-z]+] takes the whole run of letters: the [-] that must follow
    is not a letter, so no shorter run can succeed where it fails. *)
Definition awsRegionHere (s : string) : option string :=
  match s with
  | String a (String b (String sep rest)) =>
      if (JS.isLower a && JS.isLower b && Ascii.eqb sep "-")%bool then
        match JS.span JS.isLower rest with
        | (String r0 run, String sep2 (String d _)) =>
            if (Ascii.eqb sep2 "-" && JS.isDigit d)%bool then
              Some (String a (String b (String sep
                      (String.append (String r0 run)
                         (String sep2 (String d EmptyString))))))
            else None
        | _ => None
        end
      else None
  | _ => None
  end.

(** An alternation of literals at the head of [s], first alternative first. *)
Definition oneOfHere (alts : list string) (s : string) : option string :=
  List.find (fun a => JS.startsWith a s) alts.

(** [extractRegion(hostname, provider)] *)
Definition extractRegion (hostname provider : string) : option string :=
  if String.eqb provider "aws" then JS.firstMatch awsRegionHere hostname
  else if String.eqb provider "azure" then
    JS.firstMatch
      (oneOfHere ["eastus"; "westus"; "centralus"; "northeurope"; "westeurope";
                  "southeastasia"; "eastasia"])
      hostname
  else if String.eqb provider "gcp" then
    JS.firstMatch
      (oneOfHere ["us-central1"; "us-east1"; "us-west1"; "europe-west1";
                  "asia-east1"])
      hostname
  else None.

(** [performCloudSecurityAnalysis(cloudInfo, hostname, url)] *)
Definition performCloudSecurityAnalysis (cloudInfo : string * string)
    (hostname url : string) : CloudResourceAnalysis :=
  let '(cloudProvider, cloudResourceType) := cloudInfo in
  let findings :=
    if String.eqb cloudProvider "aws" then
      analyzeAWSResource cloudResourceType hostname url
    else if String.eqb cloudProvider "azure" then
      analyzeAzureResource cloudResourceType hostname url
    else if String.eqb cloudProvider "gcp" then
      analyzeGCPResource cloudResourceType hostname url
    else analyzeGenericCloudResource cloudResourceType hostname url in
  let score := scoreFindings findings in
  let riskLevel := overallRiskLevel findings in
  {| provider := cloudProvider;
     resourceType := cloudResourceType;
     resourceId := hostname;
     region := extractRegion hostname cloudProvider;
     findings := findings;
     score := score;
     riskLevel := riskLevel |}.

(** Detection followed by analysis, as [analyzeCloudSecurity] chains
    them for a host name. *)
Definition analyzeHost (dns : Dns) (hostname url : string)
    : option CloudResourceAnalysis :=
  match detectCloudProvider dns hostname with
  | Some cloudInfo => Some (performCloudSecurityAnalysis cloudInfo hostname url)
  | None => None
  end.

End Cloud.


(** ** Shared schema (the records the store keeps) *)

Module Schema.

(** The [results] summary [performScan] writes on completion. *)
Record ScanSummary : Type := {
  totalPorts : Z;
  openPorts : Z;
  vulnerabilitiesFound : Z;
  sslAnalyzed : bool;
  securityHeadersAnalyzed : bool
}.

(** A row of [scans].  Identifiers come from [randomUUID]; the model
    numbers them in the order they are drawn. *)
Record Scan : Type := {
  id : nat;
  url : string;
  status : string;                 (* pending, running, completed, failed *)
  results : option ScanSummary;
  createdAt : option Z;
  completedAt : option Z;
  errorMessage : option string
}.

(** [Partial<Scan>] as [updateScan] receives it: the fields to overwrite. *)
Record ScanUpdates : Type := {
  new_status : option string;
  new_results : option ScanSummary;
  new_completedAt : option Z;
  new_errorMessage : option string
}.

Record InsertScanResult : Type := {
  sr_scanId : nat;
  sr_port : Z;
  sr_protocol : string;
  sr_service : option string;
  sr_version : option string;
  sr_state : string;
  sr_riskLevel : option string
}.

Record InsertVulnerability : Type := {
  v_scanId : nat;
  v_title : string;
  v_description : string;
  v_severity : string;
  v_cve : option string;
  v_cvssScore : option string;
  v_recommendation : option string
}.

Record InsertSslAnalysis : Type := {
  ssl_scanId : nat;
  ssl_hostname : string;
  certificateValid : bool;
  certificateExpiry : option Z;
  issuer : option string;
  subject : option string;
  signatureAlgorithm : option string;
  keySize : option Z;
  protocolVersions : list string;
  cipherSuites : list string;
  grade : string;
  hasHSTS : bool;
  vulnerabilities : list string;
  score : Z;
  daysUntilExpiry : option Z
}.

Record InsertSecurityHeaders : Type := {
  sh_scanId : nat;
  sh_hostname : string;
  sh_hsts : option Headers.Hsts;
  sh_csp : option Headers.Csp;
  sh_xFrameOptions : option string;
  sh_xContentTypeOptions : option string;
  sh_xXSSProtection : option string;
  sh_referrerPolicy : option string;
  sh_permissionsPolicy : option string;
  sh_expectCT : option Headers.ExpectCT;
  sh_crossOriginEmbedderPolicy : option string;
  sh_crossOriginOpenerPolicy : option string;
  sh_crossOriginResourcePolicy : option string;
  securityScore : Z;
  sh_grade : string;
  missingHeaders : list string;
  weakHeaders : list string
}.

(** A stored child record: the inserted fields and the identifier the
    store gave it. *)
Record Row (A : Type) : Type := {
  row_id : nat;
  row : A
}.
Arguments row_id {A} r.
Arguments row {A} r.

End Schema.

(** ** Effects: the environment, the world and the monad of async code *)

Module Eff.

(** [new URL(url)], as far as the code reads the result. *)
Record URLRecord : Type := {
  protocol : string;
  hostname : string;
  port : string;
  pathname : string;
  search : string
}.

(** A header value of [res.headers], the object in which Node delivers
    the response headers: one entry per name, the names in lower case. *)
Inductive HeaderValue : Type :=
| Single (v : string)
| Multi (vs : list string).

(** The decisive event of the [https.request] of [getCertificateInfo]. *)
Inductive CertOutcome : Type :=
| CertResponse (certificate : option Ssl.CertificateInfo)
| CertError (e : JS.Exn)
| CertTimeout.

(** The decisive event of the [tls.connect] of [testTlsProtocol]. *)
Inductive TlsOutcome : Type :=
| TlsConnectThrows (e : JS.Exn)
| TlsSecureConnect
| TlsError
| TlsTimeout.

(** The decisive event of the [tls.connect] of [getCipherSuites]. *)
Inductive CipherOutcome : Type :=
| CipherSecureConnect (cipherName : option string)
| CipherError
| CipherTimeout.

(** The decisive event of a HEAD request. *)
Inductive HeadOutcome : Type :=
| HeadResponse (headers : list (string * HeaderValue))
| HeadError (e : JS.Exn)
| HeadTimeout.

(** Everything the code obtains from outside the process. *)
Record Env : Type := {
  parseURL : string -> option URLRecord;     (* None: [new URL] throws *)
  clock : nat -> Z;                          (* the n-th [new Date()] *)
  socketEvents : string -> Z -> Ports.SocketEvent * list Ports.SocketEvent;
  certRequest : string -> CertOutcome;
  tlsConnect : string -> string -> TlsOutcome;
  cipherConnect : string -> CipherOutcome;
  hstsRequest : string -> HeadOutcome;
  headRequest : bool -> string -> string -> string -> HeadOutcome
}.

(** [MemStorage]: the [scans] map, and the child maps as the list of
    their values in insertion order (every key is a fresh identifier). *)
Record MemStorage : Type := {
  scans : gmap nat Schema.Scan;
  scanResults : list (Schema.Row Schema.InsertScanResult);
  vulnerabilities : list (Schema.Row Schema.InsertVulnerability);
  sslAnalyses : list (Schema.Row Schema.InsertSslAnalysis);
  securityHeaders : list (Schema.Row Schema.InsertSecurityHeaders)
}.

(** What an observer of the run can see happen, in order. *)
Inductive Action : Type :=
| ScanCreated (scanId : nat)
| StatusWritten (scanId : nat) (status : string)
| ProbeStarted (host : string) (port : Z)
| ChildWritten (scanId : nat) (table : string).

Record World : Type := {
  storage : MemStorage;
  uuids : nat;               (* identifiers drawn so far *)
  clockReads : nat;          (* [new Date()] calls so far *)
  journal : list Action
}.

(** How an awaited computation ends: with a value, with a thrown value,
    or never (a promise nobody settles). *)
Inductive Outcome (A : Type) : Type :=
| Ok (a : A)
| Throw (e : JS.Exn)
| Never.
Arguments Ok {A} a.
Arguments Throw {A} e.
Arguments Never {A}.

Definition M (A : Type) : Type := World -> Outcome A * World.

Definition ret {A : Type} (a : A) : M A := fun w => (Ok a, w).

Definition throw {A : Type} (e : JS.Exn) : M A := fun w => (Throw e, w).

Definition bind {A B : Type} (c : M A) (k : A -> M B) : M B :=
  fun w =>
    match c w with
    | (Ok a, w') => k a w'
    | (Throw e, w') => (Throw e, w')
    | (Never, w') => (Never, w')
    end.

(** [try { body } catch (error) { handler }] *)
Definition tryCatch {A : Type} (body : M A) (handler : JS.Exn -> M A) : M A :=
  fun w =>
    match body w with
    | (Ok a, w') => (Ok a, w')
    | (Throw e, w') => handler e w'
    | (Never, w') => (Never, w')
    end.

Definition modify (f : World -> World) : M unit := fun w => (Ok tt, f w).

Definition gets {A : Type} (f : World -> A) : M A := fun w => (Ok (f w), w).

(** A [for ... of] loop with an [await] in its body. *)
Fixpoint forEach {A : Type} (l : list A) (body : A -> M unit) : M unit :=
  match l with
  | [] => ret tt
  | x :: rest => bind (body x) (fun _ => forEach rest body)
  end.

Definition setStorage (s : MemStorage) (w : World) : World :=
  {| storage := s; uuids := uuids w; clockReads := clockReads w;
     journal := journal w |}.

Definition record (a : Action) : M unit :=
  modify (fun w =>
    {| storage := storage w; uuids := uuids w; clockReads := clockReads w;
       journal := journal w ++ [a] |}).

(** [randomUUID()] *)
Definition randomUUID : M nat :=
  fun w =>
    (Ok (uuids w),
     {| storage := storage w; uuids := S (uuids w);
        clockReads := clockReads w; journal := journal w |}).

(** [new Date()] *)
Definition newDate (env : Env) : M Z :=
  fun w =>
    (Ok (clock env (clockReads w)),
     {| storage := storage w; uuids := uuids w;
        clockReads := S (clockReads w); journal := journal w |}).

End Eff.

Declare Scope eff_scope.
Delimit Scope eff_scope with eff.
Notation "x <- c ;; k" := (Eff.bind c (fun x => k))
  (at level 100, c at next level, right associativity) : eff_scope.
Notation "c ;;; k" := (Eff.bind c (fun _ => k))
  (at level 100, right associativity) : eff_scope.
Local Open Scope eff_scope.

(** ** The in-memory store (storage)

    [MemStorage] in its version with the TLS and header tables, which is
    the one the routes call; the orchestrator does not use its cloud
    table. *)

Module Storage.
Import Eff.

(** [createScan(insertScan)] *)
Definition createScan (env : Env) (insertUrl : string) : M Schema.Scan :=
  id <- randomUUID ;;
  now <- newDate env ;;
  let scan :=
    {| Schema.id := id;
       Schema.url := insertUrl;
       Schema.status := "pending";
       Schema.results := None;
       Schema.createdAt := Some now;
       Schema.completedAt := None;
       Schema.errorMessage := None |} in
  modify (fun w =>
    let s := storage w in
    setStorage
      {| scans := <[id := scan]> (scans s);
         scanResults := scanResults s;
         vulnerabilities := vulnerabilities s;
         sslAnalyses := sslAnalyses s;
         securityHeaders := securityHeaders s |} w) ;;;
  record (ScanCreated id) ;;;
  ret scan.

(** [getScan(id)] *)
Definition getScan (id : nat) : M (option Schema.Scan) :=
  gets (fun w => scans (storage w) !! id).

(** [{ ...scan, ...updates }] *)
Definition applyUpdates (scan : Schema.Scan) (updates : Schema.ScanUpdates)
    : Schema.Scan :=
  {| Schema.id := Schema.id scan;
     Schema.url := Schema.url scan;
     Schema.status :=
       match Schema.new_status updates with
       | Some s => s
       | None => Schema.status scan
       end;
     Schema.results :=
       match Schema.new_results updates with
       | Some r => Some r
       | None => Schema.results scan
       end;
     Schema.createdAt := Schema.createdAt scan;
     Schema.completedAt :=
       match Schema.new_completedAt updates with
       | Some d => Some d
       | None => Schema.completedAt scan
       end;
     Schema.errorMessage :=
       match Schema.new_errorMessage updates with
       | Some m => Some m
       | None => Schema.errorMessage scan
       end |}.

(** [updateScan(id, updates)] *)
Definition updateScan (id : nat) (updates : Schema.ScanUpdates)
    : M (option Schema.Scan) :=
  scan <- getScan id ;;
  match scan with
  | None => ret None
  | Some scan =>
      let updatedScan := applyUpdates scan updates in
      modify (fun w =>
        let s := storage w in
        setStorage
          {| scans := <[id := updatedScan]> (scans s);
             scanResults := scanResults s;
             vulnerabilities := vulnerabilities s;
             sslAnalyses := sslAnalyses s;
             securityHeaders := securityHeaders s |} w) ;;;
      match Schema.new_status updates with
      | Some st => record (StatusWritten id st)
      | None => ret tt
      end ;;;
      ret (Some updatedScan)
  end.

(** [addScanResult(result)] *)
Definition addScanResult (result : Schema.InsertScanResult)
    : M (Schema.Row Schema.InsertScanResult) :=
  id <- randomUUID ;;
  let scanResult := {| Schema.row_id := id; Schema.row := result |} in
  modify (fun w =>
    let s := storage w in
    setStorage
      {| scans := scans s;
         scanResults := scanResults s ++ [scanResult];
         vulnerabilities := vulnerabilities s;
         sslAnalyses := sslAnalyses s;
         securityHeaders := securityHeaders s |} w) ;;;
  record (ChildWritten (Schema.sr_scanId result) "scanResults") ;;;
  ret scanResult.

(** [addVulnerability(vulnerability)] *)
Definition addVulnerability (vulnerability : Schema.InsertVulnerability)
    : M (Schema.Row Schema.InsertVulnerability) :=
  id <- randomUUID ;;
  let vuln := {| Schema.row_id := id; Schema.row := vulnerability |} in
  modify (fun w =>
    let s := storage w in
    setStorage
      {| scans := scans s;
         scanResults := scanResults s;
         vulnerabilities := vulnerabilities s ++ [vuln];
         sslAnalyses := sslAnalyses s;
         securityHeaders := securityHeaders s |} w) ;;;
  record (ChildWritten (Schema.v_scanId vulnerability) "vulnerabilities") ;;;
  ret vuln.

(** [addSslAnalysis(sslAnalysis)] *)
Definition addSslAnalysis (sslAnalysis : Schema.InsertSslAnalysis)
    : M (Schema.Row Schema.InsertSslAnalysis) :=
  id <- randomUUID ;;
  let ssl := {| Schema.row_id := id; Schema.row := sslAnalysis |} in
  modify (fun w =>
    let s := storage w in
    setStorage
      {| scans := scans s;
         scanResults := scanResults s;
         vulnerabilities := vulnerabilities s;
         sslAnalyses := sslAnalyses s ++ [ssl];
         securityHeaders := securityHeaders s |} w) ;;;
  record (ChildWritten (Schema.ssl_scanId sslAnalysis) "sslAnalyses") ;;;
  ret ssl.

(** [addSecurityHeaders(securityHeaders)] *)
Definition addSecurityHeaders (headers : Schema.InsertSecurityHeaders)
    : M (Schema.Row Schema.InsertSecurityHeaders) :=
  id <- randomUUID ;;
  let stored := {| Schema.row_id := id; Schema.row := headers |} in
  modify (fun w =>
    let s := storage w in
    setStorage
      {| scans := scans s;
         scanResults := scanResults s;
         vulnerabilities := vulnerabilities s;
         sslAnalyses := sslAnalyses s;
         securityHeaders := securityHeaders s ++ [stored] |} w) ;;;
  record (ChildWritten (Schema.sh_scanId headers) "securityHeaders") ;;;
  ret stored.

(** [getScanResults(scanId)] and its siblings. *)
Definition getScanResults (scanId : nat)
    : M (list (Schema.Row Schema.InsertScanResult)) :=
  gets (fun w =>
    List.filter (fun r => Nat.eqb (Schema.sr_scanId (Schema.row r)) scanId)
      (scanResults (storage w))).

Definition getVulnerabilities (scanId : nat)
    : M (list (Schema.Row Schema.InsertVulnerability)) :=
  gets (fun w =>
    List.filter (fun r => Nat.eqb (Schema.v_scanId (Schema.row r)) scanId)
      (vulnerabilities (storage w))).

Definition getSslAnalysis (scanId : nat)
    : M (option (Schema.Row Schema.InsertSslAnalysis)) :=
  gets (fun w =>
    List.find (fun r => Nat.eqb (Schema.ssl_scanId (Schema.row r)) scanId)
      (sslAnalyses (storage w))).

Definition getSecurityHeaders (scanId : nat)
    : M (option (Schema.Row Schema.InsertSecurityHeaders)) :=
  gets (fun w =>
    List.find (fun r => Nat.eqb (Schema.sh_scanId (Schema.row r)) scanId)
      (securityHeaders (storage w))).

End Storage.

(** ** TLS posture analyzer, effectful part *)

Module SslAnalyzer.
Import Eff.

(** [new URL(url)] *)
Definition newURL (env : Env) (url : string) : M URLRecord :=
  match parseURL env url with
  | Some u => ret u
  | None => throw (JS.JsError "Invalid URL")
  end.

(** [getCertificateInfo(hostname)] *)
Definition getCertificateInfo (env : Env) (hostname : string)
    : M Ssl.CertificateInfo :=
  match certRequest env hostname with
  | CertResponse (Some certificate) => ret certificate
  | CertResponse None => throw (JS.JsError "No certificate found")
  | CertError error => throw error
  | CertTimeout => throw (JS.JsError "SSL connection timeout")
  end.

(** [testTlsProtocol(hostname, protocol)] *)
Definition testTlsProtocol (env : Env) (hostname protocol : string) : M bool :=
  let secureProtocol :=
    String.append
      (JS.replaceFirst "." "_" (JS.replaceFirst "v" "v1_" protocol))
      "_method" in
  match tlsConnect env hostname secureProtocol with
  | TlsConnectThrows e => throw e
  | TlsSecureConnect => ret true
  | TlsError => ret false
  | TlsTimeout => ret false
  end.

(** [getCipherSuites(hostname)] *)
Definition getCipherSuites (env : Env) (hostname : string) : M (list string) :=
  match cipherConnect env hostname with
  | CipherSecureConnect (Some cipherName) => ret [cipherName]
  | CipherSecureConnect None => ret []
  | CipherError => ret []
  | CipherTimeout => ret []
  end.

(** [res.headers[name]] is truthy. *)
Definition headerTruthy (headers : list (string * HeaderValue)) (name : string)
    : bool :=
  match List.find (fun kv => String.eqb (fst kv) name) headers with
  | Some (_, Single v) => JS.truthy_str (Some v)
  | Some (_, Multi _) => true
  | None => false
  end.

(** [checkHSTS(hostname)] *)
Definition checkHSTS (env : Env) (hostname : string) : M bool :=
  match hstsRequest env hostname with
  | HeadResponse headers => ret (headerTruthy headers "strict-transport-security")
  | HeadError _ => ret false
  | HeadTimeout => ret false
  end.

Definition protocolsToTest : list string :=
  ["TLSv1.3"; "TLSv1.2"; "TLSv1.1"; "TLSv1"].

(** The loop of [analyzeSslConfiguration] over [protocolsToTest]. *)
Fixpoint testProtocols (env : Env) (hostname : string) (protocols : list string)
    (supportedProtocols : list string) : M (list string) :=
  match protocols with
  | [] => ret supportedProtocols
  | protocol :: rest =>
      supportedProtocols <-
        tryCatch
          (isSupported <- testTlsProtocol env hostname protocol ;;
           ret (if isSupported : bool then supportedProtocols ++ [protocol]
                else supportedProtocols))
          (fun _ => ret supportedProtocols) ;;
      testProtocols env hostname rest supportedProtocols
  end.

(** [analyzeSslConfiguration(hostname)] *)
Definition analyzeSslConfiguration (env : Env) (hostname : string)
    : M Ssl.SslConfiguration :=
  supportedProtocols <- testProtocols env hostname protocolsToTest [] ;;
  supportedCiphers <-
    tryCatch
      (ciphers <- getCipherSuites env hostname ;; ret ([] ++ ciphers))
      (fun _ => ret []) ;;
  ret {| Ssl.supportedProtocols := supportedProtocols;
         Ssl.supportedCiphers := supportedCiphers |}.

(** The object returned from the [catch] of [analyzeSslCertificate]. *)
Definition failedAnalysis (scanId : nat) (hostname : string)
    : Schema.InsertSslAnalysis :=
  {| Schema.ssl_scanId := scanId;
     Schema.ssl_hostname := hostname;
     Schema.certificateValid := false;
     Schema.certificateExpiry := None;
     Schema.issuer := Some "Unknown";
     Schema.subject := Some "Unknown";
     Schema.signatureAlgorithm := Some "Unknown";
     Schema.keySize := None;
     Schema.protocolVersions := [];
     Schema.cipherSuites := [];
     Schema.grade := "F";
     Schema.hasHSTS := false;
     Schema.vulnerabilities := ["SSL/TLS connection failed"];
     Schema.score := 0;
     Schema.daysUntilExpiry := None |}.

(** The [try] block of [analyzeSslCertificate]. *)
Definition analysisSteps (env : Env) (scanId : nat) (hostname : string)
    : M Schema.InsertSslAnalysis :=
  certInfo <- getCertificateInfo env hostname ;;
  sslConfig <- analyzeSslConfiguration env hostname ;;
  gradeNow <- newDate env ;;
  let gradeInfo := Ssl.calculateSslGrade gradeNow certInfo sslConfig in
  hasHSTS <- checkHSTS env hostname ;;
  let expiryDate := Ssl.valid_to certInfo in
  now <- newDate env ;;
  let daysUntilExpiry := JS.ceil_div (expiryDate - now) Ssl.msPerDay in
  ret {| Schema.ssl_scanId := scanId;
         Schema.ssl_hostname := hostname;
         Schema.certificateValid := now <? expiryDate;
         Schema.certificateExpiry := Some expiryDate;
         Schema.issuer := Some (Ssl.formatCertificateField (Ssl.issuer certInfo));
         Schema.subject := Some (Ssl.formatCertificateField (Ssl.subject certInfo));
         Schema.signatureAlgorithm := Some (Ssl.sigalg certInfo);
         Schema.keySize :=
           if JS.truthy_num (Ssl.bits certInfo) then Ssl.bits certInfo else None;
         Schema.protocolVersions := Ssl.supportedProtocols sslConfig;
         Schema.cipherSuites := Ssl.supportedCiphers sslConfig;
         Schema.grade := Ssl.grade gradeInfo;
         Schema.hasHSTS := hasHSTS;
         Schema.vulnerabilities := Ssl.vulnerabilities gradeInfo;
         Schema.score := Ssl.score gradeInfo;
         Schema.daysUntilExpiry := Some daysUntilExpiry |}.

(** [analyzeSslCertificate(url, scanId)] *)
Definition analyzeSslCertificate (env : Env) (url : string) (scanId : nat)
    : M Schema.InsertSslAnalysis :=
  parsed <- newURL env url ;;
  let hostname := hostname parsed in
  tryCatch (analysisSteps env scanId hostname)
    (fun error => ret (failedAnalysis scanId hostname)).

End SslAnalyzer.

(** ** Header policy analyzer, effectful part *)

Module HeadersAnalyzer.
Import Eff.

(** [headerValue.match(/max-age=(\d+)/i)] at the head of [s]. *)
Definition maxAgeHere (s : string) : option Z :=
  if JS.startsWith "max-age=" (JS.toLowerCase s) then
    match JS.span JS.isDigit (JS.skip 8 s) with
    | (String d ds, _) => Some (JS.parseDigits (String d ds))
    | (EmptyString, _) => None
    end
  else None.

(** [extractMaxAge(headerValue)] *)
Definition extractMaxAge (headerValue : string) : option Z :=
  JS.firstMatch maxAgeHere headerValue.

Definition notQuote (c : ascii) : bool := negb (Ascii.eqb c (ascii_of_nat 34)).

(** The pattern of [extractReportUri] at the head of [s]: the name
    report-uri, an equals sign, and a non-empty quoted value. *)
Definition reportUriHere (s : string) : option string :=
  if JS.startsWith (String.append "report-uri=" JS.dquote) (JS.toLowerCase s) then
    match JS.span notQuote (JS.skip 12 s) with
    | (String c cs, String _ _) => Some (String c cs)
    | _ => None
    end
  else None.

(** [extractReportUri(headerValue)] *)
Definition extractReportUri (headerValue : string) : option string :=
  JS.firstMatch reportUriHere headerValue.

(** [analyzeHeaders(headers)] *)
Definition analyzeHeaders (headers : gmap string string)
    : Headers.SecurityHeadersAnalysis :=
  let hstsHeader := headers !! "strict-transport-security" in
  let hsts :=
    match hstsHeader with
    | Some v =>
        if JS.truthy_str hstsHeader then
          {| Headers.hsts_present := true;
             Headers.hsts_value := Some v;
             Headers.hsts_maxAge := extractMaxAge v;
             Headers.hsts_includeSubDomains :=
               Some (JS.includes (JS.toLowerCase v) "includesubdomains");
             Headers.hsts_preload := Some (JS.includes (JS.toLowerCase v) "preload") |}
        else
          {| Headers.hsts_present := false; Headers.hsts_value := None;
             Headers.hsts_maxAge := None; Headers.hsts_includeSubDomains := None;
             Headers.hsts_preload := None |}
    | None =>
        {| Headers.hsts_present := false; Headers.hsts_value := None;
           Headers.hsts_maxAge := None; Headers.hsts_includeSubDomains := None;
           Headers.hsts_preload := None |}
    end in
  let cspHeader :=
    JS.orElse (headers !! "content-security-policy")
      (headers !! "content-security-policy-report-only") in
  let csp :=
    match cspHeader with
    | Some v =>
        if JS.truthy_str cspHeader then
          let directives :=
            List.filter (fun d => JS.truthy_str (Some d))
              (List.map JS.trim (JS.split ";" v)) in
          {| Headers.csp_present := true;
             Headers.csp_value := Some v;
             Headers.csp_directives := directives;
             Headers.csp_hasUnsafeInline := Some (JS.includes v "'unsafe-inline'");
             Headers.csp_hasUnsafeEval := Some (JS.includes v "'unsafe-eval'") |}
        else
          {| Headers.csp_present := false; Headers.csp_directives := [];
             Headers.csp_value := None; Headers.csp_hasUnsafeInline := None;
             Headers.csp_hasUnsafeEval := None |}
    | None =>
        {| Headers.csp_present := false; Headers.csp_directives := [];
           Headers.csp_value := None; Headers.csp_hasUnsafeInline := None;
           Headers.csp_hasUnsafeEval := None |}
    end in
  let expectCTHeader := headers !! "expect-ct" in
  let expectCT :=
    match expectCTHeader with
    | Some v =>
        if JS.truthy_str expectCTHeader then
          {| Headers.ect_present := true;
             Headers.ect_value := Some v;
             Headers.ect_maxAge := extractMaxAge v;
             Headers.ect_enforce := Some (JS.includes (JS.toLowerCase v) "enforce");
             Headers.ect_reportUri := extractReportUri v |}
        else
          {| Headers.ect_present := false; Headers.ect_maxAge := None;
             Headers.ect_enforce := None; Headers.ect_reportUri := None;
             Headers.ect_value := None |}
    | None =>
        {| Headers.ect_present := false; Headers.ect_maxAge := None;
           Headers.ect_enforce := None; Headers.ect_reportUri := None;
           Headers.ect_value := None |}
    end in
  {| Headers.hsts := Some hsts;
     Headers.csp := Some csp;
     Headers.xFrameOptions := headers !! "x-frame-options";
     Headers.xContentTypeOptions := headers !! "x-content-type-options";
     Headers.xXSSProtection := headers !! "x-xss-protection";
     Headers.referrerPolicy := headers !! "referrer-policy";
     Headers.permissionsPolicy :=
       JS.orElse (headers !! "permissions-policy") (headers !! "feature-policy");
     Headers.expectCT := Some expectCT;
     Headers.crossOriginEmbedderPolicy := headers !! "cross-origin-embedder-policy";
     Headers.crossOriginOpenerPolicy := headers !! "cross-origin-opener-policy";
     Headers.crossOriginResourcePolicy := headers !! "cross-origin-resource-policy" |}.

(** The [forEach] of [fetchSecurityHeaders] that lower-cases the names. *)
Definition normalizeHeaders (raw : list (string * HeaderValue))
    : gmap string string :=
  List.fold_left
    (fun (headers : gmap string string) kv =>
       match snd kv with
       | Single value => <[JS.toLowerCase (fst kv) := value]> headers
       | Multi values =>
           <[JS.toLowerCase (fst kv) := String.concat ", " values]> headers
       end)
    raw ∅.

(** [fetchSecurityHeaders(url)] *)
Definition fetchSecurityHeaders (env : Env) (url : string)
    : M (gmap string string) :=
  urlObj <- SslAnalyzer.newURL env url ;;
  let isHttps := String.eqb (protocol urlObj) "https:" in
  let requestPort :=
    if JS.truthy_str (Some (port urlObj)) then port urlObj
    else if isHttps then "443" else "80" in
  match headRequest env isHttps (hostname urlObj) requestPort
          (String.append (pathname urlObj) (search urlObj)) with
  | HeadResponse raw => ret (normalizeHeaders raw)
  | HeadError error => throw error
  | HeadTimeout => throw (JS.JsError "Request timeout")
  end.

(** [v || null] on a [string | undefined]. *)
Definition orNull (v : option string) : option string :=
  if JS.truthy_str v then v else None.

(** The object returned from the [catch] of [analyzeSecurityHeaders]. *)
Definition failedHeaders (scanId : nat) (hostname : string)
    : Schema.InsertSecurityHeaders :=
  {| Schema.sh_scanId := scanId;
     Schema.sh_hostname := hostname;
     Schema.sh_hsts := None;
     Schema.sh_csp := None;
     Schema.sh_xFrameOptions := None;
     Schema.sh_xContentTypeOptions := None;
     Schema.sh_xXSSProtection := None;
     Schema.sh_referrerPolicy := None;
     Schema.sh_permissionsPolicy := None;
     Schema.sh_expectCT := None;
     Schema.sh_crossOriginEmbedderPolicy := None;
     Schema.sh_crossOriginOpenerPolicy := None;
     Schema.sh_crossOriginResourcePolicy := None;
     Schema.securityScore := 0;
     Schema.sh_grade := "F";
     Schema.missingHeaders :=
       ["All security headers missing due to connection failure"];
     Schema.weakHeaders := [] |}.

(** [analyzeSecurityHeaders(url, scanId)] *)
Definition analyzeSecurityHeaders (env : Env) (url : string) (scanId : nat)
    : M Schema.InsertSecurityHeaders :=
  parsed <- SslAnalyzer.newURL env url ;;
  let hostname := hostname parsed in
  tryCatch
    (headers <- fetchSecurityHeaders env url ;;
     let analysis := analyzeHeaders headers in
     let '(score, grade) := Headers.calculateSecurityScore analysis in
     let '(missingHeaders, weakHeaders) := Headers.identifyIssues analysis in
     ret {| Schema.sh_scanId := scanId;
            Schema.sh_hostname := hostname;
            Schema.sh_hsts := Headers.hsts analysis;
            Schema.sh_csp := Headers.csp analysis;
            Schema.sh_xFrameOptions := orNull (Headers.xFrameOptions analysis);
            Schema.sh_xContentTypeOptions :=
              orNull (Headers.xContentTypeOptions analysis);
            Schema.sh_xXSSProtection := orNull (Headers.xXSSProtection analysis);
            Schema.sh_referrerPolicy := orNull (Headers.referrerPolicy analysis);
            Schema.sh_permissionsPolicy :=
              orNull (Headers.permissionsPolicy analysis);
            Schema.sh_expectCT := Headers.expectCT analysis;
            Schema.sh_crossOriginEmbedderPolicy :=
              orNull (Headers.crossOriginEmbedderPolicy analysis);
            Schema.sh_crossOriginOpenerPolicy :=
              orNull (Headers.crossOriginOpenerPolicy analysis);
            Schema.sh_crossOriginResourcePolicy :=
              orNull (Headers.crossOriginResourcePolicy analysis);
            Schema.securityScore := score;
            Schema.sh_grade := grade;
            Schema.missingHeaders := missingHeaders;
            Schema.weakHeaders := weakHeaders |})
    (fun error => ret (failedHeaders scanId hostname)).

End HeadersAnalyzer.

(** ** Routes: the request handlers and the scan orchestrator *)

Module Routes.
Import Eff.

(** [scanPort(host, port)] with the default timeout: the probe starts when
    the promise is created; the socket then emits its events. *)
Definition scanPort (env : Env) (host : string) (port : Z)
    : M (Ports.Promise Ports.PortResult) :=
  record (ProbeStarted host port) ;;;
  let '(first, rest) := socketEvents env host port in
  ret (snd (Ports.scanPortOn (first :: rest) host port Ports.defaultTimeout)).

(** [ports.map(port => scanPort(hostname, port))] *)
Fixpoint startProbes (env : Env) (hostname : string) (ports : list Z)
    : M (list (Ports.Promise Ports.PortResult)) :=
  match ports with
  | [] => ret []
  | port :: rest =>
      p <- scanPort env hostname port ;;
      ps <- startProbes env hostname rest ;;
      ret (p :: ps)
  end.

(** The values of an array of promises, if all of them are resolved. *)
Fixpoint allResolved {A : Type} (promises : list (Ports.Promise A))
    : option (list A) :=
  match promises with
  | [] => Some []
  | Ports.Resolved v :: rest =>
      match allResolved rest with
      | Some vs => Some (v :: vs)
      | None => None
      end
  | _ :: _ => None
  end.

(** The reason of the first rejected promise of an array. *)
Fixpoint firstRejected {A : Type} (promises : list (Ports.Promise A))
    : option JS.Exn :=
  match promises with
  | [] => None
  | Ports.Rejected reason :: _ => Some reason
  | _ :: rest => firstRejected rest
  end.

(** [await Promise.all(promises)] *)
Definition awaitAll {A : Type} (promises : list (Ports.Promise A)) : M (list A) :=
  match firstRejected promises with
  | Some reason => throw reason
  | None =>
      match allResolved promises with
      | Some values => ret values
      | None => fun w => (Never, w)
      end
  end.

Definition commonPorts : list Z :=
  [21; 22; 23; 25; 53; 80; 110; 143; 443; 993; 995; 3389; 5432; 3306; 6379; 27017].

Definition isOpen (r : Ports.PortResult) : bool :=
  String.eqb (Ports.state r) "open".

Definition statusOnly (status : string) : Schema.ScanUpdates :=
  {| Schema.new_status := Some status;
     Schema.new_results := None;
     Schema.new_completedAt := None;
     Schema.new_errorMessage := None |}.

(** The stages of the [try] block of [performScan] that follow the port
    probing: storing the open ports, correlation, TLS analysis, header
    analysis.  The value is the [results] summary. *)
Definition analyses (env : Env) (scanId : nat) (url : string)
    (results : list Ports.PortResult) : M Schema.ScanSummary :=
  (* Store scan results *)
  forEach results (fun result =>
    if isOpen result then
      Storage.addScanResult
        {| Schema.sr_scanId := scanId;
           Schema.sr_port := Ports.port result;
           Schema.sr_protocol := Ports.protocol result;
           Schema.sr_service :=
             JS.orElse (Ports.service result) (Some "unknown");
           Schema.sr_version := None;
           Schema.sr_state := Ports.state result;
           Schema.sr_riskLevel :=
             Some (Ports.getRiskLevel (Ports.port result)
                     (match JS.orElse (Ports.service result) (Some "") with
                      | Some s => s
                      | None => ""
                      end)) |} ;;;
      ret tt
    else ret tt) ;;;
  (* Analyze vulnerabilities *)
  let vulnerabilities := Ports.analyzeVulnerabilities (List.filter isOpen results) in
  forEach vulnerabilities (fun vuln =>
    Storage.addVulnerability
      {| Schema.v_scanId := scanId;
         Schema.v_title := Ports.title vuln;
         Schema.v_description := Ports.description vuln;
         Schema.v_severity := Ports.severity vuln;
         Schema.v_cve := None;
         Schema.v_cvssScore := None;
         Schema.v_recommendation := Some (Ports.recommendation vuln) |} ;;;
    ret tt) ;;;
  let httpsPort :=
    List.find (fun r => ((Ports.port r =? 443) && isOpen r)%bool) results in
  let httpPort :=
    List.find (fun r => ((Ports.port r =? 80) && isOpen r)%bool) results in
  sslAnalysis <-
    match httpsPort with
    | Some _ =>
        tryCatch
          (analysis <- SslAnalyzer.analyzeSslCertificate env url scanId ;;
           tryCatch
             (Storage.addSslAnalysis analysis ;;; ret (Some analysis))
             (fun _ => ret (Some analysis)))
          (fun _ => ret None)
    | None => ret None
    end ;;
  securityHeadersAnalysis <-
    match httpsPort, httpPort with
    | None, None => ret None
    | _, _ =>
        tryCatch
          (analysis <- HeadersAnalyzer.analyzeSecurityHeaders env url scanId ;;
           tryCatch
             (Storage.addSecurityHeaders analysis ;;; ret (Some analysis))
             (fun _ => ret (Some analysis)))
          (fun _ => ret None)
    end ;;
  ret {| Schema.totalPorts := Z.of_nat (List.length results);
         Schema.openPorts := Z.of_nat (List.length (List.filter isOpen results));
         Schema.vulnerabilitiesFound := Z.of_nat (List.length vulnerabilities);
         Schema.sslAnalyzed :=
           match sslAnalysis with Some _ => true | None => false end;
         Schema.securityHeadersAnalyzed :=
           match securityHeadersAnalysis with
           | Some _ => true
           | None => false
           end |}.

(** Port probing, all ports at once and joined, then the analyses. *)
Definition stages (env : Env) (scanId : nat) (url hostname : string)
    : M Schema.ScanSummary :=
  scanPromises <- startProbes env hostname commonPorts ;;
  results <- awaitAll scanPromises ;;
  analyses env scanId url results.

(** The [try] block of [performScan] from its first [await] on. *)
Definition pipelineRest (env : Env) (scanId : nat) (url : string) : M unit :=
  parsedUrl <- SslAnalyzer.newURL env url ;;
  let hostname := hostname parsedUrl in
  summary <- stages env scanId url hostname ;;
  completedAt <- newDate env ;;
  Storage.updateScan scanId
    {| Schema.new_status := Some "completed";
       Schema.new_completedAt := Some completedAt;
       Schema.new_results := Some summary;
       Schema.new_errorMessage := None |} ;;;
  ret tt.

(** The [try] block of [performScan]. *)
Definition pipeline (env : Env) (scanId : nat) (url : string) : M unit :=
  Storage.updateScan scanId (statusOnly "running") ;;;
  pipelineRest env scanId url.

(** [error instanceof Error ? error.message : "Unknown error"] *)
Definition errorMessageOf (error : JS.Exn) : string :=
  match error with
  | JS.JsError message => message
  | JS.Thrown _ => "Unknown error"
  end.

(** The [catch] block of [performScan]. *)
Definition onPipelineError (env : Env) (scanId : nat) (error : JS.Exn) : M unit :=
  completedAt <- newDate env ;;
  Storage.updateScan scanId
    {| Schema.new_status := Some "failed";
       Schema.new_errorMessage := Some (errorMessageOf error);
       Schema.new_completedAt := Some completedAt;
       Schema.new_results := None |} ;;;
  ret tt.

(** [performScan(scanId, url)] *)
Definition performScan (env : Env) (scanId : nat) (url : string) : M unit :=
  tryCatch (pipeline env scanId url) (onPipelineError env scanId).

(** A call of [performScan] that is not awaited runs the body up to its
    first [await] and gives control back to the caller.  That first
    [await] is on [storage.updateScan], whose own body has no [await]: the
    write of running is made during the call. *)
Definition performScanStart (scanId : nat) : M unit :=
  Storage.updateScan scanId (statusOnly "running") ;;;
  ret tt.

(** The rest of the body of [performScan], under the same [catch]: the
    event loop runs it after the caller has gone on. *)
Definition performScanRest (env : Env) (scanId : nat) (url : string) : M unit :=
  tryCatch (pipelineRest env scanId url) (onPipelineError env scanId).

(** [performScan(scan.id, url).catch(console.error)], the part that is
    still to run when the handler has answered. *)
Definition launched (env : Env) (scanId : nat) (url : string) : M unit :=
  tryCatch (performScanRest env scanId url) (fun _ => ret tt).

(** What a handler sends back. *)
Inductive Response : Type :=
| Json (scan : Schema.Scan)
| ErrorStatus (code : Z) (error : string).

(** [app.post("/api/scans", ...)]: [body] is the [url] field of the
    request body when [insertScanSchema.parse] accepts the body.  The scan
    is started without [await]: the handler answers with the scan as
    [createScan] returned it, and [launched] is left to the event loop. *)
Definition postScans (env : Env) (body : option string) : M Response :=
  tryCatch
    (match body with
     | None => throw (JS.JsError "ZodError")
     | Some validatedUrl =>
         match parseURL env validatedUrl with
         | None => ret (ErrorStatus 400 "Invalid URL format")
         | Some _ =>
             scan <- Storage.createScan env validatedUrl ;;
             performScanStart (Schema.id scan) ;;;
             ret (Json scan)
         end
     end)
    (fun error => ret (ErrorStatus 400 "Invalid request data")).

End Routes.

(** ** The grading rules as the specification words them *)

Module TlsRules.

(** The posture's [keySize]: [certInfo.bits || null]. *)
Definition keySize (c : Ssl.CertificateInfo) : option Z :=
  if JS.truthy_num (Ssl.bits c) then Ssl.bits c else None.

(** The posture's [daysUntilExpiry]. *)
Definition daysUntilExpiry (now : Z) (c : Ssl.CertificateInfo) : Z :=
  JS.ceil_div (Ssl.valid_to c - now) Ssl.msPerDay.

(** The deduction-triggering conditions. *)
Record Triggers : Type := {
  expired : bool;          (* the expiry date is not after now *)
  expiresSoon : bool;      (* fewer than 30 days until expiry *)
  weakKey : bool;          (* key size present and under 2048 bits *)
  sha1Signature : bool;    (* signature algorithm name contains sha1 *)
  deprecatedTls : bool;    (* TLSv1 or TLSv1.1 supported *)
  noTls13 : bool           (* TLSv1.3 not supported *)
}.

Definition triggers (now : Z) (c : Ssl.CertificateInfo)
    (cfg : Ssl.SslConfiguration) : Triggers :=
  {| expired := Ssl.valid_to c <=? now;
     expiresSoon := daysUntilExpiry now c <? 30;
     weakKey := match keySize c with Some k => k <? 2048 | None => false end;
     sha1Signature := JS.includes (JS.toLowerCase (Ssl.sigalg c)) "sha1";
     deprecatedTls :=
       (List.existsb (String.eqb "TLSv1") (Ssl.supportedProtocols cfg) ||
        List.existsb (String.eqb "TLSv1.1") (Ssl.supportedProtocols cfg))%bool;
     noTls13 :=
       negb (List.existsb (String.eqb "TLSv1.3") (Ssl.supportedProtocols cfg)) |}.

(** The deductions that apply, in the order they are made: points and
    the vulnerability string each one appends. *)
Definition deductions (t : Triggers) : list (Z * string) :=
  (if expired t then [(50, "Certificate has expired")]
   else if expiresSoon t
        then [(20, "Certificate expires soon (less than 30 days)")]
        else []) ++
  (if weakKey t then [(30, "Weak key size (less than 2048 bits)")] else []) ++
  (if sha1Signature t then [(20, "Weak signature algorithm (SHA-1)")] else []) ++
  (if deprecatedTls t then [(15, "Supports deprecated TLS versions")] else []) ++
  (if noTls13 t then [(10, "TLS 1.3 not supported")] else []).

Definition total (ds : list (Z * string)) : Z :=
  List.fold_right (fun d acc => fst d + acc) 0 ds.

(** Start from 100, subtract, clamp below at 0. *)
Definition scoreOf (t : Triggers) : Z := Z.max 0 (100 - total (deductions t)).

(** The letter grade of a score. *)
Definition gradeOf (score : Z) : string :=
  if 95 <=? score then "A+"
  else if 90 <=? score then "A"
  else if 80 <=? score then "B"
  else if 70 <=? score then "C"
  else if 60 <=? score then "D"
  else "F".

(** [t'] triggers every deduction that [t] triggers. *)
Definition atLeast (t t' : Triggers) : Prop :=
  (expired t = true -> expired t' = true) /\
  (expiresSoon t = true -> expiresSoon t' = true) /\
  (weakKey t = true -> weakKey t' = true) /\
  (sha1Signature t = true -> sha1Signature t' = true) /\
  (deprecatedTls t = true -> deprecatedTls t' = true) /\
  (noTls13 t = true -> noTls13 t' = true).

End TlsRules.

Module HeaderRules.

(** A header is present when its value is defined and not empty: the
    test the analyzer applies to every header it stores verbatim. *)
Definition present (o : option string) : bool := JS.truthy_str o.

(** All nine recognized headers present and maximally strong. *)
Definition maximallyStrong (a : Headers.SecurityHeadersAnalysis) : bool :=
  (* HSTS with max-age >= 31536000, includeSubDomains and preload *)
  (match Headers.hsts a with
   | Some h =>
       Headers.hsts_present h &&
       match Headers.hsts_maxAge h with
       | Some n => 31536000 <=? n
       | None => false
       end &&
       JS.truthy_bool (Headers.hsts_includeSubDomains h) &&
       JS.truthy_bool (Headers.hsts_preload h)
   | None => false
   end &&
   (* CSP with at least 3 directives and no unsafe token *)
   match Headers.csp a with
   | Some c =>
       Headers.csp_present c &&
       (3 <=? Z.of_nat (List.length (Headers.csp_directives c))) &&
       negb (JS.truthy_bool (Headers.csp_hasUnsafeInline c)) &&
       negb (JS.truthy_bool (Headers.csp_hasUnsafeEval c))
   | None => false
   end &&
   (* X-Frame-Options present and not ALLOWALL *)
   present (Headers.xFrameOptions a) &&
   negb (Headers.lowerIs (Headers.xFrameOptions a) "allowall") &&
   (* X-Content-Type-Options equal to nosniff *)
   Headers.lowerIs (Headers.xContentTypeOptions a) "nosniff" &&
   (* X-XSS-Protection present and not 0 *)
   present (Headers.xXSSProtection a) &&
   negb (Headers.strictIs (Headers.xXSSProtection a) "0") &&
   (* Referrer-Policy present and not one of the two weak policies *)
   present (Headers.referrerPolicy a) &&
   negb (Headers.lowerIs (Headers.referrerPolicy a) "unsafe-url") &&
   negb (Headers.lowerIs (Headers.referrerPolicy a) "no-referrer-when-downgrade") &&
   (* all three Cross-Origin-* headers present *)
   present (Headers.crossOriginEmbedderPolicy a) &&
   present (Headers.crossOriginOpenerPolicy a) &&
   present (Headers.crossOriginResourcePolicy a))%bool.

(** No security header at all. *)
Definition noSecurityHeaders (a : Headers.SecurityHeadersAnalysis) : bool :=
  (negb (Headers.hstsPresent a) &&
   negb (Headers.cspPresent a) &&
   negb (present (Headers.xFrameOptions a)) &&
   negb (present (Headers.xContentTypeOptions a)) &&
   negb (present (Headers.xXSSProtection a)) &&
   negb (present (Headers.referrerPolicy a)) &&
   negb (present (Headers.crossOriginEmbedderPolicy a)) &&
   negb (present (Headers.crossOriginOpenerPolicy a)) &&
   negb (present (Headers.crossOriginResourcePolicy a)))%bool.

Definition nineHeaderNames : list string :=
  [ "Strict-Transport-Security"; "Content-Security-Policy"; "X-Frame-Options";
    "X-Content-Type-Options"; "X-XSS-Protection"; "Referrer-Policy";
    "Cross-Origin-Embedder-Policy"; "Cross-Origin-Opener-Policy";
    "Cross-Origin-Resource-Policy" ].

(** The same analysis with another X-Frame-Options value. *)
Definition withXFrameOptions (v : option string)
    (a : Headers.SecurityHeadersAnalysis) : Headers.SecurityHeadersAnalysis :=
  {| Headers.hsts := Headers.hsts a;
     Headers.csp := Headers.csp a;
     Headers.xFrameOptions := v;
     Headers.xContentTypeOptions := Headers.xContentTypeOptions a;
     Headers.xXSSProtection := Headers.xXSSProtection a;
     Headers.referrerPolicy := Headers.referrerPolicy a;
     Headers.permissionsPolicy := Headers.permissionsPolicy a;
     Headers.expectCT := Headers.expectCT a;
     Headers.crossOriginEmbedderPolicy := Headers.crossOriginEmbedderPolicy a;
     Headers.crossOriginOpenerPolicy := Headers.crossOriginOpenerPolicy a;
     Headers.crossOriginResourcePolicy := Headers.crossOriginResourcePolicy a |}.

End HeaderRules.

(** ** Sample inputs *)

Module Samples.

(** A certificate that expires in ten days, with a 1024-bit key and a
    SHA-1 signature, on a server that still speaks TLS 1.0. *)
Definition weakCert : Ssl.CertificateInfo :=
  {| Ssl.subject := Ssl.FieldString "CN=old.example";
     Ssl.issuer := Ssl.FieldString "CN=old.example";
     Ssl.valid_from := 0;
     Ssl.valid_to := 10 * Ssl.msPerDay;
     Ssl.fingerprint := "00";
     Ssl.serialNumber := "01";
     Ssl.sigalg := "sha1WithRSAEncryption";
     Ssl.bits := Some 1024 |}.

Definition weakConfig : Ssl.SslConfiguration :=
  {| Ssl.supportedProtocols := ["TLSv1.2"; "TLSv1"];
     Ssl.supportedCiphers := [] |}.

(** A certificate good for a year on a server with TLS 1.3 and 1.2. *)
Definition goodCert : Ssl.CertificateInfo :=
  {| Ssl.subject := Ssl.FieldString "CN=example.com";
     Ssl.issuer := Ssl.FieldString "CN=Example CA";
     Ssl.valid_from := 0;
     Ssl.valid_to := 365 * Ssl.msPerDay;
     Ssl.fingerprint := "00";
     Ssl.serialNumber := "02";
     Ssl.sigalg := "sha256WithRSAEncryption";
     Ssl.bits := Some 2048 |}.

(** The good certificate with a key size of 0 reported. *)
Definition zeroBitsCert : Ssl.CertificateInfo :=
  {| Ssl.subject := Ssl.subject goodCert;
     Ssl.issuer := Ssl.issuer goodCert;
     Ssl.valid_from := 0;
     Ssl.valid_to := 365 * Ssl.msPerDay;
     Ssl.fingerprint := "00";
     Ssl.serialNumber := "02";
     Ssl.sigalg := "sha256WithRSAEncryption";
     Ssl.bits := Some 0 |}.

Definition goodConfig : Ssl.SslConfiguration :=
  {| Ssl.supportedProtocols := ["TLSv1.3"; "TLSv1.2"];
     Ssl.supportedCiphers := ["TLS_AES_256_GCM_SHA384"] |}.

(** A response with every recognized header at its strongest. *)
Definition strongHeaders : gmap string string :=
  list_to_map
    [ ("strict-transport-security", "max-age=63072000; includeSubDomains; preload");
      ("content-security-policy", "default-src 'self'; img-src 'self'; object-src 'none'");
      ("x-frame-options", "DENY");
      ("x-content-type-options", "nosniff");
      ("x-xss-protection", "1; mode=block");
      ("referrer-policy", "no-referrer");
      ("cross-origin-embedder-policy", "require-corp");
      ("cross-origin-opener-policy", "same-origin");
      ("cross-origin-resource-policy", "same-origin") ].

(** The same response with an empty X-Frame-Options value. *)
Definition emptyFrameOptions : gmap string string :=
  <["x-frame-options" := ""]> strongHeaders.

(** The same response with X-Frame-Options in lower case. *)
Definition allowallHeaders : gmap string string :=
  <["x-frame-options" := "allowall"]> strongHeaders.

Definition bucketHost : string := "mybucket.s3.amazonaws.com".

(** A scan that found SSH and FTP open and the web port closed. *)
Definition sshAndFtpOpen : list Ports.PortResult :=
  [ {| Ports.port := 22; Ports.state := "open";
       Ports.service := Some "ssh"; Ports.protocol := "tcp" |};
    {| Ports.port := 80; Ports.state := "closed";
       Ports.service := None; Ports.protocol := "tcp" |};
    {| Ports.port := 21; Ports.state := "open";
       Ports.service := Some "ftp"; Ports.protocol := "tcp" |} ].

Definition noDns : Cloud.Dns :=
  {| Cloud.dnsLookup := fun _ => None; Cloud.dnsReverse := fun _ => None |}.

(** An environment in which only https://example.com parses, ports 22
    and 443 accept connections, port 80 times out, every other port
    refuses, and the TLS endpoint never answers. *)
Definition env : Eff.Env :=
  {| Eff.parseURL := fun u =>
       if String.eqb u "https://example.com" then
         Some {| Eff.protocol := "https:"; Eff.hostname := "example.com";
                 Eff.port := ""; Eff.pathname := "/"; Eff.search := "" |}
       else None;
     Eff.clock := fun n => 1700000000000 + Z.of_nat n;
     Eff.socketEvents := fun _ port =>
       if (port =? 22) || (port =? 443) then (Ports.EvConnect, [])
       else if port =? 80 then (Ports.EvTimeout, [Ports.EvError])
       else (Ports.EvError, []);
     Eff.certRequest := fun _ => Eff.CertTimeout;
     Eff.tlsConnect := fun _ _ => Eff.TlsError;
     Eff.cipherConnect := fun _ => Eff.CipherError;
     Eff.hstsRequest := fun _ => Eff.HeadTimeout;
     Eff.headRequest := fun _ _ _ _ =>
       Eff.HeadResponse [("x-frame-options", Eff.Single "allowall")] |}.

Definition emptyWorld : Eff.World :=
  {| Eff.storage :=
       {| Eff.scans := ∅; Eff.scanResults := []; Eff.vulnerabilities := [];
          Eff.sslAnalyses := []; Eff.securityHeaders := [] |};
     Eff.uuids := 0;
     Eff.clockReads := 0;
     Eff.journal := [] |}.

(** The world after a scan of https://example.com has been created. *)
Definition oneScan : Eff.World :=
  snd (Storage.createScan env "https://example.com" emptyWorld).

End Samples.

Module PortRules.

(** The state the outcome mapping assigns to the event that settles a
    probe: connect, open; timeout, filtered; error, closed. *)
Definition classify (ev : Ports.SocketEvent) : string :=
  match ev with
  | Ports.EvConnect => "open"
  | Ports.EvTimeout => "filtered"
  | Ports.EvError => "closed"
  end.

Definition isConnectCall (c : Ports.SocketCall) : bool :=
  match c with
  | Ports.Connect _ _ => true
  | _ => false
  end.

(** The vulnerabilities the rule table gives for one open port. *)
Definition portRules (port : Z) : list Ports.VulnTemplate :=
  (if port =? 22 then [Ports.sshExposed] else []) ++
  (if port =? 21 then [Ports.ftpDetected] else []) ++
  (if port =? 23 then [Ports.telnetExposed] else []) ++
  (if JS.num_includes [3306; 5432; 27017; 6379] port
   then [Ports.databaseExposed port] else []).

Definition openPorts (rs : list Ports.PortResult) : list Z :=
  List.map Ports.port (List.filter (fun r => String.eqb (Ports.state r) "open") rs).

End PortRules.

Module CloudRules.

(** 100 minus 25, 15, 10 and 5 per critical, high, medium and low
    finding, clamped below at 0. *)
Definition scoreOf (findings : list Cloud.CloudSecurityFinding) : Z :=
  Z.max 0
    (100 - 25 * Cloud.countSeverity Cloud.critical findings
         - 15 * Cloud.countSeverity Cloud.high findings
         - 10 * Cloud.countSeverity Cloud.medium findings
         - 5 * Cloud.countSeverity Cloud.low findings).

(** Critical with at least one critical finding, else high with more
    than two high findings, else medium with at least one high or more
    than three medium findings, else low. *)
Definition riskOf (findings : list Cloud.CloudSecurityFinding) : Cloud.Severity :=
  if 1 <=? Cloud.countSeverity Cloud.critical findings then Cloud.critical
  else if 2 <? Cloud.countSeverity Cloud.high findings then Cloud.high
  else if ((1 <=? Cloud.countSeverity Cloud.high findings) ||
           (3 <? Cloud.countSeverity Cloud.medium findings))%bool
       then Cloud.medium
  else Cloud.low.

End CloudRules.

Module RunRules.
Import Eff.

(** Actions that create a scan or write its status. *)
Definition touchesScan (a : Action) : bool :=
  match a with
  | ScanCreated _ => true
  | StatusWritten _ _ => true
  | _ => false
  end.

(** [w'] comes from [w] by steps that leave every scan record alone, log
    no status write, and only append child records. *)
Definition keeps (w w' : World) : Prop :=
  scans (storage w') = scans (storage w) /\
  (exists j, journal w' = journal w ++ j /\
             List.forallb (fun a => negb (touchesScan a)) j = true) /\
  (exists l, scanResults (storage w') = scanResults (storage w) ++ l) /\
  (exists l, vulnerabilities (storage w') = vulnerabilities (storage w) ++ l) /\
  (exists l, sslAnalyses (storage w') = sslAnalyses (storage w) ++ l) /\
  (exists l, securityHeaders (storage w') = securityHeaders (storage w) ++ l).

(** A computation that always ends, with a value satisfying [Q] or a
    thrown value satisfying [T], and [keeps] the world. *)
Definition quiet {A : Type} (c : M A) (Q : A -> Prop) (T : JS.Exn -> Prop)
    : Prop :=
  forall w,
    match c w with
    | (Ok a, w') => Q a /\ keeps w w'
    | (Throw e, w') => T e /\ keeps w w'
    | (Never, _) => False
    end.

Definition isResolved {A : Type} (p : Ports.Promise A) : bool :=
  match p with
  | Ports.Resolved _ => true
  | _ => false
  end.

Definition anything {A : Type} (_ : A) : Prop := True.
Definition nothing {A : Type} (_ : A) : Prop := False.

(** The scan record is in one of the two terminal states. *)
Definition terminal (scan : Schema.Scan) : Prop :=
  Schema.status scan = "completed" \/ Schema.status scan = "failed".

End RunRules.

Module Lifecycle.
Import Eff.

(** The world after [updateScan] has replaced the record of [id] and
    logged the status it wrote. *)
Definition afterUpdate (id : nat) (updated : Schema.Scan) (st : string)
    (w : World) : World :=
  {| storage :=
       {| scans := <[id := updated]> (scans (storage w));
          scanResults := scanResults (storage w);
          vulnerabilities := vulnerabilities (storage w);
          sslAnalyses := sslAnalyses (storage w);
          securityHeaders := securityHeaders (storage w) |};
     uuids := uuids w;
     clockReads := clockReads w;
     journal := journal w ++ [StatusWritten id st] |}.

(** The updates of the two terminal writes of [performScan]. *)
Definition completedWith (summary : Schema.ScanSummary) (at_ : Z)
    : Schema.ScanUpdates :=
  {| Schema.new_status := Some "completed";
     Schema.new_completedAt := Some at_;
     Schema.new_results := Some summary;
     Schema.new_errorMessage := None |}.

Definition failedWith (error : JS.Exn) (at_ : Z) : Schema.ScanUpdates :=
  {| Schema.new_status := Some "failed";
     Schema.new_errorMessage := Some (Routes.errorMessageOf error);
     Schema.new_completedAt := Some at_;
     Schema.new_results := None |}.

(** The child tables of [w'] extend those of [w]: nothing stored is
    removed or rewritten. *)
Definition childrenKept (w w' : World) : Prop :=
  (exists l, scanResults (storage w') = scanResults (storage w) ++ l) /\
  (exists l, vulnerabilities (storage w') = vulnerabilities (storage w) ++ l) /\
  (exists l, sslAnalyses (storage w') = sslAnalyses (storage w) ++ l) /\
  (exists l, securityHeaders (storage w') = securityHeaders (storage w) ++ l).

(** What one run of [performScan] on the scan [id] does, seen from
    outside: it returns, the record of [id] becomes [final], the run logs
    the write of running first and the write of the final status last
    with no status write between them, and the children are kept. *)
Definition runsTo (env : Env) (id : nat) (url : string) (w w' : World)
    (final : Schema.Scan) (between : list Action) : Prop :=
  Routes.performScan env id url w = (Ok tt, w') /\
  scans (storage w') = <[id := final]> (scans (storage w)) /\
  journal w' =
    journal w ++ [StatusWritten id "running"] ++ between ++
    [StatusWritten id (Schema.status final)] /\
  List.forallb (fun a => negb (RunRules.touchesScan a)) between = true /\
  childrenKept w w'.

End Lifecycle.

(** ** Further rules read off the code *)

Module HeaderFacts.

(** What the scoring blocks subtract in all, from any running score. *)
Definition deduction (a : Headers.SecurityHeadersAnalysis) : Z :=
  - (Headers.scoreHsts a 0 + Headers.scoreCsp a 0 +
     Headers.scoreXFrameOptions a 0 + Headers.scoreXContentTypeOptions a 0 +
     Headers.scoreXXSSProtection a 0 + Headers.scoreReferrerPolicy a 0 +
     Headers.scoreCrossOrigin a 0).

(** The nine scored headers: name, points of the section, presence. *)
Definition scored (a : Headers.SecurityHeadersAnalysis)
    : list (string * Z * bool) :=
  [ ("Strict-Transport-Security", 20, Headers.hstsPresent a);
    ("Content-Security-Policy", 25, Headers.cspPresent a);
    ("X-Frame-Options", 15, JS.truthy_str (Headers.xFrameOptions a));
    ("X-Content-Type-Options", 10, JS.truthy_str (Headers.xContentTypeOptions a));
    ("X-XSS-Protection", 10, JS.truthy_str (Headers.xXSSProtection a));
    ("Referrer-Policy", 8, JS.truthy_str (Headers.referrerPolicy a));
    ("Cross-Origin-Embedder-Policy", 4,
     JS.truthy_str (Headers.crossOriginEmbedderPolicy a));
    ("Cross-Origin-Opener-Policy", 4,
     JS.truthy_str (Headers.crossOriginOpenerPolicy a));
    ("Cross-Origin-Resource-Policy", 4,
     JS.truthy_str (Headers.crossOriginResourcePolicy a)) ].

Definition absentOnes (a : Headers.SecurityHeadersAnalysis)
    : list (string * Z * bool) :=
  List.filter (fun e => negb (snd e)) (scored a).

Definition points (l : list (string * Z * bool)) : Z :=
  List.fold_right (fun e acc => snd (fst e) + acc) 0 l.

(** The weaknesses [identifyIssues] reports, with the points
    [calculateSecurityScore] takes for each and whether it holds. *)
Definition reported (a : Headers.SecurityHeadersAnalysis)
    : list (string * Z * bool) :=
  [ ("HSTS max-age is less than 1 year", 5,
     (Headers.hstsPresent a &&
      match Headers.hsts a with
      | Some h => Headers.shortMaxAge (Headers.hsts_maxAge h)
      | None => false
      end)%bool);
    ("CSP allows 'unsafe-inline'", 8,
     (Headers.cspPresent a &&
      match Headers.csp a with
      | Some c => JS.truthy_bool (Headers.csp_hasUnsafeInline c)
      | None => false
      end)%bool);
    ("CSP allows 'unsafe-eval'", 7,
     (Headers.cspPresent a &&
      match Headers.csp a with
      | Some c => JS.truthy_bool (Headers.csp_hasUnsafeEval c)
      | None => false
      end)%bool);
    ("X-Frame-Options set to ALLOWALL", 10,
     Headers.strictIs (Headers.xFrameOptions a) "ALLOWALL");
    ("X-XSS-Protection disabled", 5,
     Headers.strictIs (Headers.xXSSProtection a) "0") ].

(** The conditions that cost points without being reported in either
    list of [identifyIssues]. *)
Definition unreported (a : Headers.SecurityHeadersAnalysis)
    : list (string * Z * bool) :=
  [ ("HSTS without includeSubDomains", 3,
     (Headers.hstsPresent a &&
      match Headers.hsts a with
      | Some h => negb (JS.truthy_bool (Headers.hsts_includeSubDomains h))
      | None => false
      end)%bool);
    ("HSTS without preload", 2,
     (Headers.hstsPresent a &&
      match Headers.hsts a with
      | Some h => negb (JS.truthy_bool (Headers.hsts_preload h))
      | None => false
      end)%bool);
    ("CSP with fewer than three directives", 5,
     (Headers.cspPresent a &&
      match Headers.csp a with
      | Some c => Z.of_nat (List.length (Headers.csp_directives c)) <? 3
      | None => false
      end)%bool);
    ("X-Frame-Options allowall not in upper case", 10,
     (Headers.lowerIs (Headers.xFrameOptions a) "allowall" &&
      negb (Headers.strictIs (Headers.xFrameOptions a) "ALLOWALL"))%bool);
    ("X-Content-Type-Options other than nosniff", 10,
     (JS.truthy_str (Headers.xContentTypeOptions a) &&
      negb (Headers.lowerIs (Headers.xContentTypeOptions a) "nosniff"))%bool);
    ("Referrer-Policy unsafe-url or no-referrer-when-downgrade", 4,
     match Headers.referrerPolicy a with
     | Some p => JS.arr_includes Headers.weakPolicies (JS.toLowerCase p)
     | None => false
     end) ].

(** The entries whose condition holds. *)
Definition held (l : list (string * Z * bool)) : list (string * Z * bool) :=
  List.filter (fun e => snd e) l.

End HeaderFacts.

Module TlsFacts.

(** The handshake pinned to [protocol] reports [secureConnect]. *)
Definition handshakeOk (env : Eff.Env) (hostname protocol : string) : bool :=
  match
    Eff.tlsConnect env hostname
      (String.append
         (JS.replaceFirst "." "_" (JS.replaceFirst "v" "v1_" protocol))
         "_method")
  with
  | Eff.TlsSecureConnect => true
  | _ => false
  end.

(** The cipher names a default handshake yields. *)
Definition negotiated (env : Eff.Env) (hostname : string) : list string :=
  match Eff.cipherConnect env hostname with
  | Eff.CipherSecureConnect (Some cipherName) => [cipherName]
  | _ => []
  end.

(** The HEAD response carries a truthy Strict-Transport-Security. *)
Definition hstsSeen (env : Eff.Env) (hostname : string) : bool :=
  match Eff.hstsRequest env hostname with
  | Eff.HeadResponse headers =>
      SslAnalyzer.headerTruthy headers "strict-transport-security"
  | _ => false
  end.

(** What the probes of [analyzeSslConfiguration] find. *)
Definition probed (env : Eff.Env) (hostname : string) : Ssl.SslConfiguration :=
  {| Ssl.supportedProtocols :=
       List.filter (handshakeOk env hostname) SslAnalyzer.protocolsToTest;
     Ssl.supportedCiphers := negotiated env hostname |}.

(** The world after [n] more readings of the clock. *)
Definition afterReads (n : nat) (w : Eff.World) : Eff.World :=
  {| Eff.storage := Eff.storage w;
     Eff.uuids := Eff.uuids w;
     Eff.clockReads := (n + Eff.clockReads w)%nat;
     Eff.journal := Eff.journal w |}.

End TlsFacts.

(** ** Further sample inputs *)

Module Endpoints.

(** A host that answers on every probed port, presents the good
    certificate, completes the handshakes pinned to TLS 1.3 and 1.2 only,
    negotiates one cipher and sends an HSTS header; the clock advances by
    one millisecond per reading. *)
Definition healthy : Eff.Env :=
  {| Eff.parseURL := Eff.parseURL Samples.env;
     Eff.clock := fun n => Z.of_nat n;
     Eff.socketEvents := fun _ _ => (Ports.EvConnect, []);
     Eff.certRequest := fun _ => Eff.CertResponse (Some Samples.goodCert);
     Eff.tlsConnect := fun _ secureProtocol =>
       if (String.eqb secureProtocol "TLSv1_1_3_method" ||
           String.eqb secureProtocol "TLSv1_1_2_method")%bool
       then Eff.TlsSecureConnect else Eff.TlsError;
     Eff.cipherConnect := fun _ =>
       Eff.CipherSecureConnect (Some "TLS_AES_256_GCM_SHA384");
     Eff.hstsRequest := fun _ =>
       Eff.HeadResponse
         [("strict-transport-security", Eff.Single "max-age=63072000")];
     Eff.headRequest := fun _ _ _ _ =>
       Eff.HeadResponse
         [("Strict-Transport-Security", Eff.Single "max-age=63072000");
          ("X-Frame-Options", Eff.Single "DENY")] |}.

(** The world after a scan of https://example.com has been created
    against that host. *)
Definition started : Eff.World :=
  snd (Storage.createScan healthy "https://example.com" Samples.emptyWorld).

End Endpoints.

(** ** What a run stores *)

Module ScanFacts.

(** The result a probe resolves to: decided by the first event of the
    socket. *)
Definition probeResult (env : Eff.Env) (host : string) (port : Z)
    : Ports.PortResult :=
  let first := fst (Eff.socketEvents env host port) in
  {| Ports.port := port;
     Ports.state := PortRules.classify first;
     Ports.service :=
       match first with
       | Ports.EvConnect => Some (Ports.getServiceName port)
       | _ => None
       end;
     Ports.protocol := "tcp" |}.

Definition probeResults (env : Eff.Env) (host : string) : list Ports.PortResult :=
  List.map (probeResult env host) Routes.commonPorts.

(** The port accepted the connection. *)
Definition accepts (env : Eff.Env) (host : string) (port : Z) : bool :=
  match fst (Eff.socketEvents env host port) with
  | Ports.EvConnect => true
  | _ => false
  end.

(** The row the orchestrator stores for an open result. *)
Definition resultRow (scanId : nat) (result : Ports.PortResult)
    : Schema.InsertScanResult :=
  {| Schema.sr_scanId := scanId;
     Schema.sr_port := Ports.port result;
     Schema.sr_protocol := Ports.protocol result;
     Schema.sr_service := JS.orElse (Ports.service result) (Some "unknown");
     Schema.sr_version := None;
     Schema.sr_state := Ports.state result;
     Schema.sr_riskLevel :=
       Some (Ports.getRiskLevel (Ports.port result)
               (match JS.orElse (Ports.service result) (Some "") with
                | Some s => s
                | None => ""
                end)) |}.

(** The row stored for a probed port that accepted the connection. *)
Definition openRow (scanId : nat) (port : Z) : Schema.InsertScanResult :=
  {| Schema.sr_scanId := scanId;
     Schema.sr_port := port;
     Schema.sr_protocol := "tcp";
     Schema.sr_service := Some (Ports.getServiceName port);
     Schema.sr_version := None;
     Schema.sr_state := "open";
     Schema.sr_riskLevel :=
       Some (Ports.getRiskLevel port (Ports.getServiceName port)) |}.

(** The row the orchestrator stores for a correlated vulnerability. *)
Definition vulnRow (scanId : nat) (vuln : Ports.VulnTemplate)
    : Schema.InsertVulnerability :=
  {| Schema.v_scanId := scanId;
     Schema.v_title := Ports.title vuln;
     Schema.v_description := Ports.description vuln;
     Schema.v_severity := Ports.severity vuln;
     Schema.v_cve := None;
     Schema.v_cvssScore := None;
     Schema.v_recommendation := Some (Ports.recommendation vuln) |}.

(** The store [s'] is [s] with the same scans and, appended to the child
    tables in this order, rows holding the given records. *)
Definition grows (s s' : Eff.MemStorage)
    (rs : list Schema.InsertScanResult) (vs : list Schema.InsertVulnerability)
    (ss : list Schema.InsertSslAnalysis) (hs : list Schema.InsertSecurityHeaders)
    : Prop :=
  Eff.scans s' = Eff.scans s /\
  List.map Schema.row (Eff.scanResults s') =
    List.map Schema.row (Eff.scanResults s) ++ rs /\
  List.map Schema.row (Eff.vulnerabilities s') =
    List.map Schema.row (Eff.vulnerabilities s) ++ vs /\
  List.map Schema.row (Eff.sslAnalyses s') =
    List.map Schema.row (Eff.sslAnalyses s) ++ ss /\
  List.map Schema.row (Eff.securityHeaders s') =
    List.map Schema.row (Eff.securityHeaders s) ++ hs.

End ScanFacts.

(** ** Routes: reading a scan back *)

Module ScanRoute.
Import Eff.

(** The body of a successful answer: the scan record spread out, with
    its child records. *)
Record ScanReport : Type := {
  report_scan : Schema.Scan;
  report_scanResults : list (Schema.Row Schema.InsertScanResult);
  report_vulnerabilities : list (Schema.Row Schema.InsertVulnerability);
  report_sslAnalysis : option (Schema.Row Schema.InsertSslAnalysis);
  report_securityHeaders : option (Schema.Row Schema.InsertSecurityHeaders)
}.

Inductive Answer : Type :=
| Report (body : ScanReport)
| Failure (code : Z) (error : string).

(** [app.get("/api/scans/:id", ...)]; [id] is [req.params.id]. *)
Definition getScans (id : nat) : M Answer :=
  tryCatch
    (scan <- Storage.getScan id ;;
     match scan with
     | None => ret (Failure 404 "Scan not found")
     | Some scan =>
         scanResults <- Storage.getScanResults (Schema.id scan) ;;
         vulnerabilities <- Storage.getVulnerabilities (Schema.id scan) ;;
         sslAnalysis <- Storage.getSslAnalysis (Schema.id scan) ;;
         securityHeaders <- Storage.getSecurityHeaders (Schema.id scan) ;;
         ret (Report {| report_scan := scan;
                        report_scanResults := scanResults;
                        report_vulnerabilities := vulnerabilities;
                        report_sslAnalysis := sslAnalysis;
                        report_securityHeaders := securityHeaders |})
     end)
    (fun error => ret (Failure 500 "Internal server error")).

(** No child record of the store refers to the scan [id]. *)
Definition unreferenced (id : nat) (s : MemStorage) : Prop :=
  List.Forall (fun r => Schema.sr_scanId (Schema.row r) <> id) (scanResults s) /\
  List.Forall (fun r => Schema.v_scanId (Schema.row r) <> id) (vulnerabilities s) /\
  List.Forall (fun r => Schema.ssl_scanId (Schema.row r) <> id) (sslAnalyses s) /\
  List.Forall (fun r => Schema.sh_scanId (Schema.row r) <> id) (securityHeaders s).

End ScanRoute.

(** ** Header values *)

Module Partial.
Import Eff.

(** [Partial<Scan>] as the type has it: any of the seven keys of a scan
    may be named, each with a value of its column, so the nullable
    columns may be named with null.  An absent key is [None]; a key
    named with undefined is not represented. *)
Record Scan : Type := {
  id : option nat;
  url : option string;
  status : option string;
  results : option (option Schema.ScanSummary);
  createdAt : option (option Z);
  completedAt : option (option Z);
  errorMessage : option (option string)
}.

(** [{ ...scan, ...updates }] *)
Definition spread (scan : Schema.Scan) (updates : Scan) : Schema.Scan :=
  {| Schema.id := default (Schema.id scan) (id updates);
     Schema.url := default (Schema.url scan) (url updates);
     Schema.status := default (Schema.status scan) (status updates);
     Schema.results := default (Schema.results scan) (results updates);
     Schema.createdAt := default (Schema.createdAt scan) (createdAt updates);
     Schema.completedAt := default (Schema.completedAt scan) (completedAt updates);
     Schema.errorMessage :=
       default (Schema.errorMessage scan) (errorMessage updates) |}.

(** [updateScan(id, updates)] of [MemStorage], for every [Partial<Scan>]:
    the merged record is stored under the key it was looked up with. *)
Definition updateScan (scanId : nat) (updates : Scan) : M (option Schema.Scan) :=
  scan <- Storage.getScan scanId ;;
  match scan with
  | None => ret None
  | Some scan =>
      let updatedScan := spread scan updates in
      modify (fun w =>
        let s := storage w in
        setStorage
          {| scans := <[scanId := updatedScan]> (scans s);
             scanResults := scanResults s;
             vulnerabilities := vulnerabilities s;
             sslAnalyses := sslAnalyses s;
             securityHeaders := securityHeaders s |} w) ;;;
      match status updates with
      | Some st => record (StatusWritten scanId st)
      | None => ret tt
      end ;;;
      ret (Some updatedScan)
  end.

(** The updates the orchestrator issues name status, results,
    completedAt and errorMessage only, none of them with null. *)
Definition ofUpdates (updates : Schema.ScanUpdates) : Scan :=
  {| id := None;
     url := None;
     status := Schema.new_status updates;
     results := option_map Some (Schema.new_results updates);
     createdAt := None;
     completedAt := option_map Some (Schema.new_completedAt updates);
     errorMessage := option_map Some (Schema.new_errorMessage updates) |}.

End Partial.

Module HeaderValues.

(** The string stored for a header value: the value itself, or the
    values of an array joined. *)
Definition joined (value : Eff.HeaderValue) : string :=
  match value with
  | Eff.Single v => v
  | Eff.Multi values => String.concat ", " values
  end.

End HeaderValues.

(** ** What the provider patterns accept *)

Module ReSem.

(** The strings a pattern matches in whole. *)
Inductive Matches : Cloud.Re -> string -> Prop :=
| MEps : Matches Cloud.ReEps EmptyString
| MChar (c : ascii) : Matches (Cloud.ReChar c) (String c EmptyString)
| MAny (c : ascii) :
    Cloud.lineTerminator c = false -> Matches Cloud.ReAny (String c EmptyString)
| MStarNil (r : Cloud.Re) : Matches (Cloud.ReStar r) EmptyString
| MStarApp (r : Cloud.Re) (s1 s2 : string) :
    Matches r s1 -> Matches (Cloud.ReStar r) s2 ->
    Matches (Cloud.ReStar r) (String.append s1 s2)
| MCat (r1 r2 : Cloud.Re) (s1 s2 : string) :
    Matches r1 s1 -> Matches r2 s2 ->
    Matches (Cloud.ReCat r1 r2) (String.append s1 s2)
| MAltL (r1 r2 : Cloud.Re) (s : string) :
    Matches r1 s -> Matches (Cloud.ReAlt r1 r2) s
| MAltR (r1 r2 : Cloud.Re) (s : string) :
    Matches r2 s -> Matches (Cloud.ReAlt r1 r2) s.

(** [s] ends with [suffix]. *)
Fixpoint endsWith (suffix s : string) : bool :=
  (String.eqb s suffix ||
   match s with
   | String _ rest => endsWith suffix rest
   | EmptyString => false
   end)%bool.

(** The provider table as host name suffixes, in table order. *)
Definition suffixes : list (string * list string) :=
  [ ("aws", [".amazonaws.com"; ".aws.com"; ".elasticbeanstalk.com";
             ".cloudfront.net"]);
    ("azure", [".azure.com"; ".azurewebsites.net"; ".windows.net";
               ".cloudapp.net"; ".azureedge.net"; ".azurecontainer.io"]);
    ("gcp", [".googleapis.com"; ".googleusercontent.com"; ".appspot.com";
             ".cloudfunctions.net"; ".run.app"; ".googlehosted.com"]);
    ("digitalocean", [".digitaloceanspaces.com"; ".ondigitalocean.app";
                      ".do.dev"]);
    ("cloudflare", [".cloudflare.com"; ".workers.dev"; ".pages.dev"]);
    ("vercel", [".vercel.app"; ".now.sh"]);
    ("netlify", [".netlify.app"; ".netlify.com"]) ].

(** The first provider one of whose suffixes ends the host name. *)
Definition providerBySuffix (hostname : string) : option string :=
  option_map fst
    (List.find
       (fun e => List.existsb (fun suffix => endsWith suffix hostname) (snd e))
       suffixes).

End ReSem.

(** ** Cloud analysis entry point *)

Module CloudScan.
Import Eff.

(** An entry of [configurationCheck]. *)
Record ConfigurationCheck : Type := {
  check_id : string;
  check_severity : Cloud.Severity;
  check_title : string;
  check_description : string;
  check_complianceFramework : list string
}.

Record InsertCloudSecurityScan : Type := {
  cs_scanId : nat;
  cloudProvider : string;
  cs_resourceType : string;
  cs_resourceId : string;
  cs_region : option string;
  configurationCheck : list ConfigurationCheck;
  complianceFramework : string;
  cs_findings : list Cloud.CloudSecurityFinding;
  cs_riskLevel : Cloud.Severity;
  remediationSteps : list string;
  cs_score : Z
}.

(** [analyzeCloudSecurity(url, scanId)] against the resolver [dns]. *)
Definition analyzeCloudSecurity (env : Env) (dns : Cloud.Dns) (url : string)
    (scanId : nat) : M (list InsertCloudSecurityScan) :=
  tryCatch
    (parsed <- SslAnalyzer.newURL env url ;;
     let hostname := hostname parsed in
     match Cloud.detectCloudProvider dns hostname with
     | None => ret []
     | Some cloudInfo =>
         let analysis := Cloud.performCloudSecurityAnalysis cloudInfo hostname url in
         ret [ {| cs_scanId := scanId;
                  cloudProvider := Cloud.provider analysis;
                  cs_resourceType := Cloud.resourceType analysis;
                  cs_resourceId := Cloud.resourceId analysis;
                  cs_region :=
                    if JS.truthy_str (Cloud.region analysis)
                    then Cloud.region analysis else None;
                  configurationCheck :=
                    List.map
                      (fun f =>
                         {| check_id := Cloud.id f;
                            check_severity := Cloud.severity f;
                            check_title := Cloud.title f;
                            check_description := Cloud.description f;
                            check_complianceFramework :=
                              match Cloud.complianceFramework f with
                              | Some frameworks => frameworks
                              | None => []
                              end |})
                      (Cloud.findings analysis);
                  complianceFramework := "CIS";
                  cs_findings := Cloud.findings analysis;
                  cs_riskLevel := Cloud.riskLevel analysis;
                  remediationSteps :=
                    List.map Cloud.recommendation (Cloud.findings analysis);
                  cs_score := Cloud.score analysis |} ]
     end)
    (fun error => ret []).

End CloudScan.

(** ** The findings by host name *)

Module CloudTable.

(** The findings listed for a host of [provider], by the substrings of
    the host name: identifier and severity. *)
Definition listed (provider hostname : string)
    : list (string * Cloud.Severity) :=
  if String.eqb provider "aws" then
    if JS.includes hostname "s3" then [("aws-s3-public-access", Cloud.high)]
    else if (JS.includes hostname "elb" ||
             JS.includes hostname "loadbalancer")%bool
         then [("aws-elb-ssl-policy", Cloud.medium)]
    else if JS.includes hostname "rds" then []
    else if JS.includes hostname "cloudfront"
         then [("aws-cloudfront-security-headers", Cloud.medium)]
    else []
  else if String.eqb provider "azure" then
    if JS.includes hostname "azurewebsites"
    then [("azure-webapp-https", Cloud.high);
          ("azure-webapp-managed-identity", Cloud.medium)]
    else if JS.includes hostname "database" then []
    else if JS.includes hostname "storage"
         then [("azure-storage-access", Cloud.high)]
    else []
  else if String.eqb provider "gcp" then
    if JS.includes hostname "storage"
    then [("gcp-storage-bucket-policy", Cloud.high)]
    else if JS.includes hostname "appspot"
         then [("gcp-appengine-security", Cloud.medium)]
    else if JS.includes hostname "cloudfunctions" then []
    else if JS.includes hostname "run.app"
         then [("gcp-cloudrun-auth", Cloud.medium)]
    else []
  else [("cloud-https-enforcement", Cloud.medium);
        ("cloud-access-logging", Cloud.low)].

(** The points the listed findings cost. *)
Definition penalty (l : list (string * Cloud.Severity)) : Z :=
  List.fold_right
    (fun e acc =>
       match snd e with
       | Cloud.critical => 25
       | Cloud.high => 15
       | Cloud.medium => 10
       | Cloud.low => 5
       end + acc)
    0 l.

End CloudTable.

(** * Properties *)

(** ** TLS grading *)

Lemma weakKey_agrees (c : Ssl.CertificateInfo) :
  (JS.truthy_num (Ssl.bits c) &&
   match Ssl.bits c with Some b => b <? 2048 | None => false end)%bool =
  match TlsRules.keySize c with Some k => k <? 2048 | None => false end.
Proof.
  unfold TlsRules.keySize.
  destruct (Ssl.bits c) as [b|]; simpl; [|reflexivity].
  destruct (b =? 0); reflexivity.
Qed.

Lemma sha1_agrees (s : string) :
  (JS.truthy_str (Some s) && JS.includes (JS.toLowerCase s) "sha1")%bool =
  JS.includes (JS.toLowerCase s) "sha1".
Proof. destruct s; reflexivity. Qed.

Lemma calculateSslGrade_rules now c cfg :
  let r := Ssl.calculateSslGrade now c cfg in
  let ds := TlsRules.deductions (TlsRules.triggers now c cfg) in
  Ssl.score r = Z.max 0 (100 - TlsRules.total ds) /\
  Ssl.vulnerabilities r = List.map snd ds /\
  Ssl.grade r = TlsRules.gradeOf (Ssl.score r).
Proof.
  unfold Ssl.calculateSslGrade, TlsRules.deductions, TlsRules.triggers.
  cbn [TlsRules.expired TlsRules.expiresSoon TlsRules.weakKey
       TlsRules.sha1Signature TlsRules.deprecatedTls TlsRules.noTls13].
  rewrite weakKey_agrees, sha1_agrees.
  unfold JS.arr_includes, TlsRules.daysUntilExpiry.
  destruct (Ssl.valid_to c <=? now);
    [|destruct (JS.ceil_div (Ssl.valid_to c - now) Ssl.msPerDay <? 30)];
    destruct (match TlsRules.keySize c with Some k => k <? 2048 | None => false end);
    destruct (JS.includes (JS.toLowerCase (Ssl.sigalg c)) "sha1");
    destruct (List.existsb (String.eqb "TLSv1") (Ssl.supportedProtocols cfg));
    destruct (List.existsb (String.eqb "TLSv1.1") (Ssl.supportedProtocols cfg));
    destruct (List.existsb (String.eqb "TLSv1.3") (Ssl.supportedProtocols cfg));
    vm_compute; repeat split; reflexivity.
Qed.

Lemma scoreOf_antitone (t t' : TlsRules.Triggers) :
  TlsRules.atLeast t t' -> TlsRules.scoreOf t' <= TlsRules.scoreOf t.
Proof.
  destruct t as [a b c d e f], t' as [a' b' c' d' e' f'].
  unfold TlsRules.atLeast; cbn -[Z.le TlsRules.scoreOf].
  intros (Ha & Hb & Hc & Hd & He & Hf).
  destruct a; [rewrite (Ha eq_refl)|clear Ha];
  (destruct b; [rewrite (Hb eq_refl)|clear Hb]);
  (destruct c; [rewrite (Hc eq_refl)|clear Hc]);
  (destruct d; [rewrite (Hd eq_refl)|clear Hd]);
  (destruct e; [rewrite (He eq_refl)|clear He]);
  (destruct f; [rewrite (Hf eq_refl)|clear Hf]);
  repeat match goal with
         | x : bool |- _ => destruct x
         end;
  vm_compute; intro; discriminate.
Qed.

Lemma ceil_div_lt (a b n : Z) :
  0 < b -> (JS.ceil_div a b < n <-> a <= (n - 1) * b).
Proof.
  intros Hb. unfold JS.ceil_div. split; intros H.
  - assert (- n < (- a) / b) by lia.
    assert (Hs : - n + 1 <= (- a) / b) by lia.
    pose proof (Z.mul_div_le (- a) b Hb).
    assert (b * (- n + 1) <= b * ((- a) / b)) by nia.
    nia.
  - assert (Hq : b * (- n + 1) <= - a) by nia.
    apply (Z.div_le_lower_bound (- a) b (- n + 1) Hb) in Hq. lia.
Qed.

(** C1. For every certificate and protocol-support set, the TLS grading
    function starts from 100 and applies exactly the deductions of the
    grading rules (50 expired, else 20 when fewer than 30 days remain;
    30 weak key; 20 SHA-1 signature; 15 TLSv1 or TLSv1.1; 10 no TLSv1.3);
    the score lies in [0,100]; every applied deduction appends its one
    vulnerability string; the grade is the threshold function of the
    returned score; and an input that triggers at least the same
    deductions never scores higher. *)
Theorem tls_grading_rules (now : Z) (c : Ssl.CertificateInfo)
    (cfg : Ssl.SslConfiguration) :
  let r := Ssl.calculateSslGrade now c cfg in
  let t := TlsRules.triggers now c cfg in
  Ssl.score r = TlsRules.scoreOf t /\
  0 <= Ssl.score r <= 100 /\
  Ssl.vulnerabilities r = List.map snd (TlsRules.deductions t) /\
  List.length (Ssl.vulnerabilities r) = List.length (TlsRules.deductions t) /\
  Ssl.grade r = TlsRules.gradeOf (Ssl.score r) /\
  (TlsRules.expiresSoon t = true <->
   Ssl.valid_to c - now <= 29 * Ssl.msPerDay) /\
  (forall now' c' cfg',
     TlsRules.atLeast t (TlsRules.triggers now' c' cfg') ->
     Ssl.score (Ssl.calculateSslGrade now' c' cfg') <= Ssl.score r).
Proof.
  intros r t.
  destruct (calculateSslGrade_rules now c cfg) as (Hs & Hv & Hg).
  fold r in Hs, Hv, Hg. fold t in Hs, Hv.
  assert (Hrange : 0 <= TlsRules.scoreOf t <= 100).
  { unfold TlsRules.scoreOf, TlsRules.deductions.
    destruct (TlsRules.expired t), (TlsRules.expiresSoon t), (TlsRules.weakKey t),
      (TlsRules.sha1Signature t), (TlsRules.deprecatedTls t), (TlsRules.noTls13 t);
      vm_compute; split; discriminate. }
  repeat split.
  - exact Hs.
  - rewrite Hs. apply Hrange.
  - rewrite Hs. apply Hrange.
  - exact Hv.
  - rewrite Hv. apply List.length_map.
  - exact Hg.
  - unfold t; cbn [TlsRules.expiresSoon TlsRules.triggers].
    unfold TlsRules.daysUntilExpiry. intros H.
    apply Z.ltb_lt in H.
    apply ceil_div_lt in H; [exact H | reflexivity].
  - unfold t; cbn [TlsRules.expiresSoon TlsRules.triggers].
    unfold TlsRules.daysUntilExpiry. intros H.
    apply Z.ltb_lt. apply ceil_div_lt; [reflexivity | exact H].
  - intros now' c' cfg' Hle.
    destruct (calculateSslGrade_rules now' c' cfg') as (Hs' & _ & _).
    rewrite Hs', Hs. apply scoreOf_antitone. exact Hle.
Qed.

(** C1, at a weak and at a good certificate: the weak one triggers every
    deduction the good one triggers, and scores no higher. *)
Lemma tls_grading_rules_witness :
  TlsRules.atLeast
    (TlsRules.triggers 0 Samples.goodCert Samples.goodConfig)
    (TlsRules.triggers 0 Samples.weakCert Samples.weakConfig) /\
  Ssl.score (Ssl.calculateSslGrade 0 Samples.weakCert Samples.weakConfig) <=
  Ssl.score (Ssl.calculateSslGrade 0 Samples.goodCert Samples.goodConfig).
Proof.
  assert (H : TlsRules.atLeast
                (TlsRules.triggers 0 Samples.goodCert Samples.goodConfig)
                (TlsRules.triggers 0 Samples.weakCert Samples.weakConfig)).
  { unfold TlsRules.atLeast. vm_compute. repeat split; intros; congruence. }
  split; [exact H|].
  apply (tls_grading_rules 0 Samples.goodCert Samples.goodConfig).
  exact H.
Defined.

(** ** Header scoring *)

Lemma toLowerCase_nonempty (s lit : string) :
  JS.toLowerCase s = lit -> lit <> "" -> s <> "".
Proof. intros H Hl ->. apply Hl. symmetry. exact H. Qed.

Lemma lowerIs_present (o : option string) (lit : string) :
  lit <> "" -> Headers.lowerIs o lit = true -> JS.truthy_str o = true.
Proof.
  intros Hl H. destruct o as [s|]; [|discriminate].
  simpl in *. apply String.eqb_eq in H.
  destruct s; [|reflexivity].
  simpl in H. congruence.
Qed.

Lemma shortMaxAge_year (n : Z) :
  (31536000 <=? n) = true -> Headers.shortMaxAge (Some n) = false.
Proof.
  intros H. apply Z.leb_le in H. unfold Headers.shortMaxAge, JS.truthy_num.
  destruct (Z.eqb_spec n 0); [lia|].
  destruct (Z.ltb_spec n 31536000); [lia|]. reflexivity.
Qed.

Ltac split_andb :=
  repeat match goal with
         | H : (_ && _)%bool = true |- _ =>
             apply andb_prop in H; destruct H
         end.

Ltac flip_negb :=
  repeat match goal with
         | H : negb _ = true |- _ => apply negb_true_iff in H
         end.

Lemma strong_score (a : Headers.SecurityHeadersAnalysis) :
  HeaderRules.maximallyStrong a = true ->
  Headers.calculateSecurityScore a = (100, "A+").
Proof.
  unfold HeaderRules.maximallyStrong, HeaderRules.present. intros H.
  split_andb.
  assert (Hh : forall s, Headers.scoreHsts a s = s).
  { intros s. unfold Headers.scoreHsts.
    destruct (Headers.hsts a) as [h|]; [|discriminate].
    split_andb.
    destruct (Headers.hsts_maxAge h) as [n|]; [|discriminate].
    repeat match goal with
           | Hx : ?b = true |- context [?b] => rewrite Hx
           end.
    rewrite shortMaxAge_year by assumption. reflexivity. }
  assert (Hc : forall s, Headers.scoreCsp a s = s).
  { intros s. unfold Headers.scoreCsp.
    destruct (Headers.csp a) as [c|]; [|discriminate].
    split_andb. flip_negb.
    repeat match goal with
           | Hx : ?b = _ |- context [?b] => rewrite Hx
           end.
    match goal with
    | Hx : (3 <=? ?n) = true |- _ =>
        apply Z.leb_le in Hx; destruct (Z.ltb_spec n 3); [lia|]
    end.
    reflexivity. }
  flip_negb.
  assert (Hcto : JS.truthy_str (Headers.xContentTypeOptions a) = true)
    by (eapply lowerIs_present; [|eassumption]; discriminate).
  assert (Hr : forall s, Headers.scoreReferrerPolicy a s = s).
  { intros s. unfold Headers.scoreReferrerPolicy.
    destruct (Headers.referrerPolicy a) as [p|]; [|discriminate].
    match goal with
    | Hx : JS.truthy_str (Some p) = true |- _ => rewrite Hx
    end.
    unfold Headers.weakPolicies, JS.arr_includes. simpl in *.
    repeat match goal with
           | Hx : ?b = false |- context [?b] => rewrite Hx
           end.
    reflexivity. }
  unfold Headers.calculateSecurityScore.
  rewrite Hh, Hc.
  unfold Headers.scoreXFrameOptions, Headers.scoreXContentTypeOptions,
    Headers.scoreXXSSProtection, Headers.scoreCrossOrigin.
  rewrite Hr.
  repeat match goal with
         | Hx : ?b = _ |- context [?b] => rewrite Hx
         end.
  reflexivity.
Qed.

Lemma bare_score (a : Headers.SecurityHeadersAnalysis) :
  HeaderRules.noSecurityHeaders a = true ->
  Headers.calculateSecurityScore a = (0, "F") /\
  fst (Headers.identifyIssues a) = HeaderRules.nineHeaderNames.
Proof.
  unfold HeaderRules.noSecurityHeaders, HeaderRules.present. intros H.
  split_andb. flip_negb.
  assert (Hh : forall s, Headers.scoreHsts a s = s - 20).
  { intros s. unfold Headers.scoreHsts.
    match goal with Hx : Headers.hstsPresent a = false |- _ =>
      unfold Headers.hstsPresent in Hx end.
    destruct (Headers.hsts a) as [h|]; [|reflexivity].
    match goal with Hx : Headers.hsts_present h = false |- _ => rewrite Hx end.
    reflexivity. }
  assert (Hc : forall s, Headers.scoreCsp a s = s - 25).
  { intros s. unfold Headers.scoreCsp.
    match goal with Hx : Headers.cspPresent a = false |- _ =>
      unfold Headers.cspPresent in Hx end.
    destruct (Headers.csp a) as [c|]; [|reflexivity].
    match goal with Hx : Headers.csp_present c = false |- _ => rewrite Hx end.
    reflexivity. }
  split.
  - unfold Headers.calculateSecurityScore.
    rewrite Hh, Hc.
    unfold Headers.scoreXFrameOptions, Headers.scoreXContentTypeOptions,
      Headers.scoreXXSSProtection, Headers.scoreReferrerPolicy,
      Headers.scoreCrossOrigin.
    repeat match goal with
           | Hx : ?b = false |- context [?b] => rewrite Hx
           end.
    reflexivity.
  - unfold Headers.identifyIssues, Headers.pushIf. cbv zeta. cbn [fst].
    repeat match goal with
           | Hx : ?b = false |- context [?b] => rewrite Hx
           end.
    reflexivity.
Qed.

(** C2. An analysis in which all nine recognized headers are present and
    maximally strong scores 100 and grades A+; an analysis with no
    security header scores 0, grades F, and its missingHeaders list is
    exactly the nine header names. *)
Theorem header_scoring_extremes (a : Headers.SecurityHeadersAnalysis) :
  (HeaderRules.maximallyStrong a = true ->
   Headers.calculateSecurityScore a = (100, "A+")) /\
  (HeaderRules.noSecurityHeaders a = true ->
   Headers.calculateSecurityScore a = (0, "F") /\
   fst (Headers.identifyIssues a) = HeaderRules.nineHeaderNames).
Proof.
  split.
  - intros Hstrong. apply strong_score. exact Hstrong.
  - intros Hbare. destruct (bare_score a Hbare) as [Hscore Hmissing].
    split; [exact Hscore | exact Hmissing].
Qed.

(** C2 at a response with every header at its strongest. *)
Lemma header_scoring_extremes_witness :
  HeaderRules.maximallyStrong
    (HeadersAnalyzer.analyzeHeaders Samples.strongHeaders) = true /\
  Headers.calculateSecurityScore
    (HeadersAnalyzer.analyzeHeaders Samples.strongHeaders) = (100, "A+").
Proof.
  assert (H : HeaderRules.maximallyStrong
                (HeadersAnalyzer.analyzeHeaders Samples.strongHeaders) = true)
    by (vm_compute; reflexivity).
  split; [exact H|].
  apply (header_scoring_extremes
           (HeadersAnalyzer.analyzeHeaders Samples.strongHeaders)).
  exact H.
Defined.

(** Every block of the score subtracts an amount that does not depend on
    the running score, and no more than the points of its section. *)
Lemma scoreHsts_shift a s :
  Headers.scoreHsts a s = s + Headers.scoreHsts a 0 /\
  -20 <= Headers.scoreHsts a 0 <= 0.
Proof.
  unfold Headers.scoreHsts.
  destruct (Headers.hsts a) as [h|]; [|lia].
  destruct (negb (Headers.hsts_present h)); [lia|].
  destruct (Headers.shortMaxAge (Headers.hsts_maxAge h)),
    (negb (JS.truthy_bool (Headers.hsts_includeSubDomains h))),
    (negb (JS.truthy_bool (Headers.hsts_preload h))); cbv zeta; lia.
Qed.

Lemma scoreCsp_shift a s :
  Headers.scoreCsp a s = s + Headers.scoreCsp a 0 /\
  -25 <= Headers.scoreCsp a 0 <= 0.
Proof.
  unfold Headers.scoreCsp.
  destruct (Headers.csp a) as [c|]; [|lia].
  destruct (negb (Headers.csp_present c)); [lia|].
  destruct (JS.truthy_bool (Headers.csp_hasUnsafeInline c)),
    (JS.truthy_bool (Headers.csp_hasUnsafeEval c)),
    (Z.of_nat (List.length (Headers.csp_directives c)) <? 3); cbv zeta; lia.
Qed.

Lemma scoreXContentTypeOptions_shift a s :
  Headers.scoreXContentTypeOptions a s =
    s + Headers.scoreXContentTypeOptions a 0 /\
  -10 <= Headers.scoreXContentTypeOptions a 0 <= 0.
Proof.
  unfold Headers.scoreXContentTypeOptions.
  destruct (_ || _)%bool; lia.
Qed.

Lemma scoreXXSSProtection_shift a s :
  Headers.scoreXXSSProtection a s = s + Headers.scoreXXSSProtection a 0 /\
  -10 <= Headers.scoreXXSSProtection a 0 <= 0.
Proof.
  unfold Headers.scoreXXSSProtection.
  destruct (negb _); [lia|]. destruct (Headers.strictIs _ _); lia.
Qed.

Lemma scoreReferrerPolicy_shift a s :
  Headers.scoreReferrerPolicy a s = s + Headers.scoreReferrerPolicy a 0 /\
  -8 <= Headers.scoreReferrerPolicy a 0 <= 0.
Proof.
  unfold Headers.scoreReferrerPolicy.
  destruct (negb _); [lia|].
  destruct (Headers.referrerPolicy a) as [p|]; [|lia].
  destruct (JS.arr_includes _ _); lia.
Qed.

Lemma scoreCrossOrigin_shift a s :
  Headers.scoreCrossOrigin a s = s + Headers.scoreCrossOrigin a 0 /\
  -12 <= Headers.scoreCrossOrigin a 0 <= 0.
Proof.
  unfold Headers.scoreCrossOrigin.
  destruct (negb (JS.truthy_str (Headers.crossOriginEmbedderPolicy a))),
    (negb (JS.truthy_str (Headers.crossOriginOpenerPolicy a))),
    (negb (JS.truthy_str (Headers.crossOriginResourcePolicy a)));
    cbv zeta; lia.
Qed.

Lemma In_pushIf (c : bool) (x y : string) (l : list string) :
  List.In x (Headers.pushIf c y l) <-> (c = true /\ x = y) \/ List.In x l.
Proof.
  unfold Headers.pushIf. destruct c.
  - rewrite List.in_app_iff. simpl. intuition congruence.
  - intuition congruence.
Qed.

(** The score of an analysis, with the X-Frame-Options block singled out. *)
Lemma score_around_xfo (a : Headers.SecurityHeadersAnalysis) :
  exists before after : Z,
    -45 <= before <= 0 /\ -40 <= after <= 0 /\
    forall v,
      fst (Headers.calculateSecurityScore (HeaderRules.withXFrameOptions v a)) =
      Z.max 0
        (Headers.scoreXFrameOptions (HeaderRules.withXFrameOptions v a)
           (100 + before) + after).
Proof.
  pose proof (scoreHsts_shift a 0) as (_ & Hh).
  pose proof (scoreCsp_shift a 0) as (_ & Hc).
  pose proof (scoreXContentTypeOptions_shift a 0) as (_ & Hx).
  pose proof (scoreXXSSProtection_shift a 0) as (_ & Hs).
  pose proof (scoreReferrerPolicy_shift a 0) as (_ & Hr).
  pose proof (scoreCrossOrigin_shift a 0) as (_ & Ho).
  remember (Headers.scoreHsts a 0) as h0 eqn:Eh.
  remember (Headers.scoreCsp a 0) as c0 eqn:Ec.
  remember (Headers.scoreXContentTypeOptions a 0) as x0 eqn:Ex.
  remember (Headers.scoreXXSSProtection a 0) as s0 eqn:Es.
  remember (Headers.scoreReferrerPolicy a 0) as r0 eqn:Er.
  remember (Headers.scoreCrossOrigin a 0) as o0 eqn:Eo.
  assert (S1 : forall s, Headers.scoreHsts a s = s + h0)
    by (intros s; rewrite Eh; apply scoreHsts_shift).
  assert (S2 : forall s, Headers.scoreCsp a s = s + c0)
    by (intros s; rewrite Ec; apply scoreCsp_shift).
  assert (S3 : forall s, Headers.scoreXContentTypeOptions a s = s + x0)
    by (intros s; rewrite Ex; apply scoreXContentTypeOptions_shift).
  assert (S4 : forall s, Headers.scoreXXSSProtection a s = s + s0)
    by (intros s; rewrite Es; apply scoreXXSSProtection_shift).
  assert (S5 : forall s, Headers.scoreReferrerPolicy a s = s + r0)
    by (intros s; rewrite Er; apply scoreReferrerPolicy_shift).
  assert (S6 : forall s, Headers.scoreCrossOrigin a s = s + o0)
    by (intros s; rewrite Eo; apply scoreCrossOrigin_shift).
  exists (h0 + c0), (x0 + s0 + r0 + o0).
  repeat split; try lia.
  intros v. unfold Headers.calculateSecurityScore. cbv zeta. cbn [fst].
  set (a' := HeaderRules.withXFrameOptions v a).
  change (Headers.scoreHsts a') with (Headers.scoreHsts a).
  change (Headers.scoreCsp a') with (Headers.scoreCsp a).
  change (Headers.scoreXContentTypeOptions a')
    with (Headers.scoreXContentTypeOptions a).
  change (Headers.scoreXXSSProtection a') with (Headers.scoreXXSSProtection a).
  change (Headers.scoreReferrerPolicy a') with (Headers.scoreReferrerPolicy a).
  change (Headers.scoreCrossOrigin a') with (Headers.scoreCrossOrigin a).
  rewrite S6, S5, S4, S3, S2, S1.
  replace (100 + h0 + c0) with (100 + (h0 + c0)) by lia.
  f_equal. lia.
Qed.

Lemma withXFrameOptions_same (a : Headers.SecurityHeadersAnalysis) :
  HeaderRules.withXFrameOptions (Headers.xFrameOptions a) a = a.
Proof. destruct a; reflexivity. Qed.

(** C10. When the X-Frame-Options value is any case variant of ALLOWALL,
    the score carries the 10-point deduction (it is 10 below the score
    of the same response with a sound X-Frame-Options value, and at
    most 90), yet the weakHeaders list names X-Frame-Options only when
    the value is exactly the upper-case ALLOWALL, and the header is not
    listed as missing either. *)
Theorem allowall_scored_not_reported (a : Headers.SecurityHeadersAnalysis)
    (v : string) :
  Headers.xFrameOptions a = Some v ->
  JS.toLowerCase v = "allowall" ->
  (forall w,
     JS.truthy_str (Some w) = true ->
     JS.toLowerCase w <> "allowall" ->
     fst (Headers.calculateSecurityScore a) =
     fst (Headers.calculateSecurityScore
            (HeaderRules.withXFrameOptions (Some w) a)) - 10) /\
  fst (Headers.calculateSecurityScore a) <= 90 /\
  (List.In "X-Frame-Options set to ALLOWALL" (snd (Headers.identifyIssues a)) <->
   v = "ALLOWALL") /\
  ~ List.In "X-Frame-Options" (fst (Headers.identifyIssues a)).
Proof.
  intros Hv Hl.
  assert (Hne : v <> "") by (eapply toLowerCase_nonempty; [eassumption|discriminate]).
  assert (Ht : JS.truthy_str (Some v) = true).
  { simpl. destruct (String.eqb_spec v ""); [contradiction|reflexivity]. }
  destruct (score_around_xfo a) as (before & after & Hb & Ha & Hscore).
  assert (Hself : fst (Headers.calculateSecurityScore a) =
                  Z.max 0 (100 + before - 10 + after)).
  { rewrite <- (withXFrameOptions_same a) at 1. rewrite Hscore, Hv.
    unfold Headers.scoreXFrameOptions. cbn [HeaderRules.withXFrameOptions
      Headers.xFrameOptions]. rewrite Ht. cbn [negb Headers.lowerIs].
    rewrite Hl. reflexivity. }
  repeat split.
  - intros w Hw Hlw. rewrite Hself, Hscore.
    unfold Headers.scoreXFrameOptions. cbn [HeaderRules.withXFrameOptions
      Headers.xFrameOptions]. rewrite Hw. cbn [negb Headers.lowerIs].
    destruct (String.eqb_spec (JS.toLowerCase w) "allowall"); [contradiction|].
    lia.
  - rewrite Hself. lia.
  - unfold Headers.identifyIssues. cbv zeta. cbn [snd].
    rewrite Hv. intros Hin.
    repeat (apply In_pushIf in Hin;
            destruct Hin as [[Hc He]|Hin]; [try discriminate He|]).
    + apply String.eqb_eq. exact Hc.
    + destruct (Headers.csp a) as [c|]; [destruct (Headers.csp_present c)|].
      * repeat (apply In_pushIf in Hin;
                destruct Hin as [[Hc He]|Hin]; [try discriminate He|]).
        contradiction.
      * repeat (apply In_pushIf in Hin;
                destruct Hin as [[Hc He]|Hin]; [try discriminate He|]).
        contradiction.
      * repeat (apply In_pushIf in Hin;
                destruct Hin as [[Hc He]|Hin]; [try discriminate He|]).
        contradiction.
  - intros ->. unfold Headers.identifyIssues. cbv zeta. cbn [snd].
    rewrite Hv. apply In_pushIf. right. apply In_pushIf. left.
    split; reflexivity.
  - unfold Headers.identifyIssues. cbv zeta. cbn [fst].
    rewrite Hv, Ht. intros Hin.
    repeat (apply In_pushIf in Hin;
            destruct Hin as [[Hc He]|Hin]; [try discriminate He; try discriminate Hc|]).
    contradiction.
Qed.

(** C10 at a response whose X-Frame-Options value is in lower case. *)
Lemma allowall_scored_not_reported_witness :
  let a := HeadersAnalyzer.analyzeHeaders Samples.allowallHeaders in
  Headers.xFrameOptions a = Some "allowall" /\
  JS.toLowerCase "allowall" = "allowall" /\
  fst (Headers.calculateSecurityScore a) <= 90 /\
  ~ List.In "X-Frame-Options set to ALLOWALL" (snd (Headers.identifyIssues a)).
Proof.
  intros a.
  assert (Hx : Headers.xFrameOptions a = Some "allowall")
    by (vm_compute; reflexivity).
  assert (Hl : JS.toLowerCase "allowall" = "allowall") by reflexivity.
  destruct (allowall_scored_not_reported a "allowall" Hx Hl)
    as (_ & Hle & Hiff & _).
  split; [exact Hx | split; [exact Hl | split; [exact Hle|]]].
  intros Hin. destruct Hiff as [Hif _].
  pose proof (Hif Hin) as E. discriminate E.
Defined.

(** ** Port prober *)

Lemma settled_stays (port : Z) (events : list Ports.SocketEvent)
    (calls : list Ports.SocketCall) (r : Ports.PortResult) :
  exists calls',
    List.fold_left (fun st ev => Ports.onEvent port ev st) events
      (calls, Ports.Resolved r) = (calls', Ports.Resolved r) /\
    List.filter PortRules.isConnectCall calls' =
    List.filter PortRules.isConnectCall calls.
Proof.
  revert calls. induction events as [|ev events IH]; intros calls.
  - exists calls. split; reflexivity.
  - cbn [List.fold_left].
    destruct ev; cbn [Ports.onEvent Ports.resolve];
      match goal with
      | |- context [List.fold_left _ events (?c, _)] =>
          destruct (IH c) as (calls' & Hf & Hc)
      end;
      exists calls'; (split; [exact Hf|]); rewrite Hc;
      rewrite ?List.filter_app; cbn; rewrite ?List.app_nil_r; reflexivity.
Qed.

Lemma rejected_stays (port : Z) (events : list Ports.SocketEvent)
    (calls : list Ports.SocketCall) (e : JS.Exn) :
  exists calls',
    List.fold_left (fun st ev => Ports.onEvent port ev st) events
      (calls, Ports.Rejected e) = (calls', Ports.Rejected e).
Proof.
  revert calls. induction events as [|ev events IH]; intros calls.
  - exists calls. reflexivity.
  - cbn [List.fold_left].
    destruct ev; cbn [Ports.onEvent Ports.resolve]; apply IH.
Qed.

Lemma validPort_range (port : Z) :
  Ports.validPort port = true <-> 0 <= port <= 65535.
Proof. unfold Ports.validPort. rewrite andb_true_iff, !Z.leb_le. reflexivity. Qed.

Lemma validTimeout_range (timeout : Z) :
  Ports.validTimeout timeout = true <-> 0 <= timeout.
Proof. unfold Ports.validTimeout. apply Z.leb_le. Qed.

(** The ports the orchestrator probes are all valid port numbers. *)
Lemma commonPorts_valid : List.forallb Ports.validPort Routes.commonPorts = true.
Proof. reflexivity. Qed.

Lemma probe_settles (host : string) (port timeout : Z)
    (first : Ports.SocketEvent) (rest : list Ports.SocketEvent) :
  Ports.validPort port = true ->
  Ports.validTimeout timeout = true ->
  exists (calls : list Ports.SocketCall) (r : Ports.PortResult),
    Ports.scanPortOn (first :: rest) host port timeout = (calls, Ports.Resolved r) /\
    Ports.port r = port /\
    Ports.protocol r = "tcp" /\
    Ports.state r = PortRules.classify first /\
    List.In (Ports.state r) ["open"; "closed"; "filtered"] /\
    Ports.service r =
      match first with
      | Ports.EvConnect => Some (Ports.getServiceName port)
      | _ => None
      end /\
    List.filter PortRules.isConnectCall calls = [Ports.Connect port host].
Proof.
  intros Hp Ht. unfold Ports.scanPortOn. rewrite Hp, Ht. cbn [List.fold_left].
  destruct first; cbn [Ports.onEvent Ports.resolve];
    match goal with
    | |- context [List.fold_left _ rest (?c, Ports.Resolved ?r)] =>
        destruct (settled_stays port rest c r) as (calls' & Hf & Hc);
        exists calls', r
    end;
    (split; [exact Hf|]); rewrite Hc; cbn; intuition.
Qed.

(** Outside the ranges the promise is rejected, whatever the socket does
    afterwards. *)
Lemma probe_rejects (host : string) (port timeout : Z)
    (events : list Ports.SocketEvent) :
  (Ports.validPort port && Ports.validTimeout timeout)%bool = false ->
  exists (calls : list Ports.SocketCall) (reason : JS.Exn),
    Ports.scanPortOn events host port timeout = (calls, Ports.Rejected reason).
Proof.
  intros H. unfold Ports.scanPortOn.
  destruct (Ports.validTimeout timeout); [|eauto].
  rewrite andb_true_r in H. rewrite H.
  destruct (rejected_stays port events
              [Ports.SetTimeout timeout; Ports.Connect port host] Ports.badPort)
    as (calls & Hc).
  eauto.
Qed.

(** In the orchestrator the socket's events come from the environment,
    which always has a first one: the probe of a valid port returns a
    resolved promise. *)
Lemma scanPort_run (env : Eff.Env) (host : string) (port : Z) (w : Eff.World) :
  Ports.validPort port = true ->
  exists r w',
    Routes.scanPort env host port w = (Eff.Ok (Ports.Resolved r), w') /\
    Ports.port r = port /\
    List.In (Ports.state r) ["open"; "closed"; "filtered"].
Proof.
  intros Hv. unfold Routes.scanPort.
  destruct (Eff.socketEvents env host port) as [first rest].
  destruct (probe_settles host port Ports.defaultTimeout first rest Hv eq_refl)
    as (calls & r & Hr & Hp & _ & _ & Hin & _).
  unfold Eff.bind, Eff.record, Eff.modify, Eff.ret. cbv beta iota zeta.
  rewrite Hr. exists r. eexists.
  split; [reflexivity|]. split; [exact Hp | exact Hin].
Qed.

(** C3. For every host, every port from 0 to 65535, every timeout that is
    not negative and every sequence of socket events, the promise of a
    probe is resolved (never rejected, never left pending) with one
    result for that port, whose state is open, filtered or closed
    according to the first event being connect, timeout or error; an
    open result carries the service name; the socket is asked to
    connect exactly once; and the probe the orchestrator starts on such
    a port always returns such a resolved promise.  The sixteen ports the
    orchestrator probes and its timeout of 3000 are in these ranges.
    Outside them the promise is rejected, whatever the socket emits. *)
Theorem scanPort_classifies (host : string) (port timeout : Z)
    (first : Ports.SocketEvent) (rest : list Ports.SocketEvent)
    (Hport : 0 <= port <= 65535) (Htimeout : 0 <= timeout) :
  (exists (calls : list Ports.SocketCall) (r : Ports.PortResult),
     Ports.scanPortOn (first :: rest) host port timeout =
       (calls, Ports.Resolved r) /\
     Ports.port r = port /\
     Ports.protocol r = "tcp" /\
     Ports.state r = PortRules.classify first /\
     List.In (Ports.state r) ["open"; "closed"; "filtered"] /\
     Ports.service r =
       match first with
       | Ports.EvConnect => Some (Ports.getServiceName port)
       | _ => None
       end /\
     List.filter PortRules.isConnectCall calls = [Ports.Connect port host]) /\
  (forall (env : Eff.Env) (w : Eff.World),
     exists r w',
       Routes.scanPort env host port w = (Eff.Ok (Ports.Resolved r), w') /\
       Ports.port r = port /\
       List.In (Ports.state r) ["open"; "closed"; "filtered"]) /\
  (List.Forall (fun p => 0 <= p <= 65535) Routes.commonPorts /\
   0 <= Ports.defaultTimeout) /\
  (forall (port' timeout' : Z) (events : list Ports.SocketEvent),
     port' < 0 \/ 65535 < port' \/ timeout' < 0 ->
     exists (calls : list Ports.SocketCall) (reason : JS.Exn),
       Ports.scanPortOn events host port' timeout' =
         (calls, Ports.Rejected reason)).
Proof.
  apply validPort_range in Hport. apply validTimeout_range in Htimeout.
  split; [|split; [|split]].
  - destruct (probe_settles host port timeout first rest Hport Htimeout)
      as (calls & r & Hrun & Hp & Hproto & Hstate & Hin & Hservice & Hconnect).
    exists calls, r. repeat split; assumption.
  - intros env w.
    destruct (scanPort_run env host port w Hport) as (r & w' & Hrun & Hp & Hin).
    exists r, w'. repeat split; assumption.
  - split; [|unfold Ports.defaultTimeout; lia].
    unfold Routes.commonPorts. repeat constructor; lia.
  - intros port' timeout' events Hout. apply probe_rejects.
    apply andb_false_iff.
    destruct Hout as [H | [H | H]].
    + left. unfold Ports.validPort. apply andb_false_iff. left.
      apply Z.leb_gt. exact H.
    + left. unfold Ports.validPort. apply andb_false_iff. right.
      apply Z.leb_gt. exact H.
    + right. unfold Ports.validTimeout. apply Z.leb_gt. exact H.
Qed.

(** C3 at port 443 of example.com, whose socket connects. *)
Lemma scanPort_classifies_witness :
  0 <= 443 <= 65535 /\ 0 <= 3000 /\
  exists calls r,
    Ports.scanPortOn [Ports.EvConnect] "example.com" 443 3000 =
      (calls, Ports.Resolved r) /\
    Ports.state r = "open".
Proof.
  assert (Hp : 0 <= 443 <= 65535) by lia.
  assert (Ht : 0 <= 3000) by lia.
  split; [exact Hp|]. split; [exact Ht|].
  destruct (scanPort_classifies "example.com" 443 3000 Ports.EvConnect [] Hp Ht)
    as ((calls & r & Hrun & _ & _ & Hstate & _) & _).
  exists calls, r. split; [exact Hrun | exact Hstate].
Defined.

(** The probe of port 70000 is rejected, not resolved: [socket.connect]
    throws inside the executor, and awaiting the promise throws in turn. *)
Lemma scanPort_rejects_port_70000 :
  snd (Ports.scanPortOn [Ports.EvConnect] "example.com" 70000 3000) =
    Ports.Rejected Ports.badPort /\
  (forall r : Ports.PortResult,
     snd (Ports.scanPortOn [Ports.EvConnect] "example.com" 70000 3000) <>
     Ports.Resolved r) /\
  (forall env w,
     exists w',
       Routes.scanPort env "example.com" 70000 w =
         (Eff.Ok (Ports.Rejected Ports.badPort), w') /\
       Routes.awaitAll [Ports.Rejected (A := Ports.PortResult) Ports.badPort] w' =
         (Eff.Throw Ports.badPort, w')).
Proof.
  split; [reflexivity|]. split; [intros r H; discriminate H|].
  intros env w. unfold Routes.scanPort.
  destruct (Eff.socketEvents env "example.com" 70000) as [first rest].
  unfold Eff.bind, Eff.record, Eff.modify, Eff.ret. cbv beta iota zeta.
  destruct (rejected_stays 70000 (first :: rest)
              [Ports.SetTimeout Ports.defaultTimeout;
               Ports.Connect 70000 "example.com"] Ports.badPort) as (calls & Hc).
  unfold Ports.scanPortOn.
  change (Ports.validTimeout Ports.defaultTimeout) with true.
  change (Ports.validPort 70000) with false. cbv iota.
  rewrite Hc. eexists. split; reflexivity.
Qed.

(** ** Vulnerability correlator *)

Lemma checkResult_app (acc : list Ports.VulnTemplate) (r : Ports.PortResult) :
  Ports.checkResult acc r =
  acc ++ (if String.eqb (Ports.state r) "open"
          then PortRules.portRules (Ports.port r) else []).
Proof.
  unfold Ports.checkResult, PortRules.portRules.
  destruct (String.eqb (Ports.state r) "open"); [|now rewrite List.app_nil_r].
  destruct (Ports.port r =? 22), (Ports.port r =? 21), (Ports.port r =? 23),
    (JS.num_includes [3306; 5432; 27017; 6379] (Ports.port r));
    cbv zeta; cbn [List.app]; rewrite <- ?List.app_assoc; cbn [List.app];
    rewrite ?List.app_nil_r; reflexivity.
Qed.

Lemma fold_checkResult (rs : list Ports.PortResult) (acc : list Ports.VulnTemplate) :
  List.fold_left Ports.checkResult rs acc =
  acc ++ List.flat_map PortRules.portRules (PortRules.openPorts rs).
Proof.
  revert acc. induction rs as [|r rs IH]; intros acc.
  - cbn. now rewrite List.app_nil_r.
  - cbn [List.fold_left]. rewrite IH, checkResult_app.
    unfold PortRules.openPorts. cbn [List.filter].
    destruct (String.eqb (Ports.state r) "open").
    + cbn [List.map List.flat_map]. now rewrite <- List.app_assoc.
    + now rewrite List.app_nil_r.
Qed.

Lemma analyzeVulnerabilities_by_port (rs : list Ports.PortResult) :
  Ports.analyzeVulnerabilities rs =
  List.flat_map PortRules.portRules (PortRules.openPorts rs).
Proof. unfold Ports.analyzeVulnerabilities. apply fold_checkResult. Qed.

Lemma portRules_no_entry (p : Z) :
  ~ List.In p Ports.ruleTableKeys -> PortRules.portRules p = [].
Proof.
  unfold Ports.ruleTableKeys, PortRules.portRules, JS.num_includes.
  cbn [List.In List.existsb]. intros H.
  repeat match goal with
         | |- context [?a =? ?b] =>
             destruct (Z.eqb_spec a b); [exfalso; apply H; subst; tauto|]
         end.
  reflexivity.
Qed.

(** C4. The correlator is a function of the open port findings alone:
    when the open ports are exactly 21 and 22, in any order and among
    any closed or filtered results, it yields exactly the FTP finding
    (severity high) and the SSH finding (severity medium); reordering
    the input only reorders the output; a port outside the rule table
    yields nothing, so no open port yields no vulnerability. *)
Theorem correlator_table (rs : list Ports.PortResult) :
  (Permutation (PortRules.openPorts rs) [21; 22] ->
   Permutation (Ports.analyzeVulnerabilities rs)
     [Ports.ftpDetected; Ports.sshExposed]) /\
  (Ports.title Ports.ftpDetected = "FTP Service Detected" /\
   Ports.severity Ports.ftpDetected = "high" /\
   Ports.title Ports.sshExposed = "SSH Service Exposed" /\
   Ports.severity Ports.sshExposed = "medium") /\
  (forall rs', Permutation rs rs' ->
     Permutation (Ports.analyzeVulnerabilities rs)
       (Ports.analyzeVulnerabilities rs')) /\
  ((forall p, List.In p (PortRules.openPorts rs) ->
      ~ List.In p Ports.ruleTableKeys) ->
   Ports.analyzeVulnerabilities rs = []) /\
  (PortRules.openPorts rs = [] -> Ports.analyzeVulnerabilities rs = []).
Proof.
  rewrite analyzeVulnerabilities_by_port.
  split; [|split; [|split; [|split]]].
  - intros H. apply (Permutation_flat_map PortRules.portRules) in H. exact H.
  - repeat split; reflexivity.
  - intros rs' H. rewrite analyzeVulnerabilities_by_port.
    apply Permutation_flat_map. unfold PortRules.openPorts.
    apply Permutation_map.
    clear -H. induction H; cbn [List.filter];
      repeat match goal with
             | |- context [String.eqb ?a ?b] => destruct (String.eqb a b)
             end;
      eauto using Permutation, perm_swap.
  - intros H. induction (PortRules.openPorts rs) as [|p ps IH]; [reflexivity|].
    cbn [List.flat_map]. rewrite portRules_no_entry.
    + apply IH. intros q Hq. apply H. now right.
    + apply H. now left.
  - intros ->. reflexivity.
Qed.

(** C4 at a scan with SSH found before FTP and a closed port between. *)
Lemma correlator_table_witness :
  Permutation (PortRules.openPorts Samples.sshAndFtpOpen) [21; 22] /\
  Permutation (Ports.analyzeVulnerabilities Samples.sshAndFtpOpen)
    [Ports.ftpDetected; Ports.sshExposed].
Proof.
  assert (H : Permutation (PortRules.openPorts Samples.sshAndFtpOpen) [21; 22])
    by (vm_compute; apply perm_swap).
  split; [exact H|].
  apply (correlator_table Samples.sshAndFtpOpen). exact H.
Defined.

(** ** Cloud provider detector *)

(** C5. On the host name mybucket.s3.amazonaws.com the provider table
    alone gives provider aws (the first provider of the table, whatever
    the resolver would answer) and resource type storage, and the
    analysis that follows lists a finding with id aws-s3-public-access. *)
Theorem s3_bucket_detection (dns : Cloud.Dns) (url : string) :
  Cloud.matchProviders "mybucket.s3.amazonaws.com" = Some ("aws", "storage") /\
  Cloud.detectCloudProvider dns "mybucket.s3.amazonaws.com" =
    Some ("aws", "storage") /\
  List.map Cloud.name (List.firstn 1 Cloud.CLOUD_PROVIDERS) = ["aws"] /\
  JS.includes "mybucket.s3.amazonaws.com" "s3" = true /\
  Cloud.inferResourceType "mybucket.s3.amazonaws.com" "aws" = "storage" /\
  exists analysis finding,
    Cloud.analyzeHost dns "mybucket.s3.amazonaws.com" url = Some analysis /\
    Cloud.provider analysis = "aws" /\
    Cloud.resourceType analysis = "storage" /\
    List.In finding (Cloud.findings analysis) /\
    Cloud.id finding = "aws-s3-public-access".
Proof.
  assert (Hm : Cloud.matchProviders "mybucket.s3.amazonaws.com" =
               Some ("aws", "storage")) by (vm_compute; reflexivity).
  assert (Hd : Cloud.detectCloudProvider dns "mybucket.s3.amazonaws.com" =
               Some ("aws", "storage"))
    by (unfold Cloud.detectCloudProvider; rewrite Hm; reflexivity).
  split; [exact Hm|]. split; [exact Hd|].
  split; [reflexivity|]. split; [vm_compute; reflexivity|].
  split; [vm_compute; reflexivity|].
  unfold Cloud.analyzeHost. rewrite Hd.
  eexists. eexists. split; [reflexivity|].
  split; [reflexivity|]. split; [reflexivity|].
  split; [vm_compute; left; reflexivity | reflexivity].
Qed.

Lemma countSeverity_cons (s : Cloud.Severity) (f : Cloud.CloudSecurityFinding)
    (l : list Cloud.CloudSecurityFinding) :
  Cloud.countSeverity s (f :: l) =
  (if Cloud.severity_eqb (Cloud.severity f) s then 1 else 0) +
  Cloud.countSeverity s l.
Proof.
  unfold Cloud.countSeverity. cbn [List.filter].
  destruct (Cloud.severity_eqb (Cloud.severity f) s); cbn [List.length]; lia.
Qed.

Lemma countSeverity_nonneg s l : 0 <= Cloud.countSeverity s l.
Proof. unfold Cloud.countSeverity. lia. Qed.

Lemma fold_deductions (l : list Cloud.CloudSecurityFinding) (score : Z) :
  List.fold_left
    (fun score finding =>
       match Cloud.severity finding with
       | Cloud.critical => score - 25
       | Cloud.high => score - 15
       | Cloud.medium => score - 10
       | Cloud.low => score - 5
       end) l score =
  score - 25 * Cloud.countSeverity Cloud.critical l
        - 15 * Cloud.countSeverity Cloud.high l
        - 10 * Cloud.countSeverity Cloud.medium l
        - 5 * Cloud.countSeverity Cloud.low l.
Proof.
  revert score. induction l as [|f l IH]; intros score.
  - unfold Cloud.countSeverity. cbn. lia.
  - cbn [List.fold_left]. rewrite IH, !countSeverity_cons.
    destruct (Cloud.severity f); cbn [Cloud.severity_eqb]; lia.
Qed.

(** C6. For every findings list the cloud score is 100 minus 25 per
    critical, 15 per high, 10 per medium and 5 per low finding, clamped
    below at 0, and the risk level is critical with a critical finding,
    else high with more than two high findings, else medium with a high
    finding or more than three medium findings, else low; the analysis
    reports exactly that score and level for its findings. *)
Theorem cloud_score_and_risk (findings : list Cloud.CloudSecurityFinding) :
  Cloud.scoreFindings findings = CloudRules.scoreOf findings /\
  0 <= Cloud.scoreFindings findings <= 100 /\
  Cloud.overallRiskLevel findings = CloudRules.riskOf findings /\
  forall (cloudInfo : string * string) (hostname url : string),
    let r := Cloud.performCloudSecurityAnalysis cloudInfo hostname url in
    Cloud.score r = CloudRules.scoreOf (Cloud.findings r) /\
    Cloud.riskLevel r = CloudRules.riskOf (Cloud.findings r).
Proof.
  assert (Hs : forall l, Cloud.scoreFindings l = CloudRules.scoreOf l).
  { intros l. unfold Cloud.scoreFindings, CloudRules.scoreOf. cbv zeta.
    now rewrite fold_deductions. }
  assert (Hr : forall l, Cloud.overallRiskLevel l = CloudRules.riskOf l).
  { intros l. unfold Cloud.overallRiskLevel, CloudRules.riskOf. cbv zeta.
    pose proof (countSeverity_nonneg Cloud.critical l).
    pose proof (countSeverity_nonneg Cloud.high l).
    destruct (Z.ltb_spec 0 (Cloud.countSeverity Cloud.critical l)),
      (Z.leb_spec 1 (Cloud.countSeverity Cloud.critical l)); try lia;
      try reflexivity.
    destruct (Z.ltb_spec 0 (Cloud.countSeverity Cloud.high l)),
      (Z.leb_spec 1 (Cloud.countSeverity Cloud.high l)); try lia;
      reflexivity. }
  split; [apply Hs|]. split.
  - rewrite Hs. unfold CloudRules.scoreOf.
    pose proof (countSeverity_nonneg Cloud.critical findings).
    pose proof (countSeverity_nonneg Cloud.high findings).
    pose proof (countSeverity_nonneg Cloud.medium findings).
    pose proof (countSeverity_nonneg Cloud.low findings).
    lia.
  - split; [apply Hr|].
    intros [p t] hostname url r. subst r.
    unfold Cloud.performCloudSecurityAnalysis.
    cbn [Cloud.score Cloud.riskLevel Cloud.findings].
    split; [apply Hs | apply Hr].
Qed.

(** ** The monad: how quiet computations compose *)

Section Quiet.
Import Eff RunRules.

Lemma keeps_refl (w : World) : keeps w w.
Proof.
  unfold keeps. split; [reflexivity|].
  split; [exists []; now rewrite List.app_nil_r|].
  repeat split; exists []; now rewrite List.app_nil_r.
Qed.

Lemma keeps_same (w w' : World) :
  storage w' = storage w -> journal w' = journal w -> keeps w w'.
Proof.
  intros Hs Hj. unfold keeps. rewrite Hs, Hj. apply keeps_refl.
Qed.

Lemma keeps_trans (w1 w2 w3 : World) : keeps w1 w2 -> keeps w2 w3 -> keeps w1 w3.
Proof.
  intros (Hs & (j & Hj & Hq) & (a & Ha) & (b & Hb) & (c & Hc) & (d & Hd))
         (Hs' & (j' & Hj' & Hq') & (a' & Ha') & (b' & Hb') & (c' & Hc') & (d' & Hd')).
  unfold keeps. split; [congruence|].
  split.
  { exists (j ++ j'). split.
    - rewrite Hj', Hj. now rewrite List.app_assoc.
    - rewrite List.forallb_app, Hq, Hq'. reflexivity. }
  split; [exists (a ++ a'); rewrite Ha', Ha; now rewrite List.app_assoc|].
  split; [exists (b ++ b'); rewrite Hb', Hb; now rewrite List.app_assoc|].
  split; [exists (c ++ c'); rewrite Hc', Hc; now rewrite List.app_assoc|].
  exists (d ++ d'); rewrite Hd', Hd; now rewrite List.app_assoc.
Qed.

Lemma quiet_ret {A} (a : A) (Q : A -> Prop) T : Q a -> quiet (ret a) Q T.
Proof. intros H w. cbn. split; [exact H | apply keeps_refl]. Qed.

Lemma quiet_throw {A} (e : JS.Exn) (Q : A -> Prop) (T : JS.Exn -> Prop) :
  T e -> quiet (@throw A e) Q T.
Proof. intros H w. cbn. split; [exact H | apply keeps_refl]. Qed.

Lemma quiet_bind {A B} (c : M A) (k : A -> M B) (Q1 : A -> Prop)
    (Q2 : B -> Prop) (T : JS.Exn -> Prop) :
  quiet c Q1 T -> (forall a, Q1 a -> quiet (k a) Q2 T) ->
  quiet (bind c k) Q2 T.
Proof.
  intros Hc Hk w. unfold bind. specialize (Hc w).
  destruct (c w) as [[a|e|] w1]; [|exact Hc|exact Hc].
  destruct Hc as [Hq Hw]. specialize (Hk a Hq w1).
  destruct (k a w1) as [[b|e|] w2]; [| |exact Hk];
    (split; [apply Hk | eapply keeps_trans; [exact Hw | apply Hk]]).
Qed.

Lemma quiet_tryCatch {A} (body : M A) (handler : JS.Exn -> M A)
    (Q : A -> Prop) (T1 T2 : JS.Exn -> Prop) :
  quiet body Q T1 -> (forall e, T1 e -> quiet (handler e) Q T2) ->
  quiet (tryCatch body handler) Q T2.
Proof.
  intros Hb Hh w. unfold tryCatch. specialize (Hb w).
  destruct (body w) as [[a|e|] w1]; [exact Hb| |exact Hb].
  destruct Hb as [Ht Hw]. specialize (Hh e Ht w1).
  destruct (handler e w1) as [[b|e'|] w2]; [| |exact Hh];
    (split; [apply Hh | eapply keeps_trans; [exact Hw | apply Hh]]).
Qed.

Lemma quiet_weaken {A} (c : M A) (Q Q' : A -> Prop) (T T' : JS.Exn -> Prop) :
  quiet c Q T -> (forall a, Q a -> Q' a) -> (forall e, T e -> T' e) ->
  quiet c Q' T'.
Proof.
  intros Hc HQ HT w. specialize (Hc w).
  destruct (c w) as [[a|e|] w1]; [| |exact Hc];
    (split; [|apply Hc]); [apply HQ | apply HT]; apply Hc.
Qed.

Lemma quiet_forEach {A} (l : list A) (body : A -> M unit) (T : JS.Exn -> Prop) :
  (forall x, quiet (body x) anything T) -> quiet (forEach l body) anything T.
Proof.
  intros Hb. induction l as [|x l IH]; cbn [forEach].
  - apply quiet_ret. exact I.
  - eapply quiet_bind; [apply Hb|]. intros _ _. exact IH.
Qed.

Lemma quiet_record (a : Action) (T : JS.Exn -> Prop) :
  touchesScan a = false -> quiet (record a) anything T.
Proof.
  intros Ha w. cbn. split; [exact I|].
  unfold keeps; cbn. split; [reflexivity|].
  split; [exists [a]; split; [reflexivity | cbn; now rewrite Ha]|].
  repeat split; exists []; now rewrite List.app_nil_r.
Qed.

Lemma quiet_randomUUID (T : JS.Exn -> Prop) : quiet randomUUID anything T.
Proof. intros w. cbn. split; [exact I | now apply keeps_same]. Qed.

Lemma quiet_newDate (env : Env) (T : JS.Exn -> Prop) :
  quiet (newDate env) anything T.
Proof. intros w. cbn. split; [exact I | now apply keeps_same]. Qed.

End Quiet.

(** ** The store and the analyzers are quiet *)

Section QuietSteps.
Import Eff RunRules.

Ltac quiet_add :=
  intros w; cbn; split; [exact I|]; unfold keeps; cbn;
  split; [reflexivity|];
  split; [eexists; split; [reflexivity | reflexivity]|];
  repeat split;
  first [ exists []; now rewrite List.app_nil_r | eexists; reflexivity ].

Lemma quiet_addScanResult r (T : JS.Exn -> Prop) :
  quiet (Storage.addScanResult r) anything T.
Proof. quiet_add. Qed.

Lemma quiet_addVulnerability v (T : JS.Exn -> Prop) :
  quiet (Storage.addVulnerability v) anything T.
Proof. quiet_add. Qed.

Lemma quiet_addSslAnalysis a (T : JS.Exn -> Prop) :
  quiet (Storage.addSslAnalysis a) anything T.
Proof. quiet_add. Qed.

Lemma quiet_addSecurityHeaders h (T : JS.Exn -> Prop) :
  quiet (Storage.addSecurityHeaders h) anything T.
Proof. quiet_add. Qed.

(** One step of the proof that a computation built from [bind],
    [tryCatch], [ret], [throw] and case analysis is quiet. *)
Ltac quiet_step :=
  match goal with
  | |- quiet (bind _ _) _ _ =>
      eapply quiet_bind with (Q1 := anything); [|intros ? _]
  | |- quiet (tryCatch _ _) _ _ =>
      eapply quiet_tryCatch with (T1 := anything); [|intros ? _]
  | |- quiet (ret _) _ _ => apply quiet_ret; exact I
  | |- quiet (throw _) _ _ => apply quiet_throw; exact I
  | |- quiet (newDate _) _ _ => apply quiet_newDate
  | |- quiet (match ?x with _ => _ end) _ _ => destruct x
  end.

Lemma quiet_newURL env url : quiet (SslAnalyzer.newURL env url) anything anything.
Proof. unfold SslAnalyzer.newURL. repeat quiet_step. Qed.

Lemma quiet_getCertificateInfo env h :
  quiet (SslAnalyzer.getCertificateInfo env h) anything anything.
Proof. unfold SslAnalyzer.getCertificateInfo. repeat quiet_step. Qed.

Lemma quiet_testTlsProtocol env h p :
  quiet (SslAnalyzer.testTlsProtocol env h p) anything anything.
Proof. unfold SslAnalyzer.testTlsProtocol. cbv zeta. repeat quiet_step. Qed.

Lemma quiet_getCipherSuites env h (T : JS.Exn -> Prop) :
  quiet (SslAnalyzer.getCipherSuites env h) anything T.
Proof. unfold SslAnalyzer.getCipherSuites. repeat quiet_step. Qed.

Lemma quiet_checkHSTS env h (T : JS.Exn -> Prop) :
  quiet (SslAnalyzer.checkHSTS env h) anything T.
Proof. unfold SslAnalyzer.checkHSTS. repeat quiet_step. Qed.

Lemma quiet_testProtocols env h ps acc (T : JS.Exn -> Prop) :
  quiet (SslAnalyzer.testProtocols env h ps acc) anything T.
Proof.
  revert acc. induction ps as [|p ps IH]; intros acc; cbn [SslAnalyzer.testProtocols].
  - apply quiet_ret. exact I.
  - eapply quiet_bind with (Q1 := anything); [|intros ? _; apply IH].
    eapply quiet_tryCatch with (T1 := anything);
      [|intros ? _; apply quiet_ret; exact I].
    eapply quiet_bind with (Q1 := anything);
      [apply quiet_testTlsProtocol | intros ? _; apply quiet_ret; exact I].
Qed.

Lemma quiet_analyzeSslConfiguration env h (T : JS.Exn -> Prop) :
  quiet (SslAnalyzer.analyzeSslConfiguration env h) anything T.
Proof.
  unfold SslAnalyzer.analyzeSslConfiguration.
  eapply quiet_bind with (Q1 := anything); [apply quiet_testProtocols|intros ? _].
  eapply quiet_bind with (Q1 := anything); [|intros ? _; apply quiet_ret; exact I].
  eapply quiet_tryCatch with (T1 := anything);
    [|intros ? _; apply quiet_ret; exact I].
  eapply quiet_bind with (Q1 := anything);
    [apply quiet_getCipherSuites | intros ? _; apply quiet_ret; exact I].
Qed.

Lemma quiet_analysisSteps env scanId h :
  quiet (SslAnalyzer.analysisSteps env scanId h) anything anything.
Proof.
  unfold SslAnalyzer.analysisSteps.
  eapply quiet_bind with (Q1 := anything);
    [apply quiet_getCertificateInfo|intros ? _].
  eapply quiet_bind with (Q1 := anything);
    [apply quiet_analyzeSslConfiguration|intros ? _].
  eapply quiet_bind with (Q1 := anything); [apply quiet_newDate|intros ? _].
  cbv zeta.
  eapply quiet_bind with (Q1 := anything); [apply quiet_checkHSTS|intros ? _].
  eapply quiet_bind with (Q1 := anything); [apply quiet_newDate|intros ? _].
  apply quiet_ret. exact I.
Qed.

Lemma quiet_analyzeSslCertificate env url scanId :
  quiet (SslAnalyzer.analyzeSslCertificate env url scanId) anything anything.
Proof.
  unfold SslAnalyzer.analyzeSslCertificate.
  eapply quiet_bind with (Q1 := anything); [apply quiet_newURL|intros ? _].
  cbv zeta.
  eapply quiet_tryCatch with (T1 := anything);
    [apply quiet_analysisSteps | intros ? _; apply quiet_ret; exact I].
Qed.

Lemma quiet_fetchSecurityHeaders env url :
  quiet (HeadersAnalyzer.fetchSecurityHeaders env url) anything anything.
Proof.
  unfold HeadersAnalyzer.fetchSecurityHeaders.
  eapply quiet_bind with (Q1 := anything); [apply quiet_newURL|intros ? _].
  cbv zeta. repeat quiet_step.
Qed.

Lemma quiet_analyzeSecurityHeaders env url scanId :
  quiet (HeadersAnalyzer.analyzeSecurityHeaders env url scanId) anything anything.
Proof.
  unfold HeadersAnalyzer.analyzeSecurityHeaders.
  eapply quiet_bind with (Q1 := anything); [apply quiet_newURL|intros ? _].
  cbv zeta.
  eapply quiet_tryCatch with (T1 := anything);
    [|intros ? _; apply quiet_ret; exact I].
  eapply quiet_bind with (Q1 := anything);
    [apply quiet_fetchSecurityHeaders|intros ? _].
  cbv zeta.
  destruct (Headers.calculateSecurityScore _), (Headers.identifyIssues _).
  apply quiet_ret. exact I.
Qed.

(** Every probe is resolved by the time it is awaited. *)
Lemma quiet_scanPort env host port (T : JS.Exn -> Prop) :
  Ports.validPort port = true ->
  quiet (Routes.scanPort env host port) (fun p => isResolved p = true) T.
Proof.
  intros Hv. unfold Routes.scanPort.
  eapply quiet_bind with (Q1 := anything);
    [apply quiet_record; reflexivity | intros ? _].
  destruct (socketEvents env host port) as [first rest].
  apply quiet_ret.
  destruct (probe_settles host port Ports.defaultTimeout first rest Hv eq_refl)
    as (calls & r & Hr & _).
  rewrite Hr. reflexivity.
Qed.

Lemma quiet_startProbes env host ports (T : JS.Exn -> Prop) :
  List.forallb Ports.validPort ports = true ->
  quiet (Routes.startProbes env host ports)
    (fun ps => List.forallb isResolved ps = true) T.
Proof.
  induction ports as [|p ports IH]; cbn [Routes.startProbes List.forallb].
  - intros _. apply quiet_ret. reflexivity.
  - intros Hv. apply andb_prop in Hv. destruct Hv as [Hp Hv].
    eapply quiet_bind; [apply quiet_scanPort; exact Hp|]. intros pr Hpr.
    eapply quiet_bind; [apply IH; exact Hv|]. intros prs Hprs.
    apply quiet_ret. cbn. now rewrite Hpr, Hprs.
Qed.

Lemma quiet_awaitAll {A} (ps : list (Ports.Promise A)) (T : JS.Exn -> Prop) :
  List.forallb isResolved ps = true -> quiet (Routes.awaitAll ps) anything T.
Proof.
  intros H. unfold Routes.awaitAll.
  assert (Hr : Routes.firstRejected ps = None /\
               exists vs, Routes.allResolved ps = Some vs).
  { induction ps as [|p ps IH]; [split; [reflexivity | now exists []]|].
    cbn in H. apply andb_prop in H. destruct H as [Hp Hps].
    destruct p as [|v|e]; try discriminate.
    destruct (IH Hps) as (Hf & vs & Hvs).
    cbn. rewrite Hvs. split; [exact Hf | now exists (v :: vs)]. }
  destruct Hr as (Hf & vs & Hvs). rewrite Hf, Hvs.
  apply quiet_ret. exact I.
Qed.

Lemma quiet_analyses env scanId url results (T : JS.Exn -> Prop) :
  quiet (Routes.analyses env scanId url results) anything T.
Proof.
  unfold Routes.analyses.
  eapply quiet_bind with (Q1 := anything).
  { apply quiet_forEach. intros r. destruct (Routes.isOpen r).
    - eapply quiet_bind with (Q1 := anything);
        [apply quiet_addScanResult | intros ? _; apply quiet_ret; exact I].
    - apply quiet_ret. exact I. }
  intros _ _. cbv zeta.
  eapply quiet_bind with (Q1 := anything).
  { apply quiet_forEach. intros v.
    eapply quiet_bind with (Q1 := anything);
      [apply quiet_addVulnerability | intros ? _; apply quiet_ret; exact I]. }
  intros _ _.
  assert (Hssl : quiet
    (tryCatch
       (analysis <- SslAnalyzer.analyzeSslCertificate env url scanId ;;
        tryCatch (Storage.addSslAnalysis analysis ;;; ret (Some analysis))
          (fun _ => ret (Some analysis)))
       (fun _ => ret None)) anything T).
  { eapply quiet_tryCatch with (T1 := anything);
      [|intros ? _; apply quiet_ret; exact I].
    eapply quiet_bind with (Q1 := anything);
      [apply quiet_analyzeSslCertificate | intros ? _].
    eapply quiet_tryCatch with (T1 := anything);
      [|intros ? _; apply quiet_ret; exact I].
    eapply quiet_bind with (Q1 := anything);
      [apply quiet_addSslAnalysis | intros ? _; apply quiet_ret; exact I]. }
  assert (Hsh : quiet
    (tryCatch
       (analysis <- HeadersAnalyzer.analyzeSecurityHeaders env url scanId ;;
        tryCatch (Storage.addSecurityHeaders analysis ;;; ret (Some analysis))
          (fun _ => ret (Some analysis)))
       (fun _ => ret None)) anything T).
  { eapply quiet_tryCatch with (T1 := anything);
      [|intros ? _; apply quiet_ret; exact I].
    eapply quiet_bind with (Q1 := anything);
      [apply quiet_analyzeSecurityHeaders | intros ? _].
    eapply quiet_tryCatch with (T1 := anything);
      [|intros ? _; apply quiet_ret; exact I].
    eapply quiet_bind with (Q1 := anything);
      [apply quiet_addSecurityHeaders | intros ? _; apply quiet_ret; exact I]. }
  eapply quiet_bind with (Q1 := anything).
  { destruct (List.find _ results); [exact Hssl | apply quiet_ret; exact I]. }
  intros ? _.
  eapply quiet_bind with (Q1 := anything).
  { destruct (List.find _ results); [exact Hsh|].
    destruct (List.find _ results); [exact Hsh | apply quiet_ret; exact I]. }
  intros ? _. apply quiet_ret. exact I.
Qed.

Lemma quiet_stages env scanId url host (T : JS.Exn -> Prop) :
  quiet (Routes.stages env scanId url host) anything T.
Proof.
  unfold Routes.stages.
  eapply quiet_bind; [apply quiet_startProbes; apply commonPorts_valid|].
  intros ps Hps.
  eapply quiet_bind with (Q1 := anything);
    [apply quiet_awaitAll; exact Hps | intros ? _; apply quiet_analyses].
Qed.

End QuietSteps.

(** ** The scan lifecycle *)

Section Run.
Import Eff RunRules Lifecycle.

Lemma bind_ok {A B} (c : M A) (k : A -> M B) w a w1 :
  c w = (Ok a, w1) -> bind c k w = k a w1.
Proof. intros H. unfold bind. now rewrite H. Qed.

Lemma bind_throw {A B} (c : M A) (k : A -> M B) w e w1 :
  c w = (Throw e, w1) -> bind c k w = (Throw e, w1).
Proof. intros H. unfold bind. now rewrite H. Qed.

Lemma tryCatch_ok {A} (c : M A) h w a w1 :
  c w = (Ok a, w1) -> tryCatch c h w = (Ok a, w1).
Proof. intros H. unfold tryCatch. now rewrite H. Qed.

Lemma tryCatch_throw {A} (c : M A) h w e w1 :
  c w = (Throw e, w1) -> tryCatch c h w = h e w1.
Proof. intros H. unfold tryCatch. now rewrite H. Qed.

Lemma updateScan_existing id updates st w sc :
  scans (storage w) !! id = Some sc ->
  Schema.new_status updates = Some st ->
  Storage.updateScan id updates w =
  (Ok (Some (Storage.applyUpdates sc updates)),
   afterUpdate id (Storage.applyUpdates sc updates) st w).
Proof.
  intros Hsc Hst. unfold Storage.updateScan, Storage.getScan, bind, gets.
  rewrite Hsc. cbn. rewrite Hst. reflexivity.
Qed.

Lemma updateScan_missing id updates w :
  scans (storage w) !! id = None ->
  Storage.updateScan id updates w = (Ok None, w).
Proof.
  intros Hsc. unfold Storage.updateScan, Storage.getScan, bind, gets.
  rewrite Hsc. reflexivity.
Qed.

(** The probes are started, and logged, one per port and in order, and
    every promise they return is already resolved. *)
Lemma startProbes_journal env host ports w :
  List.forallb Ports.validPort ports = true ->
  exists ps w1,
    Routes.startProbes env host ports w = (Ok ps, w1) /\
    List.forallb isResolved ps = true /\
    storage w1 = storage w /\
    journal w1 = journal w ++ List.map (ProbeStarted host) ports.
Proof.
  revert w. induction ports as [|p ports IH]; intros w Hv.
  - exists [], w. cbn. rewrite List.app_nil_r. repeat split; reflexivity.
  - cbn [Routes.startProbes]. cbn [List.forallb] in Hv.
    apply andb_prop in Hv. destruct Hv as [Hvp Hv].
    pose proof (quiet_scanPort env host p nothing Hvp w) as Hq.
    assert (Hp : exists pr w0, Routes.scanPort env host p w = (Ok pr, w0) /\
                 isResolved pr = true /\ storage w0 = storage w /\
                 journal w0 = journal w ++ [ProbeStarted host p]).
    { unfold Routes.scanPort in *. unfold bind, record, modify in *. cbn in *.
      destruct (socketEvents env host p) as [first rest]. cbn in *.
      eexists. eexists. split; [reflexivity|].
      split; [apply Hq|]. split; reflexivity. }
    destruct Hp as (pr & w0 & Hrun & Hpr & Hst & Hj).
    destruct (IH w0 Hv) as (ps & w1 & Hrun' & Hps & Hst' & Hj').
    exists (pr :: ps), w1.
    rewrite (bind_ok _ _ _ _ _ Hrun), (bind_ok _ _ _ _ _ Hrun').
    split; [reflexivity|]. split; [cbn; now rewrite Hpr, Hps|].
    split; [congruence|].
    rewrite Hj', Hj. cbn. now rewrite <- List.app_assoc.
Qed.

(** The stages between the status writes always return, keep the world,
    and begin by starting every probe. *)
Lemma stages_run env id url host w :
  exists summary w2 j,
    Routes.stages env id url host w = (Ok summary, w2) /\
    keeps w w2 /\
    journal w2 = journal w ++ List.map (ProbeStarted host) Routes.commonPorts ++ j.
Proof.
  pose proof (quiet_stages env id url host nothing w) as Hq.
  unfold Routes.stages in *.
  destruct (startProbes_journal env host Routes.commonPorts w commonPorts_valid)
    as (ps & w1 & Hrun & Hps & Hst & Hj).
  rewrite (bind_ok _ _ _ _ _ Hrun) in *.
  assert (Hk : quiet (results <- Routes.awaitAll ps ;;
                      Routes.analyses env id url results) anything nothing).
  { eapply quiet_bind with (Q1 := anything);
      [apply quiet_awaitAll; exact Hps | intros ? _; apply quiet_analyses]. }
  specialize (Hk w1).
  destruct ((results <- Routes.awaitAll ps ;; Routes.analyses env id url results) w1)
    as [[summary|e|] w2]; [|destruct Hk as [[] _]|destruct Hk].
  destruct Hk as (_ & Hkeep).
  destruct Hq as (_ & Hkeep0).
  destruct Hkeep as (_ & (j & Hj2 & _) & _).
  exists summary, w2, j. split; [reflexivity|]. split; [exact Hkeep0|].
  rewrite Hj2, Hj. now rewrite <- List.app_assoc.
Qed.

Lemma newDate_run env w :
  exists w1,
    newDate env w = (Ok (clock env (clockReads w)), w1) /\
    storage w1 = storage w /\ journal w1 = journal w.
Proof. eexists. unfold newDate. repeat split; reflexivity. Qed.

Lemma childrenKept_of_keeps id sc st w w1 w2 w3 sc' st' :
  w1 = afterUpdate id sc st w -> keeps w1 w2 ->
  storage w3 = storage w2 ->
  childrenKept w (afterUpdate id sc' st' w3).
Proof.
  intros -> (_ & _ & Ha & Hb & Hc & Hd) Hs.
  unfold childrenKept, afterUpdate in *. cbn in *.
  rewrite Hs. repeat split; assumption.
Qed.

Lemma performScan_parsed env id url u w sc :
  parseURL env url = Some u ->
  scans (storage w) !! id = Some sc ->
  exists w' summary at_ j,
    Routes.pipeline env id url w = (Ok tt, w') /\
    runsTo env id url w w'
      (Storage.applyUpdates (Storage.applyUpdates sc (Routes.statusOnly "running"))
         (completedWith summary at_))
      (List.map (ProbeStarted (hostname u)) Routes.commonPorts ++ j).
Proof.
  intros Hu Hsc.
  set (scr := Storage.applyUpdates sc (Routes.statusOnly "running")).
  set (w1 := afterUpdate id scr "running" w).
  assert (H1 : Storage.updateScan id (Routes.statusOnly "running") w =
               (Ok (Some scr), w1))
    by (apply updateScan_existing; [exact Hsc | reflexivity]).
  destruct (stages_run env id url (hostname u) w1)
    as (summary & w2 & j & Hst & Hkeep & Hj).
  destruct (newDate_run env w2) as (w3 & Hd & Hs3 & Hj3).
  set (at_ := clock env (clockReads w2)) in *.
  set (final := Storage.applyUpdates scr (completedWith summary at_)).
  assert (Hlook : scans (storage w3) !! id = Some scr).
  { rewrite Hs3. destruct Hkeep as (Hs & _). rewrite Hs.
    unfold w1, afterUpdate. cbn. apply lookup_insert_eq. }
  assert (H2 : Storage.updateScan id (completedWith summary at_) w3 =
               (Ok (Some final), afterUpdate id final "completed" w3))
    by (apply updateScan_existing; [exact Hlook | reflexivity]).
  assert (Hp : Routes.pipeline env id url w =
               (Ok tt, afterUpdate id final "completed" w3)).
  { unfold Routes.pipeline. rewrite (bind_ok _ _ _ _ _ H1).
    unfold Routes.pipelineRest.
    unfold SslAnalyzer.newURL. rewrite Hu.
    rewrite (bind_ok _ _ w1 u w1 eq_refl). cbv zeta.
    rewrite (bind_ok _ _ _ _ _ Hst), (bind_ok _ _ _ _ _ Hd).
    fold (completedWith summary at_).
    rewrite (bind_ok _ _ _ _ _ H2). reflexivity. }
  exists (afterUpdate id final "completed" w3), summary, at_, j.
  split; [exact Hp|]. unfold runsTo.
  split; [unfold Routes.performScan; now apply tryCatch_ok|].
  split.
  { cbn. rewrite Hs3. destruct Hkeep as (Hs & _). rewrite Hs.
    unfold w1, afterUpdate. cbn. apply insert_insert_eq. }
  split.
  { cbn. rewrite Hj3, Hj. unfold w1, afterUpdate. cbn.
    rewrite <- !List.app_assoc. reflexivity. }
  split.
  { destruct Hkeep as (_ & (j0 & Hj0 & Hq) & _).
    rewrite Hj in Hj0. apply List.app_inv_head in Hj0. now rewrite Hj0. }
  eapply childrenKept_of_keeps; [reflexivity | exact Hkeep | exact Hs3].
Qed.

Lemma performScan_unparsed env id url w sc :
  parseURL env url = None ->
  scans (storage w) !! id = Some sc ->
  exists w' at_,
    Routes.pipeline env id url w =
      (Throw (JS.JsError "Invalid URL"),
       afterUpdate id
         (Storage.applyUpdates sc (Routes.statusOnly "running")) "running" w) /\
    runsTo env id url w w'
      (Storage.applyUpdates (Storage.applyUpdates sc (Routes.statusOnly "running"))
         (failedWith (JS.JsError "Invalid URL") at_))
      [].
Proof.
  intros Hu Hsc.
  set (scr := Storage.applyUpdates sc (Routes.statusOnly "running")).
  set (w1 := afterUpdate id scr "running" w).
  set (e := JS.JsError "Invalid URL").
  assert (H1 : Storage.updateScan id (Routes.statusOnly "running") w =
               (Ok (Some scr), w1))
    by (apply updateScan_existing; [exact Hsc | reflexivity]).
  assert (Hp : Routes.pipeline env id url w = (Throw e, w1)).
  { unfold Routes.pipeline. rewrite (bind_ok _ _ _ _ _ H1).
    unfold Routes.pipelineRest.
    unfold SslAnalyzer.newURL. rewrite Hu. reflexivity. }
  destruct (newDate_run env w1) as (w3 & Hd & Hs3 & Hj3).
  set (at_ := clock env (clockReads w1)) in *.
  set (final := Storage.applyUpdates scr (failedWith e at_)).
  assert (Hlook : scans (storage w3) !! id = Some scr).
  { rewrite Hs3. unfold w1, afterUpdate. cbn. apply lookup_insert_eq. }
  assert (H2 : Storage.updateScan id (failedWith e at_) w3 =
               (Ok (Some final), afterUpdate id final "failed" w3))
    by (apply updateScan_existing; [exact Hlook | reflexivity]).
  exists (afterUpdate id final "failed" w3), at_.
  split; [exact Hp|]. unfold runsTo.
  split.
  { unfold Routes.performScan. rewrite (tryCatch_throw _ _ _ _ _ Hp).
    unfold Routes.onPipelineError. rewrite (bind_ok _ _ _ _ _ Hd).
    fold (failedWith e at_). rewrite (bind_ok _ _ _ _ _ H2). reflexivity. }
  split.
  { cbn. rewrite Hs3. unfold w1, afterUpdate. cbn. apply insert_insert_eq. }
  split.
  { cbn. rewrite Hj3. unfold w1, afterUpdate. cbn.
    rewrite <- !List.app_assoc. reflexivity. }
  split; [reflexivity|].
  unfold childrenKept, afterUpdate. cbn. rewrite Hs3. unfold w1, afterUpdate. cbn.
  repeat split; exists []; now rewrite List.app_nil_r.
Qed.

(** The rest of a run, from any world that holds the scan, when the URL
    parses: the probes, the analyses, then the write of completed. *)
Lemma performScanRest_parsed env id url u w sc :
  parseURL env url = Some u ->
  scans (storage w) !! id = Some sc ->
  exists w' summary at_ j,
    Routes.performScanRest env id url w = (Ok tt, w') /\
    scans (storage w') =
      <[id := Storage.applyUpdates sc (completedWith summary at_)]>
        (scans (storage w)) /\
    journal w' =
      journal w ++
      (List.map (ProbeStarted (hostname u)) Routes.commonPorts ++ j) ++
      [StatusWritten id "completed"] /\
    List.forallb (fun a => negb (touchesScan a))
      (List.map (ProbeStarted (hostname u)) Routes.commonPorts ++ j) = true /\
    childrenKept w w'.
Proof.
  intros Hu Hsc.
  destruct (stages_run env id url (hostname u) w)
    as (summary & w2 & j & Hst & Hkeep & Hj).
  destruct (newDate_run env w2) as (w3 & Hd & Hs3 & Hj3).
  set (at_ := clock env (clockReads w2)) in *.
  set (final := Storage.applyUpdates sc (completedWith summary at_)).
  assert (Hlook : scans (storage w3) !! id = Some sc).
  { rewrite Hs3. destruct Hkeep as (Hs & _). rewrite Hs. exact Hsc. }
  assert (H2 : Storage.updateScan id (completedWith summary at_) w3 =
               (Ok (Some final), afterUpdate id final "completed" w3))
    by (apply updateScan_existing; [exact Hlook | reflexivity]).
  exists (afterUpdate id final "completed" w3), summary, at_, j.
  split.
  { unfold Routes.performScanRest. apply tryCatch_ok.
    unfold Routes.pipelineRest, SslAnalyzer.newURL. rewrite Hu.
    rewrite (bind_ok _ _ w u w eq_refl). cbv zeta.
    rewrite (bind_ok _ _ _ _ _ Hst), (bind_ok _ _ _ _ _ Hd).
    fold (completedWith summary at_).
    rewrite (bind_ok _ _ _ _ _ H2). reflexivity. }
  split.
  { cbn. rewrite Hs3. destruct Hkeep as (Hs & _). rewrite Hs. reflexivity. }
  split.
  { cbn. rewrite Hj3, Hj. rewrite <- !List.app_assoc. reflexivity. }
  split.
  { destruct Hkeep as (_ & (j0 & Hj0 & Hq) & _).
    rewrite Hj in Hj0. apply List.app_inv_head in Hj0. now rewrite Hj0. }
  destruct Hkeep as (_ & _ & Ha & Hb & Hc & Hd').
  unfold childrenKept, afterUpdate. cbn. rewrite Hs3.
  repeat split; assumption.
Qed.

(** [updateScan] never throws. *)
Lemma updateScan_returns id updates w :
  exists r w1, Storage.updateScan id updates w = (Ok r, w1).
Proof.
  destruct (scans (storage w) !! id) as [sc|] eqn:Hsc.
  - unfold Storage.updateScan, Storage.getScan, bind, gets. rewrite Hsc.
    destruct (Schema.new_status updates); eauto.
  - rewrite (updateScan_missing id updates w Hsc). eauto.
Qed.

(** A run is its start followed by its rest. *)
Lemma performScan_split env id url w :
  Routes.performScan env id url w =
  bind (Routes.performScanStart id)
    (fun _ => Routes.performScanRest env id url) w.
Proof.
  destruct (updateScan_returns id (Routes.statusOnly "running") w)
    as (r & w1 & H).
  unfold Routes.performScan, Routes.pipeline, Routes.performScanStart,
    Routes.performScanRest.
  unfold tryCatch, bind, ret. rewrite H. reflexivity.
Qed.

(** The [catch] block of the orchestrator, for whatever value it is given:
    the scan is written failed, with the message of an [Error] and the
    words Unknown error for anything else, and the time of completion. *)
Lemma onPipelineError_run env id e w sc :
  scans (storage w) !! id = Some sc ->
  exists w' final,
    Routes.onPipelineError env id e w = (Ok tt, w') /\
    scans (storage w') = <[id := final]> (scans (storage w)) /\
    Schema.status final = "failed" /\
    (forall message, e = JS.JsError message ->
                     Schema.errorMessage final = Some message) /\
    (forall value, e = JS.Thrown value ->
                   Schema.errorMessage final = Some "Unknown error") /\
    Schema.completedAt final = Some (clock env (clockReads w)) /\
    Schema.results final = Schema.results sc /\
    journal w' = journal w ++ [StatusWritten id "failed"] /\
    childrenKept w w'.
Proof.
  intros Hsc.
  destruct (newDate_run env w) as (w3 & Hd & Hs3 & Hj3).
  set (at_ := clock env (clockReads w)) in *.
  set (final := Storage.applyUpdates sc (failedWith e at_)).
  assert (Hlook : scans (storage w3) !! id = Some sc)
    by (rewrite Hs3; exact Hsc).
  assert (H2 : Storage.updateScan id (failedWith e at_) w3 =
               (Ok (Some final), afterUpdate id final "failed" w3))
    by (apply updateScan_existing; [exact Hlook | reflexivity]).
  exists (afterUpdate id final "failed" w3), final.
  split.
  { unfold Routes.onPipelineError. rewrite (bind_ok _ _ _ _ _ Hd).
    fold (failedWith e at_). rewrite (bind_ok _ _ _ _ _ H2). reflexivity. }
  split; [cbn; rewrite Hs3; reflexivity|].
  split; [reflexivity|].
  split; [intros message ->; reflexivity|].
  split; [intros value ->; reflexivity|].
  split; [reflexivity|]. split; [reflexivity|].
  split; [cbn; rewrite Hj3; reflexivity|].
  unfold childrenKept, afterUpdate. cbn. rewrite Hs3.
  repeat split; exists []; now rewrite List.app_nil_r.
Qed.

End Run.

(** C9. A request whose url does not parse is answered at once with
    status 400 and the error Invalid URL format, and the world is left
    exactly as it was: no scan record and no child record is created,
    because the check comes before createScan.  A body the schema
    rejects is answered with 400 as well, the store again untouched. *)
Theorem invalid_url_creates_nothing (env : Eff.Env) (w : Eff.World)
    (url : string) :
  (Eff.parseURL env url = None ->
   Routes.postScans env (Some url) w =
     (Eff.Ok (Routes.ErrorStatus 400 "Invalid URL format"), w)) /\
  Routes.postScans env None w =
    (Eff.Ok (Routes.ErrorStatus 400 "Invalid request data"), w).
Proof.
  split.
  - intros H. unfold Routes.postScans, Eff.tryCatch. rewrite H. reflexivity.
  - reflexivity.
Qed.

(** C9 at the request body "not a url". *)
Lemma invalid_url_creates_nothing_witness :
  Eff.parseURL Samples.env "not a url" = None /\
  Routes.postScans Samples.env (Some "not a url") Samples.emptyWorld =
    (Eff.Ok (Routes.ErrorStatus 400 "Invalid URL format"), Samples.emptyWorld).
Proof.
  assert (H : Eff.parseURL Samples.env "not a url" = None) by reflexivity.
  split; [exact H|].
  apply (invalid_url_creates_nothing Samples.env Samples.emptyWorld "not a url").
  exact H.
Defined.

Lemma createScan_pending (env : Eff.Env) (url : string) (w : Eff.World) :
  exists scan w1,
    Storage.createScan env url w = (Eff.Ok scan, w1) /\
    Schema.status scan = "pending" /\
    Schema.completedAt scan = None /\
    Eff.scans (Eff.storage w1) !! Schema.id scan = Some scan /\
    Eff.journal w1 = Eff.journal w ++ [Eff.ScanCreated (Schema.id scan)].
Proof.
  unfold Storage.createScan, Eff.bind, Eff.randomUUID, Eff.newDate,
    Eff.modify, Eff.record, Eff.ret. cbn.
  eexists. eexists. split; [reflexivity|]. cbn.
  repeat split. apply lookup_insert_eq.
Qed.

(** A request with a URL that parses: the scan is answered as pending
    and the store already shows it running; no probe has started. *)
Lemma postScans_accepts (env : Eff.Env) (url : string) (u : Eff.URLRecord)
    (w : Eff.World) :
  Eff.parseURL env url = Some u ->
  exists scan w0 w1,
    Storage.createScan env url w = (Eff.Ok scan, w0) /\
    Routes.postScans env (Some url) w = (Eff.Ok (Routes.Json scan), w1) /\
    Schema.status scan = "pending" /\
    w1 = Lifecycle.afterUpdate (Schema.id scan)
           (Storage.applyUpdates scan (Routes.statusOnly "running")) "running" w0 /\
    Eff.journal w1 =
      Eff.journal w ++
      [Eff.ScanCreated (Schema.id scan);
       Eff.StatusWritten (Schema.id scan) "running"].
Proof.
  intros Hu.
  destruct (createScan_pending env url w)
    as (scan & w0 & Hc & Hst & _ & Hlook & Hj).
  assert (H1 : Storage.updateScan (Schema.id scan) (Routes.statusOnly "running") w0 =
               (Eff.Ok (Some (Storage.applyUpdates scan (Routes.statusOnly "running"))),
                Lifecycle.afterUpdate (Schema.id scan)
                  (Storage.applyUpdates scan (Routes.statusOnly "running"))
                  "running" w0))
    by (apply updateScan_existing; [exact Hlook | reflexivity]).
  eexists scan, w0, _.
  split; [exact Hc|].
  split.
  { unfold Routes.postScans. rewrite Hu.
    apply tryCatch_ok. rewrite (bind_ok _ _ _ _ _ Hc).
    unfold Routes.performScanStart.
    rewrite (bind_ok _ _ _ _ _ (bind_ok _ _ _ _ _ H1)). reflexivity. }
  split; [exact Hst|]. split; [reflexivity|].
  cbn. rewrite Hj. rewrite <- List.app_assoc. reflexivity.
Qed.

(** What the event loop still runs for an accepted request ends with
    the scan completed, from any world that holds the scan. *)
Lemma launched_completes (env : Eff.Env) (url : string) (u : Eff.URLRecord)
    (id : nat) (w : Eff.World) (sc : Schema.Scan) :
  Eff.parseURL env url = Some u ->
  Eff.scans (Eff.storage w) !! id = Some sc ->
  exists w' final between,
    Routes.launched env id url w = (Eff.Ok tt, w') /\
    Eff.scans (Eff.storage w') = <[id := final]> (Eff.scans (Eff.storage w)) /\
    Schema.status final = "completed" /\
    is_Some (Schema.completedAt final) /\
    is_Some (Schema.results final) /\
    Eff.journal w' =
      Eff.journal w ++ between ++ [Eff.StatusWritten id "completed"] /\
    List.forallb (fun a => negb (RunRules.touchesScan a)) between = true /\
    (forall p, List.In p Routes.commonPorts ->
               List.In (Eff.ProbeStarted (Eff.hostname u) p) between) /\
    Lifecycle.childrenKept w w'.
Proof.
  intros Hu Hsc.
  destruct (performScanRest_parsed env id url u w sc Hu Hsc)
    as (w' & summary & at_ & j & Hrun & Hscans & Hj & Hq & Hkept).
  eexists w', _, _.
  split; [unfold Routes.launched; apply tryCatch_ok; exact Hrun|].
  split; [exact Hscans|]. split; [reflexivity|].
  split; [cbn; eauto|]. split; [cbn; eauto|].
  split; [exact Hj|]. split; [exact Hq|].
  split; [|exact Hkept].
  intros p Hin. apply List.in_or_app. left. now apply List.in_map.
Qed.

Lemma run_outcome (env : Eff.Env) (url : string) (w : Eff.World) (id : nat)
    (sc : Schema.Scan) :
  Eff.scans (Eff.storage w) !! id = Some sc ->
  exists w' final between,
    Lifecycle.runsTo env id url w w' final between /\
    RunRules.terminal final /\
    is_Some (Schema.completedAt final) /\
    (forall u p, Eff.parseURL env url = Some u ->
                 List.In p Routes.commonPorts ->
                 List.In (Eff.ProbeStarted (Eff.hostname u) p) between) /\
    match Routes.pipeline env id url w with
    | (Eff.Ok _, w1) =>
        w1 = w' /\ is_Some (Eff.parseURL env url) /\
        Schema.status final = "completed" /\
        is_Some (Schema.results final)
    | (Eff.Throw e, w1) =>
        Schema.status final = "failed" /\
        match e with
        | JS.JsError message => Schema.errorMessage final = Some message
        | JS.Thrown _ => Schema.errorMessage final = Some "Unknown error"
        end /\
        exists sc1, Eff.scans (Eff.storage w1) !! id = Some sc1 /\
                    Schema.status sc1 = "running"
    | (Eff.Never, _) => False
    end /\
    (Eff.parseURL env url = None ->
     Schema.status final = "failed" /\
     Schema.errorMessage final = Some "Invalid URL" /\
     Schema.results final = Schema.results sc) /\
    (Schema.status final = "failed" -> Eff.parseURL env url = None).
Proof.
  intros Hsc. destruct (Eff.parseURL env url) as [u|] eqn:Hu.
  - destruct (performScan_parsed env id url u w sc Hu Hsc)
      as (w' & summary & at_ & j & Hp & Hrun).
    eexists w', _, _. split; [exact Hrun|].
    split; [left; reflexivity|]. split; [cbn; eauto|].
    split.
    { intros u' p Hu' Hin. injection Hu' as <-.
      apply List.in_or_app. left. now apply List.in_map. }
    rewrite Hp.
    split; [repeat split; cbn; eauto|].
    split; [intros H; discriminate H|].
    cbn. intros H. discriminate H.
  - destruct (performScan_unparsed env id url w sc Hu Hsc)
      as (w' & at_ & Hp & Hrun).
    eexists w', _, _. split; [exact Hrun|].
    split; [right; reflexivity|]. split; [cbn; eauto|].
    split; [intros u' p Hu'; discriminate Hu'|].
    rewrite Hp.
    split.
    { split; [reflexivity|]. split; [reflexivity|].
      eexists. split; [cbn; apply lookup_insert_eq | reflexivity]. }
    split; [intros _; repeat split; reflexivity|].
    intros _. reflexivity.
Qed.

(** C8. A scan is created pending.  An accepted request is answered with
    the pending scan while the store already shows it running, the write
    of running being the only thing the launched run has done, before any
    probe; the rest of the launched run, whenever the event loop runs it
    on a store that still holds the scan, starts the probes and ends
    with the scan completed, with completion time and results summary.
    A run of the orchestrator is that start followed by that rest.
    Every run of the orchestrator on an existing scan returns and leaves
    the scan in exactly one of the terminal states: completed, with
    completion time and results summary, when the pipeline returns, and
    failed, with the completion time and with the message of the escaping
    error (Invalid URL when the URL does not parse, the only way the
    pipeline throws; Unknown error for a thrown value that is no Error),
    when it throws.  The run writes running first, before any probe
    starts, and the terminal status last, with no other status write
    between: failed is written over running only.  The child records
    stored before or during the run are all still there afterwards.  The
    catch block alone, for whatever value escapes, writes failed with
    that message and the completion time and keeps results and child
    records. *)
Theorem scan_lifecycle (env : Eff.Env) (url : string) (w : Eff.World) :
  (exists scan w1,
     Storage.createScan env url w = (Eff.Ok scan, w1) /\
     Schema.status scan = "pending" /\
     Schema.completedAt scan = None /\
     Eff.scans (Eff.storage w1) !! Schema.id scan = Some scan /\
     Eff.journal w1 = Eff.journal w ++ [Eff.ScanCreated (Schema.id scan)]) /\
  (forall u : Eff.URLRecord,
     Eff.parseURL env url = Some u ->
     exists scan w1 running,
       Routes.postScans env (Some url) w = (Eff.Ok (Routes.Json scan), w1) /\
       Schema.status scan = "pending" /\
       Eff.scans (Eff.storage w1) !! Schema.id scan = Some running /\
       Schema.status running = "running" /\
       Schema.completedAt running = None /\
       Schema.results running = None /\
       Eff.journal w1 =
         Eff.journal w ++
         [Eff.ScanCreated (Schema.id scan);
          Eff.StatusWritten (Schema.id scan) "running"] /\
       forall (w2 : Eff.World) (sc : Schema.Scan),
         Eff.scans (Eff.storage w2) !! Schema.id scan = Some sc ->
         exists w3 final between,
           Routes.launched env (Schema.id scan) url w2 = (Eff.Ok tt, w3) /\
           Eff.scans (Eff.storage w3) =
             <[Schema.id scan := final]> (Eff.scans (Eff.storage w2)) /\
           Schema.status final = "completed" /\
           is_Some (Schema.completedAt final) /\
           is_Some (Schema.results final) /\
           Eff.journal w3 =
             Eff.journal w2 ++ between ++
             [Eff.StatusWritten (Schema.id scan) "completed"] /\
           List.forallb (fun a => negb (RunRules.touchesScan a)) between = true /\
           (forall p, List.In p Routes.commonPorts ->
                      List.In (Eff.ProbeStarted (Eff.hostname u) p) between) /\
           Lifecycle.childrenKept w2 w3) /\
  (forall id : nat,
     Routes.performScan env id url w =
     Eff.bind (Routes.performScanStart id)
       (fun _ => Routes.performScanRest env id url) w) /\
  (forall (id : nat) (sc : Schema.Scan),
     Eff.scans (Eff.storage w) !! id = Some sc ->
     exists w' final between,
       Lifecycle.runsTo env id url w w' final between /\
       RunRules.terminal final /\
       is_Some (Schema.completedAt final) /\
       (forall u p, Eff.parseURL env url = Some u ->
                    List.In p Routes.commonPorts ->
                    List.In (Eff.ProbeStarted (Eff.hostname u) p) between) /\
       match Routes.pipeline env id url w with
       | (Eff.Ok _, w1) =>
           w1 = w' /\ is_Some (Eff.parseURL env url) /\
           Schema.status final = "completed" /\
           is_Some (Schema.results final)
       | (Eff.Throw e, w1) =>
           Schema.status final = "failed" /\
           match e with
           | JS.JsError message => Schema.errorMessage final = Some message
           | JS.Thrown _ => Schema.errorMessage final = Some "Unknown error"
           end /\
           exists sc1, Eff.scans (Eff.storage w1) !! id = Some sc1 /\
                       Schema.status sc1 = "running"
       | (Eff.Never, _) => False
       end /\
       (Eff.parseURL env url = None ->
        Schema.status final = "failed" /\
        Schema.errorMessage final = Some "Invalid URL" /\
        Schema.results final = Schema.results sc) /\
       (Schema.status final = "failed" -> Eff.parseURL env url = None)) /\
  (forall (id : nat) (sc : Schema.Scan) (e : JS.Exn),
     Eff.scans (Eff.storage w) !! id = Some sc ->
     exists w' final,
       Routes.onPipelineError env id e w = (Eff.Ok tt, w') /\
       Eff.scans (Eff.storage w') = <[id := final]> (Eff.scans (Eff.storage w)) /\
       Schema.status final = "failed" /\
       (forall message, e = JS.JsError message ->
                        Schema.errorMessage final = Some message) /\
       (forall value, e = JS.Thrown value ->
                      Schema.errorMessage final = Some "Unknown error") /\
       Schema.completedAt final = Some (Eff.clock env (Eff.clockReads w)) /\
       Schema.results final = Schema.results sc /\
       Eff.journal w' = Eff.journal w ++ [Eff.StatusWritten id "failed"] /\
       Lifecycle.childrenKept w w').
Proof.
  split; [apply createScan_pending|].
  split.
  { intros u Hu.
    destruct (postScans_accepts env url u w Hu)
      as (scan & w0 & w1 & _ & Hpost & Hst & Hw1 & Hj).
    exists scan, w1, (Storage.applyUpdates scan (Routes.statusOnly "running")).
    split; [exact Hpost|]. split; [exact Hst|].
    split; [rewrite Hw1; cbn; apply lookup_insert_eq|].
    split; [reflexivity|].
    assert (Hc : exists sc' wc, Storage.createScan env url w = (Eff.Ok sc', wc) /\
                   Schema.completedAt sc' = None /\ Schema.results sc' = None).
    { unfold Storage.createScan, Eff.bind, Eff.randomUUID, Eff.newDate,
        Eff.modify, Eff.record, Eff.ret. cbn.
      eexists. eexists. split; [reflexivity|]. split; reflexivity. }
    destruct (postScans_accepts env url u w Hu)
      as (scan' & w0' & w1' & Hcreate & Hpost' & _).
    rewrite Hpost in Hpost'. injection Hpost' as Hscan _.
    destruct Hc as (sc' & wc & Hc & Hcomp & Hres).
    rewrite Hcreate in Hc. injection Hc as Hsc' _. subst scan' sc'.
    split; [cbn; exact Hcomp|]. split; [cbn; exact Hres|].
    split; [exact Hj|].
    intros w2 sc Hsc.
    now apply (launched_completes env url u (Schema.id scan) w2 sc). }
  split; [intros id; apply performScan_split|].
  split; [intros id sc Hsc; now apply (run_outcome env url w id sc)|].
  intros id sc e Hsc. now apply (onPipelineError_run env id e w sc).
Qed.

(** C8 at a freshly created scan, for https://example.com and for a URL
    that does not parse. *)
Lemma scan_lifecycle_witness :
  exists sc,
    Eff.scans (Eff.storage Samples.oneScan) !! 0%nat = Some sc /\
    (exists w' final between,
       Lifecycle.runsTo Samples.env 0 "https://example.com" Samples.oneScan
         w' final between /\
       RunRules.terminal final) /\
    Eff.parseURL Samples.env "not a url" = None /\
    (exists w' final between,
       Lifecycle.runsTo Samples.env 0 "not a url" Samples.oneScan
         w' final between /\
       Schema.status final = "failed" /\
       Schema.errorMessage final = Some "Invalid URL").
Proof.
  assert (H : exists sc,
            Eff.scans (Eff.storage Samples.oneScan) !! 0%nat = Some sc)
    by (vm_compute; eexists; reflexivity).
  assert (Hn : Eff.parseURL Samples.env "not a url" = None) by reflexivity.
  destruct H as [sc H]. exists sc. split; [exact H|].
  split.
  { destruct (scan_lifecycle Samples.env "https://example.com" Samples.oneScan)
      as (_ & _ & _ & Hrun & _).
    destruct (Hrun 0%nat sc H) as (w' & final & between & Hr & Hterm & _).
    exists w', final, between. split; [exact Hr | exact Hterm]. }
  split; [exact Hn|].
  destruct (scan_lifecycle Samples.env "not a url" Samples.oneScan)
    as (_ & _ & _ & Hrun & _).
  destruct (Hrun 0%nat sc H)
    as (w' & final & between & Hr & _ & _ & _ & _ & Hfail & _).
  destruct (Hfail Hn) as (Hst & Hmsg & _).
  exists w', final, between. split; [exact Hr|]. split; [exact Hst | exact Hmsg].
Defined.

(** ** TLS failure is recovered *)

Lemma analysisSteps_ends env scanId h w :
  match SslAnalyzer.analysisSteps env scanId h w with
  | (Eff.Never, _) => False
  | _ => True
  end.
Proof.
  pose proof (quiet_analysisSteps env scanId h w) as H.
  destruct (SslAnalyzer.analysisSteps env scanId h w) as [[a|e|] w1];
    [exact I | exact I | exact H].
Qed.

Lemma analyzeSslCertificate_unfold env url scanId u w :
  Eff.parseURL env url = Some u ->
  SslAnalyzer.analyzeSslCertificate env url scanId w =
  Eff.tryCatch (SslAnalyzer.analysisSteps env scanId (Eff.hostname u))
    (fun _ => Eff.ret (SslAnalyzer.failedAnalysis scanId (Eff.hostname u))) w.
Proof.
  intros Hu. unfold SslAnalyzer.analyzeSslCertificate, SslAnalyzer.newURL.
  rewrite Hu. reflexivity.
Qed.

Lemma analyses_return env scanId url results w :
  exists summary w1,
    Routes.analyses env scanId url results w = (Eff.Ok summary, w1).
Proof.
  pose proof (quiet_analyses env scanId url results RunRules.nothing w) as H.
  destruct (Routes.analyses env scanId url results w) as [[summary|e|] w1].
  - eauto.
  - destruct H as [[] _].
  - destruct H.
Qed.

(** C7. Whatever is thrown inside the TLS analysis of a parsed URL
    (certificate retrieval that errors, times out or finds no
    certificate, or any later step) makes analyzeSslCertificate return,
    not throw, the failed posture: certificateValid false, grade F,
    score 0 and the single vulnerability SSL/TLS connection failed.  The
    analysis then always returns a posture, the scan that called it
    still reaches completed, and nothing thrown by an analyzer leaves
    the analysis stages of the orchestrator. *)
Theorem tls_failure_recovered (env : Eff.Env) (url : string) (scanId : nat)
    (w : Eff.World) :
  (forall u : Eff.URLRecord,
     Eff.parseURL env url = Some u ->
     let failed := SslAnalyzer.failedAnalysis scanId (Eff.hostname u) in
     (forall e w1,
        SslAnalyzer.analysisSteps env scanId (Eff.hostname u) w =
          (Eff.Throw e, w1) ->
        SslAnalyzer.analyzeSslCertificate env url scanId w = (Eff.Ok failed, w1)) /\
     match Eff.certRequest env (Eff.hostname u) with
     | Eff.CertResponse (Some _) => True
     | _ => SslAnalyzer.analyzeSslCertificate env url scanId w = (Eff.Ok failed, w)
     end /\
     (exists posture w1,
        SslAnalyzer.analyzeSslCertificate env url scanId w =
          (Eff.Ok posture, w1)) /\
     (forall sc,
        Eff.scans (Eff.storage w) !! scanId = Some sc ->
        exists w' final between,
          Lifecycle.runsTo env scanId url w w' final between /\
          Schema.status final = "completed")) /\
  (forall hostname,
     let failed := SslAnalyzer.failedAnalysis scanId hostname in
     Schema.certificateValid failed = false /\
     Schema.grade failed = "F" /\
     Schema.score failed = 0 /\
     Schema.vulnerabilities failed = ["SSL/TLS connection failed"]) /\
  (forall results,
     exists summary w1,
       Routes.analyses env scanId url results w = (Eff.Ok summary, w1)).
Proof.
  split; [|split; [intros h; repeat split |
                   intros results; apply analyses_return]].
  intros u Hu failed.
  assert (Hthrow : forall e w1,
    SslAnalyzer.analysisSteps env scanId (Eff.hostname u) w = (Eff.Throw e, w1) ->
    SslAnalyzer.analyzeSslCertificate env url scanId w = (Eff.Ok failed, w1)).
  { intros e w1 H. rewrite (analyzeSslCertificate_unfold _ _ _ _ _ Hu).
    unfold Eff.tryCatch. rewrite H. reflexivity. }
  split; [exact Hthrow|]. split.
  { destruct (Eff.certRequest env (Eff.hostname u)) as [[c|]|e|] eqn:Hc;
      [exact I | | |];
      eapply Hthrow; unfold SslAnalyzer.analysisSteps, Eff.bind,
        SslAnalyzer.getCertificateInfo; rewrite Hc; reflexivity. }
  split.
  { rewrite (analyzeSslCertificate_unfold _ _ _ _ _ Hu). unfold Eff.tryCatch.
    pose proof (analysisSteps_ends env scanId (Eff.hostname u) w) as He.
    destruct (SslAnalyzer.analysisSteps env scanId (Eff.hostname u) w)
      as [[a|e|] w1]; [eauto | eauto | contradiction]. }
  intros sc Hsc.
  destruct (performScan_parsed env scanId url u w sc Hu Hsc)
    as (w' & summary & at_ & j & _ & Hrun).
  eexists w', _, _. split; [exact Hrun | reflexivity].
Qed.

(** C7 at an endpoint whose certificate request times out. *)
Lemma tls_failure_recovered_witness :
  exists u,
    Eff.parseURL Samples.env "https://example.com" = Some u /\
    SslAnalyzer.analyzeSslCertificate Samples.env "https://example.com" 0
      Samples.oneScan =
    (Eff.Ok (SslAnalyzer.failedAnalysis 0 (Eff.hostname u)), Samples.oneScan).
Proof.
  eexists. 
  assert (H : Eff.parseURL Samples.env "https://example.com" =
              Some {| Eff.protocol := "https:"; Eff.hostname := "example.com";
                      Eff.port := ""; Eff.pathname := "/"; Eff.search := "" |})
    by reflexivity.
  split; [exact H|].
  exact (proj1 (proj2 (proj1 (tls_failure_recovered Samples.env
                                "https://example.com" 0 Samples.oneScan)
                         _ H))).
Defined.

(** ** Worked examples *)

(** The weak certificate: every deduction but expiry at its 20 points. *)
Example weak_certificate_grade :
  Ssl.calculateSslGrade 0 Samples.weakCert Samples.weakConfig =
  {| Ssl.grade := "F"; Ssl.score := 5;
     Ssl.vulnerabilities :=
       ["Certificate expires soon (less than 30 days)";
        "Weak key size (less than 2048 bits)";
        "Weak signature algorithm (SHA-1)";
        "Supports deprecated TLS versions";
        "TLS 1.3 not supported"] |}.
Proof. vm_compute. reflexivity. Qed.

(** Every deduction at once goes below zero and is clamped there. *)
Example expired_weak_certificate_clamped :
  Ssl.score
    (Ssl.calculateSslGrade (11 * Ssl.msPerDay) Samples.weakCert Samples.weakConfig)
  = 0.
Proof. vm_compute. reflexivity. Qed.

(** A key size of 0 is no key size: the posture stores none, and the
    grade carries no key deduction. *)
Example zero_key_size_is_absent :
  TlsRules.keySize Samples.zeroBitsCert = None /\
  Ssl.score (Ssl.calculateSslGrade 0 Samples.zeroBitsCert Samples.goodConfig) = 100.
Proof. vm_compute. split; reflexivity. Qed.

(** Twenty-nine days and one millisecond count as thirty days. *)
Example day_count_rounds_up :
  TlsRules.daysUntilExpiry 0 Samples.weakCert = 10 /\
  JS.ceil_div (29 * Ssl.msPerDay + 1) Ssl.msPerDay = 30.
Proof. vm_compute. split; reflexivity. Qed.

(** An X-Frame-Options header with an empty value is a missing header. *)
Example empty_header_is_missing :
  let a := HeadersAnalyzer.analyzeHeaders Samples.emptyFrameOptions in
  Headers.calculateSecurityScore a = (85, "A") /\
  fst (Headers.identifyIssues a) = ["X-Frame-Options"].
Proof. vm_compute. split; reflexivity. Qed.

(** The lower-case ALLOWALL costs ten points and is reported nowhere. *)
Example lower_case_allowall :
  let a := HeadersAnalyzer.analyzeHeaders Samples.allowallHeaders in
  Headers.calculateSecurityScore a = (90, "A") /\
  Headers.identifyIssues a = ([], []).
Proof. vm_compute. split; reflexivity. Qed.

(** A timeout followed by an error stays filtered. *)
Example timeout_then_error :
  snd (Ports.scanPortOn [Ports.EvTimeout; Ports.EvError] "example.com" 80 3000) =
  Ports.Resolved {| Ports.port := 80; Ports.state := "filtered";
                    Ports.service := None; Ports.protocol := "tcp" |}.
Proof. reflexivity. Qed.

(** The secure-protocol names [testTlsProtocol] asks for. *)
Example secure_protocol_names :
  List.map
    (fun protocol =>
       String.append
         (JS.replaceFirst "." "_" (JS.replaceFirst "v" "v1_" protocol)) "_method")
    SslAnalyzer.protocolsToTest =
  ["TLSv1_1_3_method"; "TLSv1_1_2_method"; "TLSv1_1_1_method"; "TLSv1_1_method"].
Proof. vm_compute. reflexivity. Qed.

(** A scan of the sample environment, from the request to the store:
    the world when the handler answers, then the world when the launched
    run has ended. *)
Example sample_scan_completes :
  let answered := Routes.postScans Samples.env (Some "https://example.com")
                    Samples.emptyWorld in
  let ended := Routes.launched Samples.env 0 "https://example.com"
                 (snd answered) in
  Eff.journal (snd answered) =
    [Eff.ScanCreated 0; Eff.StatusWritten 0 "running"] /\
  (Schema.status <$> Eff.scans (Eff.storage (snd answered)) !! 0%nat) =
    Some "running" /\
  Eff.journal (snd ended) =
    [Eff.ScanCreated 0; Eff.StatusWritten 0 "running"] ++
    List.map (Eff.ProbeStarted "example.com") Routes.commonPorts ++
    [Eff.ChildWritten 0 "scanResults"; Eff.ChildWritten 0 "scanResults";
     Eff.ChildWritten 0 "vulnerabilities"; Eff.ChildWritten 0 "sslAnalyses";
     Eff.ChildWritten 0 "securityHeaders"; Eff.StatusWritten 0 "completed"] /\
  (Schema.status <$> Eff.scans (Eff.storage (snd ended)) !! 0%nat) =
    Some "completed".
Proof. vm_compute. repeat split; reflexivity. Qed.

(** The orchestrator called with a URL that does not parse. *)
Example unparsed_url_fails :
  let out := Routes.performScan Samples.env 0 "not a url" Samples.oneScan in
  fst out = Eff.Ok tt /\
  (Schema.status <$> Eff.scans (Eff.storage (snd out)) !! 0%nat) = Some "failed" /\
  (Schema.errorMessage <$> Eff.scans (Eff.storage (snd out)) !! 0%nat) =
    Some (Some "Invalid URL").
Proof. vm_compute. repeat split; reflexivity. Qed.

(** * Further properties of the code *)

(** ** Further properties of the header score *)

Lemma scoreXFrameOptions_shift a s :
  Headers.scoreXFrameOptions a s = s + Headers.scoreXFrameOptions a 0 /\
  -15 <= Headers.scoreXFrameOptions a 0 <= 0.
Proof.
  unfold Headers.scoreXFrameOptions.
  destruct (negb _); [lia|]. destruct (Headers.lowerIs _ _); lia.
Qed.

Lemma score_is_100_minus_deduction (a : Headers.SecurityHeadersAnalysis) :
  0 <= HeaderFacts.deduction a <= 100 /\
  Headers.scoreCrossOrigin a
    (Headers.scoreReferrerPolicy a
       (Headers.scoreXXSSProtection a
          (Headers.scoreXContentTypeOptions a
             (Headers.scoreXFrameOptions a
                (Headers.scoreCsp a (Headers.scoreHsts a 100)))))) =
    100 - HeaderFacts.deduction a /\
  Headers.calculateSecurityScore a =
    (100 - HeaderFacts.deduction a,
     Headers.gradeOf (100 - HeaderFacts.deduction a)).
Proof.
  unfold HeaderFacts.deduction, Headers.calculateSecurityScore. cbv zeta.
  destruct (scoreHsts_shift a 100) as [E1 B1].
  destruct (scoreCsp_shift a (Headers.scoreHsts a 100)) as [E2 B2].
  destruct (scoreXFrameOptions_shift a
              (Headers.scoreCsp a (Headers.scoreHsts a 100))) as [E3 B3].
  destruct (scoreXContentTypeOptions_shift a
              (Headers.scoreXFrameOptions a
                 (Headers.scoreCsp a (Headers.scoreHsts a 100)))) as [E4 B4].
  destruct (scoreXXSSProtection_shift a
              (Headers.scoreXContentTypeOptions a
                 (Headers.scoreXFrameOptions a
                    (Headers.scoreCsp a (Headers.scoreHsts a 100)))))
    as [E5 B5].
  destruct (scoreReferrerPolicy_shift a
              (Headers.scoreXXSSProtection a
                 (Headers.scoreXContentTypeOptions a
                    (Headers.scoreXFrameOptions a
                       (Headers.scoreCsp a (Headers.scoreHsts a 100))))))
    as [E6 B6].
  destruct (scoreCrossOrigin_shift a
              (Headers.scoreReferrerPolicy a
                 (Headers.scoreXXSSProtection a
                    (Headers.scoreXContentTypeOptions a
                       (Headers.scoreXFrameOptions a
                          (Headers.scoreCsp a (Headers.scoreHsts a 100)))))))
    as [E7 B7].
  split; [lia|].
  rewrite E7, E6, E5, E4, E3, E2, E1.
  split; [lia|].
  set (h := Headers.scoreHsts a 0) in *. set (c := Headers.scoreCsp a 0) in *.
  set (x := Headers.scoreXFrameOptions a 0) in *.
  set (t := Headers.scoreXContentTypeOptions a 0) in *.
  set (p := Headers.scoreXXSSProtection a 0) in *.
  set (r := Headers.scoreReferrerPolicy a 0) in *.
  set (o := Headers.scoreCrossOrigin a 0) in *.
  replace (100 - - (h + c + x + t + p + r + o))
    with (100 + h + c + x + t + p + r + o) by lia.
  rewrite Z.max_r by lia. reflexivity.
Qed.

(** X1. The deductions of the header score never exceed 100 in all: the
    score is exactly 100 minus what the sections subtract, it lies in
    [0,100] without the clamp ever acting, and the grade is the
    threshold function of that score. *)
Theorem header_score_never_clamped (a : Headers.SecurityHeadersAnalysis) :
  let raw :=
    Headers.scoreCrossOrigin a
      (Headers.scoreReferrerPolicy a
         (Headers.scoreXXSSProtection a
            (Headers.scoreXContentTypeOptions a
               (Headers.scoreXFrameOptions a
                  (Headers.scoreCsp a (Headers.scoreHsts a 100)))))) in
  0 <= raw <= 100 /\
  raw = 100 - HeaderFacts.deduction a /\
  Headers.calculateSecurityScore a = (raw, Headers.gradeOf raw) /\
  (snd (Headers.calculateSecurityScore a) = "A+" <->
   HeaderFacts.deduction a <= 5).
Proof.
  intros raw.
  destruct (score_is_100_minus_deduction a) as (Hb & Hraw & Hs).
  fold raw in Hraw.
  split; [lia|]. split; [exact Hraw|]. split; [rewrite Hraw; exact Hs|].
  rewrite Hs. cbn [snd]. unfold Headers.gradeOf.
  split.
  - intros Hg.
    destruct (Z.leb_spec 95 (100 - HeaderFacts.deduction a)); [lia|].
    repeat match type of Hg with
           | (if ?c then _ else _) = _ => destruct c; try discriminate Hg
           end.
  - intros Hd.
    destruct (Z.leb_spec 95 (100 - HeaderFacts.deduction a)); [reflexivity|lia].
Qed.

Lemma absent_blocks (a : Headers.SecurityHeadersAnalysis) :
  (if negb (Headers.hstsPresent a) then 20 else 0) <= - Headers.scoreHsts a 0 /\
  (if negb (Headers.cspPresent a) then 25 else 0) <= - Headers.scoreCsp a 0 /\
  (if negb (JS.truthy_str (Headers.xFrameOptions a)) then 15 else 0) <=
    - Headers.scoreXFrameOptions a 0 /\
  (if negb (JS.truthy_str (Headers.xContentTypeOptions a)) then 10 else 0) <=
    - Headers.scoreXContentTypeOptions a 0 /\
  (if negb (JS.truthy_str (Headers.xXSSProtection a)) then 10 else 0) <=
    - Headers.scoreXXSSProtection a 0 /\
  (if negb (JS.truthy_str (Headers.referrerPolicy a)) then 8 else 0) <=
    - Headers.scoreReferrerPolicy a 0 /\
  (if negb (JS.truthy_str (Headers.crossOriginEmbedderPolicy a)) then 4 else 0) +
  (if negb (JS.truthy_str (Headers.crossOriginOpenerPolicy a)) then 4 else 0) +
  (if negb (JS.truthy_str (Headers.crossOriginResourcePolicy a)) then 4 else 0) <=
    - Headers.scoreCrossOrigin a 0.
Proof.
  pose proof (proj2 (scoreHsts_shift a 0)).
  pose proof (proj2 (scoreCsp_shift a 0)).
  pose proof (proj2 (scoreXFrameOptions_shift a 0)).
  pose proof (proj2 (scoreXContentTypeOptions_shift a 0)).
  pose proof (proj2 (scoreXXSSProtection_shift a 0)).
  pose proof (proj2 (scoreReferrerPolicy_shift a 0)).
  repeat split.
  - unfold Headers.hstsPresent, Headers.scoreHsts in *.
    destruct (Headers.hsts a) as [h|]; [|cbn; lia].
    destruct (Headers.hsts_present h); cbn [negb] in *; lia.
  - unfold Headers.cspPresent, Headers.scoreCsp in *.
    destruct (Headers.csp a) as [c|]; [|cbn; lia].
    destruct (Headers.csp_present c); cbn [negb] in *; lia.
  - unfold Headers.scoreXFrameOptions in *.
    destruct (JS.truthy_str (Headers.xFrameOptions a)); cbn [negb] in *; lia.
  - unfold Headers.scoreXContentTypeOptions in *.
    destruct (JS.truthy_str (Headers.xContentTypeOptions a));
      cbn [negb orb] in *; lia.
  - unfold Headers.scoreXXSSProtection in *.
    destruct (JS.truthy_str (Headers.xXSSProtection a)); cbn [negb] in *; lia.
  - unfold Headers.scoreReferrerPolicy in *.
    destruct (JS.truthy_str (Headers.referrerPolicy a)); cbn [negb] in *; lia.
  - unfold Headers.scoreCrossOrigin.
    destruct (JS.truthy_str (Headers.crossOriginEmbedderPolicy a)),
      (JS.truthy_str (Headers.crossOriginOpenerPolicy a)),
      (JS.truthy_str (Headers.crossOriginResourcePolicy a));
      cbn [negb]; cbv zeta; lia.
Qed.

Lemma pushed_names (l : list (string * Z * bool)) (acc : list string) :
  List.fold_left
    (fun acc e => Headers.pushIf (negb (snd e)) (fst (fst e)) acc) l acc =
  acc ++ List.map (fun e => fst (fst e)) (List.filter (fun e => negb (snd e)) l).
Proof.
  revert acc. induction l as [|[[n p] b] l IH]; intros acc.
  - cbn. now rewrite List.app_nil_r.
  - cbn [List.fold_left List.filter snd fst]. rewrite IH.
    unfold Headers.pushIf. destruct b; cbn [negb List.map fst].
    + reflexivity.
    + now rewrite <- List.app_assoc.
Qed.

Lemma points_filter_cons (e : string * Z * bool) (l : list (string * Z * bool)) :
  HeaderFacts.points (List.filter (fun e => negb (snd e)) (e :: l)) =
  (if negb (snd e) then snd (fst e) else 0) +
  HeaderFacts.points (List.filter (fun e => negb (snd e)) l).
Proof.
  cbn [List.filter]. destruct (negb (snd e)); reflexivity.
Qed.

(** X2. The missingHeaders list is the nine header names in their fixed
    order with the present ones left out, a name is listed exactly when
    its header is absent or empty, and every listed header costs the
    full points of its section: the score is at most 100 minus the
    points of the headers reported missing. *)
Theorem missing_headers_cost_full_points (a : Headers.SecurityHeadersAnalysis) :
  fst (Headers.identifyIssues a) =
    List.map (fun e => fst (fst e)) (HeaderFacts.absentOnes a) /\
  List.map (fun e => fst (fst e)) (HeaderFacts.scored a) =
    HeaderRules.nineHeaderNames /\
  (forall name,
     List.In name (fst (Headers.identifyIssues a)) <->
     exists pts, List.In (name, pts, false) (HeaderFacts.scored a)) /\
  HeaderFacts.points (HeaderFacts.absentOnes a) <= HeaderFacts.deduction a /\
  fst (Headers.calculateSecurityScore a) <=
    100 - HeaderFacts.points (HeaderFacts.absentOnes a).
Proof.
  assert (Hlist : fst (Headers.identifyIssues a) =
                  List.map (fun e => fst (fst e)) (HeaderFacts.absentOnes a)).
  { unfold HeaderFacts.absentOnes.
    rewrite <- (List.app_nil_l (List.map _ _)). rewrite <- pushed_names.
    reflexivity. }
  assert (Hpts : HeaderFacts.points (HeaderFacts.absentOnes a) <=
                 HeaderFacts.deduction a).
  { pose proof (absent_blocks a) as (B1 & B2 & B3 & B4 & B5 & B6 & B7).
    unfold HeaderFacts.deduction, HeaderFacts.absentOnes, HeaderFacts.scored.
    rewrite !points_filter_cons. cbn [snd fst List.filter HeaderFacts.points
      List.fold_right]. lia. }
  split; [exact Hlist|]. split; [reflexivity|]. split.
  { intros name. rewrite Hlist. unfold HeaderFacts.absentOnes.
    rewrite List.in_map_iff. split.
    - intros ([[n p] b] & <- & Hin). apply List.filter_In in Hin.
      destruct Hin as [Hin Hb]. cbn in Hb. destruct b; [discriminate|].
      exists p. exact Hin.
    - intros (p & Hin). exists (name, p, false). split; [reflexivity|].
      apply List.filter_In. split; [exact Hin | reflexivity]. }
  split; [exact Hpts|].
  destruct (score_is_100_minus_deduction a) as (_ & _ & Hs).
  rewrite Hs. cbn [fst]. lia.
Qed.

(** ** Further properties of the TLS grade *)

(** X3. In every TLS grade the vulnerabilities list is empty exactly when
    the score is 100, which is exactly when the grade is A+; an expired
    certificate is graded F with a score of at most 50; a weak key or a
    SHA-1 signature rules out A+, A and B. *)
Theorem tls_grade_consequences (now : Z) (c : Ssl.CertificateInfo)
    (cfg : Ssl.SslConfiguration) :
  let r := Ssl.calculateSslGrade now c cfg in
  (Ssl.vulnerabilities r = [] <-> Ssl.score r = 100) /\
  (Ssl.score r = 100 <-> Ssl.grade r = "A+") /\
  (Ssl.valid_to c <= now -> Ssl.grade r = "F" /\ Ssl.score r <= 50) /\
  ((exists k, Ssl.bits c = Some k /\ k <> 0 /\ k < 2048) ->
   Ssl.score r <= 70 /\ List.In (Ssl.grade r) ["C"; "D"; "F"]) /\
  (JS.includes (JS.toLowerCase (Ssl.sigalg c)) "sha1" = true ->
   Ssl.score r <= 80 /\ List.In (Ssl.grade r) ["B"; "C"; "D"; "F"]).
Proof.
  intros r.
  destruct (calculateSslGrade_rules now c cfg) as (Hs & Hv & Hg).
  fold r in Hs, Hv, Hg.
  set (t := TlsRules.triggers now c cfg) in *.
  assert (Hk : (exists k, Ssl.bits c = Some k /\ k <> 0 /\ k < 2048) ->
               TlsRules.weakKey t = true).
  { intros (k & Hb & Hz & Hlt). unfold t. cbn [TlsRules.weakKey TlsRules.triggers].
    unfold TlsRules.keySize. rewrite Hb. cbn [JS.truthy_num].
    destruct (Z.eqb_spec k 0); [contradiction|]. cbn [negb]. now apply Z.ltb_lt. }
  assert (He : Ssl.valid_to c <= now -> TlsRules.expired t = true).
  { intros H. unfold t. cbn [TlsRules.expired TlsRules.triggers].
    now apply Z.leb_le. }
  assert (Hsha : JS.includes (JS.toLowerCase (Ssl.sigalg c)) "sha1" = true ->
                 TlsRules.sha1Signature t = true)
    by (intros H; exact H).
  rewrite Hg, Hv, Hs. clear Hg Hv Hs. clearbody t.
  destruct t as [e s k h d n].
  cbn [TlsRules.weakKey TlsRules.expired TlsRules.sha1Signature] in Hk, He, Hsha.
  destruct e, s, k, h, d, n;
    (split; [vm_compute; split; intros; congruence|]);
    (split; [vm_compute; split; intros; congruence|]);
    (split; [intros H;
             first [ specialize (He H); discriminate He
                   | vm_compute; split; [reflexivity | intros; discriminate] ]|]);
    (split; [intros H;
             first [ specialize (Hk H); discriminate Hk
                   | vm_compute; split; [intros; discriminate | tauto] ]|]);
    intros H;
    first [ specialize (Hsha H); discriminate Hsha
          | vm_compute; split; [intros; discriminate | tauto] ].
Qed.

(** X3 at the sample certificates. *)
Lemma tls_grade_consequences_witness :
  (exists k, Ssl.bits Samples.weakCert = Some k /\ k <> 0 /\ k < 2048) /\
  Ssl.valid_to Samples.weakCert <= 11 * Ssl.msPerDay /\
  Ssl.grade (Ssl.calculateSslGrade (11 * Ssl.msPerDay)
               Samples.weakCert Samples.weakConfig) = "F" /\
  Ssl.score (Ssl.calculateSslGrade 0 Samples.weakCert Samples.weakConfig) <= 70.
Proof.
  assert (Hk : exists k, Ssl.bits Samples.weakCert = Some k /\ k <> 0 /\ k < 2048)
    by (exists 1024; split; [reflexivity | split; [discriminate | reflexivity]]).
  assert (He : Ssl.valid_to Samples.weakCert <= 11 * Ssl.msPerDay)
    by (vm_compute; discriminate).
  split; [exact Hk|]. split; [exact He|]. split.
  - destruct (tls_grade_consequences (11 * Ssl.msPerDay) Samples.weakCert
                Samples.weakConfig) as (_ & _ & Hexp & _).
    exact (proj1 (Hexp He)).
  - destruct (tls_grade_consequences 0 Samples.weakCert Samples.weakConfig)
      as (_ & _ & _ & Hweak & _).
    exact (proj1 (Hweak Hk)).
Defined.

(** ** Further properties of the correlator *)

Lemma portRules_shape (p : Z) :
  (List.length (PortRules.portRules p) <= 1)%nat /\
  List.Forall
    (fun v =>
       (Ports.severity v = "high" \/
        (Ports.severity v = "medium" /\ v = Ports.sshExposed /\ p = 22)) /\
       List.In (Ports.title v)
         ["SSH Service Exposed"; "FTP Service Detected";
          "Telnet Service Exposed"; "Database Service Exposed"])
    (PortRules.portRules p).
Proof.
  unfold PortRules.portRules, JS.num_includes. cbn [List.existsb].
  destruct (Z.eqb_spec p 22); [subst; vm_compute; split; [lia|];
    repeat constructor; tauto|].
  destruct (Z.eqb_spec p 21); [subst; vm_compute; split; [lia|];
    repeat constructor; tauto|].
  destruct (Z.eqb_spec p 23); [subst; vm_compute; split; [lia|];
    repeat constructor; tauto|].
  destruct (_ || _)%bool; cbn; split; try lia; repeat constructor; tauto.
Qed.

(** X4. The correlator yields at most one vulnerability per open port
    finding, so never more vulnerabilities than open ports; every
    vulnerability has severity high, except the SSH one, which is the
    only medium; closed and filtered findings contribute nothing. *)
Theorem correlator_bounds (rs : list Ports.PortResult) :
  (List.length (Ports.analyzeVulnerabilities rs) <=
   List.length (PortRules.openPorts rs))%nat /\
  (List.length (PortRules.openPorts rs) <= List.length rs)%nat /\
  List.Forall
    (fun v =>
       (Ports.severity v = "high" \/
        (Ports.severity v = "medium" /\ v = Ports.sshExposed)) /\
       List.In (Ports.title v)
         ["SSH Service Exposed"; "FTP Service Detected";
          "Telnet Service Exposed"; "Database Service Exposed"])
    (Ports.analyzeVulnerabilities rs) /\
  Ports.analyzeVulnerabilities rs =
    Ports.analyzeVulnerabilities
      (List.filter (fun r => String.eqb (Ports.state r) "open") rs).
Proof.
  rewrite !analyzeVulnerabilities_by_port.
  split; [|split; [|split]].
  - induction (PortRules.openPorts rs) as [|p ps IH]; [cbn; lia|].
    cbn [List.flat_map List.length]. rewrite List.length_app.
    pose proof (proj1 (portRules_shape p)). lia.
  - unfold PortRules.openPorts. rewrite List.length_map.
    apply List.filter_length_le.
  - induction (PortRules.openPorts rs) as [|p ps IH]; [constructor|].
    cbn [List.flat_map]. apply List.Forall_app. split; [|exact IH].
    eapply List.Forall_impl; [|apply (proj2 (portRules_shape p))].
    cbn. intros v [[H|(H1 & H2 & _)] Ht]; split; auto.
  - f_equal. unfold PortRules.openPorts. f_equal.
    induction rs as [|r rs IH]; [reflexivity|].
    cbn [List.filter]. destruct (String.eqb (Ports.state r) "open") eqn:E.
    + cbn [List.filter]. rewrite E. f_equal. exact IH.
    + exact IH.
Qed.

(** ** Further properties of the cloud analysis *)

Lemma performCloudSecurityAnalysis_bounds (cloudInfo : string * string)
    (hostname url : string) :
  let r := Cloud.performCloudSecurityAnalysis cloudInfo hostname url in
  (List.length (Cloud.findings r) <= 2)%nat /\
  Cloud.countSeverity Cloud.critical (Cloud.findings r) = 0 /\
  75 <= Cloud.score r <= 100 /\
  (Cloud.riskLevel r = Cloud.medium \/ Cloud.riskLevel r = Cloud.low) /\
  (Cloud.riskLevel r = Cloud.medium <->
   0 < Cloud.countSeverity Cloud.high (Cloud.findings r)) /\
  Cloud.resourceId r = hostname.
Proof.
  destruct cloudInfo as [p t]. intros r. subst r.
  unfold Cloud.performCloudSecurityAnalysis.
  cbn [Cloud.findings Cloud.score Cloud.riskLevel Cloud.resourceId].
  assert (Hcases :
    forall fs : list Cloud.CloudSecurityFinding,
      List.map Cloud.severity fs = [] \/
      List.map Cloud.severity fs = [Cloud.high] \/
      List.map Cloud.severity fs = [Cloud.medium] \/
      List.map Cloud.severity fs = [Cloud.high; Cloud.medium] \/
      List.map Cloud.severity fs = [Cloud.medium; Cloud.low] ->
      (List.length fs <= 2)%nat /\
      Cloud.countSeverity Cloud.critical fs = 0 /\
      75 <= Cloud.scoreFindings fs <= 100 /\
      (Cloud.overallRiskLevel fs = Cloud.medium \/
       Cloud.overallRiskLevel fs = Cloud.low) /\
      (Cloud.overallRiskLevel fs = Cloud.medium <->
       0 < Cloud.countSeverity Cloud.high fs)).
  { intros fs H.
    assert (Hc : forall s, Cloud.countSeverity s fs =
      Z.of_nat (List.length
        (List.filter (fun x => Cloud.severity_eqb x s) (List.map Cloud.severity fs)))).
    { clear H. intros s. unfold Cloud.countSeverity. f_equal.
      induction fs as [|f fs IH]; [reflexivity|]. cbn [List.map List.filter].
      destruct (Cloud.severity_eqb (Cloud.severity f) s); cbn [List.length];
        rewrite <- IH; reflexivity. }
    assert (Hlen : List.length fs = List.length (List.map Cloud.severity fs))
      by (now rewrite List.length_map).
    pose proof (fold_deductions fs 100) as Hfold.
    unfold Cloud.scoreFindings, Cloud.overallRiskLevel. cbv zeta.
    rewrite Hfold, !Hc, Hlen.
    destruct H as [H|[H|[H|[H|H]]]]; rewrite H; vm_compute;
      repeat split; intros; try discriminate; auto. }
  match goal with
  | |- context [Cloud.scoreFindings ?f] => set (fs := f)
  end.
  cut (List.map Cloud.severity fs = [] \/
       List.map Cloud.severity fs = [Cloud.high] \/
       List.map Cloud.severity fs = [Cloud.medium] \/
       List.map Cloud.severity fs = [Cloud.high; Cloud.medium] \/
       List.map Cloud.severity fs = [Cloud.medium; Cloud.low]).
  { intros H. destruct (Hcases fs H) as (H1 & H2 & H3 & H4 & H5).
    split; [exact H1|]. split; [exact H2|]. split; [exact H3|].
    split; [exact H4|]. split; [exact H5 | reflexivity]. }
  subst fs. clear Hcases.
  cbv zeta.
  destruct (String.eqb p "aws"); [|destruct (String.eqb p "azure");
    [|destruct (String.eqb p "gcp")]].
  - unfold Cloud.analyzeAWSResource. cbv zeta.
    destruct (String.eqb_spec t "storage"); [subst|].
    + destruct (JS.includes hostname "s3"); cbn; tauto.
    + destruct (String.eqb_spec t "cdn"); [subst|].
      * destruct (JS.includes hostname "cloudfront"); cbn; tauto.
      * destruct (String.eqb_spec t "loadbalancer"); cbn; tauto.
  - unfold Cloud.analyzeAzureResource. cbv zeta.
    destruct (String.eqb_spec t "webapp"); [subst; cbn; tauto|].
    destruct (String.eqb_spec t "storage"); cbn; tauto.
  - unfold Cloud.analyzeGCPResource. cbv zeta.
    destruct (String.eqb_spec t "appengine"); [subst; cbn; tauto|].
    destruct (String.eqb_spec t "storage"); [subst; cbn; tauto|].
    destruct (String.eqb_spec t "cloudrun"); cbn; tauto.
  - cbn. tauto.
Qed.

(** X5. Whatever the provider and resource type, a cloud analysis lists
    at most two findings, none of them critical, so its score is at
    least 75 and its risk level is never critical or high: it is medium
    exactly when a finding of severity high is listed, and low otherwise. *)
Theorem cloud_analysis_bounds (cloudInfo : string * string)
    (hostname url : string) :
  let r := Cloud.performCloudSecurityAnalysis cloudInfo hostname url in
  (List.length (Cloud.findings r) <= 2)%nat /\
  Cloud.countSeverity Cloud.critical (Cloud.findings r) = 0 /\
  75 <= Cloud.score r <= 100 /\
  (Cloud.riskLevel r = Cloud.medium \/ Cloud.riskLevel r = Cloud.low) /\
  (Cloud.riskLevel r = Cloud.medium <->
   0 < Cloud.countSeverity Cloud.high (Cloud.findings r)) /\
  Cloud.resourceId r = hostname.
Proof. exact (performCloudSecurityAnalysis_bounds cloudInfo hostname url). Qed.

(** ** Further properties of the TLS configuration probe *)

Lemma testProtocols_filter (env : Eff.Env) (h : string) (ps acc : list string)
    (w : Eff.World) :
  SslAnalyzer.testProtocols env h ps acc w =
  (Eff.Ok (acc ++ List.filter (TlsFacts.handshakeOk env h) ps), w).
Proof.
  revert acc. induction ps as [|p ps IH]; intros acc.
  - cbn. now rewrite List.app_nil_r.
  - cbn [SslAnalyzer.testProtocols List.filter].
    unfold Eff.bind at 1. unfold Eff.tryCatch, Eff.bind at 1.
    unfold SslAnalyzer.testTlsProtocol, TlsFacts.handshakeOk.
    destruct (Eff.tlsConnect env h _); cbn; rewrite IH;
      rewrite <- ?List.app_assoc; reflexivity.
Qed.

Lemma analyzeSslConfiguration_run (env : Eff.Env) (h : string) (w : Eff.World) :
  SslAnalyzer.analyzeSslConfiguration env h w =
  (Eff.Ok {| Ssl.supportedProtocols :=
               List.filter (TlsFacts.handshakeOk env h) SslAnalyzer.protocolsToTest;
             Ssl.supportedCiphers := TlsFacts.negotiated env h |}, w).
Proof.
  unfold SslAnalyzer.analyzeSslConfiguration.
  rewrite (bind_ok _ _ _ _ _ (testProtocols_filter env h _ [] w)).
  unfold Eff.bind, Eff.tryCatch, SslAnalyzer.getCipherSuites, TlsFacts.negotiated.
  destruct (Eff.cipherConnect env h) as [[c|]| |]; reflexivity.
Qed.

(** X6. The configuration probe never throws and never hangs, whatever
    the four handshakes and the cipher connection do (a tls.connect that
    throws counts as an unsupported protocol), and leaves the world as it
    was.  The protocols it reports are exactly the tested ones whose
    handshake ended in secureConnect, in the order TLS 1.3, 1.2, 1.1,
    1.0 and without repetition; the cipher list holds the one negotiated
    cipher name or nothing. *)
Theorem tls_configuration_probe (env : Eff.Env) (hostname : string)
    (w : Eff.World) :
  exists cfg,
    SslAnalyzer.analyzeSslConfiguration env hostname w = (Eff.Ok cfg, w) /\
    Ssl.supportedProtocols cfg =
      List.filter (TlsFacts.handshakeOk env hostname) SslAnalyzer.protocolsToTest /\
    (forall p, List.In p (Ssl.supportedProtocols cfg) <->
               List.In p ["TLSv1.3"; "TLSv1.2"; "TLSv1.1"; "TLSv1"] /\
               Eff.tlsConnect env hostname
                 (String.append
                    (JS.replaceFirst "." "_" (JS.replaceFirst "v" "v1_" p))
                    "_method") = Eff.TlsSecureConnect) /\
    List.NoDup (Ssl.supportedProtocols cfg) /\
    Ssl.supportedCiphers cfg = TlsFacts.negotiated env hostname /\
    (List.length (Ssl.supportedCiphers cfg) <= 1)%nat /\
    (forall name, List.In name (Ssl.supportedCiphers cfg) <->
                  Eff.cipherConnect env hostname =
                    Eff.CipherSecureConnect (Some name)).
Proof.
  eexists. split; [apply analyzeSslConfiguration_run|].
  cbn [Ssl.supportedProtocols Ssl.supportedCiphers].
  split; [reflexivity|]. split.
  { intros p. rewrite List.filter_In. unfold TlsFacts.handshakeOk.
    change SslAnalyzer.protocolsToTest
      with ["TLSv1.3"; "TLSv1.2"; "TLSv1.1"; "TLSv1"].
    split; intros [Hin H]; (split; [exact Hin|]).
    - destruct (Eff.tlsConnect env hostname _); try discriminate; reflexivity.
    - now rewrite H. }
  split.
  { apply List.NoDup_filter. unfold SslAnalyzer.protocolsToTest.
    repeat constructor; cbn; intuition discriminate. }
  split; [reflexivity|].
  unfold TlsFacts.negotiated.
  destruct (Eff.cipherConnect env hostname) as [[c|]| |]; cbn.
  - split; [lia|]. intros name. split.
    + intros [->|[]]. reflexivity.
    + intros [= ->]. now left.
  - split; [lia|]. intros name. split; [intros [] | discriminate].
  - split; [lia|]. intros name. split; [intros [] | discriminate].
  - split; [lia|]. intros name. split; [intros [] | discriminate].
Qed.

(** ** Further properties of the store *)

Lemma spread_idem (scan : Schema.Scan) (updates : Partial.Scan) :
  Partial.spread (Partial.spread scan updates) updates =
  Partial.spread scan updates.
Proof.
  unfold Partial.spread. cbn.
  destruct (Partial.id updates), (Partial.url updates), (Partial.status updates),
    (Partial.results updates), (Partial.createdAt updates),
    (Partial.completedAt updates), (Partial.errorMessage updates); reflexivity.
Qed.

Lemma spread_ofUpdates (scan : Schema.Scan) (updates : Schema.ScanUpdates) :
  Partial.spread scan (Partial.ofUpdates updates) =
  Storage.applyUpdates scan updates.
Proof.
  unfold Partial.spread, Storage.applyUpdates, Partial.ofUpdates. cbn.
  destruct (Schema.new_status updates), (Schema.new_results updates),
    (Schema.new_completedAt updates), (Schema.new_errorMessage updates);
    reflexivity.
Qed.

Lemma updateScan_ofUpdates (id : nat) (updates : Schema.ScanUpdates)
    (w : Eff.World) :
  Partial.updateScan id (Partial.ofUpdates updates) w =
  Storage.updateScan id updates w.
Proof.
  unfold Partial.updateScan, Storage.updateScan, Storage.getScan, Eff.bind,
    Eff.gets.
  destruct (Eff.scans (Eff.storage w) !! id) as [old|]; [|reflexivity].
  rewrite spread_ofUpdates. reflexivity.
Qed.

(** X7. updateScan never creates a scan and never touches another one:
    on an unknown id it answers undefined and changes nothing at all; on
    a known id it answers the merged record, which getScan then returns:
    every key the update names, the identifier, the url and the creation
    time among them, takes the update's value, null included, and every
    other key keeps the stored one.  The merged record stays under the
    key it was looked up with, also when the update names another
    identifier.  The set of stored keys, the child tables, the
    identifiers drawn and the clock are as before, and repeating the same
    update changes no record.  The updates the orchestrator issues name
    neither identifier, url nor creation time, so these are kept. *)
Theorem updateScan_laws (id : nat) (updates : Partial.Scan) (w : Eff.World) :
  exists r w',
    Partial.updateScan id updates w = (Eff.Ok r, w') /\
    Storage.getScan id w' = (Eff.Ok r, w') /\
    (r = None <-> Eff.scans (Eff.storage w) !! id = None) /\
    (r = None -> w' = w) /\
    (forall old,
       Eff.scans (Eff.storage w) !! id = Some old ->
       exists new,
         r = Some new /\
         Eff.scans (Eff.storage w') = <[id := new]> (Eff.scans (Eff.storage w)) /\
         Schema.id new =
           match Partial.id updates with
           | Some named => named
           | None => Schema.id old
           end /\
         Schema.url new =
           match Partial.url updates with
           | Some named => named
           | None => Schema.url old
           end /\
         Schema.status new =
           match Partial.status updates with
           | Some named => named
           | None => Schema.status old
           end /\
         Schema.results new =
           match Partial.results updates with
           | Some named => named
           | None => Schema.results old
           end /\
         Schema.createdAt new =
           match Partial.createdAt updates with
           | Some named => named
           | None => Schema.createdAt old
           end /\
         Schema.completedAt new =
           match Partial.completedAt updates with
           | Some named => named
           | None => Schema.completedAt old
           end /\
         Schema.errorMessage new =
           match Partial.errorMessage updates with
           | Some named => named
           | None => Schema.errorMessage old
           end) /\
    (forall k, k <> id ->
       Eff.scans (Eff.storage w') !! k = Eff.scans (Eff.storage w) !! k) /\
    (forall k, is_Some (Eff.scans (Eff.storage w') !! k) <->
               is_Some (Eff.scans (Eff.storage w) !! k)) /\
    Eff.scanResults (Eff.storage w') = Eff.scanResults (Eff.storage w) /\
    Eff.vulnerabilities (Eff.storage w') = Eff.vulnerabilities (Eff.storage w) /\
    Eff.sslAnalyses (Eff.storage w') = Eff.sslAnalyses (Eff.storage w) /\
    Eff.securityHeaders (Eff.storage w') = Eff.securityHeaders (Eff.storage w) /\
    Eff.uuids w' = Eff.uuids w /\
    Eff.clockReads w' = Eff.clockReads w /\
    (exists w'',
       Partial.updateScan id updates w' = (Eff.Ok r, w'') /\
       Eff.scans (Eff.storage w'') = Eff.scans (Eff.storage w')) /\
    (forall issued : Schema.ScanUpdates,
       Storage.updateScan id issued w =
         Partial.updateScan id (Partial.ofUpdates issued) w /\
       Partial.id (Partial.ofUpdates issued) = None /\
       Partial.url (Partial.ofUpdates issued) = None /\
       Partial.createdAt (Partial.ofUpdates issued) = None /\
       forall old,
         Storage.applyUpdates old issued =
           Partial.spread old (Partial.ofUpdates issued)).
Proof.
  assert (Hissued : forall issued : Schema.ScanUpdates,
       Storage.updateScan id issued w =
         Partial.updateScan id (Partial.ofUpdates issued) w /\
       Partial.id (Partial.ofUpdates issued) = None /\
       Partial.url (Partial.ofUpdates issued) = None /\
       Partial.createdAt (Partial.ofUpdates issued) = None /\
       forall old,
         Storage.applyUpdates old issued =
           Partial.spread old (Partial.ofUpdates issued)).
  { intros issued. split; [symmetry; apply updateScan_ofUpdates|].
    split; [reflexivity|]. split; [reflexivity|]. split; [reflexivity|].
    intros old. symmetry. apply spread_ofUpdates. }
  destruct (Eff.scans (Eff.storage w) !! id) as [old|] eqn:Hold.
  - set (new := Partial.spread old updates).
    assert (Hrun : exists w',
      Partial.updateScan id updates w = (Eff.Ok (Some new), w') /\
      Eff.scans (Eff.storage w') = <[id := new]> (Eff.scans (Eff.storage w)) /\
      Eff.scanResults (Eff.storage w') = Eff.scanResults (Eff.storage w) /\
      Eff.vulnerabilities (Eff.storage w') = Eff.vulnerabilities (Eff.storage w) /\
      Eff.sslAnalyses (Eff.storage w') = Eff.sslAnalyses (Eff.storage w) /\
      Eff.securityHeaders (Eff.storage w') = Eff.securityHeaders (Eff.storage w) /\
      Eff.uuids w' = Eff.uuids w /\ Eff.clockReads w' = Eff.clockReads w).
    { unfold Partial.updateScan, Storage.getScan, Eff.bind, Eff.gets.
      rewrite Hold. cbn.
      destruct (Partial.status updates); cbn;
        eexists; (split; [reflexivity|]); cbn; repeat split. }
    destruct Hrun as (w' & Hrun & Hs & Ha & Hb & Hc & Hd & He & Hf).
    assert (Hlook : Eff.scans (Eff.storage w') !! id = Some new)
      by (rewrite Hs; apply lookup_insert_eq).
    exists (Some new), w'.
    split; [exact Hrun|].
    split; [unfold Storage.getScan, Eff.gets; now rewrite Hlook|].
    split; [split; discriminate|].
    split; [discriminate|].
    split.
    { intros old' [= <-]. exists new. split; [reflexivity|].
      split; [exact Hs|].
      unfold new, Partial.spread. cbn.
      destruct (Partial.id updates), (Partial.url updates),
        (Partial.status updates), (Partial.results updates),
        (Partial.createdAt updates), (Partial.completedAt updates),
        (Partial.errorMessage updates); cbn; repeat split; reflexivity. }
    split; [intros k Hk; rewrite Hs; now apply lookup_insert_ne|].
    split.
    { intros k. rewrite Hs. destruct (decide (k = id)) as [->|Hk].
      - rewrite lookup_insert_eq, Hold. split; eauto.
      - now rewrite lookup_insert_ne. }
    split; [exact Ha|]. split; [exact Hb|]. split; [exact Hc|].
    split; [exact Hd|]. split; [exact He|]. split; [exact Hf|].
    split; [|exact Hissued].
    unfold Partial.updateScan, Storage.getScan, Eff.bind, Eff.gets.
    rewrite Hlook. cbn. unfold new. rewrite spread_idem.
    destruct (Partial.status updates); cbn;
      eexists; (split; [reflexivity|]); cbn; rewrite Hs;
      apply insert_insert_eq.
  - assert (Hmiss : Partial.updateScan id updates w = (Eff.Ok None, w)).
    { unfold Partial.updateScan, Storage.getScan, Eff.bind, Eff.gets.
      rewrite Hold. reflexivity. }
    exists None, w.
    split; [exact Hmiss|].
    split; [unfold Storage.getScan, Eff.gets; now rewrite Hold|].
    split; [split; reflexivity|].
    split; [reflexivity|].
    split; [intros old; discriminate|].
    split; [reflexivity|]. split; [reflexivity|].
    repeat (split; [reflexivity|]).
    split; [|exact Hissued].
    exists w. split; [exact Hmiss | reflexivity].
Qed.

(** An update that names another identifier: the record is stored under
    the old key with the new identifier in it. *)
Example update_naming_id :
  let renamed :=
    {| Partial.id := Some 7%nat; Partial.url := Some "https://other.example";
       Partial.status := None; Partial.results := None;
       Partial.createdAt := Some None; Partial.completedAt := None;
       Partial.errorMessage := None |} in
  let out := Partial.updateScan 0 renamed Samples.oneScan in
  (Schema.id <$> Eff.scans (Eff.storage (snd out)) !! 0%nat) = Some 7%nat /\
  (Schema.url <$> Eff.scans (Eff.storage (snd out)) !! 0%nat) =
    Some "https://other.example" /\
  (Schema.createdAt <$> Eff.scans (Eff.storage (snd out)) !! 0%nat) = Some None /\
  Eff.scans (Eff.storage (snd out)) !! 7%nat = None.
Proof. vm_compute. repeat split; reflexivity. Qed.

(** ** Further properties of the header analysis *)

(** X8. analyzeSecurityHeaders changes nothing in the world.  On a URL
    that does not parse it throws Invalid URL, because the host name is
    taken before the try; on a URL that parses it always returns a
    record for the scan and host it was called with, whose score lies in
    [0,100] and whose grade is the threshold grade of that score.  A HEAD
    request that errors or times out gives the failure record; a response
    gives the score and issue lists of its lower-cased headers, and these
    never coincide with the failure record, which is told apart by its
    missingHeaders entry. *)
Theorem header_analysis_always_answers (env : Eff.Env) (url : string)
    (scanId : nat) (w : Eff.World) :
  match Eff.parseURL env url with
  | None =>
      HeadersAnalyzer.analyzeSecurityHeaders env url scanId w =
      (Eff.Throw (JS.JsError "Invalid URL"), w)
  | Some u =>
      exists r,
        HeadersAnalyzer.analyzeSecurityHeaders env url scanId w = (Eff.Ok r, w) /\
        Schema.sh_scanId r = scanId /\
        Schema.sh_hostname r = Eff.hostname u /\
        0 <= Schema.securityScore r <= 100 /\
        Schema.sh_grade r = Headers.gradeOf (Schema.securityScore r) /\
        let isHttps := String.eqb (Eff.protocol u) "https:" in
        let requestPort :=
          if JS.truthy_str (Some (Eff.port u)) then Eff.port u
          else if isHttps then "443" else "80" in
        match Eff.headRequest env isHttps (Eff.hostname u) requestPort
                (String.append (Eff.pathname u) (Eff.search u)) with
        | Eff.HeadResponse raw =>
            let a :=
              HeadersAnalyzer.analyzeHeaders
                (HeadersAnalyzer.normalizeHeaders raw) in
            (Schema.securityScore r, Schema.sh_grade r) =
              Headers.calculateSecurityScore a /\
            (Schema.missingHeaders r, Schema.weakHeaders r) =
              Headers.identifyIssues a /\
            r <> HeadersAnalyzer.failedHeaders scanId (Eff.hostname u)
        | _ => r = HeadersAnalyzer.failedHeaders scanId (Eff.hostname u)
        end
  end.
Proof.
  unfold HeadersAnalyzer.analyzeSecurityHeaders, SslAnalyzer.newURL.
  destruct (Eff.parseURL env url) as [u|] eqn:Hu; [|reflexivity].
  unfold Eff.bind at 1. unfold Eff.ret at 1. cbv zeta.
  unfold HeadersAnalyzer.fetchSecurityHeaders, SslAnalyzer.newURL,
    Eff.tryCatch, Eff.bind.
  rewrite Hu. unfold Eff.ret, Eff.throw. cbv beta iota zeta.
  destruct (Eff.headRequest env _ _ _ _) as [raw|e|].
  - set (a := HeadersAnalyzer.analyzeHeaders _).
    destruct (score_is_100_minus_deduction a) as (Hb & _ & Hs).
    rewrite Hs.
    destruct (Headers.identifyIssues a) as [missing weak] eqn:Hi.
    unfold Eff.ret. cbv beta iota zeta.
    eexists. split; [reflexivity|]. cbn.
    split; [reflexivity|]. split; [reflexivity|]. split; [lia|].
    split; [reflexivity|]. split; [reflexivity|]. split; [reflexivity|].
    intros Heq. apply (f_equal Schema.sh_hsts) in Heq. discriminate Heq.
  - eexists. split; [reflexivity|]. cbn. repeat split; lia.
  - eexists. split; [reflexivity|]. cbn. repeat split; lia.
Qed.

(** ** Further properties of the TLS posture *)

Lemma analysisSteps_run (env : Eff.Env) (scanId : nat) (h : string)
    (cert : Ssl.CertificateInfo) (w : Eff.World) :
  Eff.certRequest env h = Eff.CertResponse (Some cert) ->
  let gradeInfo :=
    Ssl.calculateSslGrade (Eff.clock env (Eff.clockReads w)) cert
      (TlsFacts.probed env h) in
  let now := Eff.clock env (S (Eff.clockReads w)) in
  SslAnalyzer.analysisSteps env scanId h w =
  (Eff.Ok
     {| Schema.ssl_scanId := scanId;
        Schema.ssl_hostname := h;
        Schema.certificateValid := now <? Ssl.valid_to cert;
        Schema.certificateExpiry := Some (Ssl.valid_to cert);
        Schema.issuer := Some (Ssl.formatCertificateField (Ssl.issuer cert));
        Schema.subject := Some (Ssl.formatCertificateField (Ssl.subject cert));
        Schema.signatureAlgorithm := Some (Ssl.sigalg cert);
        Schema.keySize := TlsRules.keySize cert;
        Schema.protocolVersions := Ssl.supportedProtocols (TlsFacts.probed env h);
        Schema.cipherSuites := Ssl.supportedCiphers (TlsFacts.probed env h);
        Schema.grade := Ssl.grade gradeInfo;
        Schema.hasHSTS := TlsFacts.hstsSeen env h;
        Schema.vulnerabilities := Ssl.vulnerabilities gradeInfo;
        Schema.score := Ssl.score gradeInfo;
        Schema.daysUntilExpiry :=
          Some (JS.ceil_div (Ssl.valid_to cert - now) Ssl.msPerDay) |},
   TlsFacts.afterReads 2 w).
Proof.
  intros Hc gradeInfo now. unfold SslAnalyzer.analysisSteps.
  assert (H1 : SslAnalyzer.getCertificateInfo env h w = (Eff.Ok cert, w))
    by (unfold SslAnalyzer.getCertificateInfo; now rewrite Hc).
  rewrite (bind_ok _ _ _ _ _ H1).
  rewrite (bind_ok _ _ _ _ _ (analyzeSslConfiguration_run env h w)).
  fold (TlsFacts.probed env h).
  unfold Eff.bind at 1. unfold Eff.newDate at 1. cbv beta iota zeta.
  assert (H2 : forall w0, SslAnalyzer.checkHSTS env h w0 =
                          (Eff.Ok (TlsFacts.hstsSeen env h), w0)).
  { intros w0. unfold SslAnalyzer.checkHSTS, TlsFacts.hstsSeen.
    destruct (Eff.hstsRequest env h); reflexivity. }
  rewrite (bind_ok _ _ _ _ _ (H2 _)).
  reflexivity.
Qed.

(** X9. When the certificate request answers with a certificate, the
    analysis of a URL that parses returns a real posture (never the
    failure record), reads the clock exactly twice and stores nothing.
    Grade, score and vulnerabilities are those of calculateSslGrade at
    the first reading on the probed configuration; validity and the day
    count are taken at the second reading, so the certificate is
    reported valid exactly when at least one (rounded-up) day remains,
    and a key size of 0 is reported as absent.  If the clock does not run
    backwards, a posture that lists Certificate has expired is never
    reported valid. *)
Theorem tls_posture_consistent (env : Eff.Env) (url : string) (scanId : nat)
    (u : Eff.URLRecord) (cert : Ssl.CertificateInfo) (w : Eff.World) :
  Eff.parseURL env url = Some u ->
  Eff.certRequest env (Eff.hostname u) = Eff.CertResponse (Some cert) ->
  let gradedAt := Eff.clock env (Eff.clockReads w) in
  let checkedAt := Eff.clock env (S (Eff.clockReads w)) in
  let g := Ssl.calculateSslGrade gradedAt cert
             (TlsFacts.probed env (Eff.hostname u)) in
  exists p,
    SslAnalyzer.analyzeSslCertificate env url scanId w =
      (Eff.Ok p, TlsFacts.afterReads 2 w) /\
    p <> SslAnalyzer.failedAnalysis scanId (Eff.hostname u) /\
    Schema.ssl_scanId p = scanId /\
    Schema.ssl_hostname p = Eff.hostname u /\
    Schema.grade p = Ssl.grade g /\
    Schema.score p = Ssl.score g /\
    Schema.vulnerabilities p = Ssl.vulnerabilities g /\
    Schema.protocolVersions p =
      List.filter (TlsFacts.handshakeOk env (Eff.hostname u))
        SslAnalyzer.protocolsToTest /\
    Schema.cipherSuites p = TlsFacts.negotiated env (Eff.hostname u) /\
    Schema.hasHSTS p = TlsFacts.hstsSeen env (Eff.hostname u) /\
    (Schema.certificateValid p = true <-> checkedAt < Ssl.valid_to cert) /\
    (exists d, Schema.daysUntilExpiry p = Some d /\
               (Schema.certificateValid p = true <-> 1 <= d)) /\
    Schema.keySize p <> Some 0 /\
    (Schema.keySize p = None <->
     Ssl.bits cert = None \/ Ssl.bits cert = Some 0) /\
    (gradedAt <= checkedAt ->
     List.In "Certificate has expired" (Schema.vulnerabilities p) ->
     Schema.certificateValid p = false).
Proof.
  intros Hu Hc gradedAt checkedAt g.
  pose proof (analysisSteps_run env scanId (Eff.hostname u) cert w Hc) as Hrun.
  cbv zeta in Hrun. fold gradedAt checkedAt g in Hrun.
  eexists. split.
  { rewrite (analyzeSslCertificate_unfold _ _ _ _ _ Hu).
    apply tryCatch_ok. exact Hrun. }
  cbn [Schema.ssl_scanId Schema.ssl_hostname Schema.grade Schema.score
       Schema.vulnerabilities Schema.protocolVersions Schema.cipherSuites
       Schema.hasHSTS Schema.certificateValid Schema.daysUntilExpiry
       Schema.keySize].
  split.
  { intros Heq. apply (f_equal Schema.certificateExpiry) in Heq.
    discriminate Heq. }
  split; [reflexivity|]. split; [reflexivity|]. split; [reflexivity|].
  split; [reflexivity|]. split; [reflexivity|]. split; [reflexivity|].
  split; [reflexivity|]. split; [reflexivity|].
  split; [apply Z.ltb_lt|].
  split.
  { eexists. split; [reflexivity|]. rewrite Z.ltb_lt.
    assert (Hd : 0 < Ssl.msPerDay) by reflexivity.
    pose proof (ceil_div_lt (Ssl.valid_to cert - checkedAt) Ssl.msPerDay 1 Hd)
      as Hlt.
    lia. }
  unfold TlsRules.keySize, JS.truthy_num.
  split.
  { destruct (Ssl.bits cert) as [b|]; [|discriminate].
    destruct (Z.eqb_spec b 0); cbn; [discriminate|].
    intros [= ->]. congruence. }
  split.
  { destruct (Ssl.bits cert) as [b|]; [|tauto].
    destruct (Z.eqb_spec b 0); cbn; split.
    - intros _. right. now subst.
    - reflexivity.
    - discriminate.
    - intros [H|[= H]]; [discriminate | contradiction]. }
  intros Hmono Hin.
  destruct (calculateSslGrade_rules gradedAt cert
              (TlsFacts.probed env (Eff.hostname u))) as (_ & Hv & _).
  fold g in Hv. rewrite Hv in Hin.
  apply Z.ltb_ge.
  unfold TlsRules.deductions in Hin.
  destruct (TlsRules.expired _) eqn:He.
  - cbn [TlsRules.triggers TlsRules.expired] in He. apply Z.leb_le in He. lia.
  - exfalso. rewrite List.map_app in Hin.
    apply List.in_app_or in Hin. destruct Hin as [Hin|Hin].
    + destruct (TlsRules.expiresSoon _); cbn in Hin;
        intuition discriminate.
    + rewrite !List.map_app in Hin.
      repeat (apply List.in_app_or in Hin; destruct Hin as [Hin|Hin]);
        match type of Hin with
        | List.In _ (List.map _ (if ?c then _ else _)) =>
            destruct c; cbn in Hin; intuition discriminate
        end.
Qed.

(** X9 at the healthy endpoint. *)
Lemma tls_posture_consistent_witness :
  exists p,
    SslAnalyzer.analyzeSslCertificate Endpoints.healthy "https://example.com" 0
      Samples.emptyWorld =
      (Eff.Ok p, TlsFacts.afterReads 2 Samples.emptyWorld) /\
    Schema.grade p = "A+" /\
    Schema.certificateValid p = true.
Proof.
  destruct (tls_posture_consistent Endpoints.healthy "https://example.com" 0
              {| Eff.protocol := "https:"; Eff.hostname := "example.com";
                 Eff.port := ""; Eff.pathname := "/"; Eff.search := "" |}
              Samples.goodCert Samples.emptyWorld eq_refl eq_refl)
    as (p & Hrun & _ & _ & _ & Hg & _ & _ & _ & _ & _ & Hvalid & _).
  exists p. split; [exact Hrun|]. split; [rewrite Hg; reflexivity|].
  apply Hvalid. reflexivity.
Defined.

(** ** Further properties of the port tables *)

Ltac case_port p :=
  repeat match goal with
         | |- context [p =? ?k] => destruct (Z.eqb_spec p k); [subst p|]
         | |- context [?k =? p] => destruct (Z.eqb_spec k p); [subst p|]
         | H : context [p =? ?k] |- _ => destruct (Z.eqb_spec p k); [subst p|]
         end.

(** X10. The service table names exactly the sixteen ports the
    orchestrator probes.  getRiskLevel ignores its service argument and
    answers high, medium or low: high exactly on its seven listed ports,
    low exactly on 80 and 443.  Every vulnerability the correlator
    derives from a single open port carries the port's rated risk as its
    severity, except on the four database ports, which are rated medium
    while their vulnerability is of severity high. *)
Theorem port_tables_agree (p : Z) (service service' : string) :
  (List.In p Routes.commonPorts <-> Ports.getServiceName p <> "unknown") /\
  Ports.getRiskLevel p service = Ports.getRiskLevel p service' /\
  List.In (Ports.getRiskLevel p service) ["high"; "medium"; "low"] /\
  (Ports.getRiskLevel p service = "high" <->
   List.In p [21; 23; 513; 514; 515; 79; 111]) /\
  (Ports.getRiskLevel p service = "low" <-> List.In p [80; 443]) /\
  (forall (r : Ports.PortResult) (v : Ports.VulnTemplate),
     Ports.port r = p -> Ports.state r = "open" ->
     List.In v (Ports.analyzeVulnerabilities [r]) ->
     (List.In p [3306; 5432; 27017; 6379] /\
      Ports.severity v = "high" /\ Ports.getRiskLevel p service = "medium") \/
     (~ List.In p [3306; 5432; 27017; 6379] /\
      Ports.severity v = Ports.getRiskLevel p service)).
Proof.
  split.
  { unfold Ports.getServiceName, Ports.services, Routes.commonPorts.
    cbn [List.find fst]. case_port p;
      try (split; [intros _; discriminate | intros _; cbn; tauto]).
    split; [cbn; intuition congruence | intros H; now contradiction H]. }
  split; [reflexivity|].
  unfold Ports.getRiskLevel, JS.num_includes. cbn [List.existsb orb].
  split.
  { case_port p; cbn; tauto. }
  split.
  { case_port p; cbn;
      (split; [intros H; try discriminate H; tauto
              | intros H; try reflexivity; intuition congruence]). }
  split.
  { case_port p; cbn;
      (split; [intros H; try discriminate H; tauto
              | intros H; try reflexivity; intuition congruence]). }
  intros r v Hp Hopen Hin.
  destruct r as [rport rstate rservice rprotocol].
  cbn [Ports.port Ports.state] in Hp, Hopen. subst rport rstate.
  unfold Ports.analyzeVulnerabilities in Hin. cbn [List.fold_left] in Hin.
  unfold Ports.checkResult in Hin. cbn [Ports.port Ports.state] in Hin.
  cbn [String.eqb Ascii.eqb Bool.eqb] in Hin. cbv zeta in Hin.
  unfold JS.num_includes in Hin. cbn [List.existsb] in Hin.
  case_port p; cbn in Hin |- *;
    try (destruct Hin as [<-|[]]; cbn; intuition congruence);
    try contradiction.
Qed.

(** ** What a completed run stores *)

Lemma grows_refl (s : Eff.MemStorage) : ScanFacts.grows s s [] [] [] [].
Proof. unfold ScanFacts.grows. rewrite !List.app_nil_r. tauto. Qed.

Lemma grows_trans (s1 s2 s3 : Eff.MemStorage) rs vs ss hs rs' vs' ss' hs' :
  ScanFacts.grows s1 s2 rs vs ss hs ->
  ScanFacts.grows s2 s3 rs' vs' ss' hs' ->
  ScanFacts.grows s1 s3 (rs ++ rs') (vs ++ vs') (ss ++ ss') (hs ++ hs').
Proof.
  intros (A0 & A1 & A2 & A3 & A4) (B0 & B1 & B2 & B3 & B4).
  unfold ScanFacts.grows.
  rewrite B0, B1, B2, B3, B4, A0, A1, A2, A3, A4, <- !List.app_assoc.
  tauto.
Qed.

Lemma grows_same (s s' : Eff.MemStorage) :
  s' = s -> ScanFacts.grows s s' [] [] [] [].
Proof. intros ->. apply grows_refl. Qed.

Lemma scanPort_exact (env : Eff.Env) (host : string) (port : Z) (w : Eff.World) :
  Ports.validPort port = true ->
  exists w1,
    Routes.scanPort env host port w =
      (Eff.Ok (Ports.Resolved (ScanFacts.probeResult env host port)), w1) /\
    Eff.storage w1 = Eff.storage w /\
    Eff.clockReads w1 = Eff.clockReads w.
Proof.
  intros Hv. unfold Routes.scanPort, ScanFacts.probeResult.
  destruct (Eff.socketEvents env host port) as [first rest]. cbn [fst].
  destruct (probe_settles host port Ports.defaultTimeout first rest Hv eq_refl)
    as (calls & r & Hr & Hp & Hproto & Hstate & _ & Hservice & _).
  unfold Eff.bind, Eff.record, Eff.modify, Eff.ret. cbv beta iota zeta.
  rewrite Hr. cbn [snd].
  destruct r as [rp rs rv rt].
  cbn [Ports.port Ports.protocol Ports.state Ports.service]
    in Hp, Hproto, Hstate, Hservice.
  rewrite Hp, Hproto, Hstate, Hservice.
  eexists. split; [reflexivity|]. split; reflexivity.
Qed.

Lemma startProbes_exact (env : Eff.Env) (host : string) (ports : list Z)
    (w : Eff.World) :
  List.forallb Ports.validPort ports = true ->
  exists w1,
    Routes.startProbes env host ports w =
      (Eff.Ok (List.map Ports.Resolved
                 (List.map (ScanFacts.probeResult env host) ports)), w1) /\
    Eff.storage w1 = Eff.storage w /\
    Eff.clockReads w1 = Eff.clockReads w.
Proof.
  revert w. induction ports as [|p ports IH]; intros w Hv.
  - exists w. repeat split; reflexivity.
  - cbn [Routes.startProbes List.map]. cbn [List.forallb] in Hv.
    apply andb_prop in Hv. destruct Hv as [Hvp Hv].
    destruct (scanPort_exact env host p w Hvp) as (w0 & H0 & Hs0 & Hc0).
    destruct (IH w0 Hv) as (w1 & H1 & Hs1 & Hc1).
    exists w1. rewrite (bind_ok _ _ _ _ _ H0), (bind_ok _ _ _ _ _ H1).
    split; [reflexivity|]. split; congruence.
Qed.

Lemma awaitAll_resolved {A : Type} (values : list A) (w : Eff.World) :
  Routes.awaitAll (List.map Ports.Resolved values) w = (Eff.Ok values, w).
Proof.
  unfold Routes.awaitAll.
  assert (H1 : Routes.firstRejected (List.map Ports.Resolved values) = None)
    by (induction values; [reflexivity | exact IHvalues]).
  assert (H2 : Routes.allResolved (List.map Ports.Resolved values) = Some values)
    by (induction values as [|v vs IH]; [reflexivity | cbn; now rewrite IH]).
  now rewrite H1, H2.
Qed.

Lemma forEach_grows {A : Type} (l : list A) (body : A -> Eff.M unit)
    (fr : A -> list Schema.InsertScanResult)
    (fv : A -> list Schema.InsertVulnerability) :
  (forall x w, exists w1,
     body x w = (Eff.Ok tt, w1) /\
     ScanFacts.grows (Eff.storage w) (Eff.storage w1) (fr x) (fv x) [] [] /\
     Eff.clockReads w1 = Eff.clockReads w) ->
  forall w, exists w1,
    Eff.forEach l body w = (Eff.Ok tt, w1) /\
    ScanFacts.grows (Eff.storage w) (Eff.storage w1)
      (List.flat_map fr l) (List.flat_map fv l) [] [] /\
    Eff.clockReads w1 = Eff.clockReads w.
Proof.
  intros Hbody. induction l as [|x l IH]; intros w.
  - exists w. split; [reflexivity|]. split; [apply grows_refl | reflexivity].
  - cbn [Eff.forEach List.flat_map].
    destruct (Hbody x w) as (w0 & H0 & G0 & C0).
    destruct (IH w0) as (w1 & H1 & G1 & C1).
    exists w1. rewrite (bind_ok _ _ _ _ _ H0).
    split; [exact H1|]. split; [|congruence].
    exact (grows_trans _ _ _ _ _ _ _ _ _ _ _ G0 G1).
Qed.

Lemma flat_map_filter {A B : Type} (sel : A -> bool) (mk : A -> B) (l : list A) :
  List.flat_map (fun x => if sel x then [mk x] else []) l =
  List.map mk (List.filter sel l).
Proof.
  induction l as [|x l IH]; [reflexivity|].
  cbn [List.flat_map List.filter]. destruct (sel x); cbn; now rewrite IH.
Qed.

Lemma flat_map_nil {A B : Type} (l : list A) :
  List.flat_map (fun _ : A => @nil B) l = [].
Proof. induction l; [reflexivity | exact IHl]. Qed.

Lemma find_existsb {A : Type} (f : A -> bool) (l : list A) :
  match List.find f l with Some _ => true | None => false end = List.existsb f l.
Proof.
  induction l as [|x l IH]; [reflexivity|]. cbn. destruct (f x); [reflexivity|exact IH].
Qed.

Lemma analyzeSslCertificate_still (env : Eff.Env) (url : string) (scanId : nat)
    (u : Eff.URLRecord) (w : Eff.World) :
  Eff.parseURL env url = Some u ->
  exists a w1,
    SslAnalyzer.analyzeSslCertificate env url scanId w = (Eff.Ok a, w1) /\
    Eff.storage w1 = Eff.storage w /\
    Schema.ssl_scanId a = scanId /\
    Schema.ssl_hostname a = Eff.hostname u.
Proof.
  intros Hu. rewrite (analyzeSslCertificate_unfold _ _ _ _ _ Hu).
  destruct (Eff.certRequest env (Eff.hostname u)) as [[cert|]|e|] eqn:Hc.
  - pose proof (analysisSteps_run env scanId (Eff.hostname u) cert w Hc) as Hrun.
    cbv zeta in Hrun. rewrite (tryCatch_ok _ _ _ _ _ Hrun).
    eexists. eexists. split; [reflexivity|]. repeat split.
  - exists (SslAnalyzer.failedAnalysis scanId (Eff.hostname u)), w.
    unfold Eff.tryCatch, SslAnalyzer.analysisSteps, Eff.bind,
      SslAnalyzer.getCertificateInfo. rewrite Hc. repeat split.
  - exists (SslAnalyzer.failedAnalysis scanId (Eff.hostname u)), w.
    unfold Eff.tryCatch, SslAnalyzer.analysisSteps, Eff.bind,
      SslAnalyzer.getCertificateInfo. rewrite Hc. repeat split.
  - exists (SslAnalyzer.failedAnalysis scanId (Eff.hostname u)), w.
    unfold Eff.tryCatch, SslAnalyzer.analysisSteps, Eff.bind,
      SslAnalyzer.getCertificateInfo. rewrite Hc. repeat split.
Qed.

Lemma analyzeSecurityHeaders_still (env : Eff.Env) (url : string) (scanId : nat)
    (u : Eff.URLRecord) (w : Eff.World) :
  Eff.parseURL env url = Some u ->
  exists a,
    HeadersAnalyzer.analyzeSecurityHeaders env url scanId w = (Eff.Ok a, w) /\
    Schema.sh_scanId a = scanId /\
    Schema.sh_hostname a = Eff.hostname u.
Proof.
  intros Hu.
  unfold HeadersAnalyzer.analyzeSecurityHeaders, SslAnalyzer.newURL.
  rewrite Hu. unfold Eff.bind at 1. unfold Eff.ret at 1. cbv zeta.
  unfold HeadersAnalyzer.fetchSecurityHeaders, SslAnalyzer.newURL,
    Eff.tryCatch, Eff.bind.
  rewrite Hu. unfold Eff.ret, Eff.throw. cbv beta iota zeta.
  destruct (Eff.headRequest env _ _ _ _) as [raw|e|].
  - destruct (Headers.calculateSecurityScore _) as [score grade].
    destruct (Headers.identifyIssues _) as [missing weak].
    eexists. repeat split.
  - eexists. repeat split.
  - eexists. repeat split.
Qed.

Lemma addScanResult_grows (r : Schema.InsertScanResult) (w : Eff.World) :
  exists row w1,
    Storage.addScanResult r w = (Eff.Ok row, w1) /\
    ScanFacts.grows (Eff.storage w) (Eff.storage w1) [r] [] [] [] /\
    Eff.clockReads w1 = Eff.clockReads w.
Proof.
  unfold Storage.addScanResult, Eff.bind, Eff.randomUUID, Eff.modify,
    Eff.record, Eff.ret. cbn.
  eexists. eexists. split; [reflexivity|]. split; [|reflexivity].
  unfold ScanFacts.grows. cbn. rewrite List.map_app, !List.app_nil_r. tauto.
Qed.

Lemma addVulnerability_grows (v : Schema.InsertVulnerability) (w : Eff.World) :
  exists row w1,
    Storage.addVulnerability v w = (Eff.Ok row, w1) /\
    ScanFacts.grows (Eff.storage w) (Eff.storage w1) [] [v] [] [] /\
    Eff.clockReads w1 = Eff.clockReads w.
Proof.
  unfold Storage.addVulnerability, Eff.bind, Eff.randomUUID, Eff.modify,
    Eff.record, Eff.ret. cbn.
  eexists. eexists. split; [reflexivity|]. split; [|reflexivity].
  unfold ScanFacts.grows. cbn. rewrite List.map_app, !List.app_nil_r. tauto.
Qed.

Lemma addSslAnalysis_grows (a : Schema.InsertSslAnalysis) (w : Eff.World) :
  exists row w1,
    Storage.addSslAnalysis a w = (Eff.Ok row, w1) /\
    ScanFacts.grows (Eff.storage w) (Eff.storage w1) [] [] [a] [].
Proof.
  unfold Storage.addSslAnalysis, Eff.bind, Eff.randomUUID, Eff.modify,
    Eff.record, Eff.ret. cbn.
  eexists. eexists. split; [reflexivity|].
  unfold ScanFacts.grows. cbn. rewrite List.map_app, !List.app_nil_r. tauto.
Qed.

Lemma addSecurityHeaders_grows (h : Schema.InsertSecurityHeaders) (w : Eff.World) :
  exists row w1,
    Storage.addSecurityHeaders h w = (Eff.Ok row, w1) /\
    ScanFacts.grows (Eff.storage w) (Eff.storage w1) [] [] [] [h].
Proof.
  unfold Storage.addSecurityHeaders, Eff.bind, Eff.randomUUID, Eff.modify,
    Eff.record, Eff.ret. cbn.
  eexists. eexists. split; [reflexivity|].
  unfold ScanFacts.grows. cbn. rewrite List.map_app, !List.app_nil_r. tauto.
Qed.

(** The analyses of a URL that parses: the rows they append and the
    summary they return. *)
Lemma analyses_exact (env : Eff.Env) (scanId : nat) (url : string)
    (u : Eff.URLRecord) (results : list Ports.PortResult) (w : Eff.World) :
  Eff.parseURL env url = Some u ->
  let opened := List.filter Routes.isOpen results in
  let vulns := Ports.analyzeVulnerabilities opened in
  let https :=
    List.existsb (fun r => ((Ports.port r =? 443) && Routes.isOpen r)%bool)
      results in
  let http :=
    List.existsb (fun r => ((Ports.port r =? 80) && Routes.isOpen r)%bool)
      results in
  exists w1 ss hs,
    Routes.analyses env scanId url results w =
      (Eff.Ok {| Schema.totalPorts := Z.of_nat (List.length results);
                 Schema.openPorts := Z.of_nat (List.length opened);
                 Schema.vulnerabilitiesFound := Z.of_nat (List.length vulns);
                 Schema.sslAnalyzed := https;
                 Schema.securityHeadersAnalyzed := (https || http)%bool |},
       w1) /\
    ScanFacts.grows (Eff.storage w) (Eff.storage w1)
      (List.map (ScanFacts.resultRow scanId) opened)
      (List.map (ScanFacts.vulnRow scanId) vulns) ss hs /\
    List.length ss = (if https then 1 else 0)%nat /\
    List.Forall (fun a => Schema.ssl_scanId a = scanId /\
                          Schema.ssl_hostname a = Eff.hostname u) ss /\
    List.length hs = (if (https || http)%bool then 1 else 0)%nat /\
    List.Forall (fun a => Schema.sh_scanId a = scanId /\
                          Schema.sh_hostname a = Eff.hostname u) hs.
Proof.
  intros Hu opened vulns https http.
  unfold Routes.analyses.
  (* the open ports *)
  match goal with
  | |- context [Eff.forEach results ?b] =>
      destruct (forEach_grows results b
                  (fun r => if Routes.isOpen r
                            then [ScanFacts.resultRow scanId r] else [])
                  (fun _ => [])) with (w := w) as (w1 & H1 & G1 & _)
  end.
  { intros r w0. destruct (Routes.isOpen r).
    - destruct (addScanResult_grows (ScanFacts.resultRow scanId r) w0)
        as (row & w1 & Ha & Hg & Hc).
      exists w1. unfold ScanFacts.resultRow in Ha.
      rewrite (bind_ok _ _ _ _ _ Ha).
      split; [reflexivity|]. split; assumption.
    - exists w0. split; [reflexivity|]. split; [apply grows_refl|reflexivity]. }
  rewrite flat_map_filter, flat_map_nil in G1. fold opened in G1.
  rewrite (bind_ok _ _ _ _ _ H1). cbv zeta. fold opened. fold vulns.
  (* the vulnerabilities *)
  match goal with
  | |- context [Eff.forEach vulns ?b] =>
      destruct (forEach_grows vulns b (fun _ => [])
                  (fun v => [ScanFacts.vulnRow scanId v])) with (w := w1)
        as (w2 & H2 & G2 & _)
  end.
  { intros v w0.
    destruct (addVulnerability_grows (ScanFacts.vulnRow scanId v) w0)
      as (row & w3 & Ha & Hg & Hc).
    exists w3. unfold ScanFacts.vulnRow in Ha.
    rewrite (bind_ok _ _ _ _ _ Ha).
      split; [reflexivity|]. split; assumption. }
  rewrite flat_map_nil in G2.
  assert (Hfm : List.flat_map (fun v => [ScanFacts.vulnRow scanId v]) vulns =
                List.map (ScanFacts.vulnRow scanId) vulns)
    by (clear; induction vulns as [|v l IH]; [reflexivity | cbn; now rewrite IH]).
  rewrite Hfm in G2. clear Hfm.
  rewrite (bind_ok _ _ _ _ _ H2).
  pose proof (grows_trans _ _ _ _ _ _ _ _ _ _ _ G1 G2) as G12.
  rewrite List.app_nil_r in G12. cbn [List.app] in G12.
  clear G1 G2 H1 H2.
  (* the TLS analysis *)
  pose proof (find_existsb
    (fun r => ((Ports.port r =? 443) && Routes.isOpen r)%bool) results) as F443.
  pose proof (find_existsb
    (fun r => ((Ports.port r =? 80) && Routes.isOpen r)%bool) results) as F80.
  fold https in F443. fold http in F80.
  destruct (analyzeSslCertificate_still env url scanId u w2 Hu)
    as (a & w3 & Hssl & Hs3 & Ha1 & Ha2).
  destruct (addSslAnalysis_grows a w3) as (row & w4 & Hadd & G4).
  destruct (List.find (fun r => ((Ports.port r =? 443) && Routes.isOpen r)%bool)
              results) as [r443|].
  - rewrite <- F443.
    assert (Hstage :
      Eff.tryCatch
        (analysis <- SslAnalyzer.analyzeSslCertificate env url scanId ;;
         Eff.tryCatch
           (Storage.addSslAnalysis analysis ;;; Eff.ret (Some analysis))
           (fun _ => Eff.ret (Some analysis)))
        (fun _ => Eff.ret None) w2 = (Eff.Ok (Some a), w4)).
    { apply tryCatch_ok. rewrite (bind_ok _ _ _ _ _ Hssl).
      apply tryCatch_ok. now rewrite (bind_ok _ _ _ _ _ Hadd). }
    rewrite (bind_ok _ _ _ _ _ Hstage).
    destruct (analyzeSecurityHeaders_still env url scanId u w4 Hu)
      as (h & Hh & Hh1 & Hh2).
    destruct (addSecurityHeaders_grows h w4) as (hrow & w5 & Haddh & G5).
    assert (Hstage2 :
      Eff.tryCatch
        (analysis <- HeadersAnalyzer.analyzeSecurityHeaders env url scanId ;;
         Eff.tryCatch
           (Storage.addSecurityHeaders analysis ;;; Eff.ret (Some analysis))
           (fun _ => Eff.ret (Some analysis)))
        (fun _ => Eff.ret None) w4 = (Eff.Ok (Some h), w5)).
    { apply tryCatch_ok. rewrite (bind_ok _ _ _ _ _ Hh).
      apply tryCatch_ok. now rewrite (bind_ok _ _ _ _ _ Haddh). }
    cbv beta iota zeta.
    rewrite (bind_ok _ _ _ _ _ Hstage2).
    exists w5, [a], [h]. split; [reflexivity|].
    split.
    { rewrite Hs3 in G4.
      pose proof (grows_trans _ _ _ _ _ _ _ _ _ _ _ G12
                    (grows_trans _ _ _ _ _ _ _ _ _ _ _ G4 G5)) as G.
      cbn [List.app] in G. rewrite !List.app_nil_r in G. exact G. }
    split; [reflexivity|]. split; [repeat constructor; assumption|].
    split; [reflexivity|]. repeat constructor; assumption.
  - rewrite <- F443. unfold Eff.bind at 1. unfold Eff.ret at 1.
    cbv beta iota zeta.
    destruct (analyzeSecurityHeaders_still env url scanId u w2 Hu)
      as (h & Hh & Hh1 & Hh2).
    destruct (addSecurityHeaders_grows h w2) as (hrow & w5 & Haddh & G5).
    destruct (List.find (fun r => ((Ports.port r =? 80) && Routes.isOpen r)%bool)
                results) as [r80|].
    + rewrite <- F80.
      assert (Hstage2 :
        Eff.tryCatch
          (analysis <- HeadersAnalyzer.analyzeSecurityHeaders env url scanId ;;
           Eff.tryCatch
             (Storage.addSecurityHeaders analysis ;;; Eff.ret (Some analysis))
             (fun _ => Eff.ret (Some analysis)))
          (fun _ => Eff.ret None) w2 = (Eff.Ok (Some h), w5)).
      { apply tryCatch_ok. rewrite (bind_ok _ _ _ _ _ Hh).
        apply tryCatch_ok. now rewrite (bind_ok _ _ _ _ _ Haddh). }
      rewrite (bind_ok _ _ _ _ _ Hstage2).
      exists w5, [], [h]. split; [reflexivity|].
      split.
      { pose proof (grows_trans _ _ _ _ _ _ _ _ _ _ _ G12 G5) as G.
        cbn [List.app] in G. rewrite !List.app_nil_r in G. exact G. }
      split; [reflexivity|]. split; [constructor|].
      split; [reflexivity|]. repeat constructor; assumption.
    + rewrite <- F80. unfold Eff.bind at 1. unfold Eff.ret at 1.
      cbv beta iota zeta.
      exists w2, [], []. split; [reflexivity|].
      split; [exact G12|].
      split; [reflexivity|]. split; [constructor|].
      split; [reflexivity|]. constructor.
Qed.

Lemma accepts_isOpen (env : Eff.Env) (host : string) (p : Z) :
  Routes.isOpen (ScanFacts.probeResult env host p) = ScanFacts.accepts env host p.
Proof.
  unfold Routes.isOpen, ScanFacts.probeResult, ScanFacts.accepts.
  cbn [Ports.state]. destruct (fst (Eff.socketEvents env host p)); reflexivity.
Qed.

Lemma probed_port (env : Eff.Env) (host : string) (p : Z) (ports : list Z) :
  List.existsb (fun r => ((Ports.port r =? p) && Routes.isOpen r)%bool)
    (List.map (ScanFacts.probeResult env host) ports) =
  (List.existsb (Z.eqb p) ports && ScanFacts.accepts env host p)%bool.
Proof.
  induction ports as [|a ports IH]; [reflexivity|].
  cbn [List.map List.existsb]. rewrite IH, accepts_isOpen.
  change (Ports.port (ScanFacts.probeResult env host a)) with a.
  rewrite (Z.eqb_sym p a).
  destruct (Z.eqb_spec a p) as [->|_]; cbn [andb orb].
  - destruct (ScanFacts.accepts env host p), (List.existsb (Z.eqb p) ports);
      reflexivity.
  - reflexivity.
Qed.

Lemma pipeline_exact (env : Eff.Env) (id : nat) (url : string)
    (u : Eff.URLRecord) (sc : Schema.Scan) (w : Eff.World) :
  Eff.parseURL env url = Some u ->
  Eff.scans (Eff.storage w) !! id = Some sc ->
  let results := ScanFacts.probeResults env (Eff.hostname u) in
  let opened := List.filter Routes.isOpen results in
  let vulns := Ports.analyzeVulnerabilities opened in
  let https := ScanFacts.accepts env (Eff.hostname u) 443 in
  let http := ScanFacts.accepts env (Eff.hostname u) 80 in
  let summary :=
    {| Schema.totalPorts := 16;
       Schema.openPorts := Z.of_nat (List.length opened);
       Schema.vulnerabilitiesFound := Z.of_nat (List.length vulns);
       Schema.sslAnalyzed := https;
       Schema.securityHeadersAnalyzed := (https || http)%bool |} in
  exists w' at_ ss hs,
    Routes.performScan env id url w = (Eff.Ok tt, w') /\
    Eff.scans (Eff.storage w') =
      <[id := Storage.applyUpdates
                (Storage.applyUpdates sc (Routes.statusOnly "running"))
                (Lifecycle.completedWith summary at_)]>
        (Eff.scans (Eff.storage w)) /\
    List.map Schema.row (Eff.scanResults (Eff.storage w')) =
      List.map Schema.row (Eff.scanResults (Eff.storage w)) ++
      List.map (ScanFacts.resultRow id) opened /\
    List.map Schema.row (Eff.vulnerabilities (Eff.storage w')) =
      List.map Schema.row (Eff.vulnerabilities (Eff.storage w)) ++
      List.map (ScanFacts.vulnRow id) vulns /\
    List.map Schema.row (Eff.sslAnalyses (Eff.storage w')) =
      List.map Schema.row (Eff.sslAnalyses (Eff.storage w)) ++ ss /\
    List.map Schema.row (Eff.securityHeaders (Eff.storage w')) =
      List.map Schema.row (Eff.securityHeaders (Eff.storage w)) ++ hs /\
    List.length ss = (if https then 1 else 0)%nat /\
    List.Forall (fun a => Schema.ssl_scanId a = id /\
                          Schema.ssl_hostname a = Eff.hostname u) ss /\
    List.length hs = (if (https || http)%bool then 1 else 0)%nat /\
    List.Forall (fun a => Schema.sh_scanId a = id /\
                          Schema.sh_hostname a = Eff.hostname u) hs.
Proof.
  intros Hu Hsc results opened vulns https http summary.
  set (scr := Storage.applyUpdates sc (Routes.statusOnly "running")).
  set (w1 := Lifecycle.afterUpdate id scr "running" w).
  assert (H1 : Storage.updateScan id (Routes.statusOnly "running") w =
               (Eff.Ok (Some scr), w1))
    by (apply updateScan_existing; [exact Hsc | reflexivity]).
  destruct (startProbes_exact env (Eff.hostname u) Routes.commonPorts w1
              commonPorts_valid)
    as (w2 & H2 & Hs2 & _).
  fold (ScanFacts.probeResults env (Eff.hostname u)) in H2. fold results in H2.
  destruct (analyses_exact env id url u results w2 Hu)
    as (w3 & ss & hs & H3 & G3 & Lss & Fss & Lhs & Fhs).
  fold opened in H3, G3. fold vulns in H3, G3.
  assert (E443 :
    List.existsb (fun r => ((Ports.port r =? 443) && Routes.isOpen r)%bool)
      results = https)
    by (unfold results, ScanFacts.probeResults; rewrite probed_port; reflexivity).
  assert (E80 :
    List.existsb (fun r => ((Ports.port r =? 80) && Routes.isOpen r)%bool)
      results = http)
    by (unfold results, ScanFacts.probeResults; rewrite probed_port; reflexivity).
  rewrite E443, E80 in *.
  assert (Elen : Z.of_nat (List.length results) = 16) by reflexivity.
  rewrite Elen in H3. fold summary in H3.
  destruct (newDate_run env w3) as (w4 & H4 & Hs4 & _).
  set (at_ := Eff.clock env (Eff.clockReads w3)) in *.
  set (final := Storage.applyUpdates scr (Lifecycle.completedWith summary at_)).
  destruct G3 as (G0 & Ga & Gb & Gc & Gd).
  assert (Hlook : Eff.scans (Eff.storage w4) !! id = Some scr).
  { rewrite Hs4, G0, Hs2. unfold w1, Lifecycle.afterUpdate. cbn.
    apply lookup_insert_eq. }
  assert (H5 : Storage.updateScan id (Lifecycle.completedWith summary at_) w4 =
               (Eff.Ok (Some final), Lifecycle.afterUpdate id final "completed" w4))
    by (apply updateScan_existing; [exact Hlook | reflexivity]).
  exists (Lifecycle.afterUpdate id final "completed" w4), at_, ss, hs.
  split.
  { unfold Routes.performScan. apply tryCatch_ok.
    unfold Routes.pipeline. rewrite (bind_ok _ _ _ _ _ H1).
    unfold Routes.pipelineRest.
    unfold SslAnalyzer.newURL. rewrite Hu.
    rewrite (bind_ok _ _ w1 u w1 eq_refl). cbv zeta.
    assert (Hst : Routes.stages env id url (Eff.hostname u) w1 =
                  (Eff.Ok summary, w3)).
    { unfold Routes.stages. rewrite (bind_ok _ _ _ _ _ H2).
      rewrite (bind_ok _ _ _ _ _ (awaitAll_resolved results w2)).
      exact H3. }
    rewrite (bind_ok _ _ _ _ _ Hst), (bind_ok _ _ _ _ _ H4).
    fold (Lifecycle.completedWith summary at_).
    rewrite (bind_ok _ _ _ _ _ H5). reflexivity. }
  unfold Lifecycle.afterUpdate at 1 2 3 4 5.
  cbn [Eff.storage Eff.scans Eff.scanResults Eff.vulnerabilities
       Eff.sslAnalyses Eff.securityHeaders].
  rewrite Hs4, G0, Ga, Gb, Gc, Gd, Hs2.
  unfold w1, Lifecycle.afterUpdate.
  cbn [Eff.storage Eff.scans Eff.scanResults Eff.vulnerabilities
       Eff.sslAnalyses Eff.securityHeaders].
  split; [apply insert_insert_eq|].
  repeat (split; [reflexivity|]).
  split; [exact Lss|]. split; [exact Fss|]. split; [exact Lhs | exact Fhs].
Qed.

Lemma filter_map_comm {A B : Type} (f : B -> bool) (g : A -> B) (l : list A) :
  List.filter f (List.map g l) = List.map g (List.filter (fun x => f (g x)) l).
Proof.
  induction l as [|x l IH]; [reflexivity|].
  cbn [List.map List.filter]. destruct (f (g x)); cbn [List.map]; now rewrite IH.
Qed.

Lemma opened_ports (env : Eff.Env) (host : string) (ports : list Z) :
  List.filter Routes.isOpen (List.map (ScanFacts.probeResult env host) ports) =
  List.map (ScanFacts.probeResult env host)
    (List.filter (ScanFacts.accepts env host) ports).
Proof.
  rewrite filter_map_comm. f_equal. apply List.filter_ext.
  intros p. apply accepts_isOpen.
Qed.

Lemma openRow_of_probe (env : Eff.Env) (host : string) (scanId : nat) (p : Z) :
  List.In p Routes.commonPorts ->
  ScanFacts.accepts env host p = true ->
  ScanFacts.resultRow scanId (ScanFacts.probeResult env host p) =
  ScanFacts.openRow scanId p.
Proof.
  intros Hin Hacc.
  unfold ScanFacts.resultRow, ScanFacts.probeResult, ScanFacts.openRow,
    ScanFacts.accepts in *.
  destruct (fst (Eff.socketEvents env host p)); try discriminate Hacc.
  cbn [Ports.port Ports.state Ports.service Ports.protocol PortRules.classify].
  unfold Routes.commonPorts in Hin. cbn [List.In] in Hin.
  repeat (destruct Hin as [<-|Hin]; [reflexivity|]). contradiction.
Qed.

Lemma analyzeVulnerabilities_length (rs : list Ports.PortResult) :
  (List.length (Ports.analyzeVulnerabilities rs) <=
   List.length (List.filter Routes.isOpen rs))%nat.
Proof.
  rewrite analyzeVulnerabilities_by_port.
  replace (List.length (List.filter Routes.isOpen rs))
    with (List.length (PortRules.openPorts rs))
    by (unfold PortRules.openPorts; now rewrite List.length_map).
  induction (PortRules.openPorts rs) as [|p ps IH]; [cbn; lia|].
  cbn [List.flat_map List.length]. rewrite List.length_app.
  pose proof (proj1 (portRules_shape p)). lia.
Qed.

Lemma performScan_rows (env : Eff.Env) (id : nat) (url : string)
    (u : Eff.URLRecord) (sc : Schema.Scan) (w : Eff.World) :
  Eff.parseURL env url = Some u ->
  Eff.scans (Eff.storage w) !! id = Some sc ->
  let openOnes :=
    List.filter (ScanFacts.accepts env (Eff.hostname u)) Routes.commonPorts in
  exists w' final summary rs vs ss hs,
    Routes.performScan env id url w = (Eff.Ok tt, w') /\
    Eff.scans (Eff.storage w') = <[id := final]> (Eff.scans (Eff.storage w)) /\
    Schema.status final = "completed" /\
    Schema.results final = Some summary /\
    Schema.id final = Schema.id sc /\
    Schema.url final = Schema.url sc /\
    Schema.createdAt final = Schema.createdAt sc /\
    List.map Schema.row (Eff.scanResults (Eff.storage w')) =
      List.map Schema.row (Eff.scanResults (Eff.storage w)) ++ rs /\
    List.map Schema.row (Eff.vulnerabilities (Eff.storage w')) =
      List.map Schema.row (Eff.vulnerabilities (Eff.storage w)) ++ vs /\
    List.map Schema.row (Eff.sslAnalyses (Eff.storage w')) =
      List.map Schema.row (Eff.sslAnalyses (Eff.storage w)) ++ ss /\
    List.map Schema.row (Eff.securityHeaders (Eff.storage w')) =
      List.map Schema.row (Eff.securityHeaders (Eff.storage w)) ++ hs /\
    rs = List.map (ScanFacts.openRow id) openOnes /\
    vs = List.map (ScanFacts.vulnRow id)
           (List.flat_map PortRules.portRules openOnes) /\
    List.Forall (fun a => Schema.ssl_scanId a = id /\
                          Schema.ssl_hostname a = Eff.hostname u) ss /\
    List.Forall (fun a => Schema.sh_scanId a = id /\
                          Schema.sh_hostname a = Eff.hostname u) hs /\
    Schema.totalPorts summary = 16 /\
    Schema.openPorts summary = Z.of_nat (List.length rs) /\
    Schema.vulnerabilitiesFound summary = Z.of_nat (List.length vs) /\
    Schema.vulnerabilitiesFound summary <= Schema.openPorts summary <= 16 /\
    List.length ss = (if Schema.sslAnalyzed summary then 1 else 0)%nat /\
    List.length hs =
      (if Schema.securityHeadersAnalyzed summary then 1 else 0)%nat /\
    (Schema.sslAnalyzed summary = true <->
     ScanFacts.accepts env (Eff.hostname u) 443 = true) /\
    (Schema.securityHeadersAnalyzed summary = true <->
     ScanFacts.accepts env (Eff.hostname u) 443 = true \/
     ScanFacts.accepts env (Eff.hostname u) 80 = true).
Proof.
  intros Hu Hsc openOnes.
  destruct (pipeline_exact env id url u sc w Hu Hsc)
    as (w' & at_ & ss & hs & Hrun & Hscans & Hrs & Hvs & Hss & Hhs &
        Lss & Fss & Lhs & Fhs).
  cbv zeta in Hscans.
  assert (Hopened :
    List.filter Routes.isOpen (ScanFacts.probeResults env (Eff.hostname u)) =
    List.map (ScanFacts.probeResult env (Eff.hostname u)) openOnes)
    by apply opened_ports.
  assert (Hrows :
    List.map (ScanFacts.resultRow id)
      (List.filter Routes.isOpen (ScanFacts.probeResults env (Eff.hostname u))) =
    List.map (ScanFacts.openRow id) openOnes).
  { rewrite Hopened, List.map_map. apply List.map_ext_in.
    intros p Hp. apply List.filter_In in Hp. destruct Hp as [Hin Hacc].
    now apply openRow_of_probe. }
  assert (Hports :
    PortRules.openPorts
      (List.filter Routes.isOpen (ScanFacts.probeResults env (Eff.hostname u))) =
    openOnes).
  { rewrite Hopened. unfold PortRules.openPorts.
    fold Routes.isOpen.
    change (fun r : Ports.PortResult => String.eqb (Ports.state r) "open")
      with Routes.isOpen.
    rewrite filter_map_comm, List.map_map. cbn [Ports.port ScanFacts.probeResult].
    rewrite List.map_id.
    transitivity (List.filter (fun _ => true) openOnes).
    - apply List.filter_ext_in. intros p Hp.
      apply List.filter_In in Hp. rewrite accepts_isOpen. tauto.
    - clear. induction openOnes as [|p l IH]; [reflexivity|].
      cbn. now rewrite IH. }
  pose proof (analyzeVulnerabilities_length
    (List.filter Routes.isOpen (ScanFacts.probeResults env (Eff.hostname u))))
    as Hle.
  assert (Hidem : forall l : list Ports.PortResult,
            List.filter Routes.isOpen (List.filter Routes.isOpen l) =
            List.filter Routes.isOpen l).
  { intros l. induction l as [|r l IH]; [reflexivity|].
    cbn [List.filter]. destruct (Routes.isOpen r) eqn:E; [|exact IH].
    cbn [List.filter]. rewrite E. now rewrite IH. }
  rewrite Hidem in Hle.
  rewrite analyzeVulnerabilities_by_port, Hports in Hvs, Hscans, Hle.
  rewrite Hrows in Hrs. rewrite Hopened in Hscans, Hle.
  eexists w', _, _, _, _, ss, hs.
  split; [exact Hrun|]. split; [exact Hscans|].
  split; [reflexivity|]. split; [reflexivity|].
  split; [reflexivity|]. split; [reflexivity|]. split; [reflexivity|].
  split; [exact Hrs|]. split; [exact Hvs|]. split; [exact Hss|].
  split; [exact Hhs|]. split; [reflexivity|]. split; [reflexivity|].
  split; [exact Fss|]. split; [exact Fhs|].
  cbn [Schema.totalPorts Schema.openPorts Schema.vulnerabilitiesFound
       Schema.sslAnalyzed Schema.securityHeadersAnalyzed].
  rewrite !List.length_map in *.
  split; [reflexivity|]. split; [reflexivity|]. split; [reflexivity|].
  split.
  { split; [lia|].
    pose proof (List.filter_length_le (ScanFacts.accepts env (Eff.hostname u))
                  Routes.commonPorts) as H16.
    fold openOnes in H16. change (List.length Routes.commonPorts) with 16%nat in H16.
    lia. }
  split; [exact Lss|]. split; [exact Lhs|].
  split; [tauto|].
  destruct (ScanFacts.accepts env (Eff.hostname u) 443),
           (ScanFacts.accepts env (Eff.hostname u) 80); cbn; intuition discriminate.
Qed.

(** X11. A run of the orchestrator on an existing scan whose URL parses
    returns with the scan completed, and what it stores is determined by
    which of the sixteen probed ports accepted the connection: one
    scanResults row per such port, in probing order, with state open,
    protocol tcp, the service name and the rated risk of the port; one
    vulnerabilities row per rule-table entry of those ports; one TLS row
    exactly when port 443 accepted, one header row exactly when 443 or
    80 accepted; every row carries the scan's id, and the rows already
    stored are kept.  The summary written on the scan counts these rows:
    totalPorts is 16, openPorts the number of scanResults rows,
    vulnerabilitiesFound the number of vulnerability rows (never more
    than openPorts), and the two flags tell whether the TLS and header
    rows were written. *)
Theorem completed_scan_rows (env : Eff.Env) (id : nat) (url : string)
    (u : Eff.URLRecord) (sc : Schema.Scan) (w : Eff.World) :
  Eff.parseURL env url = Some u ->
  Eff.scans (Eff.storage w) !! id = Some sc ->
  let openOnes :=
    List.filter (ScanFacts.accepts env (Eff.hostname u)) Routes.commonPorts in
  exists w' final summary rs vs ss hs,
    Routes.performScan env id url w = (Eff.Ok tt, w') /\
    Eff.scans (Eff.storage w') = <[id := final]> (Eff.scans (Eff.storage w)) /\
    Schema.status final = "completed" /\
    Schema.results final = Some summary /\
    Schema.id final = Schema.id sc /\
    Schema.url final = Schema.url sc /\
    Schema.createdAt final = Schema.createdAt sc /\
    List.map Schema.row (Eff.scanResults (Eff.storage w')) =
      List.map Schema.row (Eff.scanResults (Eff.storage w)) ++ rs /\
    List.map Schema.row (Eff.vulnerabilities (Eff.storage w')) =
      List.map Schema.row (Eff.vulnerabilities (Eff.storage w)) ++ vs /\
    List.map Schema.row (Eff.sslAnalyses (Eff.storage w')) =
      List.map Schema.row (Eff.sslAnalyses (Eff.storage w)) ++ ss /\
    List.map Schema.row (Eff.securityHeaders (Eff.storage w')) =
      List.map Schema.row (Eff.securityHeaders (Eff.storage w)) ++ hs /\
    rs = List.map (ScanFacts.openRow id) openOnes /\
    vs = List.map (ScanFacts.vulnRow id)
           (List.flat_map PortRules.portRules openOnes) /\
    List.Forall (fun a => Schema.ssl_scanId a = id /\
                          Schema.ssl_hostname a = Eff.hostname u) ss /\
    List.Forall (fun a => Schema.sh_scanId a = id /\
                          Schema.sh_hostname a = Eff.hostname u) hs /\
    Schema.totalPorts summary = 16 /\
    Schema.openPorts summary = Z.of_nat (List.length rs) /\
    Schema.vulnerabilitiesFound summary = Z.of_nat (List.length vs) /\
    Schema.vulnerabilitiesFound summary <= Schema.openPorts summary <= 16 /\
    List.length ss = (if Schema.sslAnalyzed summary then 1 else 0)%nat /\
    List.length hs =
      (if Schema.securityHeadersAnalyzed summary then 1 else 0)%nat /\
    (Schema.sslAnalyzed summary = true <->
     ScanFacts.accepts env (Eff.hostname u) 443 = true) /\
    (Schema.securityHeadersAnalyzed summary = true <->
     ScanFacts.accepts env (Eff.hostname u) 443 = true \/
     ScanFacts.accepts env (Eff.hostname u) 80 = true).
Proof. exact (performScan_rows env id url u sc w). Qed.

(** X11 at the healthy endpoint. *)
Lemma completed_scan_rows_witness :
  exists w' final,
    Routes.performScan Endpoints.healthy 0 "https://example.com"
      Endpoints.started = (Eff.Ok tt, w') /\
    Eff.scans (Eff.storage w') =
      <[0%nat := final]> (Eff.scans (Eff.storage Endpoints.started)) /\
    Schema.status final = "completed".
Proof.
  assert (Hsc : exists sc,
            Eff.scans (Eff.storage Endpoints.started) !! 0%nat = Some sc)
    by (vm_compute; eexists; reflexivity).
  destruct Hsc as [sc Hsc].
  destruct (completed_scan_rows Endpoints.healthy 0 "https://example.com"
              {| Eff.protocol := "https:"; Eff.hostname := "example.com";
                 Eff.port := ""; Eff.pathname := "/"; Eff.search := "" |}
              sc Endpoints.started eq_refl Hsc)
    as (w' & final & summary & rs & vs & ss & hs & Hrun & Hscans & Hst & _).
  exists w', final. split; [exact Hrun|]. split; [exact Hscans | exact Hst].
Defined.

(** ** Reading a scan back *)

Lemma getScans_run (id : nat) (w : Eff.World) :
  ScanRoute.getScans id w =
  (Eff.Ok
     match Eff.scans (Eff.storage w) !! id with
     | None => ScanRoute.Failure 404 "Scan not found"
     | Some scan =>
         ScanRoute.Report
           {| ScanRoute.report_scan := scan;
              ScanRoute.report_scanResults :=
                List.filter
                  (fun r => Nat.eqb (Schema.sr_scanId (Schema.row r)) (Schema.id scan))
                  (Eff.scanResults (Eff.storage w));
              ScanRoute.report_vulnerabilities :=
                List.filter
                  (fun r => Nat.eqb (Schema.v_scanId (Schema.row r)) (Schema.id scan))
                  (Eff.vulnerabilities (Eff.storage w));
              ScanRoute.report_sslAnalysis :=
                List.find
                  (fun r => Nat.eqb (Schema.ssl_scanId (Schema.row r)) (Schema.id scan))
                  (Eff.sslAnalyses (Eff.storage w));
              ScanRoute.report_securityHeaders :=
                List.find
                  (fun r => Nat.eqb (Schema.sh_scanId (Schema.row r)) (Schema.id scan))
                  (Eff.securityHeaders (Eff.storage w)) |}
     end, w).
Proof.
  unfold ScanRoute.getScans, Eff.tryCatch, Eff.bind, Storage.getScan, Eff.gets.
  destruct (Eff.scans (Eff.storage w) !! id); reflexivity.
Qed.

(** [find] returns the first element that passes the test. *)
Lemma find_first {A : Type} (f : A -> bool) (l : list A) (x : A) :
  List.find f l = Some x <->
  exists before after,
    l = before ++ x :: after /\ f x = true /\
    List.Forall (fun y => f y = false) before.
Proof.
  induction l as [|y l IH]; cbn [List.find].
  - split; [discriminate|]. intros (before & after & H & _).
    destruct before; discriminate H.
  - destruct (f y) eqn:Hy.
    + split.
      * intros [= ->]. exists [], l. repeat split; [exact Hy | constructor].
      * intros (before & after & H & Hx & Hb).
        destruct before as [|z before]; cbn in H.
        -- now injection H as ->.
        -- injection H as -> _. apply List.Forall_inv in Hb. congruence.
    + rewrite IH. split.
      * intros (before & after & -> & Hx & Hb).
        exists (y :: before), after. repeat split; [exact Hx|].
        constructor; assumption.
      * intros (before & after & H & Hx & Hb).
        destruct before as [|z before]; cbn in H.
        -- injection H as -> _. congruence.
        -- injection H as -> ->. exists before, after.
           repeat split; [exact Hx|]. now apply List.Forall_inv_tail in Hb.
Qed.

Lemma find_none_all {A : Type} (f : A -> bool) (l : list A) :
  List.find f l = None <-> List.Forall (fun y => f y = false) l.
Proof.
  induction l as [|y l IH]; cbn [List.find].
  - split; [constructor | reflexivity].
  - destruct (f y) eqn:Hy.
    + split; [discriminate|]. intros H. apply List.Forall_inv in H. congruence.
    + rewrite IH. split.
      * intros H. constructor; assumption.
      * intros H. now apply List.Forall_inv_tail in H.
Qed.

(** X12. Reading a scan back never changes the world and never answers
    500: an unknown id is answered 404 Scan not found, a known id with
    the stored scan record together with exactly the scanResults and
    vulnerabilities rows that carry the record's id, in stored order,
    and the first TLS row and the first header row that carry it: the
    row returned has no row of that id stored before it, and none is
    returned only when no stored row carries the id. *)
Theorem scan_report_reads_store (id : nat) (w : Eff.World) :
  exists answer,
    ScanRoute.getScans id w = (Eff.Ok answer, w) /\
    answer <> ScanRoute.Failure 500 "Internal server error" /\
    (answer = ScanRoute.Failure 404 "Scan not found" <->
     Eff.scans (Eff.storage w) !! id = None) /\
    (forall scan, Eff.scans (Eff.storage w) !! id = Some scan ->
       exists body,
         answer = ScanRoute.Report body /\
         ScanRoute.report_scan body = scan /\
         ScanRoute.report_scanResults body =
           List.filter
             (fun r => Nat.eqb (Schema.sr_scanId (Schema.row r)) (Schema.id scan))
             (Eff.scanResults (Eff.storage w)) /\
         ScanRoute.report_vulnerabilities body =
           List.filter
             (fun r => Nat.eqb (Schema.v_scanId (Schema.row r)) (Schema.id scan))
             (Eff.vulnerabilities (Eff.storage w)) /\
         ScanRoute.report_sslAnalysis body =
           List.find
             (fun r => Nat.eqb (Schema.ssl_scanId (Schema.row r)) (Schema.id scan))
             (Eff.sslAnalyses (Eff.storage w)) /\
         ScanRoute.report_securityHeaders body =
           List.find
             (fun r => Nat.eqb (Schema.sh_scanId (Schema.row r)) (Schema.id scan))
             (Eff.securityHeaders (Eff.storage w)) /\
         (forall r, List.In r (ScanRoute.report_scanResults body) <->
                    List.In r (Eff.scanResults (Eff.storage w)) /\
                    Schema.sr_scanId (Schema.row r) = Schema.id scan) /\
         (forall r, List.In r (ScanRoute.report_vulnerabilities body) <->
                    List.In r (Eff.vulnerabilities (Eff.storage w)) /\
                    Schema.v_scanId (Schema.row r) = Schema.id scan) /\
         (forall r,
            ScanRoute.report_sslAnalysis body = Some r <->
            exists before after,
              Eff.sslAnalyses (Eff.storage w) = before ++ r :: after /\
              Schema.ssl_scanId (Schema.row r) = Schema.id scan /\
              List.Forall
                (fun r' => Schema.ssl_scanId (Schema.row r') <> Schema.id scan)
                before) /\
         (ScanRoute.report_sslAnalysis body = None <->
          List.Forall
            (fun r => Schema.ssl_scanId (Schema.row r) <> Schema.id scan)
            (Eff.sslAnalyses (Eff.storage w))) /\
         (forall r,
            ScanRoute.report_securityHeaders body = Some r <->
            exists before after,
              Eff.securityHeaders (Eff.storage w) = before ++ r :: after /\
              Schema.sh_scanId (Schema.row r) = Schema.id scan /\
              List.Forall
                (fun r' => Schema.sh_scanId (Schema.row r') <> Schema.id scan)
                before) /\
         (ScanRoute.report_securityHeaders body = None <->
          List.Forall
            (fun r => Schema.sh_scanId (Schema.row r) <> Schema.id scan)
            (Eff.securityHeaders (Eff.storage w)))).
Proof.
  assert (Hne : forall {A} (g : A -> nat) (n : nat) (l : list A),
            List.Forall (fun y => Nat.eqb (g y) n = false) l <->
            List.Forall (fun y => g y <> n) l).
  { intros A g n l. split; intros H; (eapply List.Forall_impl; [|exact H]);
      cbv beta; intros y Hy; now apply Nat.eqb_neq. }
  eexists. split; [apply getScans_run|].
  destruct (Eff.scans (Eff.storage w) !! id) as [scan|] eqn:Hscan.
  - split; [discriminate|]. split; [split; discriminate|].
    intros scan' [= <-]. eexists. split; [reflexivity|].
    cbn [ScanRoute.report_scan ScanRoute.report_scanResults
         ScanRoute.report_vulnerabilities ScanRoute.report_sslAnalysis
         ScanRoute.report_securityHeaders].
    split; [reflexivity|]. split; [reflexivity|]. split; [reflexivity|].
    split; [reflexivity|]. split; [reflexivity|].
    split; [intros r; rewrite List.filter_In, Nat.eqb_eq; tauto|].
    split; [intros r; rewrite List.filter_In, Nat.eqb_eq; tauto|].
    split.
    { intros r. rewrite find_first. split.
      - intros (before & after & H1 & H2 & H3). exists before, after.
        split; [exact H1|]. split; [now apply Nat.eqb_eq|].
        now apply (Hne _ (fun r' => Schema.ssl_scanId (Schema.row r'))).
      - intros (before & after & H1 & H2 & H3). exists before, after.
        split; [exact H1|]. split; [now apply Nat.eqb_eq|].
        now apply (Hne _ (fun r' => Schema.ssl_scanId (Schema.row r'))). }
    split.
    { rewrite find_none_all.
      apply (Hne _ (fun r' => Schema.ssl_scanId (Schema.row r'))). }
    split.
    { intros r. rewrite find_first. split.
      - intros (before & after & H1 & H2 & H3). exists before, after.
        split; [exact H1|]. split; [now apply Nat.eqb_eq|].
        now apply (Hne _ (fun r' => Schema.sh_scanId (Schema.row r'))).
      - intros (before & after & H1 & H2 & H3). exists before, after.
        split; [exact H1|]. split; [now apply Nat.eqb_eq|].
        now apply (Hne _ (fun r' => Schema.sh_scanId (Schema.row r'))). }
    rewrite find_none_all.
    apply (Hne _ (fun r' => Schema.sh_scanId (Schema.row r'))).
  - split; [discriminate|]. split; [split; reflexivity|].
    intros scan. discriminate.
Qed.

Lemma createScan_run (env : Eff.Env) (url : string) (w : Eff.World) :
  exists scan w1,
    Storage.createScan env url w = (Eff.Ok scan, w1) /\
    Schema.id scan = Eff.uuids w /\
    Schema.url scan = url /\
    Schema.status scan = "pending" /\
    Eff.scans (Eff.storage w1) = <[Eff.uuids w := scan]> (Eff.scans (Eff.storage w)) /\
    Eff.scanResults (Eff.storage w1) = Eff.scanResults (Eff.storage w) /\
    Eff.vulnerabilities (Eff.storage w1) = Eff.vulnerabilities (Eff.storage w) /\
    Eff.sslAnalyses (Eff.storage w1) = Eff.sslAnalyses (Eff.storage w) /\
    Eff.securityHeaders (Eff.storage w1) = Eff.securityHeaders (Eff.storage w).
Proof.
  unfold Storage.createScan, Eff.bind, Eff.randomUUID, Eff.newDate,
    Eff.modify, Eff.record, Eff.ret. cbn.
  eexists. eexists. split; [reflexivity|]. cbn. repeat split.
Qed.

Lemma filter_rows {A : Type} (f : A -> bool) (l : list (Schema.Row A))
    (old new : list A) :
  List.map Schema.row l = old ++ new ->
  List.Forall (fun a => f a = false) old ->
  List.Forall (fun a => f a = true) new ->
  List.map Schema.row (List.filter (fun r => f (Schema.row r)) l) = new.
Proof.
  intros Hl Hold Hnew.
  rewrite <- (filter_map_comm f Schema.row l), Hl, List.filter_app.
  assert (H1 : List.filter f old = []).
  { clear Hl. induction Hold as [|a old Ha _ IH]; [reflexivity|].
    cbn. now rewrite Ha. }
  assert (H2 : List.filter f new = new).
  { clear Hl. induction Hnew as [|a new Ha _ IH]; [reflexivity|].
    cbn. now rewrite Ha, IH. }
  now rewrite H1, H2.
Qed.

Lemma find_rows {A : Type} (f : A -> bool) (l : list (Schema.Row A))
    (old new : list A) :
  List.map Schema.row l = old ++ new ->
  List.Forall (fun a => f a = false) old ->
  List.Forall (fun a => f a = true) new ->
  (is_Some (List.find (fun r => f (Schema.row r)) l) <-> new <> []).
Proof.
  intros Hl Hold Hnew.
  pose proof (filter_rows f l old new Hl Hold Hnew) as Hf.
  split.
  - intros [r Hr] ->. apply List.find_some in Hr. destruct Hr as [Hin Hr].
    assert (Hin' : List.In r (List.filter (fun r => f (Schema.row r)) l))
      by (apply List.filter_In; split; assumption).
    apply (List.in_map Schema.row) in Hin'. rewrite Hf in Hin'. exact Hin'.
  - intros Hne.
    destruct (List.find (fun r => f (Schema.row r)) l) as [r|] eqn:Hfind;
      [eauto|].
    exfalso. apply Hne. rewrite <- Hf.
    replace (List.filter (fun r => f (Schema.row r)) l) with
      (@nil (Schema.Row A)); [reflexivity|].
    symmetry. clear -Hfind. induction l as [|x l IH]; [reflexivity|].
    cbn in Hfind |- *. destruct (f (Schema.row x)); [discriminate|].
    now apply IH.
Qed.

Lemma filter_unreferenced {A : Type} (g : A -> nat) (n : nat) (l : list A) :
  List.Forall (fun r => g r <> n) l ->
  List.filter (fun r => Nat.eqb (g r) n) l = [] /\
  List.find (fun r => Nat.eqb (g r) n) l = None.
Proof.
  induction 1 as [|r l Hr _ IH]; [split; reflexivity|].
  cbn. apply Nat.eqb_neq in Hr. rewrite Hr. exact IH.
Qed.

Lemma accepted_scan_report (env : Eff.Env) (url : string) (u : Eff.URLRecord)
    (w : Eff.World) :
  Eff.parseURL env url = Some u ->
  ScanRoute.unreferenced (Eff.uuids w) (Eff.storage w) ->
  let openOnes :=
    List.filter (ScanFacts.accepts env (Eff.hostname u)) Routes.commonPorts in
  exists scan w1 early,
    Routes.postScans env (Some url) w = (Eff.Ok (Routes.Json scan), w1) /\
    Schema.id scan = Eff.uuids w /\
    Schema.status scan = "pending" /\
    ScanRoute.getScans (Schema.id scan) w1 =
      (Eff.Ok (ScanRoute.Report early), w1) /\
    Schema.id (ScanRoute.report_scan early) = Schema.id scan /\
    Schema.url (ScanRoute.report_scan early) = url /\
    Schema.status (ScanRoute.report_scan early) = "running" /\
    Schema.results (ScanRoute.report_scan early) = None /\
    Schema.completedAt (ScanRoute.report_scan early) = None /\
    ScanRoute.report_scanResults early = [] /\
    ScanRoute.report_vulnerabilities early = [] /\
    ScanRoute.report_sslAnalysis early = None /\
    ScanRoute.report_securityHeaders early = None /\
    exists w2 body summary,
      Routes.launched env (Schema.id scan) url w1 = (Eff.Ok tt, w2) /\
      ScanRoute.getScans (Schema.id scan) w2 =
        (Eff.Ok (ScanRoute.Report body), w2) /\
      Schema.id (ScanRoute.report_scan body) = Schema.id scan /\
      Schema.url (ScanRoute.report_scan body) = url /\
      Schema.createdAt (ScanRoute.report_scan body) = Schema.createdAt scan /\
      Schema.status (ScanRoute.report_scan body) = "completed" /\
      Schema.results (ScanRoute.report_scan body) = Some summary /\
      List.map Schema.row (ScanRoute.report_scanResults body) =
        List.map (ScanFacts.openRow (Schema.id scan)) openOnes /\
      List.map Schema.row (ScanRoute.report_vulnerabilities body) =
        List.map (ScanFacts.vulnRow (Schema.id scan))
          (List.flat_map PortRules.portRules openOnes) /\
      Schema.openPorts summary =
        Z.of_nat (List.length (ScanRoute.report_scanResults body)) /\
      Schema.vulnerabilitiesFound summary =
        Z.of_nat (List.length (ScanRoute.report_vulnerabilities body)) /\
      (Schema.sslAnalyzed summary = true <->
       is_Some (ScanRoute.report_sslAnalysis body)) /\
      (Schema.securityHeadersAnalyzed summary = true <->
       is_Some (ScanRoute.report_securityHeaders body)).
Proof.
  intros Hu (Fr & Fv & Fs & Fh) openOnes.
  destruct (createScan_run env url w)
    as (scan & w0 & Hc & Hid & Hurl & Hpending & Hs1 & Hr1 & Hv1 & Hss1 & Hh1).
  assert (Hlook : Eff.scans (Eff.storage w0) !! Schema.id scan = Some scan)
    by (rewrite Hs1, Hid; apply lookup_insert_eq).
  set (running := Storage.applyUpdates scan (Routes.statusOnly "running")).
  set (w1 := Lifecycle.afterUpdate (Schema.id scan) running "running" w0).
  assert (H1 : Storage.updateScan (Schema.id scan) (Routes.statusOnly "running") w0 =
               (Eff.Ok (Some running), w1))
    by (apply updateScan_existing; [exact Hlook | reflexivity]).
  assert (Hstart : Routes.performScanStart (Schema.id scan) w0 = (Eff.Ok tt, w1))
    by (unfold Routes.performScanStart; now rewrite (bind_ok _ _ _ _ _ H1)).
  assert (Hcreated : Schema.results scan = None /\ Schema.completedAt scan = None).
  { revert Hc. unfold Storage.createScan, Eff.bind, Eff.randomUUID, Eff.newDate,
      Eff.modify, Eff.record, Eff.ret. cbn. intros [= <- _]. split; reflexivity. }
  destruct (performScan_rows env (Schema.id scan) url u scan w0 Hu Hlook)
    as (w' & final & summary & rs & vs & ss & hs & Hrun & Hscans & Hst & Hres &
        Hfid & Hfurl & Hfcreated &
        Hrs & Hvs & Hss & Hhs & Ers & Evs & Fss & Fhs & _ & Hopen & Hvul & _ &
        Lss & Lhs & _).
  rewrite Hurl in Hfurl.
  fold openOnes in Ers, Evs.
  rewrite Hr1 in Hrs. rewrite Hv1 in Hvs. rewrite Hss1 in Hss. rewrite Hh1 in Hhs.
  assert (Hrest : Routes.performScanRest env (Schema.id scan) url w1 =
                  (Eff.Ok tt, w')).
  { rewrite performScan_split in Hrun.
    now rewrite (bind_ok _ _ _ _ _ Hstart) in Hrun. }
  assert (Hfinal : Eff.scans (Eff.storage w') !! Schema.id scan = Some final)
    by (rewrite Hscans; apply lookup_insert_eq).
  pose proof (getScans_run (Schema.id scan) w') as Hget. rewrite Hfinal in Hget.
  rewrite Hfid in Hget.
  assert (Hearly : Eff.scans (Eff.storage w1) !! Schema.id scan = Some running)
    by (cbn; apply lookup_insert_eq).
  pose proof (getScans_run (Schema.id scan) w1) as Hget1.
  rewrite Hearly in Hget1.
  change (Schema.id running) with (Schema.id scan) in Hget1.
  change (Eff.scanResults (Eff.storage w1))
    with (Eff.scanResults (Eff.storage w0)) in Hget1.
  change (Eff.vulnerabilities (Eff.storage w1))
    with (Eff.vulnerabilities (Eff.storage w0)) in Hget1.
  change (Eff.sslAnalyses (Eff.storage w1))
    with (Eff.sslAnalyses (Eff.storage w0)) in Hget1.
  change (Eff.securityHeaders (Eff.storage w1))
    with (Eff.securityHeaders (Eff.storage w0)) in Hget1.
  rewrite Hr1, Hv1, Hss1, Hh1, Hid in Hget1.
  rewrite (proj1 (filter_unreferenced
             (fun r => Schema.sr_scanId (Schema.row r)) _ _ Fr)) in Hget1.
  rewrite (proj1 (filter_unreferenced
             (fun r => Schema.v_scanId (Schema.row r)) _ _ Fv)) in Hget1.
  rewrite (proj2 (filter_unreferenced
             (fun r => Schema.ssl_scanId (Schema.row r)) _ _ Fs)) in Hget1.
  rewrite (proj2 (filter_unreferenced
             (fun r => Schema.sh_scanId (Schema.row r)) _ _ Fh)) in Hget1.
  rewrite <- Hid in Hget1.
  assert (Old : forall {A} (g : A -> nat) (l : list (Schema.Row A)),
            List.Forall (fun r => g (Schema.row r) <> Eff.uuids w) l ->
            List.Forall (fun a => Nat.eqb (g a) (Schema.id scan) = false)
              (List.map Schema.row l)).
  { intros A g l H. apply List.Forall_map.
    eapply List.Forall_impl; [|exact H].
    cbv beta. intros r Hne. apply Nat.eqb_neq. now rewrite Hid. }
  assert (Nrs : List.Forall
            (fun a => Nat.eqb (Schema.sr_scanId a) (Schema.id scan) = true) rs).
  { rewrite Ers. apply List.Forall_map. apply List.Forall_forall.
    intros p _. cbn. apply Nat.eqb_refl. }
  assert (Nvs : List.Forall
            (fun a => Nat.eqb (Schema.v_scanId a) (Schema.id scan) = true) vs).
  { rewrite Evs. apply List.Forall_map. apply List.Forall_forall.
    intros p _. cbn. apply Nat.eqb_refl. }
  assert (Nss : List.Forall
            (fun a => Nat.eqb (Schema.ssl_scanId a) (Schema.id scan) = true) ss).
  { eapply List.Forall_impl; [|exact Fss]. cbv beta.
    intros a [Ha _]. now apply Nat.eqb_eq. }
  assert (Nhs : List.Forall
            (fun a => Nat.eqb (Schema.sh_scanId a) (Schema.id scan) = true) hs).
  { eapply List.Forall_impl; [|exact Fhs]. cbv beta.
    intros a [Ha _]. now apply Nat.eqb_eq. }
  pose proof (filter_rows (fun a => Nat.eqb (Schema.sr_scanId a) (Schema.id scan))
                _ _ _ Hrs (Old _ Schema.sr_scanId _ Fr) Nrs) as Grs.
  pose proof (filter_rows (fun a => Nat.eqb (Schema.v_scanId a) (Schema.id scan))
                _ _ _ Hvs (Old _ Schema.v_scanId _ Fv) Nvs) as Gvs.
  pose proof (find_rows (fun a => Nat.eqb (Schema.ssl_scanId a) (Schema.id scan))
                _ _ _ Hss (Old _ Schema.ssl_scanId _ Fs) Nss) as Gss.
  pose proof (find_rows (fun a => Nat.eqb (Schema.sh_scanId a) (Schema.id scan))
                _ _ _ Hhs (Old _ Schema.sh_scanId _ Fh) Nhs) as Ghs.
  eexists scan, w1, _.
  split.
  { unfold Routes.postScans. rewrite Hu.
    apply tryCatch_ok. rewrite (bind_ok _ _ _ _ _ Hc).
    rewrite (bind_ok _ _ _ _ _ Hstart). reflexivity. }
  split; [exact Hid|]. split; [exact Hpending|].
  split; [exact Hget1|].
  cbn [ScanRoute.report_scan ScanRoute.report_scanResults
       ScanRoute.report_vulnerabilities ScanRoute.report_sslAnalysis
       ScanRoute.report_securityHeaders].
  split; [reflexivity|]. split; [exact Hurl|]. split; [reflexivity|].
  split; [exact (proj1 Hcreated)|]. split; [exact (proj2 Hcreated)|].
  split; [reflexivity|]. split; [reflexivity|]. split; [reflexivity|].
  split; [reflexivity|].
  eexists w', _, summary.
  split; [unfold Routes.launched; apply tryCatch_ok; exact Hrest|].
  split; [exact Hget|].
  cbn [ScanRoute.report_scan ScanRoute.report_scanResults
       ScanRoute.report_vulnerabilities ScanRoute.report_sslAnalysis
       ScanRoute.report_securityHeaders].
  split; [exact Hfid|]. split; [exact Hfurl|]. split; [exact Hfcreated|].
  split; [exact Hst|]. split; [exact Hres|].
  split; [rewrite Grs; exact Ers|]. split; [rewrite Gvs; exact Evs|].
  split.
  { rewrite Hopen. f_equal. rewrite <- Grs at 1. now rewrite List.length_map. }
  split.
  { rewrite Hvul. f_equal. rewrite <- Gvs at 1. now rewrite List.length_map. }
  split.
  - rewrite Gss. destruct (Schema.sslAnalyzed summary); destruct ss; cbn in Lss;
      try discriminate Lss; split; intros H; try discriminate; try reflexivity;
      try (now contradiction H).
  - rewrite Ghs. destruct (Schema.securityHeadersAnalyzed summary); destruct hs;
      cbn in Lhs; try discriminate Lhs; split; intros H; try discriminate;
      try reflexivity; try (now contradiction H).
Qed.

(** X13. An accepted request, a read of the returned id right after the
    answer, and a read after the launched run has ended: when no child
    record of the store refers to the identifier about to be drawn, the
    request is answered with the pending scan; the first read returns
    that scan running, with no results, no completion time and no child
    record; after the launched run the read returns the scan completed,
    with the url and creation time of the answer, one scanResults row
    per probed port that accepted the connection and one vulnerability
    row per rule-table entry of those ports.  The summary of that report
    agrees with its detail: openPorts and vulnerabilitiesFound are the
    numbers of rows returned, and the two flags are set exactly when a
    TLS record and a header record are returned. *)
Theorem accepted_scan_reads_back (env : Eff.Env) (url : string)
    (u : Eff.URLRecord) (w : Eff.World) :
  Eff.parseURL env url = Some u ->
  ScanRoute.unreferenced (Eff.uuids w) (Eff.storage w) ->
  let openOnes :=
    List.filter (ScanFacts.accepts env (Eff.hostname u)) Routes.commonPorts in
  exists scan w1 early,
    Routes.postScans env (Some url) w = (Eff.Ok (Routes.Json scan), w1) /\
    Schema.id scan = Eff.uuids w /\
    Schema.status scan = "pending" /\
    ScanRoute.getScans (Schema.id scan) w1 =
      (Eff.Ok (ScanRoute.Report early), w1) /\
    Schema.id (ScanRoute.report_scan early) = Schema.id scan /\
    Schema.url (ScanRoute.report_scan early) = url /\
    Schema.status (ScanRoute.report_scan early) = "running" /\
    Schema.results (ScanRoute.report_scan early) = None /\
    Schema.completedAt (ScanRoute.report_scan early) = None /\
    ScanRoute.report_scanResults early = [] /\
    ScanRoute.report_vulnerabilities early = [] /\
    ScanRoute.report_sslAnalysis early = None /\
    ScanRoute.report_securityHeaders early = None /\
    exists w2 body summary,
      Routes.launched env (Schema.id scan) url w1 = (Eff.Ok tt, w2) /\
      ScanRoute.getScans (Schema.id scan) w2 =
        (Eff.Ok (ScanRoute.Report body), w2) /\
      Schema.id (ScanRoute.report_scan body) = Schema.id scan /\
      Schema.url (ScanRoute.report_scan body) = url /\
      Schema.createdAt (ScanRoute.report_scan body) = Schema.createdAt scan /\
      Schema.status (ScanRoute.report_scan body) = "completed" /\
      Schema.results (ScanRoute.report_scan body) = Some summary /\
      List.map Schema.row (ScanRoute.report_scanResults body) =
        List.map (ScanFacts.openRow (Schema.id scan)) openOnes /\
      List.map Schema.row (ScanRoute.report_vulnerabilities body) =
        List.map (ScanFacts.vulnRow (Schema.id scan))
          (List.flat_map PortRules.portRules openOnes) /\
      Schema.openPorts summary =
        Z.of_nat (List.length (ScanRoute.report_scanResults body)) /\
      Schema.vulnerabilitiesFound summary =
        Z.of_nat (List.length (ScanRoute.report_vulnerabilities body)) /\
      (Schema.sslAnalyzed summary = true <->
       is_Some (ScanRoute.report_sslAnalysis body)) /\
      (Schema.securityHeadersAnalyzed summary = true <->
       is_Some (ScanRoute.report_securityHeaders body)).
Proof. exact (accepted_scan_report env url u w). Qed.

(** X13 at the healthy endpoint and the empty store. *)
Lemma accepted_scan_reads_back_witness :
  exists scan w1 early w2 body,
    Routes.postScans Endpoints.healthy (Some "https://example.com")
      Samples.emptyWorld = (Eff.Ok (Routes.Json scan), w1) /\
    ScanRoute.getScans (Schema.id scan) w1 =
      (Eff.Ok (ScanRoute.Report early), w1) /\
    Schema.status (ScanRoute.report_scan early) = "running" /\
    Routes.launched Endpoints.healthy (Schema.id scan) "https://example.com" w1 =
      (Eff.Ok tt, w2) /\
    ScanRoute.getScans (Schema.id scan) w2 =
      (Eff.Ok (ScanRoute.Report body), w2) /\
    Schema.status (ScanRoute.report_scan body) = "completed".
Proof.
  assert (Hfree : ScanRoute.unreferenced (Eff.uuids Samples.emptyWorld)
                    (Eff.storage Samples.emptyWorld))
    by (repeat split; constructor).
  destruct (accepted_scan_reads_back Endpoints.healthy "https://example.com"
              {| Eff.protocol := "https:"; Eff.hostname := "example.com";
                 Eff.port := ""; Eff.pathname := "/"; Eff.search := "" |}
              Samples.emptyWorld eq_refl Hfree)
    as (scan & w1 & early & Hpost & _ & _ & Hget1 & _ & _ & Hrunning & _ & _ &
        _ & _ & _ & _ & w2 & body & summary & Hlaunch & Hget & _ & _ & _ &
        Hst & _).
  exists scan, w1, early, w2, body.
  split; [exact Hpost|]. split; [exact Hget1|]. split; [exact Hrunning|].
  split; [exact Hlaunch|]. split; [exact Hget | exact Hst].
Defined.

(** ** Further properties of the header fetch *)

Lemma lower_ascii_idem (c : ascii) :
  JS.lower_ascii (JS.lower_ascii c) = JS.lower_ascii c.
Proof. destruct c as [[] [] [] [] [] [] [] []]; reflexivity. Qed.

Lemma toLowerCase_idem (s : string) :
  JS.toLowerCase (JS.toLowerCase s) = JS.toLowerCase s.
Proof.
  induction s as [|c s IH]; [reflexivity|].
  cbn. now rewrite lower_ascii_idem, IH.
Qed.

Lemma find_snoc {A : Type} (f : A -> bool) (l : list A) (x : A) :
  List.find f (l ++ [x]) =
  match List.find f l with
  | Some y => Some y
  | None => if f x then Some x else None
  end.
Proof.
  induction l as [|a l IH]; [reflexivity|].
  cbn. destruct (f a); [reflexivity | exact IH].
Qed.

Lemma normalize_fold (raw : list (string * Eff.HeaderValue))
    (m : gmap string string) (name : string) :
  List.fold_left
    (fun (headers : gmap string string) kv =>
       match snd kv with
       | Eff.Single value => <[JS.toLowerCase (fst kv) := value]> headers
       | Eff.Multi values =>
           <[JS.toLowerCase (fst kv) := String.concat ", " values]> headers
       end)
    raw m !! name =
  match List.find (fun kv => String.eqb (JS.toLowerCase (fst kv)) name)
          (List.rev raw) with
  | Some kv => Some (HeaderValues.joined (snd kv))
  | None => m !! name
  end.
Proof.
  revert m. induction raw as [|[n hv] raw IH]; intros m; [reflexivity|].
  cbn [List.fold_left List.rev]. rewrite IH, find_snoc.
  destruct (List.find _ (List.rev raw)); [reflexivity|].
  cbn [fst snd].
  destruct (String.eqb_spec (JS.toLowerCase n) name) as [<-|Hne].
  - destruct hv; cbn; apply lookup_insert_eq.
  - destruct hv; cbn; now apply lookup_insert_ne.
Qed.

Lemma unique_by {A B : Type} (g : A -> B) (l : list A) (x y : A) :
  List.NoDup (List.map g l) ->
  List.In x l -> List.In y l -> g x = g y -> x = y.
Proof.
  induction l as [|a l IH]; intros Hnd Hx Hy Hg; [contradiction|].
  cbn in Hnd. apply List.NoDup_cons_iff in Hnd. destruct Hnd as [Hn Hnd].
  destruct Hx as [Hx|Hx], Hy as [Hy|Hy].
  - congruence.
  - subst a. exfalso. apply Hn. rewrite Hg. now apply List.in_map.
  - subst a. exfalso. apply Hn. rewrite <- Hg. now apply List.in_map.
  - now apply IH.
Qed.

Lemma normalize_lookup (raw : list (string * Eff.HeaderValue)) (name : string) :
  HeadersAnalyzer.normalizeHeaders raw !! name =
  option_map (fun kv => HeaderValues.joined (snd kv))
    (List.find (fun kv => String.eqb (JS.toLowerCase (fst kv)) name)
       (List.rev raw)).
Proof.
  unfold HeadersAnalyzer.normalizeHeaders. rewrite normalize_fold.
  destruct (List.find _ (List.rev raw)); [reflexivity|].
  apply lookup_empty.
Qed.

Lemma normalize_delivered (raw : list (string * Eff.HeaderValue))
    (n : string) (hv : Eff.HeaderValue) :
  List.NoDup (List.map (fun kv => JS.toLowerCase (fst kv)) raw) ->
  List.In (n, hv) raw ->
  HeadersAnalyzer.normalizeHeaders raw !! JS.toLowerCase n =
    Some (HeaderValues.joined hv).
Proof.
  intros Hnd Hhv. rewrite normalize_lookup.
  destruct (List.find _ (List.rev raw)) as [kv|] eqn:Hf.
  - apply List.find_some in Hf. destruct Hf as [Hkv Heq].
    apply List.in_rev in Hkv. apply String.eqb_eq in Heq.
    rewrite (unique_by (fun kv => JS.toLowerCase (fst kv)) raw kv (n, hv)
               Hnd Hkv Hhv Heq).
    reflexivity.
  - apply List.in_rev in Hhv.
    pose proof (List.find_none _ _ Hf _ Hhv) as Hn. cbv beta in Hn.
    cbn [fst] in Hn. now rewrite String.eqb_refl in Hn.
Qed.

Lemma normalize_names (raw : list (string * Eff.HeaderValue)) (name : string) :
  is_Some (HeadersAnalyzer.normalizeHeaders raw !! name) <->
  exists kv, List.In kv raw /\ JS.toLowerCase (fst kv) = name.
Proof.
  rewrite normalize_lookup. split.
  - destruct (List.find _ (List.rev raw)) as [kv|] eqn:Hf.
    + intros _. apply List.find_some in Hf. destruct Hf as [Hin Heq].
      exists kv. split; [now apply List.in_rev|]. now apply String.eqb_eq.
    + intros [v Hv]. discriminate Hv.
  - intros (kv & Hin & Heq).
    destruct (List.find _ (List.rev raw)) as [kv'|] eqn:Hf; [cbn; eauto|].
    apply List.in_rev in Hin.
    pose proof (List.find_none _ _ Hf kv Hin) as Hn. cbv beta in Hn.
    apply String.eqb_neq in Hn. contradiction.
Qed.

(** X14. Node hands the loop the response headers one entry per name,
    the names in lower case.  Whenever the names delivered are distinct
    even with case ignored, the table the analyzer works on holds, for
    every header delivered, the value delivered, under the name in lower
    case, an array value being joined with a comma and a space: nothing
    is dropped or overridden, the table has no other name, and the order
    in which the names are enumerated does not matter.  When the names
    are in lower case already, the table has exactly the names
    delivered. *)
Theorem header_table_lookup (raw : list (string * Eff.HeaderValue))
    (name : string) :
  List.NoDup (List.map (fun kv => JS.toLowerCase (fst kv)) raw) ->
  (forall n value,
     List.In (n, Eff.Single value) raw ->
     HeadersAnalyzer.normalizeHeaders raw !! JS.toLowerCase n = Some value) /\
  (forall n values,
     List.In (n, Eff.Multi values) raw ->
     HeadersAnalyzer.normalizeHeaders raw !! JS.toLowerCase n =
       Some (String.concat ", " values)) /\
  (is_Some (HeadersAnalyzer.normalizeHeaders raw !! name) <->
   exists kv, List.In kv raw /\ JS.toLowerCase (fst kv) = name) /\
  (forall raw', Permutation raw raw' ->
                HeadersAnalyzer.normalizeHeaders raw' !! name =
                HeadersAnalyzer.normalizeHeaders raw !! name) /\
  (List.Forall (fun kv => JS.toLowerCase (fst kv) = fst kv) raw ->
   HeadersAnalyzer.normalizeHeaders raw !! name =
     match List.find (fun kv => String.eqb (fst kv) name) raw with
     | Some (_, Eff.Single value) => Some value
     | Some (_, Eff.Multi values) => Some (String.concat ", " values)
     | None => None
     end /\
   (is_Some (HeadersAnalyzer.normalizeHeaders raw !! name) <->
    List.In name (List.map fst raw))).
Proof.
  intros Hnd.
  split; [intros n value Hv; exact (normalize_delivered raw n _ Hnd Hv)|].
  split; [intros n values Hv; exact (normalize_delivered raw n _ Hnd Hv)|].
  split; [apply normalize_names|].
  split.
  { intros raw' Hperm.
    assert (Hnd' : List.NoDup
              (List.map (fun kv => JS.toLowerCase (fst kv)) raw')).
    { eapply Permutation_NoDup; [|exact Hnd]. now apply Permutation_map. }
    destruct (HeadersAnalyzer.normalizeHeaders raw !! name) as [v|] eqn:Hv.
    - destruct (proj1 (normalize_names raw name) (ex_intro _ v Hv))
        as ([n hv] & Hin & Hname).
      cbn [fst] in Hname. subst name.
      rewrite (normalize_delivered raw n hv Hnd Hin) in Hv.
      rewrite <- Hv. apply normalize_delivered; [exact Hnd'|].
      eapply Permutation_in; [exact Hperm | exact Hin].
    - destruct (HeadersAnalyzer.normalizeHeaders raw' !! name) as [v'|] eqn:Hv';
        [|reflexivity].
      destruct (proj1 (normalize_names raw' name) (ex_intro _ v' Hv'))
        as (kv & Hin & Hname).
      assert (Hs : is_Some (HeadersAnalyzer.normalizeHeaders raw !! name)).
      { apply normalize_names. exists kv. split; [|exact Hname].
        eapply Permutation_in; [symmetry; exact Hperm | exact Hin]. }
      rewrite Hv in Hs. destruct Hs as [x Hx]. discriminate Hx. }
  intros Hlow.
  assert (Hl : forall kv, List.In kv raw -> JS.toLowerCase (fst kv) = fst kv)
    by (apply List.Forall_forall; exact Hlow).
  split.
  - destruct (List.find (fun kv => String.eqb (fst kv) name) raw)
      as [[n hv]|] eqn:Hf.
    + apply List.find_some in Hf. destruct Hf as [Hin Heq].
      cbn [fst] in Heq. apply String.eqb_eq in Heq. subst n.
      pose proof (normalize_delivered raw name hv Hnd Hin) as Hd.
      pose proof (Hl _ Hin) as Hk. cbn [fst] in Hk. rewrite Hk in Hd.
      rewrite Hd.
      destruct hv; reflexivity.
    + destruct (HeadersAnalyzer.normalizeHeaders raw !! name) as [v|] eqn:Hv;
        [|reflexivity].
      destruct (proj1 (normalize_names raw name) (ex_intro _ v Hv))
        as (kv & Hin & Hname).
      pose proof (List.find_none _ _ Hf kv Hin) as Hn. cbv beta in Hn.
      rewrite (Hl _ Hin) in Hname. rewrite Hname, String.eqb_refl in Hn.
      discriminate Hn.
  - rewrite normalize_names. split.
    + intros (kv & Hin & Hname). rewrite (Hl _ Hin) in Hname.
      rewrite <- Hname. now apply List.in_map.
    + intros Hin. apply List.in_map_iff in Hin.
      destruct Hin as (kv & Hname & Hin). exists kv.
      split; [exact Hin|]. now rewrite (Hl _ Hin).
Qed.

(** X14 at a response with a frame option and two cookies. *)
Lemma header_table_lookup_witness :
  HeadersAnalyzer.normalizeHeaders
    [("x-frame-options", Eff.Single "DENY");
     ("set-cookie", Eff.Multi ["a=1"; "b=2"])] !! "set-cookie" =
  Some "a=1, b=2".
Proof.
  assert (Hnd : List.NoDup
            (List.map
               (fun kv : string * Eff.HeaderValue => JS.toLowerCase (fst kv))
               [("x-frame-options", Eff.Single "DENY");
                ("set-cookie", Eff.Multi ["a=1"; "b=2"])])).
  { vm_compute. repeat constructor; cbn; intuition discriminate. }
  destruct (header_table_lookup _ "set-cookie" Hnd) as (_ & Hm & _).
  exact (Hm "set-cookie" ["a=1"; "b=2"] (or_intror (or_introl eq_refl))).
Defined.

(** ** What the provider patterns accept *)

Lemma append_cons (c : ascii) (a b : string) :
  String.append (String c a) b = String c (String.append a b).
Proof. reflexivity. Qed.

Lemma append_nil_l (b : string) : String.append EmptyString b = b.
Proof. reflexivity. Qed.

Lemma append_nil_inv (s1 s2 : string) :
  String.append s1 s2 = EmptyString -> s1 = EmptyString /\ s2 = EmptyString.
Proof.
  destruct s1; [rewrite append_nil_l; auto | rewrite append_cons; discriminate].
Qed.

Lemma append_assoc_str (a b c : string) :
  String.append (String.append a b) c = String.append a (String.append b c).
Proof. induction a as [|x a IH]; [reflexivity | rewrite !append_cons; f_equal; exact IH]. Qed.

Lemma append_nil_r_str (a : string) : String.append a EmptyString = a.
Proof. induction a as [|x a IH]; [reflexivity | rewrite !append_cons; f_equal; exact IH]. Qed.

Lemma nullable_spec (r : Cloud.Re) :
  Cloud.nullable r = true <-> ReSem.Matches r EmptyString.
Proof.
  induction r as [| | c | | r IH | r1 IH1 r2 IH2 | r1 IH1 r2 IH2];
    cbn [Cloud.nullable].
  - split; [discriminate | intros H; inversion H].
  - split; [constructor | reflexivity].
  - split; [discriminate | intros H; inversion H].
  - split; [discriminate | intros H; inversion H].
  - split; [constructor | reflexivity].
  - rewrite Bool.andb_true_iff, IH1, IH2. split.
    + intros [H1 H2]. exact (ReSem.MCat _ _ _ _ H1 H2).
    + intros H. inversion H as [| | | | |? ? s1 s2 H1 H2| |]; subst.
      match goal with
      | Heq : String.append _ _ = EmptyString |- _ =>
          apply append_nil_inv in Heq; destruct Heq as [-> ->]
      end.
      tauto.
  - rewrite Bool.orb_true_iff, IH1, IH2. split.
    + intros [H|H]; [now apply ReSem.MAltL | now apply ReSem.MAltR].
    + intros H. inversion H; subst; tauto.
Qed.

Lemma star_cons_inv (r : Cloud.Re) (c : ascii) (s : string) :
  ReSem.Matches (Cloud.ReStar r) (String c s) ->
  exists s1 s2, s = String.append s1 s2 /\
                ReSem.Matches r (String c s1) /\
                ReSem.Matches (Cloud.ReStar r) s2.
Proof.
  intros H. remember (Cloud.ReStar r) as r0 eqn:Hr.
  remember (String c s) as t eqn:Ht.
  revert s Ht.
  induction H as [| | | |r' s1 s2 H1 _ H2 IH2| | |]; intros s0 Ht;
    try discriminate Hr; try discriminate Ht.
  injection Hr as ->.
  destruct s1 as [|c1 s1].
  - rewrite append_nil_l in Ht. exact (IH2 eq_refl s0 Ht).
  - rewrite append_cons in Ht. injection Ht as -> <-. exists s1, s2. auto.
Qed.

Lemma deriv_spec (r : Cloud.Re) (c : ascii) (s : string) :
  ReSem.Matches (Cloud.deriv c r) s <-> ReSem.Matches r (String c s).
Proof.
  revert s.
  induction r as [| | a | | r IH | r1 IH1 r2 IH2 | r1 IH1 r2 IH2]; intros s;
    cbn [Cloud.deriv].
  - split; intros H; inversion H.
  - split; intros H; inversion H.
  - destruct (Ascii.eqb_spec a c) as [->|Hne].
    + split; intros H; inversion H; subst; constructor.
    + split; intros H; inversion H; subst. now contradiction Hne.
  - destruct (Cloud.lineTerminator c) eqn:Hlt.
    + split; intros H; inversion H; subst. congruence.
    + split; intros H; inversion H; subst; now constructor.
  - split.
    + intros H. inversion H as [| | | | |? ? s1 s2 H1 H2| |]; subst.
      apply IH in H1.
      exact (ReSem.MStarApp r (String c s1) s2 H1 H2).
    + intros H. apply star_cons_inv in H.
      destruct H as (s1 & s2 & -> & H1 & H2).
      apply IH in H1. now constructor.
  - assert (Hcat : forall s0,
      ReSem.Matches (Cloud.ReCat (Cloud.deriv c r1) r2) s0 ->
      ReSem.Matches (Cloud.ReCat r1 r2) (String c s0)).
    { intros s0 H. inversion H as [| | | | |? ? s1 s2 H1 H2| |]; subst.
      apply IH1 in H1. exact (ReSem.MCat r1 r2 (String c s1) s2 H1 H2). }
    assert (Hinv :
      ReSem.Matches (Cloud.ReCat r1 r2) (String c s) ->
      (Cloud.nullable r1 = true /\ ReSem.Matches (Cloud.deriv c r2) s) \/
      ReSem.Matches (Cloud.ReCat (Cloud.deriv c r1) r2) s).
    { intros H. inversion H as [| | | | |? ? s1 s2 H1 H2| |]; subst.
      match goal with
      | Heq : String.append _ _ = String _ _ |- _ => rename Heq into Hs
      end.
      destruct s1 as [|c1 s1].
      - rewrite append_nil_l in Hs. subst s2. left.
        split; [now apply nullable_spec|]. now apply IH2.
      - rewrite append_cons in Hs. injection Hs as -> <-. right.
        apply IH1 in H1. now constructor. }
    destruct (Cloud.nullable r1) eqn:Hn.
    + split.
      * intros H. inversion H; subst; [now apply Hcat|].
        apply (ReSem.MCat r1 r2 EmptyString (String c s));
          [now apply nullable_spec | now apply IH2].
      * intros H. destruct (Hinv H) as [[_ H2]|H1];
          [now apply ReSem.MAltR | now apply ReSem.MAltL].
    + split; [apply Hcat|].
      intros H. destruct (Hinv H) as [[Hd _]|H1]; [discriminate | exact H1].
  - split.
    + intros H. inversion H; subst;
        [apply ReSem.MAltL; now apply IH1 | apply ReSem.MAltR; now apply IH2].
    + intros H. inversion H; subst;
        [apply ReSem.MAltL; now apply IH1 | apply ReSem.MAltR; now apply IH2].
Qed.

Lemma matchesAll_spec (r : Cloud.Re) (s : string) :
  Cloud.matchesAll r s = true <-> ReSem.Matches r s.
Proof.
  revert r. induction s as [|c s IH]; intros r; cbn [Cloud.matchesAll].
  - apply nullable_spec.
  - rewrite IH. apply deriv_spec.
Qed.

Lemma Matches_lit (l s : string) : ReSem.Matches (Cloud.lit l) s <-> s = l.
Proof.
  revert s. induction l as [|c l IH]; intros s; cbn [Cloud.lit].
  - split; [intros H; now inversion H | intros ->; constructor].
  - split.
    + intros H. inversion H as [| | | | |? ? s1 s2 H1 H2| |]; subst.
      inversion H1; subst. apply IH in H2. now subst.
    + intros ->.
      exact (ReSem.MCat _ _ (String c EmptyString) l (ReSem.MChar c)
               (proj2 (IH l) eq_refl)).
Qed.

Lemma test_spec (r : Cloud.Re) (s : string) :
  Cloud.test r s = true <->
  exists a b, s = String.append a b /\ ReSem.Matches r b.
Proof.
  induction s as [|c s IH]; cbn [Cloud.test].
  - rewrite Bool.orb_false_r, matchesAll_spec. split.
    + intros H. exists EmptyString, EmptyString. auto.
    + intros (a & b & Heq & H). symmetry in Heq.
      apply append_nil_inv in Heq. destruct Heq as [_ ->]. exact H.
  - rewrite Bool.orb_true_iff, matchesAll_spec, IH. split.
    + intros [H|(a & b & -> & H)].
      * exists EmptyString, (String c s). auto.
      * exists (String c a), b. auto.
    + intros (a & b & Heq & H). destruct a as [|c' a].
      * rewrite append_nil_l in Heq. subst b. now left.
      * rewrite append_cons in Heq. injection Heq as -> ->. right. eauto.
Qed.

Lemma endsWith_spec (l s : string) :
  ReSem.endsWith l s = true <-> exists a, s = String.append a l.
Proof.
  induction s as [|c s IH]; cbn [ReSem.endsWith].
  - rewrite Bool.orb_false_r, String.eqb_eq. split.
    + intros <-. now exists EmptyString.
    + intros (a & Heq). symmetry in Heq. apply append_nil_inv in Heq.
      now destruct Heq as [_ ->].
  - rewrite Bool.orb_true_iff, String.eqb_eq, IH. split.
    + intros [<-|(a & ->)]; [now exists EmptyString | now exists (String c a)].
    + intros (a & Heq). destruct a as [|c' a].
      * rewrite append_nil_l in Heq. now left.
      * rewrite append_cons in Heq. injection Heq as -> ->. right. eauto.
Qed.

Lemma test_lit (l s : string) : Cloud.test (Cloud.lit l) s = ReSem.endsWith l s.
Proof.
  apply Bool.eq_iff_eq_true. rewrite test_spec, endsWith_spec. split.
  - intros (a & b & -> & H). apply Matches_lit in H. subst. eauto.
  - intros (a & ->). exists a, l. split; [reflexivity | now apply Matches_lit].
Qed.

Lemma Matches_anyThen (l b : string) :
  ReSem.Matches (Cloud.anyThen l) b -> exists d, b = String.append d l.
Proof.
  unfold Cloud.anyThen. intros H.
  inversion H as [| | | | |? ? s1 s2 H1 H2| |]; subst.
  apply Matches_lit in H2. subst. eauto.
Qed.

Lemma test_anyThen (l s : string) :
  Cloud.test (Cloud.anyThen l) s = ReSem.endsWith l s.
Proof.
  apply Bool.eq_iff_eq_true. rewrite test_spec, endsWith_spec. split.
  - intros (a & b & -> & H). apply Matches_anyThen in H.
    destruct H as (d & ->). exists (String.append a d).
    now rewrite append_assoc_str.
  - intros (a & ->). exists a, l. split; [reflexivity|].
    unfold Cloud.anyThen.
    exact (ReSem.MCat _ _ EmptyString l (ReSem.MStarNil _)
             (proj2 (Matches_lit l l) eq_refl)).
Qed.

Lemma test_then_anyThen (r : Cloud.Re) (l s : string) :
  Cloud.test (Cloud.ReCat r (Cloud.anyThen l)) s = true ->
  ReSem.endsWith l s = true.
Proof.
  rewrite test_spec, endsWith_spec.
  intros (a & b & -> & H).
  inversion H as [| | | | |? ? s1 s2 H1 H2| |]; subst.
  apply Matches_anyThen in H2. destruct H2 as (d & ->).
  exists (String.append a (String.append s1 d)).
  now rewrite !append_assoc_str.
Qed.

Lemma endsWith_longer (short long s : string) :
  ReSem.endsWith short long = true ->
  ReSem.endsWith long s = true -> ReSem.endsWith short s = true.
Proof.
  rewrite !endsWith_spec. intros (a & ->) (b & ->).
  exists (String.append b a). now rewrite append_assoc_str.
Qed.

Lemma orb_absorb (a b : bool) : (b = true -> a = true) -> (a || b)%bool = a.
Proof. destruct a, b; intuition. Qed.

Lemma matchProviders_by_suffix (hostname : string) :
  Cloud.matchProviders hostname =
  option_map (fun n => (n, Cloud.inferResourceType hostname n))
    (ReSem.providerBySuffix hostname).
Proof.
  unfold Cloud.matchProviders, ReSem.providerBySuffix, Cloud.CLOUD_PROVIDERS,
    ReSem.suffixes.
  cbn [List.find List.existsb Cloud.patterns Cloud.name fst snd].
  rewrite !test_lit, !test_anyThen, !Bool.orb_false_r.
  set (E := fun suffix => ReSem.endsWith suffix hostname).
  repeat match goal with
         | |- context [ReSem.endsWith ?x hostname] => change (ReSem.endsWith x hostname) with (E x)
         end.
  assert (Haws :
    (E ".amazonaws.com" || (E ".aws.com" || (E ".elasticbeanstalk.com" ||
      (E ".elb.amazonaws.com" || (E ".s3.amazonaws.com" ||
        (E ".cloudfront.net" ||
         Cloud.test (Cloud.ReCat (Cloud.anyThen ".execute-api.")
                       (Cloud.anyThen ".amazonaws.com")) hostname))))))%bool =
    (E ".amazonaws.com" || (E ".aws.com" || (E ".elasticbeanstalk.com" ||
      E ".cloudfront.net")))%bool).
  { pose proof (endsWith_longer ".amazonaws.com" ".elb.amazonaws.com" hostname
                  eq_refl) as H1.
    pose proof (endsWith_longer ".amazonaws.com" ".s3.amazonaws.com" hostname
                  eq_refl) as H2.
    pose proof (test_then_anyThen (Cloud.anyThen ".execute-api.")
                  ".amazonaws.com" hostname) as H3.
    fold (E ".amazonaws.com") in H1, H2, H3.
    fold (E ".elb.amazonaws.com") in H1. fold (E ".s3.amazonaws.com") in H2.
    destruct (E ".amazonaws.com"); [reflexivity|].
    destruct (E ".elb.amazonaws.com"); [now specialize (H1 eq_refl)|].
    destruct (E ".s3.amazonaws.com"); [now specialize (H2 eq_refl)|].
    destruct (Cloud.test _ hostname); [now specialize (H3 eq_refl)|].
    cbn. now rewrite !Bool.orb_false_r. }
  assert (Hazure :
    (E ".azure.com" || (E ".azurewebsites.net" || (E ".windows.net" ||
      (E ".cloudapp.net" || (E ".azureedge.net" || (E ".azurecontainer.io" ||
        E ".database.windows.net"))))))%bool =
    (E ".azure.com" || (E ".azurewebsites.net" || (E ".windows.net" ||
      (E ".cloudapp.net" || (E ".azureedge.net" || E ".azurecontainer.io")))))%bool).
  { pose proof (endsWith_longer ".windows.net" ".database.windows.net" hostname
                  eq_refl) as H1.
    fold (E ".windows.net") in H1. fold (E ".database.windows.net") in H1.
    destruct (E ".database.windows.net");
      [rewrite (H1 eq_refl) | ]; rewrite ?Bool.orb_true_r, ?Bool.orb_false_r;
      reflexivity. }
  assert (Hgcp :
    (E ".googleapis.com" || (E ".googleusercontent.com" || (E ".appspot.com" ||
      (E ".cloudfunctions.net" || (E ".run.app" ||
        (E ".storage.googleapis.com" || E ".googlehosted.com"))))))%bool =
    (E ".googleapis.com" || (E ".googleusercontent.com" || (E ".appspot.com" ||
      (E ".cloudfunctions.net" || (E ".run.app" || E ".googlehosted.com")))))%bool).
  { pose proof (endsWith_longer ".googleapis.com" ".storage.googleapis.com"
                  hostname eq_refl) as H1.
    fold (E ".googleapis.com") in H1. fold (E ".storage.googleapis.com") in H1.
    destruct (E ".storage.googleapis.com");
      [rewrite (H1 eq_refl) | ]; rewrite ?Bool.orb_true_r, ?Bool.orb_false_r;
      reflexivity. }
  rewrite Haws, Hazure, Hgcp.
  repeat match goal with
         | |- context [if ?c then _ else _] => destruct c; [reflexivity|]
         end.
  reflexivity.
Qed.

Lemma matchReverse_by_suffix (names : list string) :
  Cloud.matchReverse names =
  match List.find (fun h => match ReSem.providerBySuffix h with
                            | Some _ => true
                            | None => false
                            end) names with
  | Some h =>
      option_map (fun n => (n, Cloud.inferResourceType h n))
        (ReSem.providerBySuffix h)
  | None => None
  end.
Proof.
  induction names as [|h names IH]; [reflexivity|].
  cbn [Cloud.matchReverse List.find]. rewrite matchProviders_by_suffix.
  destruct (ReSem.providerBySuffix h) eqn:E; cbn [option_map]; cbv beta iota;
    [rewrite E; reflexivity | exact IH].
Qed.

(** X15. Every pattern of the provider table is a test on the end of
    the host name: detection by pattern answers the first provider, in
    table order, one of whose suffixes ends the name, with the resource
    type inferred from that name.  The leading wildcards change nothing,
    and the patterns for .elb.amazonaws.com, .s3.amazonaws.com, the
    execute-api hosts, .database.windows.net and
    .storage.googleapis.com never decide, being covered by a shorter
    suffix of the same provider.  A host name that ends in one of the
    four AWS suffixes is AWS whatever the resolver says; the resolver is
    consulted only when no suffix matches, and then the first reverse
    name with a matching suffix decides, its resource type being
    inferred from the reverse name. *)
Theorem provider_detection_by_suffix (dns : Cloud.Dns) (hostname : string) :
  Cloud.matchProviders hostname =
    option_map (fun n => (n, Cloud.inferResourceType hostname n))
      (ReSem.providerBySuffix hostname) /\
  (forall p, ReSem.providerBySuffix hostname = Some p ->
     Cloud.detectCloudProvider dns hostname =
       Some (p, Cloud.inferResourceType hostname p)) /\
  (ReSem.providerBySuffix hostname = None ->
   Cloud.detectCloudProvider dns hostname =
     match Cloud.dnsLookup dns hostname with
     | Some address =>
         match Cloud.dnsReverse dns address with
         | Some names =>
             match List.find (fun h => match ReSem.providerBySuffix h with
                                       | Some _ => true
                                       | None => false
                                       end) names with
             | Some h =>
                 option_map (fun n => (n, Cloud.inferResourceType h n))
                   (ReSem.providerBySuffix h)
             | None => None
             end
         | None => None
         end
     | None => None
     end) /\
  (forall prefix suffix,
     List.In suffix [".amazonaws.com"; ".aws.com"; ".elasticbeanstalk.com";
                     ".cloudfront.net"] ->
     hostname = String.append prefix suffix ->
     Cloud.detectCloudProvider dns hostname =
       Some ("aws", Cloud.inferResourceType hostname "aws")).
Proof.
  pose proof (matchProviders_by_suffix hostname) as Hm.
  split; [exact Hm|]. split; [|split].
  - intros p Hp. unfold Cloud.detectCloudProvider. rewrite Hm, Hp. reflexivity.
  - intros Hnone. unfold Cloud.detectCloudProvider. rewrite Hm, Hnone.
    cbn [option_map].
    destruct (Cloud.dnsLookup dns hostname) as [address|]; [|reflexivity].
    destruct (Cloud.dnsReverse dns address) as [names|]; [|reflexivity].
    apply matchReverse_by_suffix.
  - intros prefix suffix Hin Heq.
    assert (Hends : ReSem.endsWith suffix hostname = true)
      by (apply endsWith_spec; eauto).
    assert (Hp : ReSem.providerBySuffix hostname = Some "aws").
    { unfold ReSem.providerBySuffix, ReSem.suffixes.
      cbn [List.find List.existsb snd].
      cbn [List.In] in Hin.
      destruct Hin as [<-|[<-|[<-|[<-|[]]]]]; rewrite Hends;
        rewrite ?Bool.orb_true_r; reflexivity. }
    unfold Cloud.detectCloudProvider. rewrite Hm, Hp. reflexivity.
Qed.

(** ** Further properties of the region extraction *)

Lemma firstMatch_some {A : Type} (here : string -> option A) (s : string) (r : A) :
  JS.firstMatch here s = Some r ->
  exists a b, s = String.append a b /\ here b = Some r.
Proof.
  induction s as [|c s IH]; cbn [JS.firstMatch].
  - destruct (here EmptyString) eqn:Hh; [|discriminate].
    intros [= ->]. exists EmptyString, EmptyString. auto.
  - destruct (here (String c s)) eqn:Hh.
    + intros [= ->]. exists EmptyString, (String c s). auto.
    + intros H. destruct (IH H) as (a & b & -> & Hb).
      exists (String c a), b. auto.
Qed.

Lemma startsWith_append (p t : string) :
  JS.startsWith p (String.append p t) = true.
Proof.
  induction p as [|c p IH]; [reflexivity|].
  rewrite append_cons. cbn [JS.startsWith]. now rewrite Ascii.eqb_refl, IH.
Qed.

Lemma startsWith_split (p s : string) :
  JS.startsWith p s = true -> exists t, s = String.append p t.
Proof.
  revert s. induction p as [|c p IH]; intros s H.
  - now exists s.
  - destruct s as [|c' s]; [discriminate H|].
    cbn [JS.startsWith] in H. apply Bool.andb_true_iff in H.
    destruct H as [Hc Hp]. apply Ascii.eqb_eq in Hc. subst c'.
    destruct (IH s Hp) as (t & ->). now exists t.
Qed.

Lemma includes_append (a b r : string) :
  JS.startsWith r b = true -> JS.includes (String.append a b) r = true.
Proof.
  intros H. induction a as [|c a IH].
  - rewrite append_nil_l. destruct b; cbn [JS.includes]; now rewrite H.
  - rewrite append_cons. cbn [JS.includes]. rewrite IH. apply Bool.orb_true_r.
Qed.

Lemma span_spec (p : ascii -> bool) (s run tail : string) :
  JS.span p s = (run, tail) ->
  s = String.append run tail /\
  List.Forall (fun c => p c = true) (list_ascii_of_string run).
Proof.
  revert run tail. induction s as [|c s IH]; intros run tail; cbn [JS.span].
  - intros [= <- <-]. split; [reflexivity | constructor].
  - destruct (p c) eqn:Hc.
    + destruct (JS.span p s) as [run0 tail0]. intros [= <- <-].
      destruct (IH run0 tail0 eq_refl) as (-> & Hall).
      split; [reflexivity|]. cbn. now constructor.
    + intros [= <- <-]. split; [reflexivity | constructor].
Qed.

Lemma oneOfHere_some (alts : list string) (s r : string) :
  Cloud.oneOfHere alts s = Some r -> List.In r alts /\ JS.startsWith r s = true.
Proof. unfold Cloud.oneOfHere. intros H. now apply List.find_some in H. Qed.

Lemma awsRegionHere_some (s r : string) :
  Cloud.awsRegionHere s = Some r ->
  JS.startsWith r s = true /\
  exists a b run d,
    r = String a (String b (String "-"
          (String.append run (String "-" (String d EmptyString))))) /\
    JS.isLower a = true /\ JS.isLower b = true /\ run <> EmptyString /\
    List.Forall (fun c => JS.isLower c = true) (list_ascii_of_string run) /\
    JS.isDigit d = true.
Proof.
  unfold Cloud.awsRegionHere.
  destruct s as [|a [|b [|sep rest]]]; try discriminate.
  destruct (JS.isLower a) eqn:Ha; [|discriminate].
  destruct (JS.isLower b) eqn:Hb; [|discriminate].
  destruct (Ascii.eqb_spec sep "-") as [-> | ]; [|discriminate].
  cbn [andb].
  destruct (JS.span JS.isLower rest) as [run tail] eqn:Hspan.
  destruct run as [|r0 run]; [discriminate|].
  destruct tail as [|sep2 [|d tail]]; try discriminate.
  destruct (Ascii.eqb_spec sep2 "-") as [-> | ]; [|discriminate].
  destruct (JS.isDigit d) eqn:Hd; [|discriminate].
  cbn [andb]. intros [= <-].
  destruct (span_spec _ _ _ _ Hspan) as (-> & Hall).
  split.
  - cbn [JS.startsWith]. rewrite !Ascii.eqb_refl. cbn [andb].
    replace (String.append (String r0 run) (String "-" (String d tail)))
      with (String.append
              (String.append (String r0 run) (String "-" (String d EmptyString)))
              tail)
      by (now rewrite append_assoc_str).
    apply startsWith_append.
  - exists a, b, (String r0 run), d. repeat split; try assumption.
    discriminate.
Qed.

(** X16. A region, when extractRegion reports one, is read off the host
    name: it is a non-empty substring of it.  For azure and gcp it is
    one of the listed region names; for aws it has the shape of two
    lower-case letters, a hyphen, a non-empty run of lower-case letters,
    a hyphen and a digit, wherever in the name that shape first occurs;
    for every other provider no region is reported. *)
Theorem region_is_read_from_name (hostname provider r : string) :
  (Cloud.extractRegion hostname provider = Some r ->
   JS.includes hostname r = true /\ r <> EmptyString) /\
  (provider <> "aws" -> provider <> "azure" -> provider <> "gcp" ->
   Cloud.extractRegion hostname provider = None) /\
  (Cloud.extractRegion hostname "azure" = Some r ->
   List.In r ["eastus"; "westus"; "centralus"; "northeurope"; "westeurope";
              "southeastasia"; "eastasia"]) /\
  (Cloud.extractRegion hostname "gcp" = Some r ->
   List.In r ["us-central1"; "us-east1"; "us-west1"; "europe-west1";
              "asia-east1"]) /\
  (Cloud.extractRegion hostname "aws" = Some r ->
   exists a b run d,
     r = String a (String b (String "-"
           (String.append run (String "-" (String d EmptyString))))) /\
     JS.isLower a = true /\ JS.isLower b = true /\ run <> EmptyString /\
     List.Forall (fun c => JS.isLower c = true) (list_ascii_of_string run) /\
     JS.isDigit d = true).
Proof.
  assert (Haws : Cloud.extractRegion hostname "aws" = Some r ->
    JS.includes hostname r = true /\
    exists a b run d,
      r = String a (String b (String "-"
            (String.append run (String "-" (String d EmptyString))))) /\
      JS.isLower a = true /\ JS.isLower b = true /\ run <> EmptyString /\
      List.Forall (fun c => JS.isLower c = true) (list_ascii_of_string run) /\
      JS.isDigit d = true).
  { unfold Cloud.extractRegion. cbn [String.eqb Ascii.eqb Bool.eqb].
    intros H. apply firstMatch_some in H. destruct H as (a & b & -> & H).
    apply awsRegionHere_some in H. destruct H as (Hs & Hshape).
    split; [now apply includes_append | exact Hshape]. }
  assert (Hazure : Cloud.extractRegion hostname "azure" = Some r ->
    JS.includes hostname r = true /\
    List.In r ["eastus"; "westus"; "centralus"; "northeurope"; "westeurope";
               "southeastasia"; "eastasia"]).
  { unfold Cloud.extractRegion. cbn [String.eqb Ascii.eqb Bool.eqb].
    intros H. apply firstMatch_some in H. destruct H as (a & b & -> & H).
    apply oneOfHere_some in H. destruct H as (Hin & Hs).
    split; [now apply includes_append | exact Hin]. }
  assert (Hgcp : Cloud.extractRegion hostname "gcp" = Some r ->
    JS.includes hostname r = true /\
    List.In r ["us-central1"; "us-east1"; "us-west1"; "europe-west1";
               "asia-east1"]).
  { unfold Cloud.extractRegion. cbn [String.eqb Ascii.eqb Bool.eqb].
    intros H. apply firstMatch_some in H. destruct H as (a & b & -> & H).
    apply oneOfHere_some in H. destruct H as (Hin & Hs).
    split; [now apply includes_append | exact Hin]. }
  split; [|split; [|split; [|split]]].
  - intros H.
    assert (Hcases : provider = "aws" \/ provider = "azure" \/ provider = "gcp").
    { unfold Cloud.extractRegion in H.
      destruct (String.eqb_spec provider "aws"); [tauto|].
      destruct (String.eqb_spec provider "azure"); [tauto|].
      destruct (String.eqb_spec provider "gcp"); [tauto|discriminate]. }
    destruct Hcases as [-> | [-> | ->]].
    + destruct (Haws H) as (Hi & a & b & run & d & -> & _). split; [exact Hi|].
      discriminate.
    + destruct (Hazure H) as (Hi & Hin). split; [exact Hi|].
      cbn [List.In] in Hin. intuition (subst; discriminate).
    + destruct (Hgcp H) as (Hi & Hin). split; [exact Hi|].
      cbn [List.In] in Hin. intuition (subst; discriminate).
  - intros H1 H2 H3. unfold Cloud.extractRegion.
    destruct (String.eqb_spec provider "aws"); [contradiction|].
    destruct (String.eqb_spec provider "azure"); [contradiction|].
    destruct (String.eqb_spec provider "gcp"); [contradiction|reflexivity].
  - intros H. apply Hazure, H.
  - intros H. apply Hgcp, H.
  - intros H. apply Haws, H.
Qed.

(** ** Reading max-age back *)

Lemma digits_fold_acc (d : Decimal.uint) (acc : positive) :
  List.fold_left
    (fun acc c => 10 * acc + (Z.of_nat (nat_of_ascii c) - 48))
    (list_ascii_of_string (NilEmpty.string_of_uint d)) (Z.pos acc) =
  Z.pos (Pos.of_uint_acc d acc).
Proof.
  revert acc. induction d; intros acc;
    cbn [NilEmpty.string_of_uint list_ascii_of_string List.fold_left
         Pos.of_uint_acc];
    [reflexivity | ..];
    match goal with
    | |- List.fold_left _ _ ?z = Z.pos (Pos.of_uint_acc _ ?p) =>
        replace z with (Z.pos p) by (vm_compute Z.of_nat; lia)
    end; apply IHd.
Qed.

Lemma digits_fold (d : Decimal.uint) :
  List.fold_left
    (fun acc c => 10 * acc + (Z.of_nat (nat_of_ascii c) - 48))
    (list_ascii_of_string (NilEmpty.string_of_uint d)) 0 =
  Z.of_N (Pos.of_uint d).
Proof.
  induction d;
    cbn [NilEmpty.string_of_uint list_ascii_of_string List.fold_left Pos.of_uint];
    [reflexivity | exact IHd | ..];
    match goal with
    | |- List.fold_left _ _ ?z = Z.of_N (N.pos (Pos.of_uint_acc _ ?p)) =>
        change z with (Z.pos p)
    end; apply digits_fold_acc.
Qed.

Lemma parseDigits_num_to_string (n : Z) :
  0 <= n -> JS.parseDigits (JS.num_to_string n) = n.
Proof.
  intros Hn. unfold JS.parseDigits, JS.num_to_string.
  rewrite <- (DecimalZ.of_to n) at 2.
  destruct n as [|p|p]; [reflexivity | | lia].
  cbn [Z.to_int NilZero.string_of_int Z.of_int]. unfold Z.of_uint.
  rewrite <- digits_fold. unfold NilZero.string_of_uint.
  destruct (Pos.to_uint p); reflexivity.
Qed.

Lemma digits_all (d : Decimal.uint) :
  List.Forall (fun c => JS.isDigit c = true)
    (list_ascii_of_string (NilEmpty.string_of_uint d)).
Proof.
  induction d; cbn [NilEmpty.string_of_uint list_ascii_of_string];
    constructor; try reflexivity; assumption.
Qed.

Lemma num_to_string_digits (n : Z) :
  0 <= n ->
  JS.num_to_string n <> EmptyString /\
  List.Forall (fun c => JS.isDigit c = true)
    (list_ascii_of_string (JS.num_to_string n)).
Proof.
  intros Hn. unfold JS.num_to_string.
  destruct n as [|p|p]; [split; [discriminate | repeat constructor] | | lia].
  cbn [Z.to_int NilZero.string_of_int]. unfold NilZero.string_of_uint.
  destruct (Pos.to_uint p) eqn:E;
    try (split; [discriminate | rewrite <- E; apply digits_all]).
  split; [discriminate | repeat constructor].
Qed.

Lemma span_append (p : ascii -> bool) (run rest : string) :
  List.Forall (fun c => p c = true) (list_ascii_of_string run) ->
  match rest with String c _ => p c | EmptyString => false end = false ->
  JS.span p (String.append run rest) = (run, rest).
Proof.
  intros Hall Hrest. induction run as [|c run IH].
  - rewrite append_nil_l. destruct rest as [|c rest]; [reflexivity|].
    cbn [JS.span]. now rewrite Hrest.
  - rewrite append_cons. cbn [JS.span].
    cbn [list_ascii_of_string] in Hall. inversion Hall as [|? ? Hc Hall']; subst.
    rewrite Hc, (IH Hall'). reflexivity.
Qed.

Lemma toLowerCase_append (a b : string) :
  JS.toLowerCase (String.append a b) =
  String.append (JS.toLowerCase a) (JS.toLowerCase b).
Proof.
  induction a as [|c a IH]; [reflexivity|].
  rewrite append_cons. cbn [JS.toLowerCase]. rewrite append_cons. now rewrite IH.
Qed.

Lemma skip_append (a b : string) :
  JS.skip (String.length a) (String.append a b) = b.
Proof.
  induction a as [|c a IH]; [reflexivity|].
  rewrite append_cons. cbn [String.length JS.skip]. exact IH.
Qed.

Lemma toLowerCase_length (s : string) :
  String.length (JS.toLowerCase s) = String.length s.
Proof. induction s as [|c s IH]; [reflexivity | cbn; now rewrite IH]. Qed.

Lemma extractMaxAge_read_back (n : Z) (name rest : string) :
  0 <= n ->
  JS.toLowerCase name = "max-age=" ->
  match rest with String c _ => JS.isDigit c | EmptyString => false end = false ->
  HeadersAnalyzer.extractMaxAge
    (String.append name (String.append (JS.num_to_string n) rest)) = Some n.
Proof.
  intros Hn Hname Hrest.
  destruct (num_to_string_digits n Hn) as (Hne & Hall).
  assert (Hlen : String.length name = 8%nat)
    by (rewrite <- toLowerCase_length, Hname; reflexivity).
  unfold HeadersAnalyzer.extractMaxAge.
  assert (Hhere :
    HeadersAnalyzer.maxAgeHere
      (String.append name (String.append (JS.num_to_string n) rest)) = Some n).
  { unfold HeadersAnalyzer.maxAgeHere.
    rewrite toLowerCase_append, Hname, startsWith_append.
    rewrite <- Hlen, skip_append, (span_append _ _ _ Hall Hrest).
    destruct (JS.num_to_string n) as [|d ds] eqn:E; [contradiction|].
    rewrite <- E. now rewrite parseDigits_num_to_string. }
  destruct name as [|c name]; [discriminate Hname|].
  rewrite append_cons in *. cbn [JS.firstMatch]. now rewrite Hhere.
Qed.

(** X17. A max-age directive is read back exactly: for every
    non-negative integer that a JavaScript number holds exactly (up to
    2^53 - 1), a header value that begins with max-age= in any
    capitalisation, followed by the decimal numeral of the integer and
    then by anything that does not start with a digit, yields that
    integer.  In the analysis of a response whose
    Strict-Transport-Security header has such a value, HSTS is present
    with this max-age, the header is not listed as missing, and the
    weakness HSTS max-age is less than 1 year is reported exactly when
    the integer is below 31536000. *)
Theorem max_age_read_back (n : Z) (name rest : string)
    (headers : gmap string string) :
  0 <= n <= 9007199254740991 ->
  JS.toLowerCase name = "max-age=" ->
  match rest with String c _ => JS.isDigit c | EmptyString => false end = false ->
  let value := String.append name (String.append (JS.num_to_string n) rest) in
  HeadersAnalyzer.extractMaxAge value = Some n /\
  (headers !! "strict-transport-security" = Some value ->
   let a := HeadersAnalyzer.analyzeHeaders headers in
   (exists h, Headers.hsts a = Some h /\
              Headers.hsts_present h = true /\
              Headers.hsts_maxAge h = Some n /\
              Headers.hsts_value h = Some value) /\
   ~ List.In "Strict-Transport-Security" (fst (Headers.identifyIssues a)) /\
   (List.In "HSTS max-age is less than 1 year" (snd (Headers.identifyIssues a)) <->
    n < 31536000)).
Proof.
  intros [Hn _] Hname Hrest value.
  pose proof (extractMaxAge_read_back n name rest Hn Hname Hrest) as Hex.
  fold value in Hex. split; [exact Hex|].
  intros Hlook a.
  assert (Hh : Headers.hsts a =
    Some {| Headers.hsts_present := true;
            Headers.hsts_value := Some value;
            Headers.hsts_maxAge := Some n;
            Headers.hsts_includeSubDomains :=
              Some (JS.includes (JS.toLowerCase value) "includesubdomains");
            Headers.hsts_preload :=
              Some (JS.includes (JS.toLowerCase value) "preload") |}).
  { unfold a, HeadersAnalyzer.analyzeHeaders. cbv zeta. cbn [Headers.hsts].
    rewrite Hlook, Hex.
    assert (Ht : JS.truthy_str (Some value) = true).
    { unfold value. destruct name as [|c name]; [discriminate Hname|].
      rewrite append_cons. reflexivity. }
    now rewrite Ht. }
  clearbody a.
  assert (Hp : Headers.hstsPresent a = true)
    by (unfold Headers.hstsPresent; now rewrite Hh).
  split; [eexists; split; [exact Hh|]; repeat split|].
  unfold Headers.identifyIssues. cbv zeta. cbn [fst snd].
  rewrite Hp, Hh. cbn [negb andb Headers.hsts_maxAge].
  split.
  - rewrite !In_pushIf. cbn [List.In]. intuition discriminate.
  - assert (Hshort : Headers.shortMaxAge (Some n) = true <-> n < 31536000).
    { unfold Headers.shortMaxAge, JS.truthy_num.
      destruct (Z.eqb_spec n 0) as [->|]; cbn [negb orb]; [split; [lia|reflexivity]|].
      apply Z.ltb_lt. }
    rewrite !In_pushIf.
    destruct (Headers.csp a) as [c|]; [destruct (Headers.csp_present c)|];
      rewrite ?In_pushIf; cbn [List.In]; rewrite <- Hshort;
      intuition discriminate.
Qed.

(** X17 at the value max-age=31536000; includeSubDomains. *)
Lemma max_age_read_back_witness :
  HeadersAnalyzer.extractMaxAge "max-age=31536000; includeSubDomains" =
  Some 31536000.
Proof.
  exact (proj1 (max_age_read_back 31536000 "max-age=" "; includeSubDomains" ∅
                  ltac:(lia) eq_refl eq_refl)).
Defined.

(** ** The whole account of the header score *)

Lemma pushed_held (l : list (string * Z * bool)) (acc : list string) :
  List.fold_left (fun acc e => Headers.pushIf (snd e) (fst (fst e)) acc) l acc =
  acc ++ List.map (fun e => fst (fst e)) (HeaderFacts.held l).
Proof.
  revert acc. induction l as [|[[n p] b] l IH]; intros acc.
  - cbn. now rewrite List.app_nil_r.
  - unfold HeaderFacts.held in *.
    cbn [List.fold_left List.filter snd fst]. rewrite IH.
    unfold Headers.pushIf. destruct b; cbn [List.map fst].
    + now rewrite <- List.app_assoc.
    + reflexivity.
Qed.

Lemma points_held_cons (e : string * Z * bool) (l : list (string * Z * bool)) :
  HeaderFacts.points (HeaderFacts.held (e :: l)) =
  (if snd e then snd (fst e) else 0) + HeaderFacts.points (HeaderFacts.held l).
Proof.
  unfold HeaderFacts.held. cbn [List.filter]. destruct (snd e); reflexivity.
Qed.

Lemma points_zero (l : list (string * Z * bool)) :
  List.Forall (fun e => 0 < snd (fst e)) l ->
  0 <= HeaderFacts.points l /\ (HeaderFacts.points l = 0 <-> l = []).
Proof.
  induction 1 as [|e l He _ IH]; [cbn; intuition lia|].
  cbn [HeaderFacts.points List.fold_right].
  fold (HeaderFacts.points l). destruct IH as [IH _].
  split; [lia|]. split; [lia | discriminate].
Qed.

Lemma weak_blocks (a : Headers.SecurityHeadersAnalysis) :
  - Headers.scoreHsts a 0 =
    (if negb (Headers.hstsPresent a) then 20 else 0) +
    (if (Headers.hstsPresent a &&
         match Headers.hsts a with
         | Some h => Headers.shortMaxAge (Headers.hsts_maxAge h)
         | None => false
         end)%bool then 5 else 0) +
    (if (Headers.hstsPresent a &&
         match Headers.hsts a with
         | Some h => negb (JS.truthy_bool (Headers.hsts_includeSubDomains h))
         | None => false
         end)%bool then 3 else 0) +
    (if (Headers.hstsPresent a &&
         match Headers.hsts a with
         | Some h => negb (JS.truthy_bool (Headers.hsts_preload h))
         | None => false
         end)%bool then 2 else 0) /\
  - Headers.scoreCsp a 0 =
    (if negb (Headers.cspPresent a) then 25 else 0) +
    (if (Headers.cspPresent a &&
         match Headers.csp a with
         | Some c => JS.truthy_bool (Headers.csp_hasUnsafeInline c)
         | None => false
         end)%bool then 8 else 0) +
    (if (Headers.cspPresent a &&
         match Headers.csp a with
         | Some c => JS.truthy_bool (Headers.csp_hasUnsafeEval c)
         | None => false
         end)%bool then 7 else 0) +
    (if (Headers.cspPresent a &&
         match Headers.csp a with
         | Some c => Z.of_nat (List.length (Headers.csp_directives c)) <? 3
         | None => false
         end)%bool then 5 else 0) /\
  - Headers.scoreXFrameOptions a 0 =
    (if negb (JS.truthy_str (Headers.xFrameOptions a)) then 15 else 0) +
    (if Headers.strictIs (Headers.xFrameOptions a) "ALLOWALL" then 10 else 0) +
    (if (Headers.lowerIs (Headers.xFrameOptions a) "allowall" &&
         negb (Headers.strictIs (Headers.xFrameOptions a) "ALLOWALL"))%bool
     then 10 else 0) /\
  - Headers.scoreXContentTypeOptions a 0 =
    (if negb (JS.truthy_str (Headers.xContentTypeOptions a)) then 10 else 0) +
    (if (JS.truthy_str (Headers.xContentTypeOptions a) &&
         negb (Headers.lowerIs (Headers.xContentTypeOptions a) "nosniff"))%bool
     then 10 else 0) /\
  - Headers.scoreXXSSProtection a 0 =
    (if negb (JS.truthy_str (Headers.xXSSProtection a)) then 10 else 0) +
    (if Headers.strictIs (Headers.xXSSProtection a) "0" then 5 else 0) /\
  - Headers.scoreReferrerPolicy a 0 =
    (if negb (JS.truthy_str (Headers.referrerPolicy a)) then 8 else 0) +
    (if match Headers.referrerPolicy a with
        | Some p => JS.arr_includes Headers.weakPolicies (JS.toLowerCase p)
        | None => false
        end then 4 else 0) /\
  - Headers.scoreCrossOrigin a 0 =
    (if negb (JS.truthy_str (Headers.crossOriginEmbedderPolicy a)) then 4 else 0) +
    (if negb (JS.truthy_str (Headers.crossOriginOpenerPolicy a)) then 4 else 0) +
    (if negb (JS.truthy_str (Headers.crossOriginResourcePolicy a)) then 4 else 0).
Proof.
  split; [|split; [|split; [|split; [|split; [|split]]]]].
  - unfold Headers.scoreHsts, Headers.hstsPresent.
    destruct (Headers.hsts a) as [h|]; [|reflexivity].
    destruct (Headers.hsts_present h); [|reflexivity].
    cbn [negb andb]. cbv zeta.
    destruct (Headers.shortMaxAge _),
      (JS.truthy_bool (Headers.hsts_includeSubDomains h)),
      (JS.truthy_bool (Headers.hsts_preload h)); reflexivity.
  - unfold Headers.scoreCsp, Headers.cspPresent.
    destruct (Headers.csp a) as [c|]; [|reflexivity].
    destruct (Headers.csp_present c); [|reflexivity].
    cbn [negb andb]. cbv zeta.
    destruct (JS.truthy_bool (Headers.csp_hasUnsafeInline c)),
      (JS.truthy_bool (Headers.csp_hasUnsafeEval c)),
      (Z.of_nat (List.length (Headers.csp_directives c)) <? 3); reflexivity.
  - unfold Headers.scoreXFrameOptions, Headers.strictIs, Headers.lowerIs.
    destruct (Headers.xFrameOptions a) as [s|]; [|reflexivity].
    destruct (String.eqb_spec s "ALLOWALL") as [->|Hne]; [reflexivity|].
    destruct (String.eqb_spec (JS.toLowerCase s) "allowall") as [Hl|Hl].
    + assert (Ht : JS.truthy_str (Some s) = true)
        by (destruct s; [discriminate Hl | reflexivity]).
      now rewrite Ht.
    + destruct (JS.truthy_str (Some s)); reflexivity.
  - unfold Headers.scoreXContentTypeOptions.
    destruct (JS.truthy_str (Headers.xContentTypeOptions a)),
      (Headers.lowerIs (Headers.xContentTypeOptions a) "nosniff"); reflexivity.
  - unfold Headers.scoreXXSSProtection, Headers.strictIs.
    destruct (Headers.xXSSProtection a) as [s|]; [|reflexivity].
    destruct (String.eqb_spec s "0") as [->|Hne]; [reflexivity|].
    destruct (JS.truthy_str (Some s)); reflexivity.
  - unfold Headers.scoreReferrerPolicy.
    destruct (Headers.referrerPolicy a) as [p|]; [|reflexivity].
    destruct (JS.arr_includes Headers.weakPolicies (JS.toLowerCase p)) eqn:Hw.
    + assert (Ht : JS.truthy_str (Some p) = true)
        by (destruct p; [discriminate Hw | reflexivity]).
      now rewrite Ht.
    + destruct (JS.truthy_str (Some p)); reflexivity.
  - unfold Headers.scoreCrossOrigin.
    destruct (JS.truthy_str (Headers.crossOriginEmbedderPolicy a)),
      (JS.truthy_str (Headers.crossOriginOpenerPolicy a)),
      (JS.truthy_str (Headers.crossOriginResourcePolicy a)); reflexivity.
Qed.

(** X18. The header score is accounted for in full: it is 100 minus the
    points of the headers reported missing, minus the points of the
    weaknesses reported (short HSTS max-age 5, CSP unsafe-inline 8, CSP
    unsafe-eval 7, X-Frame-Options ALLOWALL 10, X-XSS-Protection 0 5),
    minus the points of six conditions that no list reports (HSTS
    without includeSubDomains 3 or preload 2, a CSP of fewer than three
    directives 5, allowall not in upper case 10, X-Content-Type-Options
    other than nosniff 10, a weak Referrer-Policy 4).  weakHeaders holds
    exactly the reported weaknesses, in that order; and the score is 100
    exactly when both lists are empty and none of the six unreported
    conditions holds. *)
Theorem header_score_account (a : Headers.SecurityHeadersAnalysis) :
  snd (Headers.identifyIssues a) =
    List.map (fun e => fst (fst e)) (HeaderFacts.held (HeaderFacts.reported a)) /\
  fst (Headers.calculateSecurityScore a) =
    100 - HeaderFacts.points (HeaderFacts.absentOnes a)
        - HeaderFacts.points (HeaderFacts.held (HeaderFacts.reported a))
        - HeaderFacts.points (HeaderFacts.held (HeaderFacts.unreported a)) /\
  (fst (Headers.calculateSecurityScore a) = 100 <->
   fst (Headers.identifyIssues a) = [] /\
   snd (Headers.identifyIssues a) = [] /\
   HeaderFacts.held (HeaderFacts.unreported a) = []).
Proof.
  assert (Hweak : snd (Headers.identifyIssues a) =
    List.map (fun e => fst (fst e)) (HeaderFacts.held (HeaderFacts.reported a))).
  { rewrite <- (List.app_nil_l (List.map _ _)). rewrite <- pushed_held.
    unfold Headers.identifyIssues, HeaderFacts.reported, Headers.cspPresent.
    cbv zeta. cbn [snd fst List.fold_left].
    destruct (Headers.csp a) as [c|]; [destruct (Headers.csp_present c)|];
      reflexivity. }
  assert (Hmissing : fst (Headers.identifyIssues a) =
                     List.map (fun e => fst (fst e)) (HeaderFacts.absentOnes a)).
  { unfold HeaderFacts.absentOnes.
    rewrite <- (List.app_nil_l (List.map _ _)). rewrite <- pushed_names.
    reflexivity. }
  assert (Hded : HeaderFacts.deduction a =
    HeaderFacts.points (HeaderFacts.absentOnes a) +
    HeaderFacts.points (HeaderFacts.held (HeaderFacts.reported a)) +
    HeaderFacts.points (HeaderFacts.held (HeaderFacts.unreported a))).
  { pose proof (weak_blocks a) as (B1 & B2 & B3 & B4 & B5 & B6 & B7).
    unfold HeaderFacts.deduction, HeaderFacts.absentOnes, HeaderFacts.scored,
      HeaderFacts.reported, HeaderFacts.unreported.
    rewrite !points_filter_cons, !points_held_cons.
    cbn [snd fst List.filter HeaderFacts.points HeaderFacts.held List.fold_right].
    lia. }
  destruct (score_is_100_minus_deduction a) as (_ & _ & Hs).
  split; [exact Hweak|]. split; [rewrite Hs; cbn [fst]; lia|].
  rewrite Hs. cbn [fst]. rewrite Hded, Hweak, Hmissing.
  assert (P1 : List.Forall (fun e : string * Z * bool => 0 < snd (fst e))
                 (HeaderFacts.absentOnes a)).
  { unfold HeaderFacts.absentOnes. apply List.Forall_forall.
    intros e He. apply List.filter_In in He. destruct He as [He _].
    unfold HeaderFacts.scored in He. cbn [List.In] in He.
    repeat (destruct He as [<-|He]; [cbn; lia|]). contradiction. }
  assert (P2 : List.Forall (fun e : string * Z * bool => 0 < snd (fst e))
                 (HeaderFacts.held (HeaderFacts.reported a))).
  { unfold HeaderFacts.held. apply List.Forall_forall.
    intros e He. apply List.filter_In in He. destruct He as [He _].
    unfold HeaderFacts.reported in He. cbn [List.In] in He.
    repeat (destruct He as [<-|He]; [cbn; lia|]). contradiction. }
  assert (P3 : List.Forall (fun e : string * Z * bool => 0 < snd (fst e))
                 (HeaderFacts.held (HeaderFacts.unreported a))).
  { unfold HeaderFacts.held. apply List.Forall_forall.
    intros e He. apply List.filter_In in He. destruct He as [He _].
    unfold HeaderFacts.unreported in He. cbn [List.In] in He.
    repeat (destruct He as [<-|He]; [cbn; lia|]). contradiction. }
  destruct (points_zero _ P1) as (N1 & Z1).
  destruct (points_zero _ P2) as (N2 & Z2).
  destruct (points_zero _ P3) as (N3 & Z3).
  split.
  - intros H.
    assert (E1 : HeaderFacts.points (HeaderFacts.absentOnes a) = 0) by lia.
    assert (E2 : HeaderFacts.points
                   (HeaderFacts.held (HeaderFacts.reported a)) = 0) by lia.
    assert (E3 : HeaderFacts.points
                   (HeaderFacts.held (HeaderFacts.unreported a)) = 0) by lia.
    apply Z1 in E1. apply Z2 in E2. apply Z3 in E3.
    rewrite E1, E2. repeat split. exact E3.
  - intros (E1 & E2 & E3).
    apply List.map_eq_nil in E1, E2.
    rewrite E1, E2, E3. reflexivity.
Qed.

(** ** The cloud analysis entry point *)

(** X19. analyzeCloudSecurity never throws and leaves the world as it
    was.  It answers the empty list exactly when the URL does not parse
    or no provider is detected for its host, and otherwise a single
    record: for the scan it was called with, about the host of the URL,
    with the provider and resource type detected, compliance framework
    CIS, one configuration check and one remediation step per finding in
    the order of the findings, at most two findings, a score from 75 to
    100, a risk level of medium or low, and the region when one is read
    from the host name. *)
Theorem cloud_scan_records (env : Eff.Env) (dns : Cloud.Dns) (url : string)
    (scanId : nat) (w : Eff.World) :
  exists out,
    CloudScan.analyzeCloudSecurity env dns url scanId w = (Eff.Ok out, w) /\
    (List.length out <= 1)%nat /\
    (out = [] <->
     match Eff.parseURL env url with
     | Some u => Cloud.detectCloudProvider dns (Eff.hostname u) = None
     | None => True
     end) /\
    List.Forall
      (fun r =>
         CloudScan.cs_scanId r = scanId /\
         CloudScan.complianceFramework r = "CIS" /\
         (exists u, Eff.parseURL env url = Some u /\
                    CloudScan.cs_resourceId r = Eff.hostname u /\
                    Cloud.detectCloudProvider dns (Eff.hostname u) =
                      Some (CloudScan.cloudProvider r, CloudScan.cs_resourceType r) /\
                    CloudScan.cs_region r =
                      Cloud.extractRegion (Eff.hostname u) (CloudScan.cloudProvider r)) /\
         List.map CloudScan.check_id (CloudScan.configurationCheck r) =
           List.map Cloud.id (CloudScan.cs_findings r) /\
         CloudScan.remediationSteps r =
           List.map Cloud.recommendation (CloudScan.cs_findings r) /\
         (List.length (CloudScan.cs_findings r) <= 2)%nat /\
         75 <= CloudScan.cs_score r <= 100 /\
         (CloudScan.cs_riskLevel r = Cloud.medium \/
          CloudScan.cs_riskLevel r = Cloud.low))
      out.
Proof.
  unfold CloudScan.analyzeCloudSecurity, SslAnalyzer.newURL, Eff.tryCatch,
    Eff.bind.
  destruct (Eff.parseURL env url) as [u|] eqn:Hu.
  - unfold Eff.ret at 1. cbv beta iota zeta.
    destruct (Cloud.detectCloudProvider dns (Eff.hostname u)) as [[p t]|] eqn:Hd.
    + eexists. split; [reflexivity|]. split; [cbn; lia|].
      split; [split; discriminate|].
      constructor; [|constructor].
      pose proof (performCloudSecurityAnalysis_bounds (p, t) (Eff.hostname u) url)
        as Hb. cbv zeta in Hb.
      destruct Hb as (Hlen & _ & Hscore & Hrisk & _ & Hid).
      cbn [CloudScan.cs_scanId CloudScan.complianceFramework
           CloudScan.cs_resourceId CloudScan.cloudProvider
           CloudScan.cs_resourceType CloudScan.cs_region
           CloudScan.configurationCheck CloudScan.cs_findings
           CloudScan.remediationSteps CloudScan.cs_score CloudScan.cs_riskLevel].
      split; [reflexivity|]. split; [reflexivity|].
      split.
      { exists u. split; [reflexivity|]. split; [exact Hid|].
        split; [rewrite Hd; reflexivity|].
        cbn [Cloud.performCloudSecurityAnalysis Cloud.region Cloud.provider].
        destruct (Cloud.extractRegion (Eff.hostname u) p) as [r|] eqn:Hr;
          [|reflexivity].
        assert (Hne : r <> EmptyString).
        { intros ->.
          assert (Hcases : p = "aws" \/ p = "azure" \/ p = "gcp").
          { unfold Cloud.extractRegion in Hr.
            destruct (String.eqb_spec p "aws"); [tauto|].
            destruct (String.eqb_spec p "azure"); [tauto|].
            destruct (String.eqb_spec p "gcp"); [tauto|discriminate]. }
          unfold Cloud.extractRegion in Hr.
          destruct Hcases as [-> | [-> | ->]];
            cbn [String.eqb Ascii.eqb Bool.eqb] in Hr;
            apply firstMatch_some in Hr; destruct Hr as (x & y & _ & Hr).
          - apply awsRegionHere_some in Hr.
            destruct Hr as (_ & c1 & c2 & run & d & Heq & _). discriminate Heq.
          - apply oneOfHere_some in Hr. destruct Hr as (Hin & _).
            cbn [List.In] in Hin. intuition discriminate.
          - apply oneOfHere_some in Hr. destruct Hr as (Hin & _).
            cbn [List.In] in Hin. intuition discriminate. }
        destruct r; [contradiction | reflexivity]. }
      split; [now rewrite List.map_map|].
      split; [reflexivity|]. split; [exact Hlen|]. split; [exact Hscore | exact Hrisk].
    + exists []. split; [reflexivity|]. split; [cbn; lia|].
      split; [tauto | constructor].
  - exists []. split; [reflexivity|]. split; [cbn; lia|].
    split; [tauto | constructor].
Qed.

(** ** A run on an identifier that has no scan *)

Lemma stages_exact (env : Eff.Env) (id : nat) (url : string)
    (u : Eff.URLRecord) (w : Eff.World) :
  Eff.parseURL env url = Some u ->
  let openOnes :=
    List.filter (ScanFacts.accepts env (Eff.hostname u)) Routes.commonPorts in
  exists summary w3 j ss hs,
    Routes.stages env id url (Eff.hostname u) w = (Eff.Ok summary, w3) /\
    ScanFacts.grows (Eff.storage w) (Eff.storage w3)
      (List.map (ScanFacts.openRow id) openOnes)
      (List.map (ScanFacts.vulnRow id)
         (List.flat_map PortRules.portRules openOnes)) ss hs /\
    Eff.journal w3 = Eff.journal w ++ j /\
    List.forallb (fun a => negb (RunRules.touchesScan a)) j = true /\
    List.length ss =
      (if ScanFacts.accepts env (Eff.hostname u) 443 then 1 else 0)%nat /\
    List.length hs =
      (if (ScanFacts.accepts env (Eff.hostname u) 443 ||
           ScanFacts.accepts env (Eff.hostname u) 80)%bool then 1 else 0)%nat /\
    List.Forall (fun a => Schema.ssl_scanId a = id) ss /\
    List.Forall (fun a => Schema.sh_scanId a = id) hs.
Proof.
  intros Hu openOnes.
  set (results := ScanFacts.probeResults env (Eff.hostname u)).
  destruct (startProbes_exact env (Eff.hostname u) Routes.commonPorts w
              commonPorts_valid)
    as (w2 & H2 & Hs2 & _).
  fold (ScanFacts.probeResults env (Eff.hostname u)) in H2. fold results in H2.
  destruct (analyses_exact env id url u results w2 Hu)
    as (w3 & ss & hs & H3 & G3 & Lss & Fss & Lhs & Fhs).
  assert (E443 :
    List.existsb (fun r => ((Ports.port r =? 443) && Routes.isOpen r)%bool)
      results = ScanFacts.accepts env (Eff.hostname u) 443)
    by (unfold results, ScanFacts.probeResults; rewrite probed_port; reflexivity).
  assert (E80 :
    List.existsb (fun r => ((Ports.port r =? 80) && Routes.isOpen r)%bool)
      results = ScanFacts.accepts env (Eff.hostname u) 80)
    by (unfold results, ScanFacts.probeResults; rewrite probed_port; reflexivity).
  rewrite E443, E80 in *.
  assert (Hopened :
    List.filter Routes.isOpen results =
    List.map (ScanFacts.probeResult env (Eff.hostname u)) openOnes)
    by apply opened_ports.
  assert (Hrows :
    List.map (ScanFacts.resultRow id) (List.filter Routes.isOpen results) =
    List.map (ScanFacts.openRow id) openOnes).
  { rewrite Hopened, List.map_map. apply List.map_ext_in.
    intros p Hp. apply List.filter_In in Hp. destruct Hp as [Hin Hacc].
    now apply openRow_of_probe. }
  assert (Hports :
    PortRules.openPorts (List.filter Routes.isOpen results) = openOnes).
  { rewrite Hopened. unfold PortRules.openPorts.
    change (fun r : Ports.PortResult => String.eqb (Ports.state r) "open")
      with Routes.isOpen.
    rewrite filter_map_comm, List.map_map. cbn [Ports.port ScanFacts.probeResult].
    rewrite List.map_id.
    transitivity (List.filter (fun _ => true) openOnes).
    - apply List.filter_ext_in. intros p Hp.
      apply List.filter_In in Hp. rewrite accepts_isOpen. tauto.
    - clear. induction openOnes as [|p l IH]; [reflexivity|].
      cbn. now rewrite IH. }
  rewrite analyzeVulnerabilities_by_port, Hports, Hrows in G3.
  assert (Hst : exists summary,
            Routes.stages env id url (Eff.hostname u) w = (Eff.Ok summary, w3)).
  { eexists. unfold Routes.stages. rewrite (bind_ok _ _ _ _ _ H2).
    rewrite (bind_ok _ _ _ _ _ (awaitAll_resolved results w2)).
    exact H3. }
  destruct Hst as [summary Hst].
  destruct (stages_run env id url (Eff.hostname u) w)
    as (summary' & w3' & j0 & Hst' & Hkeep & _).
  rewrite Hst in Hst'. injection Hst' as _ <-.
  destruct Hkeep as (_ & (j & Hj & Hq) & _).
  rewrite Hs2 in G3.
  exists summary, w3, j, ss, hs.
  split; [exact Hst|]. split; [exact G3|]. split; [exact Hj|].
  split; [exact Hq|]. split; [exact Lss|]. split; [exact Lhs|].
  split; (eapply List.Forall_impl; [|eassumption]); cbv beta; tauto.
Qed.

(** X20. The orchestrator never creates a scan record and never throws.
    Run on an identifier that has no record, it writes no status at all
    and leaves the scan table as it was; if the URL parses it still
    probes the host and stores the child rows of the run under that
    identifier (one scanResults row per accepting port, the correlated
    vulnerabilities, the TLS and header rows when 443 or 80 accepted);
    if the URL does not parse it stores nothing. *)
Theorem unknown_scan_run (env : Eff.Env) (id : nat) (url : string)
    (w : Eff.World) :
  Eff.scans (Eff.storage w) !! id = None ->
  exists w' j,
    Routes.performScan env id url w = (Eff.Ok tt, w') /\
    Eff.scans (Eff.storage w') = Eff.scans (Eff.storage w) /\
    Eff.journal w' = Eff.journal w ++ j /\
    List.forallb (fun a => negb (RunRules.touchesScan a)) j = true /\
    match Eff.parseURL env url with
    | None => Eff.storage w' = Eff.storage w /\ j = []
    | Some u =>
        let openOnes :=
          List.filter (ScanFacts.accepts env (Eff.hostname u))
            Routes.commonPorts in
        exists ss hs,
          ScanFacts.grows (Eff.storage w) (Eff.storage w')
            (List.map (ScanFacts.openRow id) openOnes)
            (List.map (ScanFacts.vulnRow id)
               (List.flat_map PortRules.portRules openOnes)) ss hs /\
          List.length ss =
            (if ScanFacts.accepts env (Eff.hostname u) 443 then 1 else 0)%nat /\
          List.length hs =
            (if (ScanFacts.accepts env (Eff.hostname u) 443 ||
                 ScanFacts.accepts env (Eff.hostname u) 80)%bool
             then 1 else 0)%nat /\
          List.Forall (fun a => Schema.ssl_scanId a = id) ss /\
          List.Forall (fun a => Schema.sh_scanId a = id) hs
    end.
Proof.
  intros Hnone.
  pose proof (updateScan_missing id (Routes.statusOnly "running") w Hnone) as H1.
  destruct (Eff.parseURL env url) as [u|] eqn:Hu.
  - destruct (stages_exact env id url u w Hu)
      as (summary & w3 & j & ss & hs & Hst & G & Hj & Hq & Lss & Lhs & Fss & Fhs).
    destruct (newDate_run env w3) as (w4 & H4 & Hs4 & Hj4).
    assert (Hnone4 : Eff.scans (Eff.storage w4) !! id = None)
      by (rewrite Hs4; destruct G as (-> & _); exact Hnone).
    exists w4, j.
    split.
    { unfold Routes.performScan. apply tryCatch_ok.
      unfold Routes.pipeline. rewrite (bind_ok _ _ _ _ _ H1).
    unfold Routes.pipelineRest.
      unfold SslAnalyzer.newURL. rewrite Hu.
      rewrite (bind_ok _ _ w u w eq_refl). cbv zeta.
      rewrite (bind_ok _ _ _ _ _ Hst), (bind_ok _ _ _ _ _ H4).
      rewrite (bind_ok _ _ _ _ _ (updateScan_missing id _ w4 Hnone4)).
      reflexivity. }
    rewrite Hs4, Hj4.
    split; [destruct G as (-> & _); reflexivity|].
    split; [exact Hj|]. split; [exact Hq|].
    exists ss, hs. repeat (split; [assumption|]). assumption.
  - destruct (newDate_run env w) as (w4 & H4 & Hs4 & Hj4).
    assert (Hnone4 : Eff.scans (Eff.storage w4) !! id = None)
      by (rewrite Hs4; exact Hnone).
    exists w4, [].
    split.
    { unfold Routes.performScan.
      assert (Hp : Routes.pipeline env id url w =
                   (Eff.Throw (JS.JsError "Invalid URL"), w)).
      { unfold Routes.pipeline. rewrite (bind_ok _ _ _ _ _ H1).
    unfold Routes.pipelineRest.
        unfold SslAnalyzer.newURL. rewrite Hu. reflexivity. }
      rewrite (tryCatch_throw _ _ _ _ _ Hp).
      unfold Routes.onPipelineError. rewrite (bind_ok _ _ _ _ _ H4).
      rewrite (bind_ok _ _ _ _ _ (updateScan_missing id _ w4 Hnone4)).
      reflexivity. }
    rewrite Hs4, Hj4, List.app_nil_r. repeat split.
Qed.

(** X20 at an identifier the empty store does not hold. *)
Lemma unknown_scan_run_witness :
  exists w',
    Routes.performScan Endpoints.healthy 7 "https://example.com"
      Samples.emptyWorld = (Eff.Ok tt, w') /\
    Eff.scans (Eff.storage w') = Eff.scans (Eff.storage Samples.emptyWorld).
Proof.
  destruct (unknown_scan_run Endpoints.healthy 7 "https://example.com"
              Samples.emptyWorld eq_refl) as (w' & j & Hrun & Hscans & _).
  exists w'. split; [exact Hrun | exact Hscans].
Defined.

(** ** A report-only policy *)

(** X21. A Content-Security-Policy-Report-Only header is analysed as if
    it were the enforcing header: when the response has no (or an empty)
    Content-Security-Policy and a non-empty report-only one, the
    analysis is the very analysis of the same response with that value
    sent as Content-Security-Policy.  So CSP counts as present, is not
    listed as missing, and score, grade and issue lists are those of the
    enforcing policy. *)
Theorem report_only_csp_counts (headers : gmap string string) (v : string) :
  JS.truthy_str (headers !! "content-security-policy") = false ->
  headers !! "content-security-policy-report-only" = Some v ->
  v <> EmptyString ->
  let a := HeadersAnalyzer.analyzeHeaders headers in
  a = HeadersAnalyzer.analyzeHeaders (<["content-security-policy" := v]> headers) /\
  Headers.cspPresent a = true /\
  (exists c, Headers.csp a = Some c /\ Headers.csp_value c = Some v) /\
  ~ List.In "Content-Security-Policy" (fst (Headers.identifyIssues a)).
Proof.
  intros Hno Hro Hv a.
  assert (Ht : JS.truthy_str (Some v) = true)
    by (destruct v; [contradiction | reflexivity]).
  assert (Hcsp : JS.orElse (headers !! "content-security-policy")
                   (headers !! "content-security-policy-report-only") = Some v)
    by (unfold JS.orElse; now rewrite Hno, Hro).
  assert (Heq : a = HeadersAnalyzer.analyzeHeaders
                      (<["content-security-policy" := v]> headers)).
  { unfold a, HeadersAnalyzer.analyzeHeaders. cbv zeta.
    rewrite lookup_insert_eq.
    rewrite !(lookup_insert_ne headers "content-security-policy") by discriminate.
    rewrite Hcsp.
    assert (Hcsp' : JS.orElse (Some v)
                      (headers !! "content-security-policy-report-only") = Some v)
      by (unfold JS.orElse; now rewrite Ht).
    rewrite Hcsp'. reflexivity. }
  assert (Hc : Headers.csp a =
    Some {| Headers.csp_present := true;
            Headers.csp_value := Some v;
            Headers.csp_directives :=
              List.filter (fun d => JS.truthy_str (Some d))
                (List.map JS.trim (JS.split ";" v));
            Headers.csp_hasUnsafeInline := Some (JS.includes v "'unsafe-inline'");
            Headers.csp_hasUnsafeEval := Some (JS.includes v "'unsafe-eval'") |}).
  { unfold a, HeadersAnalyzer.analyzeHeaders. cbv zeta. cbn [Headers.csp].
    rewrite Hcsp, Ht. reflexivity. }
  assert (Hp : Headers.cspPresent a = true)
    by (unfold Headers.cspPresent; now rewrite Hc).
  split; [exact Heq|]. split; [exact Hp|].
  split; [eexists; split; [exact Hc | reflexivity]|].
  clearbody a.
  unfold Headers.identifyIssues. cbv zeta. cbn [fst].
  rewrite !In_pushIf, Hp. cbn [negb List.In]. intuition discriminate.
Qed.

(** X21 at a response with a report-only policy alone. *)
Lemma report_only_csp_counts_witness :
  Headers.cspPresent
    (HeadersAnalyzer.analyzeHeaders
       {[ "content-security-policy-report-only" := "default-src 'self'" ]}) = true.
Proof.
  assert (Hv : "default-src 'self'" <> EmptyString) by discriminate.
  exact (proj1 (proj2 (report_only_csp_counts
    {[ "content-security-policy-report-only" := "default-src 'self'" ]}
    "default-src 'self'" eq_refl eq_refl Hv))).
Defined.

(** ** The findings by host name *)

Lemma listed_findings (hostname url p : string) :
  let r :=
    Cloud.performCloudSecurityAnalysis (p, Cloud.inferResourceType hostname p)
      hostname url in
  List.map (fun f => (Cloud.id f, Cloud.severity f)) (Cloud.findings r) =
    CloudTable.listed p hostname /\
  Cloud.score r = 100 - CloudTable.penalty (CloudTable.listed p hostname) /\
  Cloud.riskLevel r =
    (if List.existsb (fun e => Cloud.severity_eqb (snd e) Cloud.high)
          (CloudTable.listed p hostname)
     then Cloud.medium else Cloud.low).
Proof.
  cbv zeta.
  unfold Cloud.performCloudSecurityAnalysis, Cloud.inferResourceType,
    CloudTable.listed.
  cbn [Cloud.findings Cloud.score Cloud.riskLevel].
  destruct (String.eqb p "aws");
    [|destruct (String.eqb p "azure"); [|destruct (String.eqb p "gcp")]].
  - unfold Cloud.analyzeAWSResource. cbv zeta.
    destruct (JS.includes hostname "s3") eqn:Hs3;
      [cbn; rewrite ?Hs3; repeat split; reflexivity|].
    destruct (JS.includes hostname "elb") eqn:He;
      [cbn; rewrite ?Hs3; repeat split; reflexivity|].
    destruct (JS.includes hostname "loadbalancer") eqn:Hl;
      [cbn; rewrite ?Hs3; repeat split; reflexivity|].
    destruct (JS.includes hostname "rds") eqn:Hr;
      [cbn; rewrite ?Hs3; repeat split; reflexivity|].
    destruct (JS.includes hostname "cloudfront") eqn:Hc;
      [cbn; rewrite ?Hs3, ?Hc; repeat split; reflexivity|].
    destruct (JS.includes hostname "execute-api") eqn:Hx;
      [cbn; rewrite ?Hs3, ?Hc; repeat split; reflexivity|].
    destruct (JS.includes hostname "elasticbeanstalk") eqn:Hb;
      cbn; rewrite ?Hs3, ?Hc; repeat split; reflexivity.
  - unfold Cloud.analyzeAzureResource. cbv zeta.
    destruct (JS.includes hostname "azurewebsites");
      [cbn; repeat split; reflexivity|].
    destruct (JS.includes hostname "database");
      [cbn; repeat split; reflexivity|].
    destruct (JS.includes hostname "storage");
      [cbn; repeat split; reflexivity|].
    destruct (JS.includes hostname "cloudapp");
      [cbn; repeat split; reflexivity|].
    destruct (JS.includes hostname "azureedge");
      cbn; repeat split; reflexivity.
  - unfold Cloud.analyzeGCPResource. cbv zeta.
    destruct (JS.includes hostname "storage");
      [cbn; repeat split; reflexivity|].
    destruct (JS.includes hostname "appspot");
      [cbn; repeat split; reflexivity|].
    destruct (JS.includes hostname "cloudfunctions");
      [cbn; repeat split; reflexivity|].
    destruct (JS.includes hostname "run.app");
      cbn; repeat split; reflexivity.
  - cbn. repeat split; reflexivity.
Qed.

(** X22. What the cloud analysis lists for a host whose name ends in a
    provider suffix is decided by substrings of that name, first match
    first.  AWS: s3 gives the public-access finding (high); else elb or
    loadbalancer the SSL-policy finding (medium); else rds nothing; else
    cloudfront the security-headers finding (medium); else nothing.
    Azure: azurewebsites gives the HTTPS (high) and managed-identity
    (medium) findings; else database nothing; else storage the
    storage-access finding (high); else nothing.  GCP: storage gives the
    bucket-policy finding (high); else appspot the App Engine finding
    (medium); else cloudfunctions nothing; else run.app the Cloud Run
    finding (medium); else nothing.  Every other provider gets the
    HTTPS-enforcement (medium) and access-logging (low) findings.  The
    score is 100 minus 15, 10 and 5 per high, medium and low finding
    listed, and the risk level is medium when a high finding is listed
    and low otherwise. *)
Theorem cloud_decision_table (dns : Cloud.Dns) (hostname url p : string) :
  ReSem.providerBySuffix hostname = Some p ->
  exists r,
    Cloud.analyzeHost dns hostname url = Some r /\
    Cloud.provider r = p /\
    Cloud.resourceType r = Cloud.inferResourceType hostname p /\
    List.map (fun f => (Cloud.id f, Cloud.severity f)) (Cloud.findings r) =
      CloudTable.listed p hostname /\
    Cloud.score r = 100 - CloudTable.penalty (CloudTable.listed p hostname) /\
    Cloud.riskLevel r =
      (if List.existsb (fun e => Cloud.severity_eqb (snd e) Cloud.high)
            (CloudTable.listed p hostname)
       then Cloud.medium else Cloud.low).
Proof.
  intros Hp.
  assert (Hd : Cloud.detectCloudProvider dns hostname =
               Some (p, Cloud.inferResourceType hostname p)).
  { unfold Cloud.detectCloudProvider.
    rewrite matchProviders_by_suffix, Hp. reflexivity. }
  unfold Cloud.analyzeHost. rewrite Hd.
  eexists. split; [reflexivity|].
  split; [reflexivity|]. split; [reflexivity|].
  exact (listed_findings hostname url p).
Qed.

(** X22 at the bucket host name. *)
Lemma cloud_decision_table_witness :
  exists r,
    Cloud.analyzeHost Samples.noDns Samples.bucketHost
      "https://mybucket.s3.amazonaws.com/" = Some r /\
    Cloud.score r = 85.
Proof.
  destruct (cloud_decision_table Samples.noDns Samples.bucketHost
              "https://mybucket.s3.amazonaws.com/" "aws" eq_refl)
    as (r & Hr & _ & _ & _ & Hs & _).
  exists r. split; [exact Hr|]. rewrite Hs. reflexivity.
Defined.
